(** * packetstream: a shallow embedding of [src/packetstream.c]

    The ring buffer of glcs-packetstream is embedded as pure functions on an
    explicit store.  The C functions keep their names.  The embedding fixes
    the LP64 data model of the platforms the library is built for: [size_t]
    and [long] are 64 bits wide, [int] and [ps_flags_t] are 32 bits wide,
    and a packet header occupies 16 bytes of the arena (flags at offset 0,
    size at offset 8, little endian).

    Conventions.
    - Unsigned and signed machine integers are values of [Z]; every C
      operation that can wrap is followed by the conversion that C applies
      ([to_size_t], [to_long], [to_int]).
    - The arena is a [list byte]; headers are read from and written to the
      arena itself, as the C code does through its [header] pointers.  An
      access outside of the arena is undefined in C: [load] returns the
      bytes there are and [store] drops the others, and the statements
      about packets say where the accesses lie within the arena.
    - A mutex is a [bool] ([true] = locked), a semaphore is its count.
      Locking a free mutex succeeds; the error returns of the source for a
      failing [pthread_mutex_lock] are not modelled.
    - A call either returns a code and a new store, or waits for a mutex or
      a semaphore that nobody releases in the store at hand ([Blocks]), or
      reaches [abort()] ([Aborts]), or dereferences a null header pointer
      ([Faults]).  Loops whose length is not bounded by their arguments
      take a fuel argument ([OutOfFuel]).
    - Statistics keep the packet and byte counters; the wait-time
      accumulators read the monotonic clock and are left out, as are
      [ps_packet_dma] and [ps_packet_fakedma_alloc], the texts of the
      statistics ([ps_stats_text]) and the destructors
      ([ps_packet_destroy], [ps_buffer_destroy]).
      [ps_buffer_state_text] returns the numbers it prints, as printed.
    - The last part of the definitions embeds the example program
      [examples/drain_test.c], which runs the library on a buffer of its
      own. *)

From Stdlib Require Import ZArith Lia Bool.
From stdpp Require Import base list.
From coqutil Require Import Byte Word.LittleEndianList.

Local Open Scope Z_scope.

(** ** Machine integers *)

(** Conversion to [size_t] (64 bits, unsigned). *)
Definition to_size_t (z : Z) : Z := z mod 2 ^ 64.

(** Conversion to [long] (64 bits, two's complement). *)
Definition to_long (z : Z) : Z := (z + 2 ^ 63) mod 2 ^ 64 - 2 ^ 63.

(** Conversion to [int] (32 bits, two's complement). *)
Definition to_int (z : Z) : Z := (z + 2 ^ 31) mod 2 ^ 32 - 2 ^ 31.

(** [f & bit] used as a condition. *)
Definition tst (f bit : Z) : bool := negb (Z.land f bit =? 0).

Definition INT_MAX : Z := 2147483647.
Definition PTRDIFF_MAX : Z := 9223372036854775807.
Definition SEM_VALUE_MAX : Z := 2147483647.

(** ** Constants *)

(** [errno.h] (Linux). *)
Definition EINTR : Z := 4.
Definition EAGAIN : Z := 11.
Definition ENOMEM : Z := 12.
Definition EBUSY : Z := 16.
Definition EINVAL : Z := 22.
Definition ENOTSUP : Z := 95.
Definition ENOBUFS : Z := 105.

(** Modelled from the spec: [packetstream.h] is not among the sources.  The
    spec names the buffer flags [READY], [PSHARED], [STATS], [CANCELLED] and
    the packet flags [READ], [WRITE], [TRY], [SIZE_SET] and gives them no
    values; they are taken as pairwise distinct single bits. *)
Definition PS_BUFFER_PSHARED : Z := 1.
Definition PS_BUFFER_STATS : Z := 2.
Definition PS_BUFFER_READY : Z := 4.
Definition PS_BUFFER_CANCELLED : Z := 8.

Definition PS_PACKET_READ : Z := 1.
Definition PS_PACKET_WRITE : Z := 2.
Definition PS_PACKET_TRY : Z := 4.
Definition PS_PACKET_SIZE_SET : Z := 8.

(** Modelled from the spec: "[shmid] = [CREATE] requests a new segment";
    the value of [PS_SHM_CREATE] is declared in [packetstream.h]. *)
Definition PS_SHM_CREATE : Z := -1.

(** packet is written to buffer / packet is read from buffer *)
Definition PS_PACKET_HEADER_WRITTEN : Z := 1.
Definition PS_PACKET_HEADER_READ : Z := 2.

Definition MAX_SEM_WAIT_TRIES : nat := 6.

(** [sizeof(struct ps_packet_header_s)] *)
Definition HDR : Z := 16.

(** ** The arena *)

(** [n] bytes of [a] from offset [off] on (shorter when the arena ends
    before: C leaves such a read undefined). *)
Definition load (a : list byte) (off n : nat) : list byte :=
  take n (drop off a).

(** [memcpy(&a[off], src, length src)]; bytes that would land outside the
    arena are dropped (C leaves such a write undefined). *)
Definition store (a : list byte) (off : nat) (src : list byte) : list byte :=
  list_inserts off src a.

(** [memset(&a[off], 0, n)] *)
Definition memset0 (a : list byte) (off n : nat) : list byte :=
  store a off (replicate n Byte.x00).

(** [((struct ps_packet_header_s * ) &a[p])->flags] *)
Definition header_flags (a : list byte) (p : Z) : Z :=
  le_combine (load a (Z.to_nat p) 4).

(** [((struct ps_packet_header_s * ) &a[p])->size] *)
Definition header_size (a : list byte) (p : Z) : Z :=
  le_combine (load a (Z.to_nat (p + 8)) 8).

Definition set_header_flags (a : list byte) (p v : Z) : list byte :=
  store a (Z.to_nat p) (le_split 4 v).

Definition set_header_size (a : list byte) (p v : Z) : list byte :=
  store a (Z.to_nat (p + 8)) (le_split 8 v).

(** ** Position arithmetic *)

(** [static inline int move_pos(size_t pos, size_t buf_size, size_t packet_size)].
    The result is converted to the declared return type [int]. *)
Definition move_pos (pos buf_size packet_size : Z) : Z :=
  let pos := to_size_t (HDR + pos + packet_size) mod buf_size in
  let pos := if to_size_t (pos + HDR) >? buf_size then 0 else pos in
  to_int pos.

(** The rule of the specification, section 4.1, over unbounded integers:
    [q = (p + headerSize + payloadSize) mod arenaSize], then [q = 0] when
    [q + headerSize > arenaSize]. *)
Definition advance (p arenaSize payloadSize : Z) : Z :=
  let q := (p + HDR + payloadSize) mod arenaSize in
  if q + HDR >? arenaSize then 0 else q.

(** ** Data *)

(** [struct ps_state_s].  [create_time] is left out (see above). *)
Record ps_state_s := {
  st_flags : Z;
  st_size : Z;
  read_pos : Z;
  write_pos : Z;
  read_next : Z;
  write_next : Z;
  read_first : Z;
  free_bytes : Z;
  read_mutex : bool;
  write_mutex : bool;
  read_close_mutex : bool;
  write_close_mutex : bool;
  read_packets : Z;
  written_packets : Z
}.

(** The counters of [ps_stats_t]. *)
Record ps_stats_t := {
  stat_written_packets : Z;
  stat_written_bytes : Z;
  stat_read_packets : Z;
  stat_read_bytes : Z
}.

(** [ps_buffer_t]: the state block, the arena and the optional statistics
    block ([None] is the null pointer). *)
Record ps_buffer_t := {
  state : ps_state_s;
  buffer : list byte;
  stats : option ps_stats_t;
  shmid : Z
}.

(** [struct ps_fake_dma_s]; the linked list is a [list]. *)
Record ps_fake_dma_s := {
  mem : list byte;
  mem_size : Z;
  fd_size : Z;
  fd_pos : Z;
  free : Z
}.

(** [ps_packet_t].  [header] is the offset in the arena the header pointer
    points to, [None] for the null pointer. *)
Record ps_packet_t := {
  pk_flags : Z;
  header : option Z;
  buffer_pos : Z;
  pk_pos : Z;
  reserved : Z;
  fake_dma : list ps_fake_dma_s
}.

(** [ps_bufferattr_t] *)
Record ps_bufferattr_t := {
  attr_size : Z;
  attr_flags : Z;
  attr_shmid : Z;
  attr_shmmode : Z
}.

(** The store a packet operation runs in: the buffer, the handle, and the
    number of signals that will still interrupt a waiting [sem_wait]. *)
Record world := {
  buf : ps_buffer_t;
  pkt : ps_packet_t;
  intr : nat
}.

(** How a call ends: [S] is the store the call works on ([world] for the
    packet functions, [ps_buffer_t] for the buffer functions), [A] what it
    returns. *)
Inductive outcome (S A : Type) : Type :=
| Returns (ret : A) (s : S)
| Blocks (s : S)
| Aborts
| Faults
| OutOfFuel.
Arguments Returns {S A} ret s.
Arguments Blocks {S A} s.
Arguments Aborts {S A}.
Arguments Faults {S A}.
Arguments OutOfFuel {S A}.

(** The result of a packet function. *)
Abbreviation result A := (outcome world A).

(** *** Field updates *)

Definition set_st_flags (v : Z) (s : ps_state_s) : ps_state_s :=
  {| st_flags := v; st_size := st_size s; read_pos := read_pos s; write_pos := write_pos s;
     read_next := read_next s; write_next := write_next s; read_first := read_first s;
     free_bytes := free_bytes s; read_mutex := read_mutex s; write_mutex := write_mutex s;
     read_close_mutex := read_close_mutex s; write_close_mutex := write_close_mutex s;
     read_packets := read_packets s; written_packets := written_packets s |}.

Definition set_st_size (v : Z) (s : ps_state_s) : ps_state_s :=
  {| st_flags := st_flags s; st_size := v; read_pos := read_pos s; write_pos := write_pos s;
     read_next := read_next s; write_next := write_next s; read_first := read_first s;
     free_bytes := free_bytes s; read_mutex := read_mutex s; write_mutex := write_mutex s;
     read_close_mutex := read_close_mutex s; write_close_mutex := write_close_mutex s;
     read_packets := read_packets s; written_packets := written_packets s |}.

Definition set_read_pos (v : Z) (s : ps_state_s) : ps_state_s :=
  {| st_flags := st_flags s; st_size := st_size s; read_pos := v; write_pos := write_pos s;
     read_next := read_next s; write_next := write_next s; read_first := read_first s;
     free_bytes := free_bytes s; read_mutex := read_mutex s; write_mutex := write_mutex s;
     read_close_mutex := read_close_mutex s; write_close_mutex := write_close_mutex s;
     read_packets := read_packets s; written_packets := written_packets s |}.

Definition set_write_pos (v : Z) (s : ps_state_s) : ps_state_s :=
  {| st_flags := st_flags s; st_size := st_size s; read_pos := read_pos s; write_pos := v;
     read_next := read_next s; write_next := write_next s; read_first := read_first s;
     free_bytes := free_bytes s; read_mutex := read_mutex s; write_mutex := write_mutex s;
     read_close_mutex := read_close_mutex s; write_close_mutex := write_close_mutex s;
     read_packets := read_packets s; written_packets := written_packets s |}.

Definition set_read_next (v : Z) (s : ps_state_s) : ps_state_s :=
  {| st_flags := st_flags s; st_size := st_size s; read_pos := read_pos s; write_pos := write_pos s;
     read_next := v; write_next := write_next s; read_first := read_first s;
     free_bytes := free_bytes s; read_mutex := read_mutex s; write_mutex := write_mutex s;
     read_close_mutex := read_close_mutex s; write_close_mutex := write_close_mutex s;
     read_packets := read_packets s; written_packets := written_packets s |}.

Definition set_write_next (v : Z) (s : ps_state_s) : ps_state_s :=
  {| st_flags := st_flags s; st_size := st_size s; read_pos := read_pos s; write_pos := write_pos s;
     read_next := read_next s; write_next := v; read_first := read_first s;
     free_bytes := free_bytes s; read_mutex := read_mutex s; write_mutex := write_mutex s;
     read_close_mutex := read_close_mutex s; write_close_mutex := write_close_mutex s;
     read_packets := read_packets s; written_packets := written_packets s |}.

Definition set_read_first (v : Z) (s : ps_state_s) : ps_state_s :=
  {| st_flags := st_flags s; st_size := st_size s; read_pos := read_pos s; write_pos := write_pos s;
     read_next := read_next s; write_next := write_next s; read_first := v;
     free_bytes := free_bytes s; read_mutex := read_mutex s; write_mutex := write_mutex s;
     read_close_mutex := read_close_mutex s; write_close_mutex := write_close_mutex s;
     read_packets := read_packets s; written_packets := written_packets s |}.

Definition set_free_bytes (v : Z) (s : ps_state_s) : ps_state_s :=
  {| st_flags := st_flags s; st_size := st_size s; read_pos := read_pos s; write_pos := write_pos s;
     read_next := read_next s; write_next := write_next s; read_first := read_first s;
     free_bytes := v; read_mutex := read_mutex s; write_mutex := write_mutex s;
     read_close_mutex := read_close_mutex s; write_close_mutex := write_close_mutex s;
     read_packets := read_packets s; written_packets := written_packets s |}.

Definition set_read_mutex (v : bool) (s : ps_state_s) : ps_state_s :=
  {| st_flags := st_flags s; st_size := st_size s; read_pos := read_pos s; write_pos := write_pos s;
     read_next := read_next s; write_next := write_next s; read_first := read_first s;
     free_bytes := free_bytes s; read_mutex := v; write_mutex := write_mutex s;
     read_close_mutex := read_close_mutex s; write_close_mutex := write_close_mutex s;
     read_packets := read_packets s; written_packets := written_packets s |}.

Definition set_write_mutex (v : bool) (s : ps_state_s) : ps_state_s :=
  {| st_flags := st_flags s; st_size := st_size s; read_pos := read_pos s; write_pos := write_pos s;
     read_next := read_next s; write_next := write_next s; read_first := read_first s;
     free_bytes := free_bytes s; read_mutex := read_mutex s; write_mutex := v;
     read_close_mutex := read_close_mutex s; write_close_mutex := write_close_mutex s;
     read_packets := read_packets s; written_packets := written_packets s |}.

Definition set_read_close_mutex (v : bool) (s : ps_state_s) : ps_state_s :=
  {| st_flags := st_flags s; st_size := st_size s; read_pos := read_pos s; write_pos := write_pos s;
     read_next := read_next s; write_next := write_next s; read_first := read_first s;
     free_bytes := free_bytes s; read_mutex := read_mutex s; write_mutex := write_mutex s;
     read_close_mutex := v; write_close_mutex := write_close_mutex s;
     read_packets := read_packets s; written_packets := written_packets s |}.

Definition set_write_close_mutex (v : bool) (s : ps_state_s) : ps_state_s :=
  {| st_flags := st_flags s; st_size := st_size s; read_pos := read_pos s; write_pos := write_pos s;
     read_next := read_next s; write_next := write_next s; read_first := read_first s;
     free_bytes := free_bytes s; read_mutex := read_mutex s; write_mutex := write_mutex s;
     read_close_mutex := read_close_mutex s; write_close_mutex := v;
     read_packets := read_packets s; written_packets := written_packets s |}.

Definition set_read_packets (v : Z) (s : ps_state_s) : ps_state_s :=
  {| st_flags := st_flags s; st_size := st_size s; read_pos := read_pos s; write_pos := write_pos s;
     read_next := read_next s; write_next := write_next s; read_first := read_first s;
     free_bytes := free_bytes s; read_mutex := read_mutex s; write_mutex := write_mutex s;
     read_close_mutex := read_close_mutex s; write_close_mutex := write_close_mutex s;
     read_packets := v; written_packets := written_packets s |}.

Definition set_written_packets (v : Z) (s : ps_state_s) : ps_state_s :=
  {| st_flags := st_flags s; st_size := st_size s; read_pos := read_pos s; write_pos := write_pos s;
     read_next := read_next s; write_next := write_next s; read_first := read_first s;
     free_bytes := free_bytes s; read_mutex := read_mutex s; write_mutex := write_mutex s;
     read_close_mutex := read_close_mutex s; write_close_mutex := write_close_mutex s;
     read_packets := read_packets s; written_packets := v |}.

Definition set_state (s : ps_state_s) (b : ps_buffer_t) : ps_buffer_t :=
  {| state := s; buffer := buffer b; stats := stats b; shmid := shmid b |}.

Definition set_buffer (a : list byte) (b : ps_buffer_t) : ps_buffer_t :=
  {| state := state b; buffer := a; stats := stats b; shmid := shmid b |}.

Definition set_stats (t : option ps_stats_t) (b : ps_buffer_t) : ps_buffer_t :=
  {| state := state b; buffer := buffer b; stats := t; shmid := shmid b |}.

Definition set_pk_flags (v : Z) (p : ps_packet_t) : ps_packet_t :=
  {| pk_flags := v; header := header p; buffer_pos := buffer_pos p; pk_pos := pk_pos p;
     reserved := reserved p; fake_dma := fake_dma p |}.

Definition set_header (v : option Z) (p : ps_packet_t) : ps_packet_t :=
  {| pk_flags := pk_flags p; header := v; buffer_pos := buffer_pos p; pk_pos := pk_pos p;
     reserved := reserved p; fake_dma := fake_dma p |}.

Definition set_buffer_pos (v : Z) (p : ps_packet_t) : ps_packet_t :=
  {| pk_flags := pk_flags p; header := header p; buffer_pos := v; pk_pos := pk_pos p;
     reserved := reserved p; fake_dma := fake_dma p |}.

Definition set_pk_pos (v : Z) (p : ps_packet_t) : ps_packet_t :=
  {| pk_flags := pk_flags p; header := header p; buffer_pos := buffer_pos p; pk_pos := v;
     reserved := reserved p; fake_dma := fake_dma p |}.

Definition set_reserved (v : Z) (p : ps_packet_t) : ps_packet_t :=
  {| pk_flags := pk_flags p; header := header p; buffer_pos := buffer_pos p; pk_pos := pk_pos p;
     reserved := v; fake_dma := fake_dma p |}.

Definition set_fake_dma (v : list ps_fake_dma_s) (p : ps_packet_t) : ps_packet_t :=
  {| pk_flags := pk_flags p; header := header p; buffer_pos := buffer_pos p; pk_pos := pk_pos p;
     reserved := reserved p; fake_dma := v |}.

Definition set_free (v : Z) (d : ps_fake_dma_s) : ps_fake_dma_s :=
  {| mem := mem d; mem_size := mem_size d; fd_size := fd_size d; fd_pos := fd_pos d; free := v |}.

Definition set_fd_size (v : Z) (d : ps_fake_dma_s) : ps_fake_dma_s :=
  {| mem := mem d; mem_size := mem_size d; fd_size := v; fd_pos := fd_pos d; free := free d |}.

(** Updates of the store, by component. *)
Definition on_state (f : ps_state_s -> ps_state_s) (w : world) : world :=
  {| buf := set_state (f (state (buf w))) (buf w); pkt := pkt w; intr := intr w |}.

Definition on_arena (f : list byte -> list byte) (w : world) : world :=
  {| buf := set_buffer (f (buffer (buf w))) (buf w); pkt := pkt w; intr := intr w |}.

Definition on_stats (f : ps_stats_t -> ps_stats_t) (w : world) : world :=
  {| buf := set_stats (option_map f (stats (buf w))) (buf w); pkt := pkt w; intr := intr w |}.

Definition on_pkt (f : ps_packet_t -> ps_packet_t) (w : world) : world :=
  {| buf := buf w; pkt := f (pkt w); intr := intr w |}.

Definition set_intr (n : nat) (w : world) : world :=
  {| buf := buf w; pkt := pkt w; intr := n |}.

(** Shorthands for the parts of the store the C code names [state],
    [buffer->buffer] and [packet]. *)
Definition wstate (w : world) : ps_state_s := state (buf w).
Definition warena (w : world) : list byte := buffer (buf w).

(** ** Mutexes and semaphores *)

(** [sem_trywait]: the new count, or [None] when the count is zero. *)
Definition sem_trywait (c : Z) : option Z :=
  if 0 <? c then Some (c - 1) else None.

(** [sem_post]: the new count, or [None] when the count cannot grow. *)
Definition sem_post (c : Z) : option Z :=
  if c <? SEM_VALUE_MAX then Some (c + 1) else None.

Inductive wait_result : Type :=
| Acquired (c : Z)
| Interrupted
| WouldBlock.

(** [sem_wait]: takes a token when there is one; otherwise the caller
    sleeps, and a pending signal wakes it up with an error. *)
Definition sem_wait (c : Z) (signals : nat) : wait_result * nat :=
  if 0 <? c then (Acquired (c - 1), signals)
  else match signals with
       | O => (WouldBlock, signals)
       | S n => (Interrupted, n)
       end.

(** The [retry:] loops around [sem_wait]: [tries_left] more calls are made
    before the caller gives up. *)
Fixpoint sem_wait_retry (tries_left : nat) (c : Z) (signals : nat) : wait_result * nat :=
  match tries_left with
  | O => (Interrupted, signals)
  | S n =>
      match sem_wait c signals with
      | (Interrupted, signals') => sem_wait_retry n c signals'
      | r => r
      end
  end.

(** [if ((ret = call)) return ret;] followed by [k]. *)
Definition andthen {S A : Type} (o : outcome S Z) (k : S -> outcome S A) (ret : Z -> A)
  : outcome S A :=
  match o with
  | Returns c w => if c =? 0 then k w else Returns (ret c) w
  | Blocks w => Blocks w
  | Aborts => Aborts
  | Faults => Faults
  | OutOfFuel => OutOfFuel
  end.

Notation "'do' w <- o ; k" := (andthen o (fun w => k) (fun c => c))
  (at level 10, w name, o at level 100, k at level 200).

(** ** Checks *)

(** [ps_buffer_check], for a non-null buffer. *)
Definition ps_buffer_check (b : ps_buffer_t) : Z :=
  if negb (tst (st_flags (state b)) PS_BUFFER_READY) then EINVAL
  else if tst (st_flags (state b)) PS_BUFFER_CANCELLED then EINTR
  else 0.

(** [ps_packet_check], for a non-null handle. *)
Definition ps_packet_check (w : world) : Z :=
  if negb (tst (pk_flags (pkt w)) PS_PACKET_READ || tst (pk_flags (pkt w)) PS_PACKET_WRITE)
  then EINVAL
  else ps_buffer_check (buf w).

(** ** Fake DMA staging list *)

(** [ps_packet_fakedma_free] *)
Definition ps_packet_fakedma_free (d : ps_fake_dma_s) : ps_fake_dma_s := set_free 1 d.

(** [ps_packet_fakedma_cut] (always returns 0) *)
Definition ps_packet_fakedma_cut (w : world) (size : Z) : world :=
  on_pkt (fun p => set_fake_dma
    (map (fun d =>
            if fd_pos d >? size then ps_packet_fakedma_free d
            else if to_size_t (fd_pos d + fd_size d) >? size
                 then set_fd_size (to_size_t (size - fd_pos d)) d
                 else d)
         (fake_dma p)) p) w.

(** [ps_packet_fakedma_freeall] (always returns 0) *)
Definition ps_packet_fakedma_freeall (w : world) : world :=
  on_pkt (fun p => set_fake_dma
    (map (fun d => if free d =? 0 then ps_packet_fakedma_free d else d) (fake_dma p)) p) w.

(** ** Reservation *)

(** One turn of the body of the [do ... while] loop of [ps_packet_reserve]:
    the packet at [read_first] is given back to [free_bytes] and
    [read_first] moves past it. *)
Definition reclaim_first (a : list byte) (s : ps_state_s) : ps_state_s :=
  let hsize := header_size a (read_first s) in
  let s1 := set_free_bytes (to_long (free_bytes s + to_size_t (HDR + hsize))) s in
  let s2 := set_read_first (to_size_t (read_first s1 + HDR + hsize) mod st_size s1) s1 in
  if to_size_t (read_first s2 + HDR) >? st_size s2 then
    set_read_first 0
      (set_free_bytes (to_long (free_bytes s2 + to_size_t (st_size s2 - read_first s2))) s2)
  else s2.

(** The [do ... while (!sem_trywait(&state->read_packets))] loop.
    [Returns None] leaves the loop, [Returns (Some c)] returns [c] from
    [ps_packet_reserve]. *)
Fixpoint reserve_reclaim (fuel : nat) (w : world) : result (option Z) :=
  match fuel with
  | O => OutOfFuel
  | S fuel' =>
      let w1 := on_state (reclaim_first (warena w)) w in
      if tst (st_flags (wstate w1)) PS_BUFFER_CANCELLED then
        Returns (Some EINTR) (on_state (set_write_mutex false) w1)
      else
        match sem_trywait (read_packets (wstate w1)) with
        | Some c => reserve_reclaim fuel' (on_state (set_read_packets c) w1)
        | None => Returns None w1
        end
  end.

(** [state->free_bytes += len - packet->reserved] *)
Definition refund (len : Z) (w : world) : world :=
  on_state (fun s => set_free_bytes
    (to_long (free_bytes s + to_size_t (len - reserved (pkt w)))) s) w.

(** The step that takes one token of [read_packets] at the head of the
    [while] loop. *)
Definition reserve_acquire (w : world) (len : Z) : result (option Z) :=
  if tst (pk_flags (pkt w)) PS_PACKET_TRY then
    match sem_trywait (read_packets (wstate w)) with
    | None => Returns (Some EBUSY) (refund len w)
    | Some c => Returns None (on_state (set_read_packets c) w)
    end
  else
    match sem_wait_retry MAX_SEM_WAIT_TRIES (read_packets (wstate w)) (intr w) with
    | (Acquired c, n) => Returns None (set_intr n (on_state (set_read_packets c) w))
    | (Interrupted, n) => Returns (Some EINVAL) (set_intr n (refund len w))
    | (WouldBlock, n) => Blocks (set_intr n w)
    end.

(** The [while (state->free_bytes < 0)] loop. *)
Fixpoint reserve_loop (fuel : nat) (w : world) (len : Z) : result (option Z) :=
  match fuel with
  | O => OutOfFuel
  | S fuel' =>
      if free_bytes (wstate w) <? 0 then
        match reserve_acquire w len with
        | Returns None w1 =>
            match reserve_reclaim fuel' w1 with
            | Returns None w2 => reserve_loop fuel' w2 len
            | o => o
            end
        | o => o
        end
      else Returns None w
  end.

(** [ps_packet_reserve]; [len] is the absolute packet size. *)
Definition ps_packet_reserve (fuel : nat) (w : world) (len : Z) : result Z :=
  if len <=? reserved (pkt w) then Returns 0 w
  else
    let w0 := on_state (fun s => set_free_bytes
                (to_long (free_bytes s - to_size_t (len - reserved (pkt w)))) s) w in
    match reserve_loop fuel w0 len with
    | Returns None w1 => Returns 0 (on_pkt (set_reserved len) w1)
    | Returns (Some c) w1 => Returns c w1
    | Blocks w1 => Blocks w1
    | Aborts => Aborts
    | Faults => Faults
    | OutOfFuel => OutOfFuel
    end.

(** ** Packets: open, size, cancel *)

(** [__PS_CHECK_CANCEL_READ] / [__PS_CHECK_CANCEL_WRITE] *)
Definition cancelled (w : world) : bool := tst (st_flags (wstate w)) PS_BUFFER_CANCELLED.

(** [ps_packet_openwrite] *)
Definition ps_packet_openwrite (w : world) (flags : Z) : result Z :=
  if write_mutex (wstate w) then
    (if tst flags PS_PACKET_TRY then Returns EBUSY w else Blocks w)
  else
    let w1 := on_state (set_write_mutex true) w in
    if cancelled w1 then Returns EINTR (on_state (set_write_mutex false) w1)
    else
      let h := write_next (wstate w1) in
      let w2 := on_pkt (fun p => set_pk_pos 0 (set_header (Some h) (set_buffer_pos h
                         (set_pk_flags flags (set_reserved 0 p))))) w1 in
      let w3 := on_arena (fun a => set_header_flags a h 0) w2 in
      let w4 := on_arena (fun a => set_header_size a h 0) w3 in
      Returns 0 w4.

(** [ps_packet_openread] *)
Definition ps_packet_openread (w : world) (flags : Z) : result Z :=
  if read_mutex (wstate w) then
    (if tst flags PS_PACKET_TRY then Returns EBUSY w else Blocks w)
  else
    let w1 := on_state (set_read_mutex true) w in
    if cancelled w1 then Returns EINTR (on_state (set_read_mutex false) w1)
    else
      let acquire : result Z :=
        if tst flags PS_PACKET_TRY then
          match sem_trywait (written_packets (wstate w1)) with
          | None => Returns EBUSY (on_state (set_read_mutex false) w1)
          | Some c => Returns 0 (on_state (set_written_packets c) w1)
          end
        else
          match sem_wait_retry MAX_SEM_WAIT_TRIES (written_packets (wstate w1)) (intr w1) with
          | (Acquired c, n) => Returns 0 (set_intr n (on_state (set_written_packets c) w1))
          | (Interrupted, n) => Returns EINVAL (set_intr n (on_state (set_read_mutex false) w1))
          | (WouldBlock, n) => Blocks (set_intr n w1)
          end in
      do w2 <- acquire;
      if cancelled w2 then Returns EINTR (on_state (set_read_mutex false) w2)
      else
        let h := read_next (wstate w2) in
        let w3 := on_pkt (fun p => set_pk_pos 0 (set_header (Some h) (set_buffer_pos h
                           (set_pk_flags (Z.land flags (Z.lnot PS_PACKET_TRY)) p)))) w2 in
        let w4 := on_state (fun s => set_read_next
                    (to_size_t (move_pos (read_next s) (st_size s) (header_size (warena w3) h))) s) w3 in
        Returns 0 (on_state (set_read_mutex false) w4).

(** [ps_packet_open] *)
Definition ps_packet_open (w : world) (flags : Z) : result Z :=
  let c := ps_buffer_check (buf w) in
  if negb (c =? 0) then Returns c w
  else if negb (tst flags PS_PACKET_READ || tst flags PS_PACKET_WRITE) then Returns EINVAL w
  else if tst flags PS_PACKET_READ then ps_packet_openread w flags
  else ps_packet_openwrite w flags.

(** The next [write_next] and the padding [res] at the end of the arena, as
    [ps_packet_setsize] computes them in place. *)
Definition setsize_advance (write_next bsize size : Z) : Z * Z :=
  let wn := to_size_t (HDR + write_next + size) mod bsize in
  if to_size_t (wn + HDR) >? bsize then (0, to_size_t (bsize - wn)) else (wn, 0).

(** [ps_packet_setsize] *)
Definition ps_packet_setsize (fuel : nat) (w : world) (size : Z) : result Z :=
  let c := ps_packet_check w in
  if negb (c =? 0) then Returns c w
  else if negb (tst (pk_flags (pkt w)) PS_PACKET_WRITE) || tst (pk_flags (pkt w)) PS_PACKET_SIZE_SET
  then Returns EINVAL w
  else if to_size_t (size + to_size_t (HDR * 2)) >? st_size (wstate w) then Returns ENOBUFS w
  else
    do w1 <- ps_packet_reserve fuel w size;
    let '(wn, res) := setsize_advance (write_next (wstate w1)) (st_size (wstate w1)) size in
    let w2 := on_pkt (fun p => set_pk_flags (Z.land (pk_flags p) (Z.lnot PS_PACKET_TRY)) p) w1 in
    do w3 <- ps_packet_reserve fuel w2 (to_size_t (HDR + size + res));
    let w4 := on_state (fun s => set_free_bytes
                (to_long (free_bytes s
                          + to_size_t (reserved (pkt w3) - to_size_t (size + HDR + res)))) s) w3 in
    match header (pkt w4) with
    | None => Faults
    | Some h =>
        let w5 := on_arena (fun a => set_header_size a h size) w4 in
        let w6 := on_pkt (fun p => set_pk_flags (Z.lor (pk_flags p) PS_PACKET_SIZE_SET) p) w5 in
        let w7 := on_state (set_write_next wn) w6 in
        let w8 := on_arena (fun a => memset0 a (Z.to_nat wn) (Z.to_nat HDR)) w7 in
        let w9 := on_state (set_write_mutex false) w8 in
        Returns 0 (ps_packet_fakedma_cut w9 size)
    end.

(** [ps_packet_cancel] *)
Definition ps_packet_cancel (w : world) : result Z :=
  let c := ps_packet_check w in
  if negb (c =? 0) then Returns c w
  else if negb (tst (pk_flags (pkt w)) PS_PACKET_WRITE) then Returns EINVAL w
  else if tst (pk_flags (pkt w)) PS_PACKET_SIZE_SET then Returns EINVAL w
  else
    let w1 := on_state (fun s => set_free_bytes
                (to_long (free_bytes s + reserved (pkt w))) s) w in
    match header (pkt w1) with
    | None => Faults
    | Some h =>
        let w2 := on_arena (fun a => memset0 a (Z.to_nat h) (Z.to_nat HDR)) w1 in
        let w3 := on_state (set_write_mutex false) w2 in
        let w4 := ps_packet_fakedma_freeall w3 in
        Returns 0 (on_pkt (fun p => set_pk_flags 0 (set_header None p)) w4)
    end.

(** ** Packets: cursor and payload *)

(** [ps_packet_getsize]: the code and the value stored through [size]. *)
Definition ps_packet_getsize (w : world) : result (Z * option Z) :=
  let c := ps_packet_check w in
  if negb (c =? 0) then Returns (c, None) w
  else match header (pkt w) with
       | None => Faults
       | Some h => Returns (0, Some (header_size (warena w) h)) w
       end.

(** [ps_packet_tell]: the returned [int] and the value stored through
    [pos] ([None]: nothing is stored). *)
Definition ps_packet_tell (w : world) : result (Z * option Z) :=
  let c := ps_packet_check w in
  if negb (c =? 0) then Returns (c, None) w
  else Returns (to_int (pk_pos (pkt w)), None) w.

(** The two [memcpy] of [ps_packet_read]: the bytes stored to [dest]. *)
Definition copy_out (a : list byte) (bsize offs size : Z) : list byte :=
  if to_size_t (offs + size) >? bsize then
    let n1 := to_size_t (bsize - offs) in
    let rlen := to_size_t (size - n1) in
    load a (Z.to_nat offs) (Z.to_nat n1) ++ load a 0 (Z.to_nat rlen)
  else load a (Z.to_nat offs) (Z.to_nat size).

(** The two [memcpy] of [ps_packet_write]: the arena afterwards. *)
Definition copy_in (a : list byte) (bsize offs : Z) (src : list byte) (size : Z) : list byte :=
  if to_size_t (offs + size) >? bsize then
    let n1 := to_size_t (bsize - offs) in
    let a1 := store a (Z.to_nat offs) (take (Z.to_nat n1) src) in
    let rlen := to_size_t (size - n1) in
    store a1 0 (take (Z.to_nat rlen) (drop (Z.to_nat (to_size_t (size - rlen))) src))
  else store a (Z.to_nat offs) (take (Z.to_nat size) src).

(** [(packet->buffer_pos + sizeof(struct ps_packet_header_s) + packet->pos) % state->size] *)
Definition payload_offs (w : world) : Z :=
  to_size_t (buffer_pos (pkt w) + HDR + pk_pos (pkt w)) mod st_size (wstate w).

(** [ps_packet_read]: the code and the bytes stored to [dest]. *)
Definition ps_packet_read (w : world) (size : Z) : result (Z * list byte) :=
  let c := ps_packet_check w in
  if negb (c =? 0) then Returns (c, []) w
  else match header (pkt w) with
       | None => Faults
       | Some h =>
           if to_size_t (pk_pos (pkt w) + size) >? header_size (warena w) h
           then Returns (EINVAL, []) w
           else
             let out := copy_out (warena w) (st_size (wstate w)) (payload_offs w) size in
             Returns (0, out) (on_pkt (fun p => set_pk_pos (to_size_t (pk_pos p + size)) p) w)
       end.

(** [if (packet->pos > header->size) header->size = packet->pos;] *)
Definition grow_size (w : world) : result Z :=
  match header (pkt w) with
  | None => Faults
  | Some h =>
      if pk_pos (pkt w) >? header_size (warena w) h
      then Returns 0 (on_arena (fun a => set_header_size a h (pk_pos (pkt w))) w)
      else Returns 0 w
  end.

(** [ps_packet_write]; [src] holds the bytes at the source pointer. *)
Definition ps_packet_write (fuel : nat) (w : world) (src : list byte) (size : Z) : result Z :=
  let c := ps_packet_check w in
  if negb (c =? 0) then Returns c w
  else
    let bounds : result Z :=
      if tst (pk_flags (pkt w)) PS_PACKET_SIZE_SET then
        match header (pkt w) with
        | None => Faults
        | Some h =>
            if to_size_t (pk_pos (pkt w) + size) >? header_size (warena w) h
            then Returns EINVAL w else Returns 0 w
        end
      else if to_size_t (pk_pos (pkt w) + size + to_size_t (HDR * 2)) >? st_size (wstate w)
           then Returns ENOBUFS w
           else ps_packet_reserve fuel w (to_size_t (pk_pos (pkt w) + size)) in
    do w1 <- bounds;
    let w2 := on_arena (fun a => copy_in a (st_size (wstate w1)) (payload_offs w1) src size) w1 in
    let w3 := on_pkt (fun p => set_pk_pos (to_size_t (pk_pos p + size)) p) w2 in
    grow_size w3.

(** [ps_packet_seek] *)
Definition ps_packet_seek (fuel : nat) (w : world) (pos : Z) : result Z :=
  let c := ps_packet_check w in
  if negb (c =? 0) then Returns c w
  else
    let fl := pk_flags (pkt w) in
    let fixed : result Z :=
      if tst fl PS_PACKET_SIZE_SET || tst fl PS_PACKET_READ then
        match header (pkt w) with
        | None => Faults
        | Some h => if pos >? header_size (warena w) h then Returns EINVAL w else Returns 0 w
        end
      else Returns 0 w in
    do w1 <- fixed;
    let growing : result Z :=
      if negb (tst fl PS_PACKET_SIZE_SET) && tst fl PS_PACKET_WRITE then
        if to_size_t (pos + HDR) >? st_size (wstate w1) then Returns EINVAL w1
        else ps_packet_reserve fuel w1 pos
      else Returns 0 w1 in
    do w2 <- growing;
    let w3 := on_pkt (set_pk_pos pos) w2 in
    if negb (tst (pk_flags (pkt w3)) PS_PACKET_SIZE_SET) && tst (pk_flags (pkt w3)) PS_PACKET_WRITE
    then grow_size w3
    else Returns 0 w3.

(** [ps_packet_fakedma_commitall], from the [i]-th entry on; [rest] is the
    part of the list that is still to be visited. *)
Fixpoint fakedma_commit_from (fuel : nat) (w : world) (i : nat) (rest : list ps_fake_dma_s)
  : result Z :=
  match rest with
  | [] => Returns 0 w
  | del :: next =>
      if free del =? 0 then
        do w1 <- ps_packet_seek fuel w (fd_pos del);
        do w2 <- ps_packet_write fuel w1 (mem del) (fd_size del);
        fakedma_commit_from fuel
          (on_pkt (fun p => set_fake_dma (alter ps_packet_fakedma_free i (fake_dma p)) p) w2)
          (S i) next
      else fakedma_commit_from fuel w (S i) next
  end.

Definition ps_packet_fakedma_commitall (fuel : nat) (w : world) : result Z :=
  fakedma_commit_from fuel w 0 (fake_dma (pkt w)).

(** ** Packets: close *)

(** The [do ... while (header->flags & PS_PACKET_HEADER_WRITTEN)] loop of
    [ps_packet_closewrite]: [pos] is the position reached so far, [h] the
    header the local variable [header] points to.  The result is the
    position the loop stops at. *)
Fixpoint closewrite_walk (fuel : nat) (w : world) (pos h : Z) : result Z :=
  match fuel with
  | O => OutOfFuel
  | S fuel' =>
      let pos' := to_size_t (move_pos pos (st_size (wstate w)) (header_size (warena w) h)) in
      match sem_post (written_packets (wstate w)) with
      | None => Aborts
      | Some c =>
          let w1 := on_state (set_written_packets c) w in
          if tst (header_flags (warena w1) pos') PS_PACKET_HEADER_WRITTEN
          then closewrite_walk fuel' w1 pos' pos'
          else Returns pos' w1
      end
  end.

(** The same loop in [ps_packet_closeread]. *)
Fixpoint closeread_walk (fuel : nat) (w : world) (pos h : Z) : result Z :=
  match fuel with
  | O => OutOfFuel
  | S fuel' =>
      let pos' := to_size_t (move_pos pos (st_size (wstate w)) (header_size (warena w) h)) in
      match sem_post (read_packets (wstate w)) with
      | None => Aborts
      | Some c =>
          let w1 := on_state (set_read_packets c) w in
          if tst (header_flags (warena w1) pos') PS_PACKET_HEADER_READ
          then closeread_walk fuel' w1 pos' pos'
          else Returns pos' w1
      end
  end.

(** [header->flags |= bit] *)
Definition or_header_flags (h bit : Z) (w : world) : world :=
  on_arena (fun a => set_header_flags a h (Z.lor (header_flags a h) bit)) w.

(** [buffer->stats->written_packets++; buffer->stats->written_bytes += header->size;]
    when the buffer keeps statistics. *)
Definition count_written (w : world) (h : Z) : world :=
  if tst (st_flags (wstate w)) PS_BUFFER_STATS then
    on_stats (fun t =>
      {| stat_written_packets := to_size_t (stat_written_packets t + 1);
         stat_written_bytes := to_size_t (stat_written_bytes t + header_size (warena w) h);
         stat_read_packets := stat_read_packets t;
         stat_read_bytes := stat_read_bytes t |}) w
  else w.

(** The part of [ps_packet_closewrite] that runs under [write_close_mutex],
    up to the return. *)
Definition closewrite_commit (fuel : nat) (w : world) (h : Z) : result Z :=
  if write_close_mutex (wstate w) then Blocks w
  else
    let w1 := on_state (set_write_close_mutex true) w in
    let w2 := count_written w1 h in
    let w3 := or_header_flags h PS_PACKET_HEADER_WRITTEN w2 in
    let walked : result Z :=
      if write_pos (wstate w3) =? buffer_pos (pkt w3) then
        match closewrite_walk fuel w3 (buffer_pos (pkt w3)) h with
        | Returns pos w4 => Returns 0 (on_state (set_write_pos pos) w4)
        | o => o
        end
      else Returns 0 w3 in
    do w5 <- walked;
    let w6 := on_state (set_write_close_mutex false) w5 in
    Returns 0 (on_pkt (fun p => set_pk_flags 0 (set_header None p)) w6).

(** The part of [ps_packet_closewrite] that runs before the lock is taken:
    the size is frozen when it is not yet, and the staged regions are
    written back. *)
Definition closewrite_prelude (fuel : nat) (w : world) : result Z :=
  let sized : result Z :=
    if negb (tst (pk_flags (pkt w)) PS_PACKET_SIZE_SET) then
      match header (pkt w) with
      | None => Faults
      | Some h => ps_packet_setsize fuel w (header_size (warena w) h)
      end
    else Returns 0 w in
  do w1 <- sized;
  ps_packet_fakedma_commitall fuel w1.

(** [ps_packet_closewrite] *)
Definition ps_packet_closewrite (fuel : nat) (w : world) : result Z :=
  do w2 <- closewrite_prelude fuel w;
  match header (pkt w) with
  | None => Faults
  | Some h => closewrite_commit fuel w2 h
  end.

(** [buffer->stats->read_packets++; buffer->stats->read_bytes += header->size;]
    when the buffer keeps statistics. *)
Definition count_read (w : world) (h : Z) : world :=
  if tst (st_flags (wstate w)) PS_BUFFER_STATS then
    on_stats (fun t =>
      {| stat_written_packets := stat_written_packets t;
         stat_written_bytes := stat_written_bytes t;
         stat_read_packets := to_size_t (stat_read_packets t + 1);
         stat_read_bytes := to_size_t (stat_read_bytes t + header_size (warena w) h) |}) w
  else w.

(** [ps_packet_closeread] *)
Definition ps_packet_closeread (fuel : nat) (w : world) : result Z :=
  if read_close_mutex (wstate w) then Blocks w
  else
    match header (pkt w) with
    | None => Faults
    | Some h =>
        let w1 := on_state (set_read_close_mutex true) w in
        let w2 := count_read w1 h in
        let w3 := or_header_flags h PS_PACKET_HEADER_READ w2 in
        let walked : result Z :=
          if read_pos (wstate w3) =? buffer_pos (pkt w3) then
            match closeread_walk fuel w3 (buffer_pos (pkt w3)) h with
            | Returns pos w4 => Returns 0 (on_state (set_read_pos pos) w4)
            | o => o
            end
          else Returns 0 w3 in
        do w5 <- walked;
        let w6 := on_state (set_read_close_mutex false) w5 in
        let w7 := ps_packet_fakedma_freeall w6 in
        Returns 0 (on_pkt (fun p => set_pk_flags 0 (set_header None p)) w7)
    end.

(** [ps_packet_close] *)
Definition ps_packet_close (fuel : nat) (w : world) : result Z :=
  let c := ps_packet_check w in
  if negb (c =? 0) then Returns c w
  else
    let w1 := on_pkt (fun p => set_pk_flags (Z.land (pk_flags p) (Z.lnot PS_PACKET_TRY)) p) w in
    if tst (pk_flags (pkt w1)) PS_PACKET_READ then ps_packet_closeread fuel w1
    else ps_packet_closewrite fuel w1.

(** ** Buffers *)

(** The body of the [while (!sem_trywait(&state->written_packets))] loop of
    [ps_buffer_drain], entered with a token taken; [res] counts the packets
    drained at [read_pos] ([res] stays below [SEM_VALUE_MAX], so [++res]
    does not overflow). *)
Fixpoint drain_loop (fuel : nat) (b : ps_buffer_t) (res : Z) : outcome ps_buffer_t Z :=
  match fuel with
  | O => OutOfFuel
  | S fuel' =>
      match sem_trywait (written_packets (state b)) with
      | None => Returns res b
      | Some c =>
          let b1 := set_state (set_written_packets c (state b)) b in
          let pos := read_next (state b1) in
          let b2 := set_buffer (set_header_flags (buffer b1) pos
                       (Z.lor (header_flags (buffer b1) pos) PS_PACKET_HEADER_READ)) b1 in
          let b3 := set_state (set_read_next
                       (to_size_t (move_pos (read_next (state b2)) (st_size (state b2))
                                            (header_size (buffer b2) pos))) (state b2)) b2 in
          if read_pos (state b3) =? pos then
            match sem_post (read_packets (state b3)) with
            | None => Aborts
            | Some c' =>
                let b4 := set_state (set_read_packets c' (state b3)) b3 in
                let b5 := set_state (set_read_pos (read_next (state b4)) (state b4)) b4 in
                drain_loop fuel' b5 (res + 1)
            end
          else drain_loop fuel' b3 res
      end
  end.

(** [ps_buffer_drain] *)
Definition ps_buffer_drain (fuel : nat) (b : ps_buffer_t) : outcome ps_buffer_t Z :=
  if read_mutex (state b) then Blocks b
  else
    let b1 := set_state (set_read_mutex true (state b)) b in
    if read_close_mutex (state b1) then Blocks b1
    else
      let b2 := set_state (set_read_close_mutex true (state b1)) b1 in
      match drain_loop fuel b2 0 with
      | Returns res b3 =>
          let b4 := set_state (set_read_close_mutex false (state b3)) b3 in
          Returns res (set_state (set_read_mutex false (state b4)) b4)
      | o => o
      end.

(** [ps_buffer_cancel]; the results of both [sem_post] are ignored. *)
Definition ps_buffer_cancel (b : ps_buffer_t) : Z * ps_buffer_t :=
  let c := ps_buffer_check b in
  if negb (c =? 0) then (c, b)
  else
    let s := state b in
    let s1 := set_st_flags (Z.lor (st_flags s) PS_BUFFER_CANCELLED) s in
    let s2 := set_read_packets (default (read_packets s1) (sem_post (read_packets s1))) s1 in
    let s3 := set_written_packets (default (written_packets s2) (sem_post (written_packets s2))) s2 in
    (0, set_state (set_write_mutex false (set_read_mutex false s3)) b).

(** What the allocators hand out to [ps_buffer_init]: [malloc] fails or
    returns a block of indeterminate content ([heap_junk] is what the block
    of the arena holds, zero beyond its end); [shmget] returns an id or
    -1, [shmat] maps a segment or fails, both with [shm_errno]. *)
Record allocator := {
  heap_state : option ps_state_s;
  heap_junk : option (list byte);
  heap_stats : option ps_stats_t;
  shm_id : Z;
  shm_errno : Z;
  shm_segment : option (ps_state_s * ps_stats_t * list byte)
}.

(** [malloc(n)]: no block is larger than [PTRDIFF_MAX]. *)
Definition malloc (al : allocator) (n : Z) : option (list byte) :=
  if (0 <=? n) && (n <=? PTRDIFF_MAX) then
    option_map (fun junk => take (Z.to_nat n) (junk ++ replicate (Z.to_nat n) Byte.x00))
               (heap_junk al)
  else None.

(** [memset(buffer->state, 0, sizeof(struct ps_state_s))] *)
Definition zero_state : ps_state_s :=
  {| st_flags := 0; st_size := 0; read_pos := 0; write_pos := 0; read_next := 0;
     write_next := 0; read_first := 0; free_bytes := 0; read_mutex := false;
     write_mutex := false; read_close_mutex := false; write_close_mutex := false;
     read_packets := 0; written_packets := 0 |}.

Definition zero_stats : ps_stats_t :=
  {| stat_written_packets := 0; stat_written_bytes := 0;
     stat_read_packets := 0; stat_read_bytes := 0 |}.

(** [ps_buffer_init], for a non-null [buffer]; [ps_shm] says whether the
    library was built with [__PS_SHM].  The result is the code returned and,
    when it is 0, the buffer. *)
Definition ps_buffer_init (ps_shm : bool) (al : allocator) (attr : ps_bufferattr_t)
  : Z * option ps_buffer_t :=
  let flags := attr_flags attr in
  let with_stats := tst flags PS_BUFFER_STATS in
  let finish (flags shmid : Z) (st : option ps_state_s) (a : option (list byte))
             (t : option ps_stats_t) : Z * option ps_buffer_t :=
    match st, a with
    | Some st, Some a =>
        if with_stats && negb (bool_decide (is_Some t)) then (ENOMEM, None)
        else if tst flags PS_BUFFER_READY then
          (0, Some {| state := st; buffer := a; stats := t; shmid := 0 |})
        else
          let a := memset0 a 0 (Z.to_nat (attr_size attr)) in
          let t := if with_stats then option_map (fun _ => zero_stats) t else t in
          let st := set_st_size (attr_size attr) zero_state in
          let st := set_st_flags flags st in
          let st := set_free_bytes (to_long (to_size_t (attr_size attr - HDR))) st in
          let st := set_write_mutex false (set_read_mutex false st) in
          let st := set_write_close_mutex false (set_read_close_mutex false st) in
          let st := set_written_packets 0 (set_read_packets 0 st) in
          let st := set_st_flags (Z.lor (st_flags st) PS_BUFFER_READY) st in
          (0, Some {| state := st; buffer := a; stats := t; shmid := shmid |})
    | _, _ => (ENOMEM, None)
    end in
  if ps_shm && tst flags PS_BUFFER_PSHARED then
    let create := attr_shmid attr =? PS_SHM_CREATE in
    let shmid := if create then shm_id al else attr_shmid attr in
    let flags := if create then flags else Z.lor flags PS_BUFFER_READY in
    if shmid =? -1 then (shm_errno al, None)
    else match shm_segment al with
         | None => (shm_errno al, None)
         | Some (st, t, a) =>
             finish flags shmid (Some st) (Some a) (if with_stats then Some t else None)
         end
  else
    finish flags (attr_shmid attr) (heap_state al) (malloc al (attr_size attr))
           (if with_stats then heap_stats al else None).

(** [ps_bufferattr_setsize], for a non-null [attr]. *)
Definition ps_bufferattr_setsize (attr : ps_bufferattr_t) (size : Z) : Z * ps_bufferattr_t :=
  if size <? to_size_t (HDR * 2) then (EINVAL, attr)
  else (0, {| attr_size := size; attr_flags := attr_flags attr;
              attr_shmid := attr_shmid attr; attr_shmmode := attr_shmmode attr |}).

(** * Vocabulary of the statements *)

(** What [ps_packet_reserve] leaves alone: [w'] differs from [w] at most in
    [free_bytes], [read_first], the count of [read_packets], [write_mutex],
    the pending signals and the handle's [reserved]. *)
Definition reserve_frame (w w' : world) : Prop :=
  warena w' = warena w /\ stats (buf w') = stats (buf w) /\ shmid (buf w') = shmid (buf w) /\
  st_flags (wstate w') = st_flags (wstate w) /\ st_size (wstate w') = st_size (wstate w) /\
  read_pos (wstate w') = read_pos (wstate w) /\ write_pos (wstate w') = write_pos (wstate w) /\
  read_next (wstate w') = read_next (wstate w) /\ write_next (wstate w') = write_next (wstate w) /\
  read_mutex (wstate w') = read_mutex (wstate w) /\
  read_close_mutex (wstate w') = read_close_mutex (wstate w) /\
  write_close_mutex (wstate w') = write_close_mutex (wstate w) /\
  written_packets (wstate w') = written_packets (wstate w) /\
  pk_flags (pkt w') = pk_flags (pkt w) /\ header (pkt w') = header (pkt w) /\
  buffer_pos (pkt w') = buffer_pos (pkt w) /\ pk_pos (pkt w') = pk_pos (pkt w) /\
  fake_dma (pkt w') = fake_dma (pkt w).

(** The handle refers to a header that lies in the arena, and the arena
    has the size the state says: what [ps_buffer_init] and the open
    functions establish. *)
Definition handle_ok (w : world) (h : Z) : Prop :=
  header (pkt w) = Some h /\ buffer_pos (pkt w) = h /\
  0 <= h /\ h + HDR <= st_size (wstate w) /\
  Z.of_nat (length (warena w)) = st_size (wstate w) /\
  st_size (wstate w) <= PTRDIFF_MAX.

(** * Stores used as examples *)

(** What a call left behind ([d] when it did not return). *)
Definition returned {S A : Type} (o : outcome S A) (d : S) : S :=
  match o with Returns _ s => s | _ => d end.

(** A 64-byte buffer, freshly initialised on the heap. *)
Definition demo_attr : ps_bufferattr_t :=
  {| attr_size := 64; attr_flags := 0; attr_shmid := PS_SHM_CREATE; attr_shmmode := 384 |}.

Definition demo_alloc : allocator :=
  {| heap_state := Some zero_state; heap_junk := Some []; heap_stats := None;
     shm_id := -1; shm_errno := ENOMEM; shm_segment := None |}.

Definition demo_buffer : ps_buffer_t :=
  Eval vm_compute in
    default {| state := zero_state; buffer := []; stats := None; shmid := 0 |}
            (snd (ps_buffer_init false demo_alloc demo_attr)).

(** A handle after [ps_packet_init]. *)
Definition closed_handle : ps_packet_t :=
  {| pk_flags := 0; header := None; buffer_pos := 0; pk_pos := 0; reserved := 0;
     fake_dma := [] |}.

Definition demo_world : world :=
  {| buf := demo_buffer; pkt := closed_handle; intr := 0 |}.

(** The same buffer with a packet opened for writing. *)
Definition demo_open : world :=
  Eval vm_compute in returned (ps_packet_open demo_world PS_PACKET_WRITE) demo_world.

(** A zeroed arena of 4 GiB. *)
Definition arena_4G : list byte := replicate (Z.to_nat (2 ^ 32)) Byte.x00.

(** The state of a ready buffer of that size (all positions zero). *)
Definition big_state : ps_state_s :=
  set_st_flags PS_BUFFER_READY (set_st_size (2 ^ 32) zero_state).

(** The 4 GiB arena with a first packet of [2 ^ 31 - 16] bytes of payload. *)
Definition big_arena : list byte := set_header_size arena_4G 0 (2 ^ 31 - HDR).

(** A handle on a frozen packet of [2 ^ 32 - 32] bytes at the start of the
    4 GiB arena, with its cursor in the middle of the payload. *)
Definition big_world : world :=
  {| buf := {| state := big_state; buffer := set_header_size arena_4G 0 (2 ^ 32 - 32);
               stats := None; shmid := 0 |};
     pkt := {| pk_flags := Z.lor PS_PACKET_WRITE PS_PACKET_SIZE_SET; header := Some 0;
               buffer_pos := 0; pk_pos := 2 ^ 31; reserved := 2 ^ 32 - 16; fake_dma := [] |};
     intr := 0 |}.

(** The code a call returned, if it returned. *)
Definition ret_code {S A : Type} (o : outcome S A) : option A :=
  match o with Returns c _ => Some c | _ => None end.

(** The same buffer after a seek of the open packet to offset 40. *)
Definition demo_seek40 : world :=
  Eval vm_compute in returned (ps_packet_seek 4 demo_open 40) demo_open.

(** The bytes [x .. x + m) of the arena lie outside of the [n] bytes that
    start at [offs] and continue at offset 0 when they reach the end of an
    arena of [bsize] bytes. *)
Definition off_ring (bsize offs n x m : Z) : Prop :=
  if offs + n >? bsize
  then offs + n - bsize <= x /\ x + m <= offs
  else x + m <= offs \/ offs + n <= x.


(** Twenty bytes of payload. *)
Definition demo_bytes : list byte :=
  Eval vm_compute in map byte.of_Z (seqZ 1 20).



(** The 64-byte buffer after a first packet of 16 bytes was written at
    offset 0 and closed. *)
Definition demo_written : world :=
  Eval vm_compute in
    let w1 := returned (ps_packet_setsize 4 demo_open 16) demo_open in
    let w2 := returned (ps_packet_write 4 w1 (take 16 demo_bytes) 16) w1 in
    returned (ps_packet_close 4 w2) w2.

(** ... and after a reader opened and closed that packet. *)
Definition demo_released : world :=
  Eval vm_compute in
    let w1 := returned (ps_packet_open demo_written PS_PACKET_READ) demo_written in
    returned (ps_packet_close 4 w1) w1.

(** ... and after a second packet of 20 bytes was opened for writing and
    sized: its header is at offset 32 and its payload runs from offset 48
    to the end of the arena and on from offset 0 to offset 4. *)
Definition demo_wrap : world :=
  Eval vm_compute in
    let w0 := on_pkt (fun _ => closed_handle) demo_released in
    let w1 := returned (ps_packet_open w0 PS_PACKET_WRITE) w0 in
    returned (ps_packet_setsize 4 w1 20) w1.

(** [k] packets reclaimed one after the other, oldest first. *)
Fixpoint reclaim_n (k : nat) (a : list byte) (s : ps_state_s) : ps_state_s :=
  match k with
  | O => s
  | S k' => reclaim_n k' a (reclaim_first a s)
  end.

(** The 64-byte buffer after two packets of 8 bytes were written and
    closed (they fill it: [free_bytes] is 0) and the first one was read
    and released, with a third packet opened for writing under
    [PS_PACKET_TRY]. *)
Definition demo_try : world :=
  Eval vm_compute in
    let w1 := returned (ps_packet_setsize 4 demo_open 8) demo_open in
    let w2 := returned (ps_packet_close 4 w1) w1 in
    let w3 := returned (ps_packet_open w2 PS_PACKET_WRITE) w2 in
    let w4 := returned (ps_packet_setsize 4 w3 8) w3 in
    let w5 := returned (ps_packet_close 4 w4) w4 in
    let w6 := returned (ps_packet_open w5 PS_PACKET_READ) w5 in
    let w7 := returned (ps_packet_close 4 w6) w6 in
    returned (ps_packet_open w7 (Z.lor PS_PACKET_WRITE PS_PACKET_TRY)) w7.

(** One turn of the loop of [ps_buffer_drain] in closed form, for a turn
    in which a token of [written_packets] is there and the post of
    [read_packets] does not overflow: the token is taken, the header at
    [read_next] gets the [READ] bit, [read_next] moves past the packet by
    the [move_pos] of the source; when the packet is the one at
    [read_pos], [read_packets] is posted once and [read_pos] becomes the
    new [read_next].  The boolean says whether the packet was at
    [read_pos]. *)
Definition drain_step (b : ps_buffer_t) : ps_buffer_t * bool :=
  let s := state b in
  let pos := read_next s in
  let a := set_header_flags (buffer b) pos
             (Z.lor (header_flags (buffer b) pos) PS_PACKET_HEADER_READ) in
  let next := to_size_t (move_pos pos (st_size s) (header_size a pos)) in
  let at_read_pos := read_pos s =? pos in
  let s1 := set_read_next next (set_written_packets (written_packets s - 1) s) in
  let s2 := if at_read_pos
            then set_read_pos next (set_read_packets (read_packets s + 1) s1)
            else s1 in
  ({| state := s2; buffer := a; stats := stats b; shmid := shmid b |}, at_read_pos).

(** [tokens] such turns one after the other, and how many of the packets
    were at [read_pos]. *)
Fixpoint drain_spec (tokens : nat) (b : ps_buffer_t) : ps_buffer_t * Z :=
  match tokens with
  | O => (b, 0)
  | S n =>
      let '(b1, counted) := drain_step b in
      let '(b', r) := drain_spec n b1 in
      (b', if counted then r + 1 else r)
  end.




(** Both read-side mutexes taken, and both released. *)
Definition lock_read_side (b : ps_buffer_t) : ps_buffer_t :=
  set_state (set_read_close_mutex true (set_read_mutex true (state b))) b.

Definition unlock_read_side (b : ps_buffer_t) : ps_buffer_t :=
  set_state (set_read_mutex false (set_read_close_mutex false (state b))) b.

(** The 64-byte buffer after two packets of 8 bytes were written and
    closed, and none was read. *)
Definition demo_unread : ps_buffer_t :=
  Eval vm_compute in
    let w1 := returned (ps_packet_setsize 4 demo_open 8) demo_open in
    let w2 := returned (ps_packet_close 4 w1) w1 in
    let w3 := returned (ps_packet_open w2 PS_PACKET_WRITE) w2 in
    let w4 := returned (ps_packet_setsize 4 w3 8) w3 in
    buf (returned (ps_packet_close 4 w4) w4).


(** The header reached from [pos] by [k] steps of [move_pos], each over the
    packet whose header the step starts at. *)
Fixpoint walk_pos (k : nat) (a : list byte) (bsize pos : Z) : Z :=
  match k with
  | O => pos
  | S k' => walk_pos k' a bsize (to_size_t (move_pos pos bsize (header_size a pos)))
  end.

(** The header reached from [pos] by [k] steps of the wrap rule
    [advance], each over the packet whose header the step starts at. *)
Fixpoint walk_rule (k : nat) (a : list byte) (bsize pos : Z) : Z :=
  match k with
  | O => pos
  | S k' => walk_rule k' a bsize (advance pos bsize (header_size a pos))
  end.

(** The store [ps_packet_closewrite] leaves behind when it has committed
    the packet at [h] in the store [w]: the statistics count the packet,
    the header has the [WRITTEN] bit, [written_packets] was posted [posts]
    times, [write_pos] is [wp], [write_close_mutex] is free again and the
    handle is closed. *)
Definition committed (w : world) (h wp posts : Z) : world :=
  on_pkt (fun p => set_pk_flags 0 (set_header None p))
    (on_state (fun s => set_write_close_mutex false
                          (set_write_pos wp
                             (set_written_packets (written_packets s + posts) s)))
       (or_header_flags h PS_PACKET_HEADER_WRITTEN (count_written w h))).

(** What the first part of [ps_packet_closewrite] leaves alone: the tail
    of the write side and the place of the handle's packet. *)
Definition tail_frame (w w' : world) : Prop :=
  write_pos (wstate w') = write_pos (wstate w) /\
  st_size (wstate w') = st_size (wstate w) /\
  st_flags (wstate w') = st_flags (wstate w) /\
  written_packets (wstate w') = written_packets (wstate w) /\
  write_close_mutex (wstate w') = write_close_mutex (wstate w) /\
  buffer_pos (pkt w') = buffer_pos (pkt w) /\
  header (pkt w') = header (pkt w).

(** Two writers on the 64-byte buffer: the first opened a packet of 8
    bytes at offset 0, the second one of 8 bytes at offset 24.
    [demo_second_closing] is the store in which the second writer closes
    its packet first; [demo_first_closing] the one in which the first
    writer closes its packet after that. *)
Definition demo_second_closing : world :=
  Eval vm_compute in
    let w1 := returned (ps_packet_setsize 4 demo_open 8) demo_open in
    let w2 := on_pkt (fun _ => closed_handle) w1 in
    let w3 := returned (ps_packet_open w2 PS_PACKET_WRITE) w2 in
    returned (ps_packet_setsize 4 w3 8) w3.

Definition demo_first_closing : world :=
  Eval vm_compute in
    let first := pkt (returned (ps_packet_setsize 4 demo_open 8) demo_open) in
    let w := returned (ps_packet_close 4 demo_second_closing) demo_second_closing in
    on_pkt (fun _ => first) w.

(** ** Handles, attributes and statistics *)

(** [ps_packet_init], for non-null arguments.  The store holds one buffer
    and one handle, so [packet->buffer = buffer] leaves no trace; the flags
    of the handle are not touched. *)
Definition ps_packet_init (w : world) : result Z :=
  let c := ps_buffer_check (buf w) in
  if negb (c =? 0) then Returns c w
  else Returns 0 (on_pkt (set_fake_dma []) w).

(** [ps_buffer_getshmid]: the code and the value stored through [shmid]. *)
Definition ps_buffer_getshmid (b : ps_buffer_t) : Z * option Z :=
  let c := ps_buffer_check b in
  if negb (c =? 0) then (c, None) else (0, Some (shmid b)).

(** [ps_buffer_stats]: the code and the counters copied to [stats]
    ([utime] reads the clock and is left out).  The call checks neither
    [READY] nor [CANCELLED]. *)
Definition ps_buffer_stats (b : ps_buffer_t) : outcome ps_buffer_t (Z * option ps_stats_t) :=
  if negb (tst (st_flags (state b)) PS_BUFFER_STATS) then Returns (ENOTSUP, None) b
  else match stats b with
       | None => Faults
       | Some t => Returns (0, Some t) b
       end.

(** The numbers [ps_buffer_state_text] prints, in the order of the text. *)
Record ps_state_text := {
  txt_size : Z;
  txt_read_pos : Z;
  txt_write_pos : Z;
  txt_read_next : Z;
  txt_write_next : Z;
  txt_read_first : Z;
  txt_free_bytes : Z;
  txt_unread_packets : Z;
  txt_unread_bytes : Z;
  txt_pending_packets : Z;
  txt_pending_bytes : Z
}.

(** The [for (i = 0; i < num_pkts; ++i)] loops of [ps_buffer_state_text]:
    [k] turns are left, [num_bytes] is an [int]. *)
Fixpoint text_walk (k : nat) (a : list byte) (bsize pos num_bytes : Z) : Z :=
  match k with
  | O => num_bytes
  | S k' =>
      text_walk k' a bsize (to_size_t (move_pos pos bsize (header_size a pos)))
                (to_int (num_bytes + header_size a pos))
  end.

(** [ps_buffer_state_text], for a non-null buffer and stream: the code and
    what is printed.  The size and the five indices are printed with
    [%zd], as signed numbers.  [sem_getvalue] stores the count of the
    semaphore. *)
Definition ps_buffer_state_text (b : ps_buffer_t) : Z * ps_state_text :=
  let s := state b in
  (0, {| txt_size := to_long (st_size s); txt_read_pos := to_long (read_pos s);
         txt_write_pos := to_long (write_pos s);
         txt_read_next := to_long (read_next s);
         txt_write_next := to_long (write_next s);
         txt_read_first := to_long (read_first s); txt_free_bytes := free_bytes s;
         txt_unread_packets := written_packets s;
         txt_unread_bytes :=
           text_walk (Z.to_nat (written_packets s)) (buffer b) (st_size s) (read_next s) 0;
         txt_pending_packets := read_packets s;
         txt_pending_bytes :=
           text_walk (Z.to_nat (read_packets s)) (buffer b) (st_size s) (read_first s) 0 |}).

(** [ps_bufferattr_init], for a non-null [attr].  [PS_DEFAULT_SIZE] is
    declared in [packetstream.h], which is not among the sources: it is
    the argument [default_size].  [0600] is 384. *)
Definition ps_bufferattr_init (default_size : Z) : Z * ps_bufferattr_t :=
  (0, {| attr_size := default_size; attr_flags := 0;
         attr_shmid := PS_SHM_CREATE; attr_shmmode := 384 |}).

(** [ps_bufferattr_destroy], for a non-null [attr]. *)
Definition ps_bufferattr_destroy (attr : ps_bufferattr_t) : Z * ps_bufferattr_t :=
  (0, {| attr_size := 0; attr_flags := 0; attr_shmid := 0; attr_shmmode := 0 |}).

(** [ps_bufferattr_setflags], for a non-null [attr], in a library built
    with [__PS_STATS]; [ps_shm] says whether it was built with [__PS_SHM]. *)
Definition ps_bufferattr_setflags (ps_shm : bool) (attr : ps_bufferattr_t) (flags : Z)
  : Z * ps_bufferattr_t :=
  if tst flags PS_BUFFER_READY || tst flags PS_BUFFER_CANCELLED then (EINVAL, attr)
  else if negb ps_shm && tst flags PS_BUFFER_PSHARED then (ENOTSUP, attr)
  else (0, {| attr_size := attr_size attr; attr_flags := flags;
              attr_shmid := attr_shmid attr; attr_shmmode := attr_shmmode attr |}).

(** [ps_bufferattr_setshmid], for a non-null [attr]. *)
Definition ps_bufferattr_setshmid (ps_shm : bool) (attr : ps_bufferattr_t) (id : Z)
  : Z * ps_bufferattr_t :=
  if ps_shm then (0, {| attr_size := attr_size attr; attr_flags := attr_flags attr;
                        attr_shmid := id; attr_shmmode := attr_shmmode attr |})
  else (ENOTSUP, attr).

(** [ps_bufferattr_setshmmode], for a non-null [attr]. *)
Definition ps_bufferattr_setshmmode (ps_shm : bool) (attr : ps_bufferattr_t) (mode : Z)
  : Z * ps_bufferattr_t :=
  if ps_shm then (0, {| attr_size := attr_size attr; attr_flags := attr_flags attr;
                        attr_shmid := attr_shmid attr; attr_shmmode := mode |})
  else (ENOTSUP, attr).

(** ** The example program [examples/drain_test.c] *)

(** A call followed by what is done with its result. *)
Definition bind {S A B : Type} (o : outcome S A) (k : A -> S -> outcome S B) : outcome S B :=
  match o with
  | Returns a s => k a s
  | Blocks s => Blocks s
  | Aborts => Aborts
  | Faults => Faults
  | OutOfFuel => OutOfFuel
  end.

(** [ps_buffer_cancel(&buffer)] on the buffer of the store; the program
    ignores the code. *)
Definition cancel_buffer (w : world) : world :=
  {| buf := snd (ps_buffer_cancel (buf w)); pkt := pkt w; intr := intr w |}.

(** One turn of the [for] loop of [main]: the store it leaves, and [true]
    when the loop goes on ([continue], or the end of the body), [false]
    when it is left by [break].  [temp] holds the bytes of the block
    [temp] points to. *)
Definition writer_turn (fuel : nat) (w : world) (temp : list byte) (size : Z)
  : outcome world bool :=
  bind (ps_packet_open w PS_PACKET_WRITE) (fun ret w1 =>
  if negb (ret =? 0) then Returns false w1
  else
    bind (ps_packet_setsize fuel w1 size) (fun ret w2 =>
    if negb (ret =? 0) then
      if ret =? EINTR then Returns false w2
      else bind (ps_packet_cancel w2) (fun c w3 =>
           if c =? 0 then Returns true w3 else Returns false (cancel_buffer w3))
    else
      bind (ps_packet_write fuel w2 temp size) (fun c w3 =>
      if negb (c =? 0) then Returns false (cancel_buffer w3)
      else
        bind (ps_packet_close fuel w3) (fun ret w4 =>
        if negb (ret =? 0) then
          Returns false (if negb (ret =? EINTR) then cancel_buffer w4 else w4)
        else Returns true w4)))).

(** [for (i = 0; i < count; ++i) { size = ...; ... }] *)
Fixpoint writer_loop (count fuel : nat) (w : world) (temp : list byte) (size : Z)
  : outcome world unit :=
  match count with
  | O => Returns tt w
  | S count' =>
      bind (writer_turn fuel w temp size) (fun go w1 =>
      if go then writer_loop count' fuel w1 temp size else Returns tt w1)
  end.

Definition BUFFER_SIZE : Z := 1024 * 1024 * 50.

(** [main]: [None] when [ps_buffer_init] fails (the program returns 1),
    otherwise how the rest of the program ends, with the number printed
    after "Have drained".  [handle] is the indeterminate content of the
    variable [packet], [temp] that of the block of 1000 bytes, [signals]
    the number of signals that will arrive; [malloc(1000)] is taken to
    succeed.  The texts printed, [ps_buffer_state_text] among them, which
    only reads the state, and the calls that release memory
    ([ps_bufferattr_destroy], [ps_packet_destroy], [ps_buffer_destroy],
    [free]) are left out. *)
Definition drain_test_main (ps_shm : bool) (default_size : Z) (al : allocator)
    (handle : ps_packet_t) (temp : list byte) (signals fuel : nat)
  : option (outcome world Z) :=
  let attr := snd (ps_bufferattr_init default_size) in
  let attr := snd (ps_bufferattr_setflags ps_shm attr PS_BUFFER_STATS) in
  let attr := snd (ps_bufferattr_setsize attr BUFFER_SIZE) in
  match ps_buffer_init ps_shm al attr with
  | (c, ob) =>
      if negb (c =? 0) then None
      else
        Some match ob with
             | None => Faults
             | Some buffer =>
                 let w := {| buf := buffer; pkt := handle; intr := signals |} in
                 bind (ps_packet_init w) (fun _ w0 =>
                 bind (writer_loop 50 fuel w0 temp 1000) (fun _ w1 =>
                 match ps_buffer_drain fuel (buf w1) with
                 | Returns ret b =>
                     Returns ret {| buf := b; pkt := pkt w1; intr := intr w1 |}
                 | Blocks b => Blocks {| buf := b; pkt := pkt w1; intr := intr w1 |}
                 | Aborts => Aborts
                 | Faults => Faults
                 | OutOfFuel => OutOfFuel
                 end))
             end
  end.

(** ** Vocabulary of the further statements *)

(** A packet written in one go: opened for writing, sized, filled and
    closed. *)
Definition put (fuel : nat) (w : world) (B : list byte) : result Z :=
  do w1 <- ps_packet_open w PS_PACKET_WRITE;
  do w2 <- ps_packet_setsize fuel w1 (Z.of_nat (length B));
  do w3 <- ps_packet_write fuel w2 B (Z.of_nat (length B));
  ps_packet_close fuel w3.

(** A packet written without setting its size: opened for writing, filled
    and closed. *)
Definition put_unsized (fuel : nat) (w : world) (B : list byte) : result Z :=
  do w1 <- ps_packet_open w PS_PACKET_WRITE;
  do w2 <- ps_packet_write fuel w1 B (Z.of_nat (length B));
  ps_packet_close fuel w2.

(** An index that leaves room for a header before the end of the arena. *)
Definition in_ring (b : ps_buffer_t) (p : Z) : Prop :=
  0 <= p /\ p + HDR <= st_size (state b).

(** The arena has the size the state says, which is at most 2 GiB, and
    each of the five indices leaves room for a header. *)
Definition ring_ok (b : ps_buffer_t) : Prop :=
  Z.of_nat (length (buffer b)) = st_size (state b) /\
  HDR <= st_size (state b) <= 2 ^ 31 /\
  in_ring b (read_pos (state b)) /\ in_ring b (write_pos (state b)) /\
  in_ring b (read_next (state b)) /\ in_ring b (write_next (state b)) /\
  in_ring b (read_first (state b)).

(** Two readers on the 64-byte buffer that holds two unread packets of 8
    bytes: the first opened the packet at offset 0, the second the one at
    offset 24.  [demo_second_reading] is the store in which the second
    reader closes its packet first; [demo_first_reading] the one in which
    the first reader closes its packet after that. *)
Definition demo_second_reading : world :=
  Eval vm_compute in
    let w0 := {| buf := demo_unread; pkt := closed_handle; intr := 0 |} in
    let w1 := returned (ps_packet_open w0 PS_PACKET_READ) w0 in
    let w2 := on_pkt (fun _ => closed_handle) w1 in
    returned (ps_packet_open w2 PS_PACKET_READ) w2.

Definition demo_first_reading : world :=
  Eval vm_compute in
    let w0 := {| buf := demo_unread; pkt := closed_handle; intr := 0 |} in
    let first := pkt (returned (ps_packet_open w0 PS_PACKET_READ) w0) in
    let w := returned (ps_packet_close 4 demo_second_reading) demo_second_reading in
    on_pkt (fun _ => first) w.

(** There is room to put a packet of [n] bytes without waiting: the buffer
    is ready and not cancelled, no writer holds a mutex, no packet is open
    for writing ([write_pos] is [write_next]), the packet and the header
    behind it end before the end of the arena, whose length is the size
    recorded, at most 2 GiB, the bytes are free, [written_packets] can be
    posted, and the handle has no staging entry in use. *)
Definition room_to_put (w : world) (n : Z) : Prop :=
  ps_buffer_check (buf w) = 0 /\
  write_mutex (wstate w) = false /\ write_close_mutex (wstate w) = false /\
  write_pos (wstate w) = write_next (wstate w) /\
  0 <= write_next (wstate w) /\
  write_next (wstate w) + HDR + n + HDR <= st_size (wstate w) /\
  Z.of_nat (length (warena w)) = st_size (wstate w) /\ st_size (wstate w) <= 2 ^ 31 /\
  n + HDR <= free_bytes (wstate w) < 2 ^ 63 /\
  written_packets (wstate w) < SEM_VALUE_MAX /\
  Forall (fun d => free d <> 0) (fake_dma (pkt w)).

(** The statistics after one more packet of [n] bytes was written. *)
Definition stats_written (n : Z) (t : ps_stats_t) : ps_stats_t :=
  {| stat_written_packets := to_size_t (stat_written_packets t + 1);
     stat_written_bytes := to_size_t (stat_written_bytes t + n);
     stat_read_packets := stat_read_packets t;
     stat_read_bytes := stat_read_bytes t |}.

(** There is room to put [k] packets of [n] bytes one after the other
    without waiting and without reaching the end of the arena. *)
Definition room_for (k : nat) (w : world) (n : Z) : Prop :=
  ps_buffer_check (buf w) = 0 /\
  write_mutex (wstate w) = false /\ write_close_mutex (wstate w) = false /\
  write_pos (wstate w) = write_next (wstate w) /\
  0 <= write_next (wstate w) /\
  write_next (wstate w) + Z.of_nat k * (n + HDR) + HDR <= st_size (wstate w) /\
  Z.of_nat (length (warena w)) = st_size (wstate w) /\ st_size (wstate w) <= 2 ^ 31 /\
  Z.of_nat k * (n + HDR) <= free_bytes (wstate w) < 2 ^ 63 /\
  written_packets (wstate w) + Z.of_nat k <= SEM_VALUE_MAX /\
  Forall (fun d => free d <> 0) (fake_dma (pkt w)).

(** The statistics after [k] more packets of [n] bytes were written. *)
Definition stats_written_n (k : nat) (n : Z) (t : ps_stats_t) : ps_stats_t :=
  {| stat_written_packets := to_size_t (stat_written_packets t + Z.of_nat k);
     stat_written_bytes := to_size_t (stat_written_bytes t + Z.of_nat k * n);
     stat_read_packets := stat_read_packets t;
     stat_read_bytes := stat_read_bytes t |}.

(** An allocator with which every [malloc] succeeds and returns a zeroed
    block. *)
Definition demo_alloc_stats : allocator :=
  {| heap_state := Some zero_state; heap_junk := Some []; heap_stats := Some zero_stats;
     shm_id := -1; shm_errno := ENOMEM; shm_segment := None |}.

(** What draining leaves alone: the write side, [read_first],
    [free_bytes], the size, the flags, the statistics and the length of
    the arena. *)
Definition drain_frame (b b' : ps_buffer_t) : Prop :=
  write_pos (state b') = write_pos (state b) /\
  write_next (state b') = write_next (state b) /\
  read_first (state b') = read_first (state b) /\
  free_bytes (state b') = free_bytes (state b) /\
  st_size (state b') = st_size (state b) /\ st_flags (state b') = st_flags (state b) /\
  write_mutex (state b') = write_mutex (state b) /\
  write_close_mutex (state b') = write_close_mutex (state b) /\
  stats b' = stats b /\ shmid b' = shmid b /\ length (buffer b') = length (buffer b).

(** A call of one of the setters of the attributes. *)
Inductive attr_call : Type :=
| SetSize (size : Z)
| SetFlags (flags : Z)
| SetShmid (id : Z)
| SetShmmode (mode : Z).

(** The attributes a call leaves, whatever code it returns. *)
Definition attr_set (ps_shm : bool) (attr : ps_bufferattr_t) (c : attr_call)
  : ps_bufferattr_t :=
  snd match c with
      | SetSize size => ps_bufferattr_setsize attr size
      | SetFlags flags => ps_bufferattr_setflags ps_shm attr flags
      | SetShmid id => ps_bufferattr_setshmid ps_shm attr id
      | SetShmmode mode => ps_bufferattr_setshmmode ps_shm attr mode
      end.

(** [ps_bufferattr_init] followed by setter calls, first to last. *)
Definition attr_after (ps_shm : bool) (default_size : Z) (calls : list attr_call)
  : ps_bufferattr_t :=
  fold_left (attr_set ps_shm) calls (snd (ps_bufferattr_init default_size)).

(** A staged entry in use lies within [n] bytes and its block holds the
    bytes staged. *)
Definition staged_within (n : Z) (d : ps_fake_dma_s) : Prop :=
  free d = 0 ->
  0 <= fd_pos d /\ 0 <= fd_size d /\ fd_pos d + fd_size d <= n /\
  fd_size d <= Z.of_nat (length (mem d)).

(** The arena after the staged entries in use were written to the packet
    at [h], first to last: the first [fd_size] bytes of each block go to
    the offset [fd_pos] of the payload. *)
Fixpoint staged_written (a : list byte) (bsize h : Z) (ds : list ps_fake_dma_s)
  : list byte :=
  match ds with
  | [] => a
  | d :: ds' =>
      staged_written
        (if free d =? 0
         then copy_in a bsize ((h + HDR + fd_pos d) mod bsize) (mem d) (fd_size d)
         else a)
        bsize h ds'
  end.

(** What is left of a staged entry [d] when the size of its packet is set
    to [n]: the entry [d'] has the block and the position of [d]; an
    entry in use that starts within the size stays in use, with the bytes
    of it that lie within the size; an entry that starts behind the size
    is free, and so is one that was free. *)
Definition trimmed (n : Z) (d d' : ps_fake_dma_s) : Prop :=
  mem d' = mem d /\ mem_size d' = mem_size d /\ fd_pos d' = fd_pos d /\
  (free d = 0 -> fd_pos d <= n ->
   free d' = 0 /\ fd_size d' = Z.min (fd_size d) (n - fd_pos d)) /\
  (fd_pos d > n -> free d' <> 0) /\
  (free d <> 0 -> free d' <> 0).

(** The packet of [demo_wrap] with three entries staged: one in use that
    runs past the size of the packet, one in use that starts behind it, and
    one that is free. *)
Definition demo_staged : world :=
  on_pkt (set_fake_dma
            [ {| mem := demo_bytes; mem_size := 20; fd_size := 20; fd_pos := 10; free := 0 |};
              {| mem := demo_bytes; mem_size := 20; fd_size := 4; fd_pos := 30; free := 0 |};
              {| mem := []; mem_size := 0; fd_size := 0; fd_pos := 0; free := 1 |} ])
         demo_wrap.

(** A packet read in one go: opened for reading, its size asked for, that
    many bytes read and the packet closed.  The result is the code of the
    call that failed, or 0, and the bytes read. *)
Definition get (fuel : nat) (w : world) : outcome world (Z * list byte) :=
  bind (ps_packet_open w PS_PACKET_READ) (fun c w1 =>
  if negb (c =? 0) then Returns (c, []) w1
  else
    bind (ps_packet_getsize w1) (fun r w2 =>
    match r with
    | (0, Some n) =>
        bind (ps_packet_read w2 n) (fun r3 w3 =>
        if negb (fst r3 =? 0) then Returns r3 w3
        else bind (ps_packet_close fuel w3) (fun c w4 => Returns (c, snd r3) w4))
    | (c, _) => Returns (c, []) w2
    end)).

(** The packets [Bs] lie in the arena one behind the other from offset [p]
    on: each has a header that holds its length and the [WRITTEN] flag
    alone, followed by its bytes. *)
Fixpoint chain (a : list byte) (p : Z) (Bs : list (list byte)) : Prop :=
  match Bs with
  | [] => True
  | B :: Bs' =>
      header_size a p = Z.of_nat (length B) /\
      header_flags a p = PS_PACKET_HEADER_WRITTEN /\
      load a (Z.to_nat (p + HDR)) (length B) = B /\
      chain a (p + HDR + Z.of_nat (length B)) Bs'
  end.

(** The offset behind the last of them. *)
Fixpoint chain_end (p : Z) (Bs : list (list byte)) : Z :=
  match Bs with
  | [] => p
  | B :: Bs' => chain_end (p + HDR + Z.of_nat (length B)) Bs'
  end.

(** The buffer holds the packets [Bs], oldest first, and nobody is at
    work on it: the buffer is ready, no mutex is held, no packet is open
    ([read_pos] is [read_next], [write_pos] is [write_next]),
    [written_packets] counts the packets, which lie from [read_next] to
    [write_next] without going round the end of the arena, the header at
    [write_next] is clear, and the handle has no staging entry in use. *)
Definition queued (w : world) (Bs : list (list byte)) : Prop :=
  ps_buffer_check (buf w) = 0 /\
  read_mutex (wstate w) = false /\ read_close_mutex (wstate w) = false /\
  write_mutex (wstate w) = false /\ write_close_mutex (wstate w) = false /\
  read_pos (wstate w) = read_next (wstate w) /\
  write_pos (wstate w) = write_next (wstate w) /\
  written_packets (wstate w) = Z.of_nat (length Bs) /\
  0 <= read_packets (wstate w) /\
  read_packets (wstate w) + Z.of_nat (length Bs) <= SEM_VALUE_MAX /\
  0 <= read_next (wstate w) /\
  chain (warena w) (read_next (wstate w)) Bs /\
  chain_end (read_next (wstate w)) Bs = write_next (wstate w) /\
  write_next (wstate w) + HDR <= st_size (wstate w) /\
  Z.of_nat (length (warena w)) = st_size (wstate w) /\ st_size (wstate w) <= 2 ^ 31 /\
  header_flags (warena w) (write_next (wstate w)) = 0 /\
  Forall (fun d => free d <> 0) (fake_dma (pkt w)).

(** Headers that hold the sizes [ns] lie in the arena one packet behind
    the other from offset [p] on, whatever their flags and the bytes
    between them. *)
Fixpoint sized (a : list byte) (p : Z) (ns : list Z) : Prop :=
  match ns with
  | [] => True
  | n :: ns' => 0 <= n /\ header_size a p = n /\ sized a (p + HDR + n) ns'
  end.

(** The offset behind the last of these packets. *)
Fixpoint sized_end (p : Z) (ns : list Z) : Z :=
  match ns with
  | [] => p
  | n :: ns' => sized_end (p + HDR + n) ns'
  end.

(** A 128-byte buffer whose writer stands at offset 24 with nothing in
    use: a packet of 8 bytes was put and read, a write of 90 bytes took
    that packet back and was cancelled, and a packet was opened for
    writing again. *)
Definition demo_lap : world :=
  Eval vm_compute in
    let b := default {| state := zero_state; buffer := []; stats := None; shmid := 0 |}
               (snd (ps_buffer_init false demo_alloc (snd (ps_bufferattr_setsize demo_attr 128)))) in
    let w0 := {| buf := b; pkt := closed_handle; intr := 0 |} in
    let w1 := returned (put 1 w0 (take 8 demo_bytes)) w0 in
    let w2 := returned (get 1 w1) w1 in
    let w3 := returned (ps_packet_open w2 PS_PACKET_WRITE) w2 in
    let w4 := returned (ps_packet_write 4 w3 (replicate 90 Byte.x00) 90) w3 in
    let w5 := returned (ps_packet_cancel w4) w4 in
    returned (ps_packet_open w5 PS_PACKET_WRITE) w5.

(** * Properties *)

(** ** Machine integers *)

Lemma to_size_t_range z : 0 <= to_size_t z < 2 ^ 64.
Proof. unfold to_size_t. apply Z.mod_pos_bound. lia. Qed.

Lemma to_size_t_small z : 0 <= z < 2 ^ 64 -> to_size_t z = z.
Proof. intros H. unfold to_size_t. apply Z.mod_small. exact H. Qed.

Lemma to_long_small z : - 2 ^ 63 <= z < 2 ^ 63 -> to_long z = z.
Proof. intros H. unfold to_long. rewrite Z.mod_small; lia. Qed.

Lemma to_long_range z : - 2 ^ 63 <= to_long z < 2 ^ 63.
Proof.
  unfold to_long. pose proof (Z.mod_pos_bound (z + 2 ^ 63) (2 ^ 64)). lia.
Qed.

Lemma to_int_small z : - 2 ^ 31 <= z < 2 ^ 31 -> to_int z = z.
Proof. intros H. unfold to_int. rewrite Z.mod_small; lia. Qed.

(** Two values that agree modulo [2 ^ 64] are the same [long]. *)
Lemma to_long_congr a b : (a - b) mod 2 ^ 64 = 0 -> to_long a = to_long b.
Proof.
  intros H. unfold to_long. f_equal.
  apply Z.mod_divide in H; [| lia]. destruct H as [q Hq].
  replace (a + 2 ^ 63) with (b + 2 ^ 63 + q * 2 ^ 64) by lia.
  apply Z.mod_add. lia.
Qed.

(** Equations between wrapped sums, by the Euclidean division. *)
Ltac wrap_lia := unfold to_long, to_size_t in *; Z.div_mod_to_equations; lia.

Lemma to_long_add_size_t a b : to_long (a + to_size_t b) = to_long (a + b).
Proof.
  apply to_long_congr. unfold to_size_t.
  replace (a + b mod 2 ^ 64 - (a + b)) with (b mod 2 ^ 64 - b) by lia.
  rewrite Zminus_mod_idemp_l, Z.sub_diag. reflexivity.
Qed.

Lemma to_long_add_long a b : to_long (to_long a + b) = to_long (a + b).
Proof.
  apply to_long_congr. unfold to_long.
  replace ((a + 2 ^ 63) mod 2 ^ 64 - 2 ^ 63 + b - (a + b))
    with ((a + 2 ^ 63) mod 2 ^ 64 - (a + 2 ^ 63)) by lia.
  rewrite Zminus_mod_idemp_l, Z.sub_diag. reflexivity.
Qed.

(** ** The arena *)

Lemma length_store a off src : length (store a off src) = length a.
Proof. apply length_inserts. Qed.

Lemma length_load a off n : (off + n <= length a)%nat -> length (load a off n) = n.
Proof. intros H. unfold load. rewrite length_take, length_drop. lia. Qed.

Lemma lookup_load a off n i :
  (i < n)%nat -> load a off n !! i = a !! (off + i)%nat.
Proof. intros H. unfold load. rewrite lookup_take_lt by lia. apply lookup_drop. Qed.

(** Reading back what was just stored. *)
Lemma load_store_same a off src :
  (off + length src <= length a)%nat -> load (store a off src) off (length src) = src.
Proof.
  intros H. apply list_eq. intros i.
  destruct (decide (i < length src)%nat) as [Hi | Hi].
  - rewrite lookup_load by lia. unfold store.
    rewrite list_lookup_inserts by lia. f_equal. lia.
  - rewrite (lookup_ge_None_2 src) by lia. apply lookup_ge_None_2.
    rewrite length_load; [lia |]. rewrite length_store. lia.
Qed.

(** A store does not change what lies outside of the stored range. *)
Lemma load_store_other a off src off' n :
  (off' + n <= off \/ off + length src <= off')%nat ->
  load (store a off src) off' n = load a off' n.
Proof.
  intros H. apply list_eq. intros i. unfold load, store.
  destruct (decide (i < n)%nat) as [Hi | Hi].
  - rewrite !lookup_take_lt, !lookup_drop by lia.
    destruct H as [H | H].
    + apply list_lookup_inserts_lt. lia.
    + apply list_lookup_inserts_ge. lia.
  - rewrite !lookup_take_ge by lia. reflexivity.
Qed.

Lemma load_app a off n m :
  load a off (n + m) = load a off n ++ load a (off + n) m.
Proof.
  unfold load. rewrite <- (take_drop n (take (n + m) (drop off a))).
  f_equal.
  - rewrite take_take. f_equal. lia.
  - rewrite <- take_drop_commute. rewrite drop_drop. reflexivity.
Qed.

Lemma header_flags_set_flags a p v :
  0 <= p -> (Z.to_nat p + 4 <= length a)%nat ->
  header_flags (set_header_flags a p v) p = v mod 2 ^ 32.
Proof.
  intros Hp Hlen. unfold header_flags, set_header_flags.
  rewrite <- (length_le_split 4 v) at 2.
  rewrite load_store_same by (rewrite length_le_split; lia).
  apply le_combine_split.
Qed.

Lemma header_size_set_size a p v :
  0 <= p -> (Z.to_nat p + 16 <= length a)%nat ->
  header_size (set_header_size a p v) p = v mod 2 ^ 64.
Proof.
  intros Hp Hlen. unfold header_size, set_header_size.
  rewrite <- (length_le_split 8 v) at 2.
  rewrite load_store_same by (rewrite length_le_split; lia).
  apply le_combine_split.
Qed.

(** Storing the flags of a header leaves every size field alone that does
    not overlap them, the one of the same header included. *)
Lemma header_size_set_flags a p v q :
  0 <= p -> 0 <= q -> q + 16 <= p \/ p + 4 <= q + 8 ->
  header_size (set_header_flags a p v) q = header_size a q.
Proof.
  intros Hp Hq H. unfold header_size, set_header_flags. f_equal.
  apply load_store_other. rewrite length_le_split. lia.
Qed.

Lemma header_flags_set_flags_other a p v q :
  0 <= p -> 0 <= q -> q + 4 <= p \/ p + 4 <= q ->
  header_flags (set_header_flags a p v) q = header_flags a q.
Proof.
  intros Hp Hq H. unfold header_flags, set_header_flags. f_equal.
  apply load_store_other. rewrite length_le_split. lia.
Qed.

Lemma header_flags_set_size a p v q :
  0 <= p -> 0 <= q -> q + 4 <= p + 8 \/ p + 16 <= q ->
  header_flags (set_header_size a p v) q = header_flags a q.
Proof.
  intros Hp Hq H. unfold header_flags, set_header_size. f_equal.
  apply load_store_other. rewrite length_le_split. lia.
Qed.

Lemma header_flags_range a p : 0 <= header_flags a p < 2 ^ 32.
Proof.
  unfold header_flags.
  pose proof (le_combine_bound (load a (Z.to_nat p) 4)) as H.
  assert (length (load a (Z.to_nat p) 4) <= 4)%nat
    by (unfold load; rewrite length_take; lia).
  assert (2 ^ (8 * Z.of_nat (length (load a (Z.to_nat p) 4))) <= 2 ^ 32)
    by (apply Z.pow_le_mono_r; lia).
  lia.
Qed.

Lemma header_size_range a p : 0 <= header_size a p < 2 ^ 64.
Proof.
  unfold header_size.
  pose proof (le_combine_bound (load a (Z.to_nat (p + 8)) 8)) as H.
  assert (length (load a (Z.to_nat (p + 8)) 8) <= 8)%nat
    by (unfold load; rewrite length_take; lia).
  assert (2 ^ (8 * Z.of_nat (length (load a (Z.to_nat (p + 8)) 8))) <= 2 ^ 64)
    by (apply Z.pow_le_mono_r; lia).
  lia.
Qed.

(** ** Flag tests *)

Lemma tst_testbit f k : 0 <= k -> tst f (2 ^ k) = Z.testbit f k.
Proof.
  intros Hk. unfold tst.
  destruct (Z.testbit f k) eqn:Hb.
  - apply negb_true_iff, Z.eqb_neq. intros H0.
    assert (Z.testbit (Z.land f (2 ^ k)) k = true) as Hc
      by (rewrite Z.land_spec, Hb, Z.pow2_bits_true by lia; reflexivity).
    rewrite H0, Z.bits_0 in Hc. discriminate.
  - apply negb_false_iff, Z.eqb_eq. apply Z.bits_inj'. intros i Hi.
    rewrite Z.land_spec, Z.bits_0.
    destruct (Z.eq_dec i k) as [-> | Hne].
    + rewrite Hb. reflexivity.
    + rewrite (Z.pow2_bits_false k i) by lia. apply andb_false_r.
Qed.

Lemma tst_lor f g k : 0 <= k -> tst (Z.lor f g) (2 ^ k) = tst f (2 ^ k) || tst g (2 ^ k).
Proof. intros Hk. rewrite !tst_testbit by lia. apply Z.lor_spec. Qed.

Lemma tst_land_lnot f g k :
  0 <= k -> tst (Z.land f (Z.lnot g)) (2 ^ k) = tst f (2 ^ k) && negb (tst g (2 ^ k)).
Proof.
  intros Hk. rewrite !tst_testbit by lia.
  rewrite Z.land_spec, Z.lnot_spec by lia. reflexivity.
Qed.

(** ** Position arithmetic *)

(** On arenas of at most [2 ^ 31] bytes [move_pos] is the rule of the
    specification. *)
Lemma move_pos_advance p bsize n :
  0 <= p -> 0 <= n -> p + HDR + n < 2 ^ 64 -> 0 < bsize <= 2 ^ 31 ->
  move_pos p bsize n = advance p bsize n.
Proof.
  intros Hp Hn Hsum Hb. unfold move_pos, advance, HDR in *.
  rewrite (to_size_t_small (16 + p + n)) by lia.
  replace (16 + p + n) with (p + 16 + n) by lia.
  pose proof (Z.mod_pos_bound (p + 16 + n) bsize ltac:(lia)) as Hq.
  rewrite (to_size_t_small ((p + 16 + n) mod bsize + 16)) by lia.
  destruct ((p + 16 + n) mod bsize + 16 >? bsize); apply to_int_small; lia.
Qed.

(** The position [move_pos] returns leaves room for a header. *)
Lemma move_pos_in_arena p bsize n :
  0 <= p -> 0 <= n -> p + HDR + n < 2 ^ 64 -> HDR <= bsize <= 2 ^ 31 ->
  0 <= move_pos p bsize n /\ move_pos p bsize n + HDR <= bsize.
Proof.
  intros Hp Hn Hsum Hb. rewrite move_pos_advance by (unfold HDR in *; lia).
  unfold advance, HDR in *.
  pose proof (Z.mod_pos_bound (p + 16 + n) bsize ltac:(lia)) as Hq.
  destruct ((p + 16 + n) mod bsize + 16 >? bsize) eqn:E; lia.
Qed.

(** The advance of [read_first] written out in [ps_packet_reserve] is the
    rule of the specification, and the bytes given back are the packet,
    its header and the padding at the end of the arena. *)
Lemma reclaim_first_advance a s :
  let n := header_size a (read_first s) in
  let q := (read_first s + HDR + n) mod st_size s in
  0 <= read_first s -> read_first s + HDR + n < 2 ^ 64 ->
  0 < st_size s -> st_size s + HDR <= 2 ^ 64 ->
  read_first (reclaim_first a s) = advance (read_first s) (st_size s) n /\
  free_bytes (reclaim_first a s) =
    to_long (free_bytes s + HDR + n + (if q + HDR >? st_size s then st_size s - q else 0)).
Proof.
  intros n q Hp Hsum Hs Hs'. subst n q. unfold reclaim_first, advance, HDR in *.
  pose proof (header_size_range a (read_first s)) as Hn.
  set (n := header_size a (read_first s)) in *.
  cbn [free_bytes read_first st_size set_free_bytes set_read_first].
  rewrite (to_size_t_small (read_first s + 16 + n)) by lia.
  pose proof (Z.mod_pos_bound (read_first s + 16 + n) (st_size s) ltac:(lia)) as Hq.
  set (q := (read_first s + 16 + n) mod st_size s) in *.
  rewrite (to_size_t_small (q + 16)) by lia.
  destruct (q + 16 >? st_size s) eqn:E; cbn [free_bytes read_first st_size
    set_free_bytes set_read_first]; split; try reflexivity.
  - rewrite !to_long_add_size_t, to_long_add_long. f_equal. lia.
  - rewrite to_long_add_size_t. f_equal. lia.
Qed.

(** ** Reservation: what it leaves alone *)

Ltac frame_auto :=
  unfold reserve_frame, wstate, warena in *; cbn in *; intuition congruence.

Lemma reserve_frame_refl w : reserve_frame w w.
Proof. frame_auto. Qed.

Lemma reserve_frame_trans w1 w2 w3 :
  reserve_frame w1 w2 -> reserve_frame w2 w3 -> reserve_frame w1 w3.
Proof. frame_auto. Qed.

Lemma reserve_frame_reclaim_first w :
  reserve_frame w (on_state (reclaim_first (warena w)) w).
Proof.
  unfold reserve_frame, wstate, warena, reclaim_first. cbn.
  destruct (_ >? _); cbn; intuition congruence.
Qed.

Lemma reserve_reclaim_frame fuel : forall w r w',
  reserve_reclaim fuel w = Returns r w' -> reserve_frame w w'.
Proof.
  induction fuel as [| fuel IH]; intros w r w' H; [discriminate |].
  cbn [reserve_reclaim] in H.
  pose proof (reserve_frame_reclaim_first w) as Hf.
  set (w1 := on_state (reclaim_first (warena w)) w) in *.
  destruct (tst (st_flags (wstate w1)) PS_BUFFER_CANCELLED).
  - injection H as _ <-. eapply reserve_frame_trans; [exact Hf |]. frame_auto.
  - destruct (sem_trywait (read_packets (wstate w1))) as [c |].
    + apply IH in H. eapply reserve_frame_trans; [exact Hf |].
      eapply reserve_frame_trans; [| exact H]. frame_auto.
    + injection H as _ <-. exact Hf.
Qed.

Lemma reserve_acquire_frame w len r w' :
  reserve_acquire w len = Returns r w' -> reserve_frame w w'.
Proof.
  unfold reserve_acquire. intros H.
  destruct (tst (pk_flags (pkt w)) PS_PACKET_TRY).
  - destruct (sem_trywait _); injection H as _ <-; frame_auto.
  - destruct (sem_wait_retry _ _ _) as [[c | |] n]; try discriminate;
      injection H as _ <-; frame_auto.
Qed.

Lemma reserve_loop_frame fuel : forall w len r w',
  reserve_loop fuel w len = Returns r w' -> reserve_frame w w'.
Proof.
  induction fuel as [| fuel IH]; intros w len r w' H; [discriminate |].
  cbn [reserve_loop] in H.
  destruct (free_bytes (wstate w) <? 0).
  - destruct (reserve_acquire w len) as [[c |] w1 | | | |] eqn:Ha; try discriminate.
    + injection H as _ <-. eapply reserve_acquire_frame; eassumption.
    + apply reserve_acquire_frame in Ha.
      destruct (reserve_reclaim fuel w1) as [[c |] w2 | | | |] eqn:Hr; try discriminate.
      * injection H as _ <-. apply reserve_reclaim_frame in Hr.
        eapply reserve_frame_trans; eassumption.
      * apply reserve_reclaim_frame in Hr. apply IH in H.
        eapply reserve_frame_trans; [exact Ha |].
        eapply reserve_frame_trans; eassumption.
  - injection H as _ <-. apply reserve_frame_refl.
Qed.

Lemma ps_packet_reserve_frame fuel w len c w' :
  ps_packet_reserve fuel w len = Returns c w' -> reserve_frame w w'.
Proof.
  unfold ps_packet_reserve. intros H.
  destruct (len <=? reserved (pkt w)).
  - injection H as _ <-. apply reserve_frame_refl.
  - match type of H with context [reserve_loop fuel ?x len] => set (w0 := x) in * end.
    assert (reserve_frame w w0) as H0 by (subst w0; frame_auto).
    destruct (reserve_loop fuel w0 len) as [[r |] w1 | | | |] eqn:Hl; try discriminate;
      injection H as _ <-; apply reserve_loop_frame in Hl.
    + eapply reserve_frame_trans; eassumption.
    + eapply reserve_frame_trans; [exact H0 |].
      eapply reserve_frame_trans; [exact Hl |]. frame_auto.
Qed.

(** The two advances written out in place agree with [move_pos] on arenas
    of at most [2 ^ 31] bytes. *)
Lemma setsize_advance_move_pos wn bsize n :
  0 <= wn -> 0 <= n -> wn + HDR + n < 2 ^ 64 -> 0 < bsize <= 2 ^ 31 ->
  fst (setsize_advance wn bsize n) = move_pos wn bsize n.
Proof.
  intros Hp Hn Hsum Hb. rewrite move_pos_advance by assumption.
  unfold setsize_advance, advance, HDR in *.
  rewrite (to_size_t_small (16 + wn + n)) by lia.
  replace (16 + wn + n) with (wn + 16 + n) by lia.
  pose proof (Z.mod_pos_bound (wn + 16 + n) bsize ltac:(lia)) as Hq.
  rewrite (to_size_t_small ((wn + 16 + n) mod bsize + 16)) by lia.
  destruct (_ >? _); reflexivity.
Qed.

Lemma reclaim_first_move_pos a s :
  0 <= read_first s -> read_first s + HDR + header_size a (read_first s) < 2 ^ 64 ->
  0 < st_size s <= 2 ^ 31 ->
  read_first (reclaim_first a s)
  = move_pos (read_first s) (st_size s) (header_size a (read_first s)).
Proof.
  intros Hp Hsum Hb. pose proof (header_size_range a (read_first s)).
  rewrite move_pos_advance by lia.
  apply reclaim_first_advance; unfold HDR in *; lia.
Qed.

Lemma header_size_big_arena : header_size big_arena 0 = 2 ^ 31 - HDR.
Proof.
  unfold big_arena, arena_4G. rewrite header_size_set_size.
  - reflexivity.
  - lia.
  - rewrite length_replicate. lia.
Qed.

(** C2, at an arena of 4 GiB whose first packet ends at [2 ^ 31]: the rule
    of the specification and both advances written out in place
    ([ps_packet_reserve], [ps_packet_setsize]) give the position [2 ^ 31],
    while [move_pos], whose return type is [int], gives [- 2 ^ 31]; its
    callers store that as the position [2 ^ 64 - 2 ^ 31], outside of the
    arena. *)
Theorem move_pos_truncates_to_int :
  advance 0 (2 ^ 32) (2 ^ 31 - HDR) = 2 ^ 31 /\
  read_first (reclaim_first big_arena big_state) = 2 ^ 31 /\
  fst (setsize_advance 0 (2 ^ 32) (2 ^ 31 - HDR)) = 2 ^ 31 /\
  move_pos 0 (2 ^ 32) (2 ^ 31 - HDR) = - 2 ^ 31 /\
  to_size_t (move_pos 0 (2 ^ 32) (2 ^ 31 - HDR)) = 2 ^ 64 - 2 ^ 31.
Proof.
  split; [reflexivity |]. split; [| repeat split; reflexivity].
  pose proof header_size_big_arena as Hh.
  destruct (reclaim_first_advance big_arena big_state) as [Hrf _].
  - cbn. lia.
  - change (read_first big_state) with 0. rewrite Hh. unfold HDR. lia.
  - cbn. lia.
  - cbn. unfold HDR. lia.
  - rewrite Hrf. change (read_first big_state) with 0. rewrite Hh. reflexivity.
Qed.

(** ** Calls in sequence *)

Lemma andthen_returns {S : Type} (o : outcome S Z) (k : S -> outcome S Z) c s' :
  andthen o k (fun c => c) = Returns c s' ->
  (exists s1, o = Returns 0 s1 /\ k s1 = Returns c s') \/ (o = Returns c s' /\ c <> 0).
Proof.
  destruct o as [c0 s0 | | | |]; cbn; try discriminate.
  destruct (c0 =? 0) eqn:E.
  - apply Z.eqb_eq in E. subst c0. intros H. left. eauto.
  - apply Z.eqb_neq in E. intros H. injection H as <- <-. right. auto.
Qed.

Lemma andthen_returns_0 {S : Type} (o : outcome S Z) (k : S -> outcome S Z) s' :
  andthen o k (fun c => c) = Returns 0 s' ->
  exists s1, o = Returns 0 s1 /\ k s1 = Returns 0 s'.
Proof.
  intros H. apply andthen_returns in H. destruct H as [H | [_ H]]; [exact H | congruence].
Qed.

(** ** [ps_packet_tell] *)

(** A handle that fails the leading check gets the code of the check. *)
Lemma ps_packet_tell_checked w :
  ps_packet_check w <> 0 -> ps_packet_tell w = Returns (ps_packet_check w, None) w.
Proof.
  intros H. unfold ps_packet_tell. apply Z.eqb_neq in H. rewrite H. reflexivity.
Qed.

(** C8, as amended: on an open handle (one that passes [ps_packet_check])
    [ps_packet_tell] returns the cursor converted to [int], which is the
    cursor itself as long as it is at most [INT_MAX]; nothing is stored
    through [pos], and neither the buffer nor the handle changes. *)
Theorem ps_packet_tell_returns_int_cursor w :
  ps_packet_check w = 0 ->
  ps_packet_tell w = Returns (to_int (pk_pos (pkt w)), None) w /\
  (0 <= pk_pos (pkt w) <= INT_MAX -> to_int (pk_pos (pkt w)) = pk_pos (pkt w)).
Proof.
  intros H. split.
  - unfold ps_packet_tell. rewrite H. reflexivity.
  - intros Hr. apply to_int_small. unfold INT_MAX in Hr. lia.
Qed.

Lemma ps_packet_tell_returns_int_cursor_witness :
  ps_packet_check demo_open = 0 /\
  ps_packet_tell demo_open = Returns (0, None) demo_open.
Proof.
  split; [reflexivity |].
  exact (proj1 (ps_packet_tell_returns_int_cursor demo_open eq_refl)).
Defined.

(** C8 as stated fails on a packet larger than 2 GiB: with the cursor at
    [2 ^ 31], inside the payload, the call returns [- 2 ^ 31], which is not
    the cursor. *)
Lemma ps_packet_tell_not_the_cursor :
  ps_packet_check big_world = 0 /\
  pk_pos (pkt big_world) = 2 ^ 31 /\
  pk_pos (pkt big_world) <= header_size (warena big_world) 0 /\
  ps_packet_tell big_world = Returns (- 2 ^ 31, None) big_world /\
  ps_packet_tell big_world <> Returns (pk_pos (pkt big_world), None) big_world.
Proof.
  assert (ps_packet_tell big_world = Returns (- 2 ^ 31, None) big_world) as Ht
    by reflexivity.
  split; [reflexivity |]. split; [reflexivity |]. split; [| split].
  - unfold warena, big_world, arena_4G. cbn [buf buffer pkt pk_pos].
    rewrite header_size_set_size.
    + apply Z.leb_le. reflexivity.
    + lia.
    + rewrite length_replicate. lia.
  - exact Ht.
  - intros H. rewrite Ht in H.
    apply (f_equal (fun o : result (Z * option Z) =>
                      match o with Returns (r, _) _ => r | _ => 0 end)) in H.
    cbv beta iota in H. change (pk_pos (pkt big_world)) with (2 ^ 31) in H. lia.
Qed.

(** ** [ps_buffer_init] *)

Lemma malloc_some al n a :
  malloc al n = Some a ->
  0 <= n <= PTRDIFF_MAX /\ length a = Z.to_nat n.
Proof.
  unfold malloc. intros H.
  destruct ((0 <=? n) && (n <=? PTRDIFF_MAX)) eqn:E; [| discriminate].
  apply andb_true_iff in E. destruct E as [E1 E2].
  apply Z.leb_le in E1, E2. split; [lia |].
  destruct (heap_junk al) as [junk |]; [| discriminate].
  injection H as <-. rewrite length_take, length_app, length_replicate. lia.
Qed.

Lemma memset0_all a n : length a = n -> memset0 a 0 n = replicate n Byte.x00.
Proof.
  intros H. unfold memset0, store.
  rewrite <- (app_nil_r a).
  rewrite list_inserts_0_r by (rewrite length_replicate; congruence).
  apply app_nil_r.
Qed.

(** C10: a successful [ps_buffer_init] of a buffer that is not shared and
    whose attributes do not carry [READY] leaves all five positions at
    zero, [free_bytes] at the size less one header, both semaphores at
    zero, and [READY] set.  It also leaves the four mutexes unlocked, the
    size recorded, and the arena zeroed. *)
Theorem ps_buffer_init_fresh ps_shm al attr b :
  ps_shm && tst (attr_flags attr) PS_BUFFER_PSHARED = false ->
  tst (attr_flags attr) PS_BUFFER_READY = false ->
  ps_buffer_init ps_shm al attr = (0, Some b) ->
  read_pos (state b) = 0 /\ write_pos (state b) = 0 /\ read_next (state b) = 0 /\
  write_next (state b) = 0 /\ read_first (state b) = 0 /\
  free_bytes (state b) = attr_size attr - HDR /\
  read_packets (state b) = 0 /\ written_packets (state b) = 0 /\
  tst (st_flags (state b)) PS_BUFFER_READY = true /\
  st_size (state b) = attr_size attr /\
  read_mutex (state b) = false /\ write_mutex (state b) = false /\
  read_close_mutex (state b) = false /\ write_close_mutex (state b) = false /\
  buffer b = replicate (Z.to_nat (attr_size attr)) Byte.x00.
Proof.
  intros Hshared Hready. unfold ps_buffer_init. rewrite Hshared, Hready.
  destruct (heap_state al) as [st |]; [| discriminate].
  destruct (malloc al (attr_size attr)) as [a |] eqn:Ha; [| discriminate].
  apply malloc_some in Ha. destruct Ha as [Hn Hlen].
  destruct (tst (attr_flags attr) PS_BUFFER_STATS && _); [discriminate |].
  intros H. injection H as <-. cbn.
  repeat split.
  - change (to_size_t (attr_size attr - HDR)) with (0 + to_size_t (attr_size attr - HDR)).
    rewrite to_long_add_size_t. apply to_long_small.
    unfold PTRDIFF_MAX, HDR in *. lia.
  - change PS_BUFFER_READY with (2 ^ 2). rewrite tst_lor by lia.
    apply orb_true_r.
  - apply memset0_all. exact Hlen.
Qed.

Lemma ps_buffer_init_fresh_witness :
  ps_buffer_init false demo_alloc demo_attr = (0, Some demo_buffer) /\
  free_bytes (state demo_buffer) = 48 /\
  tst (st_flags (state demo_buffer)) PS_BUFFER_READY = true.
Proof.
  assert (ps_buffer_init false demo_alloc demo_attr = (0, Some demo_buffer)) as H
    by (vm_compute; reflexivity).
  split; [exact H |].
  pose proof (ps_buffer_init_fresh false demo_alloc demo_attr demo_buffer
                eq_refl eq_refl H) as P.
  split; [apply P | apply P].
Defined.

(** ** [ps_packet_cancel] *)

(** Reading inside a range that was just stored. *)
Lemma load_store_inside a off src off' n :
  (off <= off')%nat -> (off' + n <= off + length src)%nat ->
  (off + length src <= length a)%nat ->
  load (store a off src) off' n = load src (off' - off) n.
Proof.
  intros H1 H2 H3. apply list_eq. intros i. unfold load, store.
  destruct (decide (i < n)%nat) as [Hi | Hi].
  - rewrite !lookup_take_lt, !lookup_drop by lia.
    rewrite list_lookup_inserts by lia. f_equal. lia.
  - rewrite !lookup_take_ge by lia. reflexivity.
Qed.

Lemma load_replicate {A : Type} (x : A) m off n :
  (off + n <= m)%nat -> take n (drop off (replicate m x)) = replicate n x.
Proof.
  intros H. rewrite drop_replicate, take_replicate. f_equal. lia.
Qed.

(** A header that was cleared reads as [{flags = 0, size = 0}]. *)
Lemma header_memset0 a h :
  0 <= h -> (Z.to_nat h + 16 <= length a)%nat ->
  header_flags (memset0 a (Z.to_nat h) (Z.to_nat HDR)) h = 0 /\
  header_size (memset0 a (Z.to_nat h) (Z.to_nat HDR)) h = 0.
Proof.
  intros Hh Hlen. unfold header_flags, header_size, memset0.
  change (Z.to_nat HDR) with 16%nat.
  rewrite !load_store_inside by (rewrite ?length_replicate; lia).
  unfold load. rewrite !load_replicate by lia. split; reflexivity.
Qed.

Lemma ps_packet_fakedma_freeall_all_free w :
  Forall (fun d => free d <> 0) (fake_dma (pkt (ps_packet_fakedma_freeall w))) /\
  map (fun d => (mem d, mem_size d, fd_size d, fd_pos d))
      (fake_dma (pkt (ps_packet_fakedma_freeall w)))
  = map (fun d => (mem d, mem_size d, fd_size d, fd_pos d)) (fake_dma (pkt w)).
Proof.
  unfold ps_packet_fakedma_freeall. cbn. split.
  - apply Forall_forall. intros d Hd. apply list_elem_of_In, in_map_iff in Hd.
    destruct Hd as [d0 [<- _]]. destruct (free d0 =? 0) eqn:E; cbn.
    + lia.
    + apply Z.eqb_neq. exact E.
  - rewrite map_map. apply map_ext. intros d. destruct (free d =? 0); reflexivity.
Qed.



(** ** [ps_packet_reserve]: the codes it returns *)

Lemma reserve_reclaim_codes fuel : forall w c w',
  reserve_reclaim fuel w = Returns (Some c) w' -> c = EINTR.
Proof.
  induction fuel as [| fuel IH]; intros w c w' H; [discriminate |].
  cbn [reserve_reclaim] in H.
  destruct (tst _ _); [congruence |].
  destruct (sem_trywait _); [eauto | discriminate].
Qed.

Lemma reserve_acquire_codes w len c w' :
  reserve_acquire w len = Returns (Some c) w' -> c = EBUSY \/ c = EINVAL.
Proof.
  unfold reserve_acquire. intros H. destruct (tst _ _).
  - destruct (sem_trywait _); [discriminate |]. left. congruence.
  - destruct (sem_wait_retry _ _ _) as [[c2 | |] n]; try discriminate.
    right. congruence.
Qed.

Lemma reserve_loop_codes fuel : forall w len c w',
  reserve_loop fuel w len = Returns (Some c) w' -> c = EBUSY \/ c = EINVAL \/ c = EINTR.
Proof.
  induction fuel as [| fuel IH]; intros w len c w' H; [discriminate |].
  cbn [reserve_loop] in H.
  destruct (free_bytes (wstate w) <? 0); [| discriminate].
  destruct (reserve_acquire w len) as [[c1 |] w1 | | | |] eqn:Ha; try discriminate.
  - assert (c1 = c) as -> by congruence.
    apply reserve_acquire_codes in Ha. tauto.
  - destruct (reserve_reclaim fuel w1) as [[c2 |] w2 | | | |] eqn:Hr; try discriminate.
    + assert (c2 = c) as -> by congruence.
      apply reserve_reclaim_codes in Hr. tauto.
    + eapply IH. exact H.
Qed.

Lemma ps_packet_reserve_codes fuel w len c w' :
  ps_packet_reserve fuel w len = Returns c w' ->
  c = 0 \/ c = EBUSY \/ c = EINVAL \/ c = EINTR.
Proof.
  unfold ps_packet_reserve. intros H.
  destruct (len <=? reserved (pkt w)); [left; congruence |].
  destruct (reserve_loop _ _ _) as [[c1 |] w1 | | | |] eqn:Hl; try discriminate.
  - assert (c1 = c) as -> by congruence.
    right. eapply reserve_loop_codes. exact Hl.
  - left. congruence.
Qed.

(** ** [ps_packet_setsize] *)

(** What the source does for handles that pass the leading check: the
    state test comes first, then the capacity test on the sum as C computes
    it, and both return without a change to the store. *)
Lemma ps_packet_setsize_contract fuel w n :
  ps_packet_check w = 0 ->
  (tst (pk_flags (pkt w)) PS_PACKET_WRITE && negb (tst (pk_flags (pkt w)) PS_PACKET_SIZE_SET)
   = false -> ps_packet_setsize fuel w n = Returns EINVAL w) /\
  (tst (pk_flags (pkt w)) PS_PACKET_WRITE && negb (tst (pk_flags (pkt w)) PS_PACKET_SIZE_SET)
   = true ->
   (to_size_t (n + 2 * HDR) > st_size (wstate w) ->
    ps_packet_setsize fuel w n = Returns ENOBUFS w) /\
   (forall w', ps_packet_setsize fuel w n = Returns ENOBUFS w' ->
    to_size_t (n + 2 * HDR) > st_size (wstate w) /\ w' = w)).
Proof.
  intros Hc. unfold ps_packet_setsize. rewrite Hc. cbn [Z.eqb negb].
  split; intros Hf.
  - destruct (tst (pk_flags (pkt w)) PS_PACKET_WRITE); cbn in *; [| reflexivity].
    destruct (tst (pk_flags (pkt w)) PS_PACKET_SIZE_SET); [reflexivity | discriminate].
  - apply andb_true_iff in Hf. destruct Hf as [Hw Hs].
    apply negb_true_iff in Hs. rewrite Hw, Hs. cbn [negb orb].
    change (to_size_t (HDR * 2)) with (2 * HDR).
    destruct (to_size_t (n + 2 * HDR) >? st_size (wstate w)) eqn:E.
    + split; [reflexivity |]. intros w' H. split; [| congruence].
      apply Z.gtb_lt in E. lia.
    + split; [intros Hgt; rewrite Z.gtb_ltb in E; apply Z.ltb_ge in E; lia |].
      intros w' H. exfalso.
      apply andthen_returns in H. destruct H as [(w1 & H1 & H) | [H _]].
      * destruct (setsize_advance _ _ _) as [wn res].
        apply andthen_returns in H. destruct H as [(w3 & H3 & H) | [H _]].
        -- destruct (header (pkt _)); discriminate.
        -- apply ps_packet_reserve_codes in H.
           unfold ENOBUFS, EBUSY, EINVAL, EINTR in H. lia.
      * apply ps_packet_reserve_codes in H.
        unfold ENOBUFS, EBUSY, EINVAL, EINTR in H. lia.
Qed.

(** Where the sum does not wrap, the capacity test is the one of the
    specification: [ENOBUFS] exactly when [n + 2 * HDR] exceeds the arena,
    so that [n + 2 * HDR = st_size] passes. *)
Lemma ps_packet_setsize_capacity fuel w n :
  ps_packet_check w = 0 ->
  tst (pk_flags (pkt w)) PS_PACKET_WRITE && negb (tst (pk_flags (pkt w)) PS_PACKET_SIZE_SET)
  = true ->
  0 <= n -> n + 2 * HDR < 2 ^ 64 ->
  (n + 2 * HDR > st_size (wstate w) <-> ps_packet_setsize fuel w n = Returns ENOBUFS w) /\
  (n + 2 * HDR = st_size (wstate w) -> ret_code (ps_packet_setsize fuel w n) <> Some ENOBUFS).
Proof.
  intros Hc Hf Hn Hsum.
  destruct (proj2 (ps_packet_setsize_contract fuel w n Hc) Hf) as [H1 H2].
  rewrite to_size_t_small in H1, H2 by (unfold HDR in *; lia).
  split; [split |].
  - exact H1.
  - intros H. apply H2 in H. tauto.
  - intros Heq Hr.
    assert (forall w', ps_packet_setsize fuel w n <> Returns ENOBUFS w') as Hno
      by (intros w' H; apply H2 in H; lia).
    destruct (ps_packet_setsize fuel w n) as [c w' | | | |]; try discriminate.
    cbn in Hr. apply (Hno w'). congruence.
Qed.

(** C4, at the size [2 ^ 64 - 1] on a fresh 64-byte arena: the handle is an
    open write packet whose size is not set and [n + 2 * HDR] exceeds the
    arena, yet the sum wraps to 31 in [size_t], the capacity test passes
    and the call returns 0.  It leaves [write_next] at 15, inside the
    packet's own header, whose size field reads [2 ^ 56 - 1] once the slot
    at 15 has been cleared. *)
Theorem ps_packet_setsize_capacity_wraps :
  ps_packet_check demo_open = 0 /\
  tst (pk_flags (pkt demo_open)) PS_PACKET_WRITE
    && negb (tst (pk_flags (pkt demo_open)) PS_PACKET_SIZE_SET) = true /\
  (2 ^ 64 - 1) + 2 * HDR > st_size (wstate demo_open) /\
  to_size_t ((2 ^ 64 - 1) + 2 * HDR) = 31 /\
  ret_code (ps_packet_setsize 4 demo_open (2 ^ 64 - 1)) = Some 0 /\
  write_next (wstate (returned (ps_packet_setsize 4 demo_open (2 ^ 64 - 1)) demo_open)) = 15 /\
  header_size (warena (returned (ps_packet_setsize 4 demo_open (2 ^ 64 - 1)) demo_open)) 0
  = 2 ^ 56 - 1.
Proof. repeat split; vm_compute; reflexivity. Qed.

(** ** [ps_packet_seek] *)

(** What the source does for handles that pass the leading check.  A
    packet whose size is frozen, or a read packet, cannot seek past
    [header.size]; a write packet whose size is not frozen is refused with
    [EINVAL] when [pos] plus one header exceeds the arena, and otherwise
    [pos] bytes are reserved before the cursor moves. *)
Lemma ps_packet_seek_bounds fuel w pos h :
  ps_packet_check w = 0 -> header (pkt w) = Some h ->
  (tst (pk_flags (pkt w)) PS_PACKET_SIZE_SET || tst (pk_flags (pkt w)) PS_PACKET_READ = true ->
   pos > header_size (warena w) h -> ps_packet_seek fuel w pos = Returns EINVAL w) /\
  (tst (pk_flags (pkt w)) PS_PACKET_SIZE_SET || tst (pk_flags (pkt w)) PS_PACKET_READ = false ->
   (to_size_t (pos + HDR) > st_size (wstate w) -> ps_packet_seek fuel w pos = Returns EINVAL w) /\
   (to_size_t (pos + HDR) <= st_size (wstate w) ->
    forall w', ps_packet_seek fuel w pos = Returns 0 w' ->
    exists w1, ps_packet_reserve fuel w pos = Returns 0 w1 /\
               pk_pos (pkt w') = pos /\ reserved (pkt w') = reserved (pkt w1))).
Proof.
  intros Hc Hh. unfold ps_packet_seek. rewrite Hc, Hh. cbn [Z.eqb negb].
  split; intros Hf; rewrite Hf.
  - intros Hgt. apply Z.gt_lt, Z.gtb_lt in Hgt. rewrite Hgt. reflexivity.
  - apply orb_false_iff in Hf. destruct Hf as [Hs Hr].
    pose proof Hc as Hc'. unfold ps_packet_check in Hc'.
    rewrite Hr in Hc'. cbn [orb] in Hc'.
    destruct (tst (pk_flags (pkt w)) PS_PACKET_WRITE) eqn:Hw; [| discriminate].
    rewrite Hs. cbn [negb andb andthen Z.eqb].
    split.
    + intros Hgt. apply Z.gt_lt, Z.gtb_lt in Hgt. rewrite Hgt. reflexivity.
    + intros Hle w' H.
      assert ((to_size_t (pos + HDR) >? st_size (wstate w)) = false) as E
        by (rewrite Z.gtb_ltb; apply Z.ltb_ge; lia).
      rewrite E in H.
      apply andthen_returns_0 in H. destruct H as (w1 & H1 & H).
      exists w1. split; [exact H1 |].
      apply ps_packet_reserve_frame in H1.
      destruct H1 as (_ & _ & _ & _ & _ & _ & _ & _ & _ & _ & _ & _ & _ & Hfl & Hhd & _).
      cbn [on_pkt pkt set_pk_pos pk_flags] in H. rewrite Hfl, Hs, Hw in H.
      cbn [negb andb] in H. unfold grow_size in H.
      cbn [on_pkt pkt set_pk_pos header] in H. rewrite Hhd, Hh in H.
      destruct (_ >? _); injection H as <-; split; reflexivity.
Qed.

(** C6, on a fresh 64-byte arena with a write packet whose size is not
    frozen: a seek to 40 succeeds although [40 + 2 * HDR] exceeds the
    arena, while [ps_packet_write] refuses a write of no bytes at that
    cursor with [ENOBUFS], and the close of the packet fails with
    [ENOBUFS] too; a seek to 50 is refused, with [EINVAL] and not with
    [ENOBUFS]. *)
Theorem ps_packet_seek_bound_differs_from_write :
  ps_packet_check demo_open = 0 /\
  tst (pk_flags (pkt demo_open)) PS_PACKET_WRITE
    && negb (tst (pk_flags (pkt demo_open)) PS_PACKET_SIZE_SET) = true /\
  st_size (wstate demo_open) = 64 /\
  ps_packet_seek 4 demo_open 40 = Returns 0 demo_seek40 /\
  pk_pos (pkt demo_seek40) = 40 /\
  ps_packet_write 4 demo_seek40 [] 0 = Returns ENOBUFS demo_seek40 /\
  ret_code (ps_packet_close 4 demo_seek40) = Some ENOBUFS /\
  ps_packet_seek 4 demo_open 50 = Returns EINVAL demo_open.
Proof. repeat split; vm_compute; reflexivity. Qed.

(** ** Payload copies *)

Section Copies.
Variables (a : list byte) (bsize offs : Z).
Hypothesis Hlen : Z.of_nat (length a) = bsize.
Hypothesis Hmax : bsize <= PTRDIFF_MAX.
Hypothesis Hoffs : 0 <= offs < bsize.

(** What [ps_packet_write] copies in, [ps_packet_read] copies out, also
    when the span is split at the end of the arena. *)
Lemma copy_out_copy_in src :
  Z.of_nat (length src) <= bsize ->
  copy_out (copy_in a bsize offs src (Z.of_nat (length src))) bsize offs
           (Z.of_nat (length src)) = src.
Proof using Hlen Hmax Hoffs.
  intros Hn. unfold copy_out, copy_in, PTRDIFF_MAX in *.
  set (n := Z.of_nat (length src)) in *.
  rewrite (to_size_t_small (offs + n)) by lia.
  destruct (offs + n >? bsize) eqn:E.
  - apply Z.gtb_lt in E.
    rewrite (to_size_t_small (bsize - offs)) by lia.
    rewrite (to_size_t_small (n - (bsize - offs))) by lia.
    replace (n - (n - (bsize - offs))) with (bsize - offs) by lia.
    rewrite (to_size_t_small (bsize - offs)) by lia.
    set (n1 := Z.to_nat (bsize - offs)).
    set (rl := Z.to_nat (n - (bsize - offs))).
    assert (length src = (n1 + rl)%nat) as Hsrc by lia.
    assert (length (take n1 src) = n1) as L1 by (rewrite length_take; lia).
    assert (length (take rl (drop n1 src)) = rl) as L2
      by (rewrite length_take, length_drop; lia).
    transitivity (take n1 src ++ drop n1 src); [| apply take_drop]. f_equal.
    + rewrite load_store_other by lia.
      rewrite <- L1 at 2. rewrite load_store_same by lia. reflexivity.
    + rewrite <- L2 at 2. rewrite load_store_same by (rewrite length_store; lia).
      apply take_ge. rewrite length_drop. lia.
  - rewrite Z.gtb_ltb in E. apply Z.ltb_ge in E.
    replace (Z.to_nat n) with (length src) by lia.
    rewrite firstn_all. apply load_store_same. lia.
Qed.

(** [ps_packet_write] changes no byte outside of the span it writes. *)
Lemma load_copy_in_other src x m :
  0 <= x -> 0 <= m ->
  Z.of_nat (length src) <= bsize ->
  off_ring bsize offs (Z.of_nat (length src)) x m ->
  load (copy_in a bsize offs src (Z.of_nat (length src))) (Z.to_nat x) (Z.to_nat m)
  = load a (Z.to_nat x) (Z.to_nat m).
Proof using Hlen Hmax Hoffs.
  intros Hx Hm Hn. unfold off_ring, copy_in, PTRDIFF_MAX in *.
  set (n := Z.of_nat (length src)) in *.
  rewrite (to_size_t_small (offs + n)) by lia.
  destruct (offs + n >? bsize) eqn:E.
  - apply Z.gtb_lt in E. intros [H1 H2].
    rewrite (to_size_t_small (bsize - offs)) by lia.
    rewrite (to_size_t_small (n - (bsize - offs))) by lia.
    rewrite !load_store_other; [reflexivity | |].
    + rewrite length_take. lia.
    + rewrite length_take, length_drop. lia.
  - intros H. apply load_store_other. rewrite length_take. lia.
Qed.

Lemma length_copy_in src n : length (copy_in a bsize offs src n) = length a.
Proof. unfold copy_in. destruct (_ >? _); rewrite ?length_store; reflexivity. Qed.

End Copies.

(** The header of a packet lies outside of every span of its payload, as
    long as payload and header together fit into the arena. *)
Lemma header_off_payload bsize h pos n :
  0 <= h -> h + HDR <= bsize -> bsize <= PTRDIFF_MAX ->
  0 <= pos -> 0 <= n -> pos + n + HDR <= bsize ->
  let offs := to_size_t (h + HDR + pos) mod bsize in
  0 <= offs < bsize /\ off_ring bsize offs n h HDR.
Proof.
  intros Hh Hfit Hmax Hpos Hn Hspan offs. subst offs.
  unfold off_ring, HDR, PTRDIFF_MAX in *.
  rewrite to_size_t_small by lia.
  destruct (Z_lt_dec (h + 16 + pos) bsize) as [Hlt | Hge].
  - rewrite Z.mod_small by lia. split; [lia |].
    destruct (h + 16 + pos + n >? bsize) eqn:E.
    + apply Z.gtb_lt in E. lia.
    + lia.
  - replace (h + 16 + pos) with (h + 16 + pos - bsize + 1 * bsize) by lia.
    rewrite Z.mod_add by lia. rewrite Z.mod_small by lia. split; [lia |].
    destruct (h + 16 + pos - bsize + n >? bsize) eqn:E.
    + apply Z.gtb_lt in E. lia.
    + lia.
Qed.

Lemma off_ring_sub bsize offs n x m x' m' :
  x <= x' -> x' + m' <= x + m -> off_ring bsize offs n x m -> off_ring bsize offs n x' m'.
Proof. unfold off_ring. destruct (_ >? _); lia. Qed.

(** ** [ps_packet_write] and [ps_packet_read] *)


Lemma ps_buffer_check_flags b b' :
  st_flags (state b') = st_flags (state b) -> ps_buffer_check b' = ps_buffer_check b.
Proof. intros H. unfold ps_buffer_check. rewrite H. reflexivity. Qed.





(** ** [ps_packet_reserve] under [PS_PACKET_TRY] *)

Lemma set_read_packets_same s : set_read_packets (read_packets s) s = s.
Proof. destruct s; reflexivity. Qed.

Lemma set_read_packets_twice x y s :
  set_read_packets x (set_read_packets y s) = set_read_packets x s.
Proof. reflexivity. Qed.

Lemma reclaim_first_set_read_packets a x s :
  reclaim_first a (set_read_packets x s) = set_read_packets x (reclaim_first a s).
Proof. unfold reclaim_first. cbn. destruct (_ >? _); reflexivity. Qed.

Lemma reclaim_n_set_read_packets k a x : forall s,
  reclaim_n k a (set_read_packets x s) = set_read_packets x (reclaim_n k a s).
Proof.
  induction k as [| k IH]; intros s; cbn; [reflexivity |].
  rewrite reclaim_first_set_read_packets. apply IH.
Qed.

Lemma reclaim_first_keeps a s :
  read_packets (reclaim_first a s) = read_packets s /\
  st_flags (reclaim_first a s) = st_flags s.
Proof. unfold reclaim_first. cbn. destruct (_ >? _); split; reflexivity. Qed.

Lemma reclaim_n_keeps k a : forall s,
  read_packets (reclaim_n k a s) = read_packets s /\
  st_flags (reclaim_n k a s) = st_flags s.
Proof.
  induction k as [| k IH]; intros s; cbn; [split; reflexivity |].
  destruct (IH (reclaim_first a s)) as [H1 H2].
  destruct (reclaim_first_keeps a s) as [H3 H4]. split; congruence.
Qed.

(** Reclaiming commutes with a change of [free_bytes] by a fixed amount:
    the bytes given back do not depend on [free_bytes]. *)
Lemma reclaim_first_shift a s x :
  reclaim_first a (set_free_bytes (to_long (free_bytes s + x)) s)
  = set_free_bytes (to_long (free_bytes (reclaim_first a s) + x)) (reclaim_first a s).
Proof.
  unfold reclaim_first.
  cbn [free_bytes read_first st_size set_free_bytes set_read_first].
  generalize (header_size a (read_first s)). intros hs.
  generalize (to_size_t (read_first s + HDR + hs) mod st_size s). intros q.
  destruct (_ >? _); unfold set_read_first, set_free_bytes; cbn; f_equal; wrap_lia.
Qed.

Lemma reclaim_n_shift k a x : forall s,
  reclaim_n k a (set_free_bytes (to_long (free_bytes s + x)) s)
  = set_free_bytes (to_long (free_bytes (reclaim_n k a s) + x)) (reclaim_n k a s).
Proof.
  induction k as [| k IH]; intros s; cbn; [reflexivity |].
  rewrite reclaim_first_shift. apply IH.
Qed.

Lemma free_bytes_reclaim_first_range a s :
  - 2 ^ 63 <= free_bytes (reclaim_first a s) < 2 ^ 63.
Proof. unfold reclaim_first. cbn. destruct (_ >? _); cbn; apply to_long_range. Qed.

Lemma free_bytes_reclaim_n_range k a : forall s,
  - 2 ^ 63 <= free_bytes s < 2 ^ 63 -> - 2 ^ 63 <= free_bytes (reclaim_n k a s) < 2 ^ 63.
Proof.
  induction k as [| k IH]; intros s Hs; cbn; [exact Hs |].
  apply IH. apply free_bytes_reclaim_first_range.
Qed.

Lemma on_state_ext f g w : f (wstate w) = g (wstate w) -> on_state f w = on_state g w.
Proof. intros H. unfold on_state, wstate in *. rewrite H. reflexivity. Qed.

Lemma on_state_on_state f g w : on_state f (on_state g w) = on_state (fun s => f (g s)) w.
Proof. reflexivity. Qed.

Lemma wstate_on_state f w : wstate (on_state f w) = f (wstate w).
Proof. reflexivity. Qed.

Lemma warena_on_state f w : warena (on_state f w) = warena w.
Proof. reflexivity. Qed.

Lemma reclaim_n_S k a s : reclaim_n (S k) a s = reclaim_n k a (reclaim_first a s).
Proof. reflexivity. Qed.

Lemma reclaim_n_0 a s : reclaim_n 0 a s = s.
Proof. reflexivity. Qed.

(** With no cancellation pending the [do ... while] loop reclaims one
    packet for the token taken before it and one for each token left. *)
Lemma reserve_reclaim_drains fuel : forall w,
  cancelled w = false -> 0 <= read_packets (wstate w) ->
  (Z.to_nat (read_packets (wstate w)) < fuel)%nat ->
  reserve_reclaim fuel w
  = Returns None
      (on_state (fun s => set_read_packets 0
                   (reclaim_n (S (Z.to_nat (read_packets s))) (warena w) s)) w).
Proof.
  induction fuel as [| fuel IH]; intros w Hnc Hc Hfuel; [lia |].
  cbn [reserve_reclaim].
  destruct (reclaim_first_keeps (warena w) (wstate w)) as [Hrp Hfl].
  unfold cancelled in *.
  rewrite !wstate_on_state, Hfl, Hnc, Hrp.
  unfold sem_trywait. destruct (0 <? read_packets (wstate w)) eqn:E.
  - apply Z.ltb_lt in E. rewrite IH.
    + f_equal. rewrite !on_state_on_state. apply on_state_ext. cbv beta.
      rewrite !warena_on_state.
      cbn [read_packets set_read_packets].
      replace (Z.to_nat (read_packets (wstate w)))
        with (S (Z.to_nat (read_packets (wstate w) - 1))) by lia.
      rewrite !reclaim_n_S. rewrite !reclaim_first_set_read_packets.
      rewrite !reclaim_n_set_read_packets. apply set_read_packets_twice.
    + rewrite !wstate_on_state. cbn [st_flags set_read_packets]. rewrite Hfl. exact Hnc.
    + rewrite !wstate_on_state. cbn [read_packets set_read_packets]. lia.
    + rewrite !wstate_on_state. cbn [read_packets set_read_packets]. lia.
  - apply Z.ltb_ge in E. assert (read_packets (wstate w) = 0) as H0 by lia.
    f_equal. apply on_state_ext.
    rewrite H0. change (Z.to_nat 0) with 0%nat. rewrite reclaim_n_S, reclaim_n_0.
    rewrite <- (set_read_packets_same (reclaim_first (warena w) (wstate w))) at 1.
    rewrite Hrp, H0. reflexivity.
Qed.

Lemma pkt_on_state f w : pkt (on_state f w) = pkt w.
Proof. reflexivity. Qed.

Lemma reserve_loop_S fuel w len :
  reserve_loop (S fuel) w len
  = if free_bytes (wstate w) <? 0 then
      match reserve_acquire w len with
      | Returns None w1 =>
          match reserve_reclaim fuel w1 with
          | Returns None w2 => reserve_loop fuel w2 len
          | o => o
          end
      | o => o
      end
    else Returns None w.
Proof. reflexivity. Qed.

(** The failing [sem_trywait]: the deduction is added back and [EBUSY] is
    returned. *)
Lemma reserve_acquire_try_fails w len :
  tst (pk_flags (pkt w)) PS_PACKET_TRY = true -> read_packets (wstate w) <= 0 ->
  reserve_acquire w len = Returns (Some EBUSY) (refund len w).
Proof.
  intros Ht Hc. unfold reserve_acquire, sem_trywait. rewrite Ht.
  assert ((0 <? read_packets (wstate w)) = false) as -> by (apply Z.ltb_ge; exact Hc).
  reflexivity.
Qed.

Lemma reserve_acquire_try_takes w len :
  tst (pk_flags (pkt w)) PS_PACKET_TRY = true -> 0 < read_packets (wstate w) ->
  reserve_acquire w len
  = Returns None (on_state (set_read_packets (read_packets (wstate w) - 1)) w).
Proof.
  intros Ht Hc. unfold reserve_acquire, sem_trywait. rewrite Ht.
  assert ((0 <? read_packets (wstate w)) = true) as -> by (apply Z.ltb_lt; exact Hc).
  reflexivity.
Qed.

(** Once the deduction is added back, [free_bytes] is what the reclaimed
    packets alone make it. *)
Lemma refund_restores r d x :
  - 2 ^ 63 <= free_bytes r < 2 ^ 63 ->
  set_free_bytes (to_long (free_bytes (set_read_packets x
                     (set_free_bytes (to_long (free_bytes r + - d)) r)) + d))
    (set_read_packets x (set_free_bytes (to_long (free_bytes r + - d)) r))
  = set_read_packets x r.
Proof.
  intros Hr. destruct r. unfold set_free_bytes, set_read_packets. cbn in *. f_equal. wrap_lia.
Qed.

Lemma refund_restores_0 s d :
  - 2 ^ 63 <= free_bytes s < 2 ^ 63 -> read_packets s = 0 ->
  set_free_bytes
    (to_long (free_bytes (set_free_bytes (to_long (free_bytes s - d)) s) + d))
    (set_free_bytes (to_long (free_bytes s - d)) s)
  = set_read_packets 0 s.
Proof.
  intros Hr H0. destruct s. unfold set_free_bytes, set_read_packets. cbn in *.
  subst. f_equal. wrap_lia.
Qed.

(** C5: a write packet opened with [PS_PACKET_TRY] asks for [len] bytes,
    more than it has reserved.  [free_bytes] does not cover the difference,
    and it does not either once the [k] packets that readers have released
    are reclaimed, so that the non-blocking wait on [read_packets] fails
    (no cancellation is pending, or no token is there to begin with).  The
    call returns [EBUSY]; the handle, [reserved] included, is as it was;
    the buffer is as it was except that the [k] packets are reclaimed:
    [read_first] is past them and [free_bytes] has grown by what they
    held, the deduction being added back in full. *)
Theorem ps_packet_reserve_try_busy fuel w len :
  let d := to_size_t (len - reserved (pkt w)) in
  let k := Z.to_nat (read_packets (wstate w)) in
  tst (pk_flags (pkt w)) PS_PACKET_TRY = true ->
  reserved (pkt w) < len ->
  - 2 ^ 63 <= free_bytes (wstate w) < 2 ^ 63 ->
  0 <= read_packets (wstate w) ->
  cancelled w = false \/ read_packets (wstate w) = 0 ->
  to_long (free_bytes (wstate w) - d) < 0 ->
  to_long (free_bytes (reclaim_n k (warena w) (wstate w)) - d) < 0 ->
  (k + 2 <= fuel)%nat ->
  ps_packet_reserve fuel w len
  = Returns EBUSY
      (on_state (fun s => set_read_packets 0 (reclaim_n k (warena w) s)) w).
Proof.
  intros d k Ht Hlen Hfb Hc Hnc Hd Hk Hfuel.
  unfold ps_packet_reserve.
  assert ((len <=? reserved (pkt w)) = false) as -> by (apply Z.leb_gt; exact Hlen).
  fold d.
  set (w0 := on_state (fun s => set_free_bytes (to_long (free_bytes s - d)) s) w).
  assert (free_bytes (wstate w0) = to_long (free_bytes (wstate w) - d)) as Hfb0
    by reflexivity.
  assert (refund len w0
          = on_state (fun s => set_free_bytes (to_long (free_bytes s + d)) s) w0) as Hrefund
    by reflexivity.
  assert (reserve_loop fuel w0 len
          = Returns (Some EBUSY)
              (on_state (fun s => set_read_packets 0 (reclaim_n k (warena w) s)) w)) as ->;
    [| reflexivity].
  destruct fuel as [| fuel]; [lia |].
  rewrite reserve_loop_S, Hfb0.
  assert ((to_long (free_bytes (wstate w) - d) <? 0) = true) as -> by (apply Z.ltb_lt; exact Hd).
  destruct (Z.eq_dec (read_packets (wstate w)) 0) as [H0 | Hpos].
  - (* no token: the first wait fails *)
    rewrite reserve_acquire_try_fails; [| exact Ht | subst w0; rewrite wstate_on_state;
      cbn [read_packets set_free_bytes]; lia].
    f_equal. rewrite Hrefund. subst w0. rewrite on_state_on_state. apply on_state_ext.
    subst k. rewrite H0. change (Z.to_nat 0) with 0%nat. rewrite reclaim_n_0.
    apply refund_restores_0; assumption.
  - (* [k] tokens: all are taken, and the wait after them fails *)
    destruct Hnc as [Hnc | Hnc]; [| contradiction].
    rewrite reserve_acquire_try_takes;
      [| exact Ht | subst w0; rewrite wstate_on_state; cbn [read_packets set_free_bytes]; lia].
    assert (read_packets (wstate w0) = read_packets (wstate w)) as Hrp0 by reflexivity.
    rewrite Hrp0.
    set (w1 := on_state (set_read_packets (read_packets (wstate w) - 1)) w0).
    assert (read_packets (wstate w1) = read_packets (wstate w) - 1) as Hrp1 by reflexivity.
    rewrite reserve_reclaim_drains;
      [| exact Hnc | rewrite Hrp1; lia | rewrite Hrp1; lia ].
    (* the state the second turn of the loop starts from *)
    set (R := reclaim_n k (warena w) (wstate w)) in *.
    assert (on_state (fun s => set_read_packets 0
                       (reclaim_n (S (Z.to_nat (read_packets s))) (warena w1) s)) w1
            = on_state (fun _ => set_read_packets 0
                                   (set_free_bytes (to_long (free_bytes R + - d)) R)) w) as ->.
    { transitivity (on_state (fun s => set_read_packets 0 (reclaim_n k (warena w1) s)) w1).
      { apply on_state_ext. cbv beta. rewrite Hrp1.
        replace (S (Z.to_nat (read_packets (wstate w) - 1))) with k by lia. reflexivity. }
      subst w1 w0. rewrite !on_state_on_state. apply on_state_ext.
      rewrite !warena_on_state.
      rewrite reclaim_n_set_read_packets, set_read_packets_twice.
      replace (free_bytes (wstate w) - d) with (free_bytes (wstate w) + - d) by lia.
      rewrite reclaim_n_shift. reflexivity. }
    destruct fuel as [| fuel]; [lia |].
    rewrite reserve_loop_S, wstate_on_state.
    cbn [free_bytes set_read_packets set_free_bytes].
    replace (free_bytes R + - d) with (free_bytes R - d) by lia.
    assert ((to_long (free_bytes R - d) <? 0) = true) as -> by (apply Z.ltb_lt; exact Hk).
    rewrite reserve_acquire_try_fails;
      [| exact Ht | rewrite wstate_on_state; cbn [read_packets set_read_packets]; lia].
    f_equal. unfold refund. rewrite pkt_on_state. fold d.
    rewrite on_state_on_state. apply on_state_ext.
    replace (free_bytes R - d) with (free_bytes R + - d) by lia.
    apply refund_restores. subst R. apply free_bytes_reclaim_n_range. exact Hfb.
Qed.

Lemma ps_packet_reserve_try_busy_witness :
  free_bytes (wstate demo_try) = 0 /\ read_packets (wstate demo_try) = 1 /\
  read_first (wstate demo_try) = 0 /\ reserved (pkt demo_try) = 0 /\
  exists w',
    ps_packet_reserve 3 demo_try 30 = Returns EBUSY w' /\
    pkt w' = pkt demo_try /\
    free_bytes (wstate w') = 24 /\ read_first (wstate w') = 24 /\
    read_packets (wstate w') = 0.
Proof.
  repeat (split; [reflexivity |]).
  eexists. split.
  - apply (ps_packet_reserve_try_busy 3 demo_try 30).
    + reflexivity.
    + reflexivity.
    + split; [apply Z.leb_le | apply Z.ltb_lt]; reflexivity.
    + apply Z.leb_le. reflexivity.
    + left. reflexivity.
    + apply Z.ltb_lt. vm_compute. reflexivity.
    + apply Z.ltb_lt. vm_compute. reflexivity.
    + vm_compute. repeat constructor.
  - repeat split; vm_compute; reflexivity.
Defined.

(** ** [ps_buffer_drain] *)

Lemma drain_loop_0 fuel b res :
  written_packets (state b) <= 0 -> drain_loop (S fuel) b res = Returns res b.
Proof.
  intros H. cbn [drain_loop]. unfold sem_trywait.
  assert ((0 <? written_packets (state b)) = false) as -> by (apply Z.ltb_ge; exact H).
  reflexivity.
Qed.

(** One turn of the loop of the source, in closed form. *)
Lemma drain_loop_step fuel b res :
  0 < written_packets (state b) -> read_packets (state b) < SEM_VALUE_MAX ->
  drain_loop (S fuel) b res
  = drain_loop fuel (fst (drain_step b)) (if snd (drain_step b) then res + 1 else res).
Proof.
  intros Hw Hr. cbn [drain_loop]. unfold sem_trywait.
  assert ((0 <? written_packets (state b)) = true) as -> by (apply Z.ltb_lt; exact Hw).
  unfold drain_step. cbn [fst snd state buffer set_state set_buffer set_written_packets
    set_read_next read_next read_pos st_size read_packets].
  destruct (read_pos (state b) =? read_next (state b)); [| reflexivity].
  unfold sem_post.
  assert ((read_packets (state b) <? SEM_VALUE_MAX) = true) as -> by (apply Z.ltb_lt; exact Hr).
  reflexivity.
Qed.

Lemma drain_step_counts b :
  written_packets (state (fst (drain_step b))) = written_packets (state b) - 1 /\
  read_packets (state (fst (drain_step b)))
  = read_packets (state b) + (if snd (drain_step b) then 1 else 0) /\
  read_mutex (state (fst (drain_step b))) = read_mutex (state b) /\
  read_close_mutex (state (fst (drain_step b))) = read_close_mutex (state b) /\
  (read_pos (state b) = read_next (state b) ->
   snd (drain_step b) = true /\
   read_pos (state (fst (drain_step b))) = read_next (state (fst (drain_step b)))).
Proof.
  unfold drain_step. cbn [fst snd state].
  destruct (read_pos (state b) =? read_next (state b)) eqn:E; cbn.
  - repeat split; lia.
  - apply Z.eqb_neq in E. repeat split; try lia; contradiction.
Qed.

Lemma drain_spec_S n b :
  drain_spec (S n) b
  = (fst (drain_spec n (fst (drain_step b))),
     if snd (drain_step b)
     then snd (drain_spec n (fst (drain_step b))) + 1
     else snd (drain_spec n (fst (drain_step b)))).
Proof.
  cbn [drain_spec]. destruct (drain_step b) as [b1 c]. cbn [fst snd].
  destruct (drain_spec n b1) as [b' r]. reflexivity.
Qed.

(** The loop of the source, entered with [n] tokens, ends where
    [drain_spec] ends and has counted what [drain_spec] counts. *)
Lemma drain_loop_spec n : forall fuel b res,
  written_packets (state b) = Z.of_nat n ->
  read_packets (state b) + Z.of_nat n <= SEM_VALUE_MAX ->
  (n < fuel)%nat ->
  drain_loop fuel b res
  = Returns (res + snd (drain_spec n b)) (fst (drain_spec n b)).
Proof.
  induction n as [| n IH]; intros fuel b res Hw Hr Hfuel;
    (destruct fuel as [| fuel]; [lia |]).
  - rewrite drain_loop_0 by lia. cbn [drain_spec fst snd]. rewrite Z.add_0_r. reflexivity.
  - rewrite drain_loop_step by lia.
    destruct (drain_step_counts b) as (Hw1 & Hr1 & _).
    rewrite IH; [| lia | destruct (snd (drain_step b)); lia | lia].
    rewrite drain_spec_S. cbn [fst snd].
    destruct (snd (drain_step b)); f_equal; lia.
Qed.

Lemma drain_spec_counts n : forall b,
  written_packets (state (fst (drain_spec n b))) = written_packets (state b) - Z.of_nat n /\
  read_packets (state (fst (drain_spec n b))) = read_packets (state b) + snd (drain_spec n b) /\
  0 <= snd (drain_spec n b) <= Z.of_nat n /\
  read_mutex (state (fst (drain_spec n b))) = read_mutex (state b) /\
  read_close_mutex (state (fst (drain_spec n b))) = read_close_mutex (state b) /\
  (read_pos (state b) = read_next (state b) ->
   snd (drain_spec n b) = Z.of_nat n /\
   read_pos (state (fst (drain_spec n b))) = read_next (state (fst (drain_spec n b)))).
Proof.
  induction n as [| n IH]; intros b.
  - cbn [drain_spec fst snd]. repeat split; lia.
  - rewrite drain_spec_S. cbn [fst snd].
    destruct (drain_step_counts b) as (Hw1 & Hr1 & Hm1 & Hc1 & Hq1).
    destruct (IH (fst (drain_step b))) as (Hw & Hr & Hb & Hm & Hc & Hq).
    split; [lia |]. split; [destruct (snd (drain_step b)); lia |].
    split; [destruct (snd (drain_step b)); lia |].
    split; [congruence |]. split; [congruence |].
    intros Heq. destruct (Hq1 Heq) as [Hs Hq1']. destruct (Hq Hq1') as [Hn Hq'].
    rewrite Hs. split; [lia | exact Hq'].
Qed.

(** [ps_buffer_drain] when both mutexes are free, in terms of its loop. *)
Lemma ps_buffer_drain_unlocked fuel b :
  read_mutex (state b) = false -> read_close_mutex (state b) = false ->
  ps_buffer_drain fuel b
  = match drain_loop fuel (lock_read_side b) 0 with
    | Returns res b3 => Returns res (unlock_read_side b3)
    | o => o
    end.
Proof.
  intros Hm Hc. unfold ps_buffer_drain. rewrite Hm.
  cbn [state set_state read_close_mutex set_read_mutex]. rewrite Hc. reflexivity.
Qed.







(** ** [ps_packet_closewrite] *)

Lemma closewrite_walk_S fuel w pos h :
  closewrite_walk (S fuel) w pos h
  = let pos' := to_size_t (move_pos pos (st_size (wstate w)) (header_size (warena w) h)) in
    match sem_post (written_packets (wstate w)) with
    | None => Aborts
    | Some c =>
        let w1 := on_state (set_written_packets c) w in
        if tst (header_flags (warena w1) pos') PS_PACKET_HEADER_WRITTEN
        then closewrite_walk fuel w1 pos' pos'
        else Returns pos' w1
    end.
Proof. reflexivity. Qed.

Lemma walk_pos_S k a bsize pos :
  walk_pos (S k) a bsize pos
  = walk_pos k a bsize (to_size_t (move_pos pos bsize (header_size a pos))).
Proof. reflexivity. Qed.

Lemma set_written_packets_twice x y s :
  set_written_packets x (set_written_packets y s) = set_written_packets x s.
Proof. reflexivity. Qed.

(** The walk of [ps_packet_closewrite] from a header at [pos]: when the
    [k - 1] headers after it carry [WRITTEN] and the next one does not, the
    walk stops there after [k] posts. *)
Lemma closewrite_walk_run k : forall fuel w pos,
  (k < fuel)%nat ->
  (forall i, (1 <= i <= k)%nat ->
     tst (header_flags (warena w) (walk_pos i (warena w) (st_size (wstate w)) pos))
         PS_PACKET_HEADER_WRITTEN = true) ->
  tst (header_flags (warena w) (walk_pos (S k) (warena w) (st_size (wstate w)) pos))
      PS_PACKET_HEADER_WRITTEN = false ->
  written_packets (wstate w) + Z.of_nat (S k) <= SEM_VALUE_MAX ->
  closewrite_walk fuel w pos pos
  = Returns (walk_pos (S k) (warena w) (st_size (wstate w)) pos)
      (on_state (set_written_packets (written_packets (wstate w) + Z.of_nat (S k))) w).
Proof.
  induction k as [| k IH]; intros fuel w pos Hfuel Hrun Hstop Hsem;
    (destruct fuel as [| fuel]; [lia |]); rewrite closewrite_walk_S; cbv zeta;
    unfold sem_post;
    (assert ((written_packets (wstate w) <? SEM_VALUE_MAX) = true) as ->
       by (apply Z.ltb_lt; lia));
    rewrite warena_on_state.
  - rewrite walk_pos_S in Hstop. cbn [walk_pos] in Hstop. rewrite Hstop.
    rewrite walk_pos_S. cbn [walk_pos]. reflexivity.
  - pose proof (Hrun 1%nat ltac:(lia)) as H1. rewrite walk_pos_S in H1.
    cbn [walk_pos] in H1. rewrite H1.
    set (pos' := to_size_t (move_pos pos (st_size (wstate w)) (header_size (warena w) pos)))
      in *.
    rewrite IH.
    + rewrite warena_on_state, !wstate_on_state.
      cbn [st_size written_packets set_written_packets].
      rewrite (walk_pos_S (S k)). fold pos'. f_equal.
      rewrite on_state_on_state. apply on_state_ext.
      rewrite set_written_packets_twice. f_equal. lia.
    + lia.
    + intros i Hi. rewrite warena_on_state, wstate_on_state.
      cbn [st_size set_written_packets].
      specialize (Hrun (S i) ltac:(lia)). rewrite walk_pos_S in Hrun. exact Hrun.
    + rewrite warena_on_state, wstate_on_state. cbn [st_size set_written_packets].
      rewrite walk_pos_S in Hstop. exact Hstop.
    + rewrite wstate_on_state. cbn [written_packets set_written_packets]. lia.
Qed.

Lemma count_written_keeps w h :
  warena (count_written w h) = warena w /\ wstate (count_written w h) = wstate w /\
  pkt (count_written w h) = pkt w.
Proof. unfold count_written. destruct (tst _ _); repeat split. Qed.

Lemma or_header_flags_keeps h bit w :
  warena (or_header_flags h bit w)
  = set_header_flags (warena w) h (Z.lor (header_flags (warena w) h) bit) /\
  wstate (or_header_flags h bit w) = wstate w /\
  pkt (or_header_flags h bit w) = pkt w.
Proof. repeat split. Qed.

(** The store at which [ps_packet_closewrite] starts its walk. *)
Lemma closewrite_marked w h :
  let w3 := or_header_flags h PS_PACKET_HEADER_WRITTEN
              (count_written (on_state (set_write_close_mutex true) w) h) in
  warena w3
  = set_header_flags (warena w) h (Z.lor (header_flags (warena w) h) PS_PACKET_HEADER_WRITTEN) /\
  wstate w3 = set_write_close_mutex true (wstate w) /\
  pkt w3 = pkt w.
Proof.
  intros w3. subst w3.
  destruct (or_header_flags_keeps h PS_PACKET_HEADER_WRITTEN
              (count_written (on_state (set_write_close_mutex true) w) h)) as (Ha & Hs & Hp).
  destruct (count_written_keeps (on_state (set_write_close_mutex true) w) h)
    as (Ha' & Hs' & Hp').
  rewrite Ha, Hs, Hp, Ha', Hs', Hp'. repeat split.
Qed.

(** The commit of a packet at the tail: [write_pos] moves over the packet
    and over the [m] committed packets behind it, with one post each. *)
Lemma closewrite_commit_tail fuel w h m :
  let a' := set_header_flags (warena w) h
              (Z.lor (header_flags (warena w) h) PS_PACKET_HEADER_WRITTEN) in
  let bsize := st_size (wstate w) in
  write_close_mutex (wstate w) = false ->
  write_pos (wstate w) = buffer_pos (pkt w) -> buffer_pos (pkt w) = h ->
  (m < fuel)%nat ->
  (forall i, (1 <= i <= m)%nat ->
     tst (header_flags a' (walk_pos i a' bsize h)) PS_PACKET_HEADER_WRITTEN = true) ->
  tst (header_flags a' (walk_pos (S m) a' bsize h)) PS_PACKET_HEADER_WRITTEN = false ->
  written_packets (wstate w) + Z.of_nat (S m) <= SEM_VALUE_MAX ->
  closewrite_commit fuel w h
  = Returns 0 (committed w h (walk_pos (S m) a' bsize h) (Z.of_nat (S m))).
Proof.
  intros a' bsize Hmx Htail Hh Hfuel Hrun Hstop Hsem.
  unfold closewrite_commit. rewrite Hmx. cbv zeta.
  destruct (closewrite_marked w h) as (Ha & Hs & Hp). cbv zeta in Ha, Hs, Hp.
  set (w3 := or_header_flags h PS_PACKET_HEADER_WRITTEN
               (count_written (on_state (set_write_close_mutex true) w) h)) in *.
  fold a' in Ha.
  assert (write_pos (wstate w3) = write_pos (wstate w)) as Hwp by (rewrite Hs; reflexivity).
  assert (st_size (wstate w3) = bsize) as Hsz by (rewrite Hs; reflexivity).
  assert (written_packets (wstate w3) = written_packets (wstate w)) as Hwr
    by (rewrite Hs; reflexivity).
  rewrite Hwp, Hp, Htail, Z.eqb_refl, Hh.
  rewrite (closewrite_walk_run m fuel w3 h Hfuel);
    [| rewrite Ha, Hsz; exact Hrun | rewrite Ha, Hsz; exact Hstop | rewrite Hwr; exact Hsem].
  rewrite Ha, Hsz, Hwr. cbn [andthen Z.eqb]. f_equal.
  subst w3. unfold committed, count_written, or_header_flags, on_pkt, on_state, on_arena,
    on_stats, wstate, warena, set_state, set_buffer, set_stats.
  destruct w as [[s a t sh] p i]. cbn [buf pkt intr state buffer stats shmid].
  destruct s. cbn [st_flags set_write_close_mutex].
  destruct (tst _ PS_BUFFER_STATS); reflexivity.
Qed.

(** The commit of a packet that is not at the tail: the header gets
    [WRITTEN], nothing is posted and [write_pos] stays. *)
Lemma closewrite_commit_inner fuel w h :
  write_close_mutex (wstate w) = false ->
  write_pos (wstate w) <> buffer_pos (pkt w) ->
  closewrite_commit fuel w h = Returns 0 (committed w h (write_pos (wstate w)) 0).
Proof.
  intros Hmx Hne. unfold closewrite_commit. rewrite Hmx. cbv zeta.
  destruct (closewrite_marked w h) as (Ha & Hs & Hp). cbv zeta in Ha, Hs, Hp.
  set (w3 := or_header_flags h PS_PACKET_HEADER_WRITTEN
               (count_written (on_state (set_write_close_mutex true) w) h)) in *.
  assert (write_pos (wstate w3) = write_pos (wstate w)) as Hwp by (rewrite Hs; reflexivity).
  rewrite Hwp, Hp. apply Z.eqb_neq in Hne. rewrite Hne. cbn [andthen Z.eqb]. f_equal.
  subst w3. unfold committed, count_written, or_header_flags, on_pkt, on_state, on_arena,
    on_stats, wstate, warena, set_state, set_buffer, set_stats.
  destruct w as [[s a t sh] p i]. cbn [buf pkt intr state buffer stats shmid].
  destruct s. cbn [st_flags set_write_close_mutex write_pos written_packets].
  rewrite Z.add_0_r.
  destruct (tst _ PS_BUFFER_STATS); reflexivity.
Qed.

(** *** The part before the lock *)

(** From [Returns c w = Returns c' w'] to [w = w'], substituted. *)
Ltac ret_inv H :=
  match type of H with
  | Returns _ ?w = Returns _ ?w' =>
      let E := fresh in
      assert (E : w = w') by (injection H; auto);
      first [subst w' | subst w | rewrite <- E in *]; clear H
  end.

Ltac tail_auto :=
  unfold tail_frame, reserve_frame, wstate, warena in *; cbn in *; intuition congruence.

Lemma tail_frame_refl w : tail_frame w w.
Proof. tail_auto. Qed.

Lemma tail_frame_trans w1 w2 w3 : tail_frame w1 w2 -> tail_frame w2 w3 -> tail_frame w1 w3.
Proof. tail_auto. Qed.

Lemma reserve_tail_frame fuel w len c w' :
  ps_packet_reserve fuel w len = Returns c w' -> tail_frame w w'.
Proof. intros H. apply ps_packet_reserve_frame in H. tail_auto. Qed.

Lemma ps_packet_setsize_tail_frame fuel w n c w' :
  ps_packet_setsize fuel w n = Returns c w' -> tail_frame w w'.
Proof.
  unfold ps_packet_setsize. intros H.
  destruct (negb (ps_packet_check w =? 0)); [ret_inv H; apply tail_frame_refl |].
  destruct (negb _ || _); [ret_inv H; apply tail_frame_refl |].
  destruct (_ >? _); [ret_inv H; apply tail_frame_refl |].
  apply andthen_returns in H. destruct H as [(w1 & H1 & H) | [H _]];
    [| eapply reserve_tail_frame; exact H].
  apply reserve_tail_frame in H1. eapply tail_frame_trans; [exact H1 |].
  destruct (setsize_advance _ _ _) as [wn res].
  apply andthen_returns in H. destruct H as [(w3 & H3 & H) | [H _]].
  - apply reserve_tail_frame in H3.
    destruct (header (pkt _)) eqn:Hh; [| discriminate].
    ret_inv H. tail_auto.
  - apply reserve_tail_frame in H. tail_auto.
Qed.

Lemma grow_size_tail_frame w c w' : grow_size w = Returns c w' -> tail_frame w w'.
Proof.
  unfold grow_size. destruct (header (pkt w)); [| discriminate].
  destruct (_ >? _); intros H; ret_inv H; tail_auto.
Qed.

Lemma ps_packet_seek_tail_frame fuel w pos c w' :
  ps_packet_seek fuel w pos = Returns c w' -> tail_frame w w'.
Proof.
  unfold ps_packet_seek. intros H.
  destruct (negb (ps_packet_check w =? 0)); [ret_inv H; apply tail_frame_refl |].
  apply andthen_returns in H. destruct H as [(w1 & H1 & H) | [H Hc]].
  - assert (w1 = w) as ->.
    { destruct (_ || _); [| congruence].
      destruct (header (pkt w)); [| discriminate]. destruct (_ >? _); congruence. }
    apply andthen_returns in H. destruct H as [(w2 & H2 & H) | [H _]].
    + assert (tail_frame w w2) as Hf.
      { destruct (_ && _); [| ret_inv H2; apply tail_frame_refl].
        destruct (_ >? _); [discriminate |]. eapply reserve_tail_frame. exact H2. }
      eapply tail_frame_trans; [exact Hf |].
      match type of H with context [if ?c then grow_size _ else _] => destruct c end.
      * apply grow_size_tail_frame in H. tail_auto.
      * ret_inv H. tail_auto.
    + destruct (_ && _); [| ret_inv H; apply tail_frame_refl].
      destruct (_ >? _); [ret_inv H; apply tail_frame_refl |].
      eapply reserve_tail_frame. exact H.
  - destruct (_ || _); [| congruence].
    destruct (header (pkt w)); [| discriminate].
    destruct (_ >? _); ret_inv H; apply tail_frame_refl.
Qed.

Lemma ps_packet_write_tail_frame fuel w src n c w' :
  ps_packet_write fuel w src n = Returns c w' -> tail_frame w w'.
Proof.
  unfold ps_packet_write. intros H.
  destruct (negb (ps_packet_check w =? 0)); [ret_inv H; apply tail_frame_refl |].
  apply andthen_returns in H. destruct H as [(w1 & H1 & H) | [H _]].
  - assert (tail_frame w w1) as Hf.
    { destruct (tst _ _).
      - destruct (header (pkt w)); [| discriminate].
        destruct (_ >? _); ret_inv H1; apply tail_frame_refl.
      - destruct (_ >? _); [discriminate |]. eapply reserve_tail_frame. exact H1. }
    eapply tail_frame_trans; [exact Hf |].
    apply grow_size_tail_frame in H. tail_auto.
  - destruct (tst _ _).
    + destruct (header (pkt w)); [| discriminate].
      destruct (_ >? _); ret_inv H; apply tail_frame_refl.
    + destruct (_ >? _); [ret_inv H; apply tail_frame_refl |].
      eapply reserve_tail_frame. exact H.
Qed.

Lemma fakedma_commit_from_tail_frame fuel rest : forall w i c w',
  fakedma_commit_from fuel w i rest = Returns c w' -> tail_frame w w'.
Proof.
  induction rest as [| del rest IH]; intros w i c w' H; cbn [fakedma_commit_from] in H.
  - ret_inv H. apply tail_frame_refl.
  - destruct (free del =? 0); [| eapply IH; exact H].
    apply andthen_returns in H. destruct H as [(w1 & H1 & H) | [H _]];
      [| eapply ps_packet_seek_tail_frame; exact H].
    apply ps_packet_seek_tail_frame in H1.
    apply andthen_returns in H. destruct H as [(w2 & H2 & H) | [H _]].
    + apply ps_packet_write_tail_frame in H2. apply IH in H. tail_auto.
    + apply ps_packet_write_tail_frame in H. tail_auto.
Qed.

(** The first part of [ps_packet_closewrite] moves neither [write_pos] nor
    the handle's packet. *)
Lemma closewrite_prelude_tail_frame fuel w c w' :
  closewrite_prelude fuel w = Returns c w' -> tail_frame w w'.
Proof.
  unfold closewrite_prelude, ps_packet_fakedma_commitall. intros H.
  apply andthen_returns in H. destruct H as [(w1 & H1 & H) | [H Hc]].
  - assert (tail_frame w w1) as Hf.
    { destruct (negb _); [| ret_inv H1; apply tail_frame_refl].
      destruct (header (pkt w)); [| discriminate].
      eapply ps_packet_setsize_tail_frame. exact H1. }
    apply fakedma_commit_from_tail_frame in H. eapply tail_frame_trans; eassumption.
  - destruct (negb _); [| congruence].
    destruct (header (pkt w)); [| discriminate].
    eapply ps_packet_setsize_tail_frame. exact H.
Qed.

(** A packet whose size is frozen and that has nothing staged goes
    straight to the commit. *)
Lemma closewrite_prelude_frozen fuel w :
  tst (pk_flags (pkt w)) PS_PACKET_SIZE_SET = true ->
  Forall (fun d => free d <> 0) (fake_dma (pkt w)) ->
  closewrite_prelude fuel w = Returns 0 w.
Proof.
  intros Hs Hfree. unfold closewrite_prelude, ps_packet_fakedma_commitall.
  rewrite Hs. cbn [negb andthen Z.eqb].
  generalize 0%nat. induction Hfree as [| d rest Hd _ IH]; intros i; cbn [fakedma_commit_from].
  - reflexivity.
  - apply Z.eqb_neq in Hd. rewrite Hd. apply IH.
Qed.

Lemma lor_flags_small f bit :
  0 <= f < 2 ^ 32 -> 0 <= bit < 2 ^ 32 -> Z.lor f bit mod 2 ^ 32 = Z.lor f bit.
Proof.
  intros Hf Hb. rewrite <- Z.land_ones by lia.
  rewrite Z.land_lor_distr_l, !Z.land_ones by lia.
  rewrite !Z.mod_small by lia. reflexivity.
Qed.

(** Setting a bit in the flags of a header that lies in the arena. *)
Lemma or_header_flags_sets a h k :
  0 <= h -> (Z.to_nat h + 4 <= length a)%nat -> 0 <= k < 32 ->
  let a' := set_header_flags a h (Z.lor (header_flags a h) (2 ^ k)) in
  header_flags a' h = Z.lor (header_flags a h) (2 ^ k) /\
  tst (header_flags a' h) (2 ^ k) = true /\
  header_size a' h = header_size a h /\
  length a' = length a.
Proof.
  intros Hh Hlen Hk a'. subst a'.
  assert (0 <= 2 ^ k < 2 ^ 32) as Hbit
    by (split; [apply Z.pow_nonneg; lia | apply Z.pow_lt_mono_r; lia]).
  rewrite header_flags_set_flags by assumption.
  rewrite lor_flags_small by (auto using header_flags_range).
  split; [reflexivity |]. split.
  - rewrite tst_lor by lia. rewrite (tst_testbit (2 ^ k)) by lia.
    rewrite Z.pow2_bits_true by lia. apply orb_true_r.
  - split; [apply header_size_set_flags; lia | apply length_store].
Qed.

Lemma committed_parts w h wp posts :
  warena (committed w h wp posts)
  = set_header_flags (warena w) h
      (Z.lor (header_flags (warena w) h) PS_PACKET_HEADER_WRITTEN) /\
  write_pos (wstate (committed w h wp posts)) = wp /\
  written_packets (wstate (committed w h wp posts)) = written_packets (wstate w) + posts /\
  write_close_mutex (wstate (committed w h wp posts)) = false /\
  read_pos (wstate (committed w h wp posts)) = read_pos (wstate w) /\
  read_next (wstate (committed w h wp posts)) = read_next (wstate w) /\
  write_next (wstate (committed w h wp posts)) = write_next (wstate w) /\
  read_first (wstate (committed w h wp posts)) = read_first (wstate w) /\
  free_bytes (wstate (committed w h wp posts)) = free_bytes (wstate w) /\
  read_packets (wstate (committed w h wp posts)) = read_packets (wstate w) /\
  header (pkt (committed w h wp posts)) = None /\
  pk_flags (pkt (committed w h wp posts)) = 0.
Proof.
  unfold committed. destruct (count_written_keeps w h) as (Ha & Hs & Hp).
  unfold wstate, warena in *. cbn [on_pkt on_state or_header_flags on_arena buf pkt state
    buffer set_state set_buffer]. rewrite Ha, Hs. repeat split.
Qed.

(** On an arena of at most [2 ^ 31] bytes, over packets that fit into it,
    the walk of the source is the walk by the wrap rule, and it stays
    within the arena. *)
Lemma walk_pos_rule a bsize : forall k pos,
  HDR <= bsize <= 2 ^ 31 -> 0 <= pos -> pos + HDR <= bsize ->
  (forall i, (i < k)%nat -> header_size a (walk_rule i a bsize pos) + HDR <= bsize) ->
  walk_pos k a bsize pos = walk_rule k a bsize pos /\
  0 <= walk_rule k a bsize pos /\ walk_rule k a bsize pos + HDR <= bsize.
Proof.
  induction k as [| k IH]; intros pos Hb Hp Hp' Hfit.
  - cbn [walk_pos walk_rule]. repeat split; assumption.
  - cbn [walk_pos walk_rule].
    pose proof (header_size_range a pos) as Hr.
    pose proof (Hfit 0%nat ltac:(lia)) as H0. cbn [walk_rule] in H0.
    pose proof (move_pos_in_arena pos bsize (header_size a pos)
                  Hp (proj1 Hr) ltac:(unfold HDR in *; lia) Hb) as Hin.
    rewrite move_pos_advance in Hin |- * by (unfold HDR in *; lia).
    rewrite to_size_t_small by (unfold HDR in *; lia).
    apply IH; try assumption; try tauto.
    intros i Hi. exact (Hfit (S i) ltac:(lia)).
Qed.

(** C1: [ps_packet_closewrite] on a packet whose header is at [h], in an
    arena of at most [2 ^ 31] bytes.  The part before the lock freezes the
    size of a packet that has none yet and writes back the staged regions;
    it returned the code [c] and left the store [w2].  When [c] is not 0
    the call returns [c] with that store: nothing is posted and
    [write_pos] stays.  When [c] is 0 and [write_close_mutex] is free, the
    header gets the [WRITTEN] bit.  Then, when [write_pos] is at the
    packet, the packet and the [m] headers that follow it by the wrap
    rule [advance] hold sizes that fit into the arena, these [m] headers
    carry [WRITTEN] and the one after them does not, the call posts
    [written_packets] once for the packet and once for each of the [m],
    and leaves [write_pos] at that header, the first one without
    [WRITTEN], within the arena.  When [write_pos] is elsewhere the call
    posts nothing and leaves [write_pos] where it is. *)
Theorem ps_packet_closewrite_in_order fuel w w2 c h m :
  let a' := set_header_flags (warena w2) h
              (Z.lor (header_flags (warena w2) h) PS_PACKET_HEADER_WRITTEN) in
  let bsize := st_size (wstate w) in
  header (pkt w) = Some h -> buffer_pos (pkt w) = h ->
  closewrite_prelude fuel w = Returns c w2 ->
  (c <> 0 ->
   ps_packet_closewrite fuel w = Returns c w2 /\
   write_pos (wstate w2) = write_pos (wstate w) /\
   written_packets (wstate w2) = written_packets (wstate w)) /\
  (c = 0 ->
   0 <= h -> h + HDR <= bsize -> Z.of_nat (length (warena w2)) = bsize -> bsize <= 2 ^ 31 ->
   write_close_mutex (wstate w) = false ->
   (write_pos (wstate w) = h ->
    (m < fuel)%nat ->
    (forall i, (i <= m)%nat -> header_size a' (walk_rule i a' bsize h) + HDR <= bsize) ->
    (forall i, (1 <= i <= m)%nat ->
       tst (header_flags a' (walk_rule i a' bsize h)) PS_PACKET_HEADER_WRITTEN = true) ->
    tst (header_flags a' (walk_rule (S m) a' bsize h)) PS_PACKET_HEADER_WRITTEN = false ->
    written_packets (wstate w) + Z.of_nat (S m) <= SEM_VALUE_MAX ->
    exists w',
      ps_packet_closewrite fuel w = Returns 0 w' /\
      warena w' = a' /\
      tst (header_flags (warena w') h) PS_PACKET_HEADER_WRITTEN = true /\
      written_packets (wstate w') = written_packets (wstate w) + Z.of_nat (S m) /\
      write_pos (wstate w') = walk_rule (S m) a' bsize h /\
      0 <= write_pos (wstate w') /\ write_pos (wstate w') + HDR <= bsize /\
      tst (header_flags (warena w') (write_pos (wstate w'))) PS_PACKET_HEADER_WRITTEN
      = false) /\
   (write_pos (wstate w) <> h ->
    exists w',
      ps_packet_closewrite fuel w = Returns 0 w' /\
      warena w' = a' /\
      tst (header_flags (warena w') h) PS_PACKET_HEADER_WRITTEN = true /\
      written_packets (wstate w') = written_packets (wstate w) /\
      write_pos (wstate w') = write_pos (wstate w))).
Proof.
  intros a' bsize Hh Hb Hpre.
  pose proof (closewrite_prelude_tail_frame fuel w c w2 Hpre)
    as (Hwp & Hsz & _ & Hwr & Hmx2 & Hb2 & _).
  split.
  { intros Hc. unfold ps_packet_closewrite. rewrite Hpre. cbn [andthen].
    apply Z.eqb_neq in Hc. rewrite Hc. repeat split; assumption. }
  intros -> H0 Hfit Hlen Hmax Hmx.
  assert (Z.to_nat h + 4 <= length (warena w2))%nat as Hlen4 by (unfold HDR in *; lia).
  destruct (or_header_flags_sets (warena w2) h 0 H0 Hlen4 ltac:(lia)) as (_ & Hset & _).
  change (2 ^ 0) with PS_PACKET_HEADER_WRITTEN in Hset. cbv zeta in Hset. fold a' in Hset.
  unfold ps_packet_closewrite. rewrite Hpre, Hh. cbn [andthen Z.eqb].
  split.
  - intros Htail Hfuel Hsizes Hrun Hstop Hsem.
    assert (HDR <= bsize <= 2 ^ 31) as Hbs by (unfold HDR in *; lia).
    assert (forall i, (i <= S m)%nat ->
              walk_pos i a' bsize h = walk_rule i a' bsize h /\
              0 <= walk_rule i a' bsize h /\ walk_rule i a' bsize h + HDR <= bsize)
      as Hwalk.
    { intros i Hi. apply walk_pos_rule; try assumption.
      intros j Hj. apply Hsizes. lia. }
    rewrite (closewrite_commit_tail fuel w2 h m); fold a'; rewrite ?Hsz; fold bsize;
      try assumption; try congruence.
    + destruct (committed_parts w2 h (walk_pos (S m) a' bsize h) (Z.of_nat (S m)))
        as (Pa & Pwp & Pwr & _). fold a' in Pa.
      destruct (Hwalk (S m) ltac:(lia)) as (E & R1 & R2).
      eexists. split; [reflexivity |]. rewrite Pa, Pwp, Pwr, Hwr, E.
      repeat split; assumption.
    + intros i Hi. rewrite (proj1 (Hwalk i ltac:(lia))). apply Hrun. exact Hi.
    + rewrite (proj1 (Hwalk (S m) ltac:(lia))). exact Hstop.
  - intros Hne.
    rewrite (closewrite_commit_inner fuel w2 h) by congruence.
    destruct (committed_parts w2 h (write_pos (wstate w2)) 0) as (Pa & Pwp & Pwr & _).
    fold a' in Pa.
    eexists. split; [reflexivity |]. rewrite Pa, Pwp, Pwr, Hwr, Hwp, Z.add_0_r.
    repeat split; assumption.
Qed.

Lemma ps_packet_closewrite_in_order_witness :
  (write_pos (wstate demo_first_closing) = 0 /\ buffer_pos (pkt demo_first_closing) = 0 /\
   exists w', ps_packet_closewrite 3 demo_first_closing = Returns 0 w' /\
              written_packets (wstate w') = 2 /\ write_pos (wstate w') = 48) /\
  (write_pos (wstate demo_second_closing) = 0 /\ buffer_pos (pkt demo_second_closing) = 24 /\
   exists w', ps_packet_closewrite 3 demo_second_closing = Returns 0 w' /\
              written_packets (wstate w') = 0 /\ write_pos (wstate w') = 0).
Proof.
  assert (closewrite_prelude 3 demo_first_closing = Returns 0 demo_first_closing) as Hpre1
    by reflexivity.
  assert (closewrite_prelude 3 demo_second_closing = Returns 0 demo_second_closing) as Hpre2
    by reflexivity.
  split; (split; [reflexivity |]); (split; [reflexivity |]).
  - destruct (ps_packet_closewrite_in_order 3 demo_first_closing demo_first_closing 0 0 1
                eq_refl eq_refl Hpre1) as [_ H].
    destruct H as [Htail _]; try reflexivity;
      try (apply Z.leb_le; reflexivity).
    destruct Htail as (w' & Hret & _ & _ & Hwr & Hwp & _).
    + reflexivity.
    + repeat constructor.
    + intros i Hi.
      assert (i = 0%nat \/ i = 1%nat) as [-> | ->] by lia;
        apply Z.leb_le; vm_compute; reflexivity.
    + intros i Hi. assert (i = 1%nat) as -> by lia. vm_compute. reflexivity.
    + vm_compute. reflexivity.
    + apply Z.leb_le. reflexivity.
    + exists w'. split; [exact Hret |]. rewrite Hwr, Hwp.
      split; vm_compute; reflexivity.
  - destruct (ps_packet_closewrite_in_order 3 demo_second_closing demo_second_closing 0 24 0
                eq_refl eq_refl Hpre2) as [_ H].
    destruct H as [_ Hinner]; try reflexivity;
      try (apply Z.leb_le; reflexivity).
    destruct Hinner as (w' & Hret & _ & _ & Hwr & Hwp).
    + intros H. discriminate H.
    + exists w'. split; [exact Hret |]. rewrite Hwr, Hwp. split; reflexivity.
Defined.

(** C1 as stated fails when the part before the lock fails.  In the
    64-byte buffer a packet opened for writing at [write_pos] and moved to
    offset 40 by [ps_packet_seek] cannot get its size frozen:
    [ps_packet_closewrite] returns [ENOBUFS], the header does not get the
    [WRITTEN] bit, nothing is posted and the handle stays open. *)
Theorem ps_packet_closewrite_can_fail :
  header (pkt demo_seek40) = Some 0 /\ buffer_pos (pkt demo_seek40) = 0 /\
  write_pos (wstate demo_seek40) = 0 /\ write_close_mutex (wstate demo_seek40) = false /\
  st_size (wstate demo_seek40) = 64 /\
  ps_packet_closewrite 4 demo_seek40 = Returns ENOBUFS demo_seek40 /\
  tst (header_flags (warena demo_seek40) 0) PS_PACKET_HEADER_WRITTEN = false /\
  written_packets (wstate demo_seek40) = 0.
Proof. repeat split; vm_compute; reflexivity. Qed.

(** * Further properties *)

(** ** The leading checks *)

(** Every packet function that starts with [__PS_PACKET_CHECK] returns the
    code of a failing check and leaves the store alone. *)
Lemma ps_packet_check_guards fuel w n src :
  ps_packet_check w <> 0 ->
  ps_packet_setsize fuel w n = Returns (ps_packet_check w) w /\
  ps_packet_cancel w = Returns (ps_packet_check w) w /\
  ps_packet_close fuel w = Returns (ps_packet_check w) w /\
  ps_packet_write fuel w src n = Returns (ps_packet_check w) w /\
  ps_packet_read w n = Returns (ps_packet_check w, []) w /\
  ps_packet_seek fuel w n = Returns (ps_packet_check w) w /\
  ps_packet_getsize w = Returns (ps_packet_check w, None) w /\
  ps_packet_tell w = Returns (ps_packet_check w, None) w.
Proof.
  intros H. apply Z.eqb_neq in H.
  unfold ps_packet_setsize, ps_packet_cancel, ps_packet_close, ps_packet_write,
    ps_packet_read, ps_packet_seek, ps_packet_getsize, ps_packet_tell.
  cbv zeta. rewrite H. cbn [negb]. repeat split.
Qed.

Lemma ps_packet_check_closed w :
  pk_flags (pkt w) = 0 -> ps_packet_check w = EINVAL.
Proof. intros H. unfold ps_packet_check. rewrite H. reflexivity. Qed.

Lemma ps_packet_closeread_closes fuel w w' :
  ps_packet_closeread fuel w = Returns 0 w' ->
  pk_flags (pkt w') = 0 /\ header (pkt w') = None.
Proof.
  unfold ps_packet_closeread. intros H.
  destruct (read_close_mutex (wstate w)); [discriminate |].
  destruct (header (pkt w)) as [h |]; [| discriminate].
  apply andthen_returns_0 in H. destruct H as (s1 & _ & H).
  ret_inv H. split; reflexivity.
Qed.

Lemma ps_packet_closewrite_closes fuel w w' :
  ps_packet_closewrite fuel w = Returns 0 w' ->
  pk_flags (pkt w') = 0 /\ header (pkt w') = None.
Proof.
  unfold ps_packet_closewrite. intros H.
  apply andthen_returns_0 in H. destruct H as (s1 & _ & H).
  destruct (header (pkt w)) as [h |]; [| discriminate].
  unfold closewrite_commit in H.
  destruct (write_close_mutex (wstate s1)); [discriminate |].
  apply andthen_returns_0 in H. destruct H as (s2 & _ & H).
  ret_inv H. split; reflexivity.
Qed.

(** X1: once [ps_packet_close] or [ps_packet_cancel] has returned 0 the
    handle is closed (its flags are 0 and its header pointer is null), and
    until it is opened again every packet function refuses it with
    [EINVAL] and changes nothing. *)
Theorem ps_packet_close_invalidates fuel w w' :
  ps_packet_close fuel w = Returns 0 w' \/ ps_packet_cancel w = Returns 0 w' ->
  pk_flags (pkt w') = 0 /\ header (pkt w') = None /\
  forall fuel' n src,
    ps_packet_close fuel' w' = Returns EINVAL w' /\
    ps_packet_cancel w' = Returns EINVAL w' /\
    ps_packet_setsize fuel' w' n = Returns EINVAL w' /\
    ps_packet_write fuel' w' src n = Returns EINVAL w' /\
    ps_packet_read w' n = Returns (EINVAL, []) w' /\
    ps_packet_seek fuel' w' n = Returns EINVAL w' /\
    ps_packet_getsize w' = Returns (EINVAL, None) w' /\
    ps_packet_tell w' = Returns (EINVAL, None) w'.
Proof.
  intros H.
  assert (pk_flags (pkt w') = 0 /\ header (pkt w') = None) as [Hf Hh].
  { destruct H as [H | H].
    - unfold ps_packet_close in H. cbv zeta in H.
      destruct (ps_packet_check w =? 0) eqn:E; cbn [negb] in H.
      + destruct (tst _ PS_PACKET_READ).
        * exact (ps_packet_closeread_closes _ _ _ H).
        * exact (ps_packet_closewrite_closes _ _ _ H).
      + apply Z.eqb_neq in E. congruence.
    - unfold ps_packet_cancel in H. cbv zeta in H.
      destruct (ps_packet_check w =? 0) eqn:E; cbn [negb] in H.
      + destruct (tst _ PS_PACKET_WRITE); cbn [negb] in H; [| discriminate].
        destruct (tst _ PS_PACKET_SIZE_SET); [discriminate |].
        cbn [pkt on_state] in H.
        destruct (header (pkt w)); [| discriminate].
        ret_inv H. split; reflexivity.
      + apply Z.eqb_neq in E. congruence. }
  split; [exact Hf |]. split; [exact Hh |].
  intros fuel' n src.
  pose proof (ps_packet_check_closed w' Hf) as Hc.
  assert (ps_packet_check w' <> 0) as Hne by (rewrite Hc; discriminate).
  pose proof (ps_packet_check_guards fuel' w' n src Hne) as G.
  rewrite Hc in G. tauto.
Qed.

Lemma ps_packet_close_invalidates_witness :
  exists w',
    ps_packet_close 4 demo_second_closing = Returns 0 w' /\
    ps_packet_close 4 w' = Returns EINVAL w' /\
    ps_packet_write 4 w' demo_bytes 20 = Returns EINVAL w'.
Proof.
  exists (returned (ps_packet_close 4 demo_second_closing) demo_second_closing).
  assert (ps_packet_close 4 demo_second_closing
          = Returns 0 (returned (ps_packet_close 4 demo_second_closing) demo_second_closing))
    as H by reflexivity.
  split; [exact H |].
  destruct (ps_packet_close_invalidates 4 demo_second_closing _ (or_introl H))
    as (_ & _ & G).
  destruct (G 4%nat 20 demo_bytes) as (G1 & _ & _ & G4 & _).
  split; [exact G1 | exact G4].
Defined.

(** ** [ps_buffer_cancel] *)

Lemma tst_lor_cancelled f :
  tst (Z.lor f PS_BUFFER_CANCELLED) PS_BUFFER_CANCELLED = true /\
  tst (Z.lor f PS_BUFFER_CANCELLED) PS_BUFFER_READY = tst f PS_BUFFER_READY.
Proof.
  change PS_BUFFER_CANCELLED with (2 ^ 3). change PS_BUFFER_READY with (2 ^ 2).
  rewrite !tst_lor by lia.
  change (tst (2 ^ 3) (2 ^ 3)) with true. change (tst (2 ^ 3) (2 ^ 2)) with false.
  rewrite orb_true_r, orb_false_r. split; reflexivity.
Qed.

Lemma ps_buffer_check_0 b :
  ps_buffer_check b = 0 ->
  tst (st_flags (state b)) PS_BUFFER_READY = true /\
  tst (st_flags (state b)) PS_BUFFER_CANCELLED = false.
Proof.
  unfold ps_buffer_check.
  destruct (tst _ PS_BUFFER_READY); cbn [negb]; [| discriminate].
  destruct (tst _ PS_BUFFER_CANCELLED); [discriminate |]. split; reflexivity.
Qed.

(** X2: [ps_buffer_cancel] refuses a buffer that is not ready or already
    cancelled with the code of the check and changes nothing.  Otherwise
    it returns 0, sets [CANCELLED], posts both semaphores (a semaphore at
    its maximum stays there), releases [read_mutex] and [write_mutex] and
    leaves the arena, the positions and [free_bytes] alone; from then on
    the buffer check gives [EINTR], so a second cancel, every
    [ps_packet_open] and every function called on an open handle return
    [EINTR] without changing anything. *)
Theorem ps_buffer_cancel_interrupts b :
  (ps_buffer_check b <> 0 -> ps_buffer_cancel b = (ps_buffer_check b, b)) /\
  (ps_buffer_check b = 0 ->
   exists b',
     ps_buffer_cancel b = (0, b') /\
     st_flags (state b') = Z.lor (st_flags (state b)) PS_BUFFER_CANCELLED /\
     read_mutex (state b') = false /\ write_mutex (state b') = false /\
     read_packets (state b')
     = (if read_packets (state b) <? SEM_VALUE_MAX
        then read_packets (state b) + 1 else read_packets (state b)) /\
     written_packets (state b')
     = (if written_packets (state b) <? SEM_VALUE_MAX
        then written_packets (state b) + 1 else written_packets (state b)) /\
     buffer b' = buffer b /\ stats b' = stats b /\
     read_pos (state b') = read_pos (state b) /\
     write_pos (state b') = write_pos (state b) /\
     read_next (state b') = read_next (state b) /\
     write_next (state b') = write_next (state b) /\
     read_first (state b') = read_first (state b) /\
     free_bytes (state b') = free_bytes (state b) /\
     ps_buffer_check b' = EINTR /\
     ps_buffer_cancel b' = (EINTR, b') /\
     forall p signals,
       let w' := {| buf := b'; pkt := p; intr := signals |} in
       (forall flags, ps_packet_open w' flags = Returns EINTR w') /\
       (tst (pk_flags p) PS_PACKET_READ || tst (pk_flags p) PS_PACKET_WRITE = true ->
        forall fuel n src,
          ps_packet_setsize fuel w' n = Returns EINTR w' /\
          ps_packet_cancel w' = Returns EINTR w' /\
          ps_packet_close fuel w' = Returns EINTR w' /\
          ps_packet_write fuel w' src n = Returns EINTR w' /\
          ps_packet_read w' n = Returns (EINTR, []) w' /\
          ps_packet_seek fuel w' n = Returns EINTR w' /\
          ps_packet_getsize w' = Returns (EINTR, None) w' /\
          ps_packet_tell w' = Returns (EINTR, None) w')).
Proof.
  split.
  - intros H. unfold ps_buffer_cancel. cbv zeta. apply Z.eqb_neq in H. rewrite H.
    reflexivity.
  - intros H. destruct (ps_buffer_check_0 b H) as [Hr Hc].
    unfold ps_buffer_cancel. cbv zeta. rewrite H. cbn [Z.eqb negb].
    eexists. split; [reflexivity |].
    cbn [state set_state buffer stats st_flags read_mutex write_mutex read_packets
         written_packets read_pos write_pos read_next write_next read_first free_bytes
         set_st_flags set_read_packets set_written_packets set_write_mutex set_read_mutex].
    destruct (tst_lor_cancelled (st_flags (state b))) as [Tc Tr]. rewrite Hr in Tr.
    match goal with |- context [ps_buffer_check ?x = EINTR] => set (b' := x) end.
    assert (ps_buffer_check b' = EINTR) as Hchk.
    { unfold ps_buffer_check. subst b'. cbn [state set_state st_flags set_st_flags
        set_read_packets set_written_packets set_write_mutex set_read_mutex].
      rewrite Tr, Tc. reflexivity. }
    split; [reflexivity |]. split; [reflexivity |]. split; [reflexivity |].
    split; [unfold sem_post; destruct (_ <? _); reflexivity |].
    split; [unfold sem_post; destruct (written_packets (state b) <? _); reflexivity |].
    do 8 (split; [reflexivity |]).
    split; [exact Hchk |].
    split.
    { unfold ps_buffer_cancel. cbv zeta. rewrite Hchk. reflexivity. }
    intros p signals. set (w' := {| buf := b'; pkt := p; intr := signals |}). split.
    + intros flags. unfold ps_packet_open. cbv zeta.
      change (buf w') with b'. rewrite Hchk. reflexivity.
    + intros Hp fuel n src.
      assert (ps_packet_check w' = EINTR) as Hpc.
      { unfold ps_packet_check. change (pkt w') with p. rewrite Hp. exact Hchk. }
      assert (ps_packet_check w' <> 0) as Hne by (rewrite Hpc; discriminate).
      pose proof (ps_packet_check_guards fuel w' n src Hne) as G.
      rewrite Hpc in G. tauto.
Qed.

Lemma ps_buffer_cancel_interrupts_witness :
  ps_buffer_check demo_buffer = 0 /\
  exists b',
    ps_buffer_cancel demo_buffer = (0, b') /\
    read_packets (state b') = 1 /\ written_packets (state b') = 1 /\
    ps_buffer_cancel b' = (EINTR, b') /\
    ps_packet_open {| buf := b'; pkt := closed_handle; intr := 0 |} PS_PACKET_WRITE
    = Returns EINTR {| buf := b'; pkt := closed_handle; intr := 0 |}.
Proof.
  assert (ps_buffer_check demo_buffer = 0) as H by reflexivity.
  split; [exact H |].
  destruct (proj2 (ps_buffer_cancel_interrupts demo_buffer) H)
    as (b' & Hret & _ & _ & _ & Hrp & Hwp & _ & _ & _ & _ & _ & _ & _ & _ & _ & H2 & G).
  exists b'. split; [exact Hret |].
  split; [exact Hrp |]. split; [exact Hwp |]. split; [exact H2 |].
  exact (proj1 (G closed_handle 0%nat) PS_PACKET_WRITE).
Defined.

(** ** [ps_packet_open] *)

Lemma on_state_unlock_write w :
  write_mutex (wstate w) = false ->
  on_state (set_write_mutex false) (on_state (set_write_mutex true) w) = w.
Proof.
  destruct w as [[s a t sh] p i]. destruct s. unfold wstate. cbn. intros ->. reflexivity.
Qed.

Lemma on_state_unlock_read w :
  read_mutex (wstate w) = false ->
  on_state (set_read_mutex false) (on_state (set_read_mutex true) w) = w.
Proof.
  destruct w as [[s a t sh] p i]. destruct s. unfold wstate. cbn. intros ->. reflexivity.
Qed.

(** The header that [ps_packet_openwrite] clears. *)
Lemma header_cleared a h :
  0 <= h -> h + HDR <= Z.of_nat (length a) ->
  let a' := set_header_size (set_header_flags a h 0) h 0 in
  header_flags a' h = 0 /\ header_size a' h = 0 /\ length a' = length a /\
  forall x m, (x + m <= Z.to_nat h \/ Z.to_nat h + 16 <= x)%nat ->
              load a' x m = load a x m.
Proof.
  intros H0 Hfit a'. unfold HDR in Hfit. subst a'.
  assert (length (set_header_flags a h 0) = length a) as L1 by apply length_store.
  split; [| split; [| split]].
  - rewrite header_flags_set_size by lia. rewrite header_flags_set_flags by lia. reflexivity.
  - rewrite header_size_set_size by lia. reflexivity.
  - unfold set_header_size. rewrite length_store. exact L1.
  - intros x m Hx. unfold set_header_size, set_header_flags.
    rewrite !load_store_other; [reflexivity | |].
    + rewrite length_le_split. lia.
    + rewrite length_le_split. lia.
Qed.

(** X3: on a ready buffer that is not cancelled, [ps_packet_open] for
    writing (without [PS_PACKET_READ]) needs [write_mutex]: when it is held
    the call returns [EBUSY] under [PS_PACKET_TRY] and waits otherwise.
    When it is free the call returns 0 holding it, changes nothing else in
    the state, points the handle at [write_next] with cursor 0 and nothing
    reserved, and clears the flags and the size of the header there, no
    other byte of the arena lying outside that header; until the packet is
    sized or cancelled every further open for writing finds the mutex
    held. *)
Theorem ps_packet_open_write_exclusive w flags :
  ps_buffer_check (buf w) = 0 ->
  tst flags PS_PACKET_READ = false -> tst flags PS_PACKET_WRITE = true ->
  (write_mutex (wstate w) = true ->
   ps_packet_open w flags = if tst flags PS_PACKET_TRY then Returns EBUSY w else Blocks w) /\
  (write_mutex (wstate w) = false ->
   let h := write_next (wstate w) in
   exists w',
     ps_packet_open w flags = Returns 0 w' /\
     wstate w' = set_write_mutex true (wstate w) /\
     pkt w' = {| pk_flags := flags; header := Some h; buffer_pos := h; pk_pos := 0;
                 reserved := 0; fake_dma := fake_dma (pkt w) |} /\
     (0 <= h -> h + HDR <= Z.of_nat (length (warena w)) ->
      header_flags (warena w') h = 0 /\ header_size (warena w') h = 0 /\
      length (warena w') = length (warena w) /\
      forall x m, (x + m <= Z.to_nat h \/ Z.to_nat h + 16 <= x)%nat ->
                  load (warena w') x m = load (warena w) x m) /\
     forall p flags',
       tst flags' PS_PACKET_READ = false -> tst flags' PS_PACKET_WRITE = true ->
       ps_packet_open (on_pkt (fun _ => p) w') flags'
       = if tst flags' PS_PACKET_TRY then Returns EBUSY (on_pkt (fun _ => p) w')
         else Blocks (on_pkt (fun _ => p) w')).
Proof.
  intros Hc Hr Hw.
  assert (forall w0 f, ps_buffer_check (buf w0) = 0 ->
            tst f PS_PACKET_READ = false -> tst f PS_PACKET_WRITE = true ->
            ps_packet_open w0 f = ps_packet_openwrite w0 f) as Hopen.
  { intros w0 f H0 H1 H2. unfold ps_packet_open. cbv zeta.
    rewrite H0, H1, H2. reflexivity. }
  rewrite (Hopen w flags Hc Hr Hw). split.
  - intros Hm. unfold ps_packet_openwrite. rewrite Hm. reflexivity.
  - intros Hm h. destruct (ps_buffer_check_0 _ Hc) as [_ Hcan].
    change (state (buf w)) with (wstate w) in Hcan.
    unfold ps_packet_openwrite. rewrite Hm. cbv zeta.
    assert (cancelled (on_state (set_write_mutex true) w) = false) as Hcan1 by exact Hcan.
    rewrite Hcan1.
    eexists. split; [reflexivity |].
    split; [reflexivity |]. split; [reflexivity |]. split.
    + intros H0 Hfit. exact (header_cleared (warena w) h H0 Hfit).
    + intros p flags' Hr' Hw'. rewrite Hopen; [| exact Hc | exact Hr' | exact Hw'].
      unfold ps_packet_openwrite. reflexivity.
Qed.

Lemma ps_packet_open_write_exclusive_witness :
  exists w',
    ps_packet_open demo_world PS_PACKET_WRITE = Returns 0 w' /\
    write_mutex (wstate w') = true /\ header (pkt w') = Some 0 /\
    ps_packet_open (on_pkt (fun _ => closed_handle) w') (Z.lor PS_PACKET_WRITE PS_PACKET_TRY)
    = Returns EBUSY (on_pkt (fun _ => closed_handle) w').
Proof.
  destruct (ps_packet_open_write_exclusive demo_world PS_PACKET_WRITE
              eq_refl eq_refl eq_refl) as [_ H].
  destruct (H eq_refl) as (w' & Hret & Hs & Hp & _ & Hnext).
  exists w'. split; [exact Hret |].
  split; [rewrite Hs; reflexivity |]. split; [rewrite Hp; reflexivity |].
  exact (Hnext closed_handle (Z.lor PS_PACKET_WRITE PS_PACKET_TRY) eq_refl eq_refl).
Defined.

Lemma sem_wait_retry_empty k c : forall signals,
  c <= 0 ->
  sem_wait_retry k c signals
  = if (k <=? signals)%nat then (Interrupted, (signals - k)%nat) else (WouldBlock, 0%nat).
Proof.
  induction k as [| k IH]; intros signals Hc.
  - cbn. rewrite Nat.sub_0_r. reflexivity.
  - cbn [sem_wait_retry]. unfold sem_wait.
    assert ((0 <? c) = false) as -> by (apply Z.ltb_ge; lia).
    destruct signals as [| m]; [reflexivity |].
    rewrite IH by exact Hc. reflexivity.
Qed.

Lemma sem_wait_retry_token k c signals :
  0 < c -> sem_wait_retry (S k) c signals = (Acquired (c - 1), signals).
Proof.
  intros Hc. cbn [sem_wait_retry]. unfold sem_wait.
  assert ((0 <? c) = true) as -> by (apply Z.ltb_lt; lia). reflexivity.
Qed.

(** X4: on a ready buffer that is not cancelled, [ps_packet_open] with
    [PS_PACKET_READ] opens for reading (also when [PS_PACKET_WRITE] is
    given as well).  With [read_mutex] free and a token of
    [written_packets] at hand it returns 0: it takes exactly one token,
    points the handle at [read_next] with cursor 0 and without
    [PS_PACKET_TRY], moves [read_next] past that packet by [move_pos],
    releases [read_mutex] and leaves the arena alone.  Without a token the
    call returns [EBUSY] under [PS_PACKET_TRY], the store being as before;
    without [PS_PACKET_TRY] it waits, and gives up with [EINVAL], the
    mutex released, when [MAX_SEM_WAIT_TRIES] waits in a row are
    interrupted by a signal. *)
Theorem ps_packet_open_read_takes_one w flags :
  ps_buffer_check (buf w) = 0 -> tst flags PS_PACKET_READ = true ->
  read_mutex (wstate w) = false ->
  (0 < written_packets (wstate w) ->
   let rn := read_next (wstate w) in
   exists w',
     ps_packet_open w flags = Returns 0 w' /\
     wstate w'
     = set_read_next
         (to_size_t (move_pos rn (st_size (wstate w)) (header_size (warena w) rn)))
         (set_written_packets (written_packets (wstate w) - 1) (wstate w)) /\
     warena w' = warena w /\ intr w' = intr w /\
     pkt w' = {| pk_flags := Z.land flags (Z.lnot PS_PACKET_TRY); header := Some rn;
                 buffer_pos := rn; pk_pos := 0; reserved := reserved (pkt w);
                 fake_dma := fake_dma (pkt w) |}) /\
  (written_packets (wstate w) <= 0 ->
   (tst flags PS_PACKET_TRY = true -> ps_packet_open w flags = Returns EBUSY w) /\
   (tst flags PS_PACKET_TRY = false ->
    ps_packet_open w flags
    = if (MAX_SEM_WAIT_TRIES <=? intr w)%nat
      then Returns EINVAL (set_intr (intr w - MAX_SEM_WAIT_TRIES) w)
      else Blocks (set_intr 0 (on_state (set_read_mutex true) w)))).
Proof.
  intros Hc Hr Hm.
  destruct (ps_buffer_check_0 _ Hc) as [_ Hcan].
  change (state (buf w)) with (wstate w) in Hcan.
  assert (ps_packet_open w flags = ps_packet_openread w flags) as ->.
  { unfold ps_packet_open. cbv zeta. rewrite Hc, Hr. reflexivity. }
  unfold ps_packet_openread. rewrite Hm. cbv zeta.
  assert (cancelled (on_state (set_read_mutex true) w) = false) as Hcan1 by exact Hcan.
  rewrite Hcan1.
  change (written_packets (wstate (on_state (set_read_mutex true) w)))
    with (written_packets (wstate w)).
  split.
  - intros Htok.
    assert (sem_trywait (written_packets (wstate w)) = Some (written_packets (wstate w) - 1))
      as Htry.
    { unfold sem_trywait. assert ((0 <? written_packets (wstate w)) = true) as ->
        by (apply Z.ltb_lt; lia). reflexivity. }
    unfold MAX_SEM_WAIT_TRIES. rewrite sem_wait_retry_token by exact Htok. rewrite Htry.
    assert (forall x, intr x = intr w ->
              tst (st_flags (wstate x)) PS_BUFFER_CANCELLED = false ->
              (if tst flags PS_PACKET_TRY
               then @Returns world Z 0 x
               else Returns 0 (set_intr (intr (on_state (set_read_mutex true) w)) x))
              = Returns 0 x /\ cancelled x = false) as Hif.
    { intros x Hx Hcx. split; [| exact Hcx].
      destruct (tst flags PS_PACKET_TRY); [reflexivity |].
      destruct x. cbn in Hx. subst. reflexivity. }
    destruct (Hif (on_state (set_written_packets (written_packets (wstate w) - 1))
                     (on_state (set_read_mutex true) w)) eq_refl Hcan) as [-> Hcx].
    cbn [andthen Z.eqb]. rewrite Hcx.
    eexists. split; [reflexivity |].
    split; [| split; [reflexivity | split; [reflexivity | reflexivity]]].
    unfold wstate, warena, on_state, on_pkt. cbn [buf pkt state set_state buffer].
    destruct w as [[s a t sh] p i]. unfold wstate in Hm. cbn [buf state] in *.
    destruct s. cbn in Hm. subst. reflexivity.
  - intros Hemp.
    assert (sem_trywait (written_packets (wstate w)) = None) as Htry.
    { unfold sem_trywait. assert ((0 <? written_packets (wstate w)) = false) as ->
        by (apply Z.ltb_ge; lia). reflexivity. }
    split; intros Ht; rewrite Ht.
    + rewrite Htry. cbn [andthen Z.eqb]. rewrite on_state_unlock_read by exact Hm.
      reflexivity.
    + rewrite sem_wait_retry_empty by exact Hemp.
      change (intr (on_state (set_read_mutex true) w)) with (intr w).
      destruct (MAX_SEM_WAIT_TRIES <=? intr w)%nat; cbn [andthen Z.eqb].
      * rewrite on_state_unlock_read by exact Hm. reflexivity.
      * reflexivity.
Qed.

Lemma ps_packet_open_read_takes_one_witness :
  written_packets (wstate demo_written) = 1 /\
  (exists w', ps_packet_open demo_written PS_PACKET_READ = Returns 0 w' /\
              written_packets (wstate w') = 0 /\ read_next (wstate w') = 32 /\
              header (pkt w') = Some 0) /\
  ps_packet_open demo_world (Z.lor PS_PACKET_READ PS_PACKET_TRY) = Returns EBUSY demo_world /\
  ps_packet_open (set_intr 7 demo_world) PS_PACKET_READ
  = Returns EINVAL (set_intr 1 demo_world).
Proof.
  split; [reflexivity |]. split; [| split].
  - destruct (ps_packet_open_read_takes_one demo_written PS_PACKET_READ
                eq_refl eq_refl eq_refl) as [H _].
    destruct H as (w' & Hret & Hs & _ & _ & Hp); [reflexivity |].
    exists w'. split; [exact Hret |]. rewrite Hs, Hp. repeat split.
  - destruct (ps_packet_open_read_takes_one demo_world (Z.lor PS_PACKET_READ PS_PACKET_TRY)
                eq_refl eq_refl eq_refl) as [_ H].
    destruct H as [H _]; [vm_compute; discriminate |]. exact (H eq_refl).
  - destruct (ps_packet_open_read_takes_one (set_intr 7 demo_world) PS_PACKET_READ
                eq_refl eq_refl eq_refl) as [_ H].
    destruct H as [_ H]; [vm_compute; discriminate |]. exact (H eq_refl).
Defined.

(** ** [ps_packet_read] in pieces *)

(** The bytes of a span are those of its first part followed by those of
    the rest, wherever the arena ends. *)
Lemma copy_out_app a bsize offs n1 n2 :
  Z.of_nat (length a) = bsize -> bsize <= PTRDIFF_MAX ->
  0 <= offs < bsize -> 0 <= n1 -> 0 <= n2 -> n1 + n2 <= bsize ->
  copy_out a bsize offs (n1 + n2)
  = copy_out a bsize offs n1 ++ copy_out a bsize ((offs + n1) mod bsize) n2.
Proof.
  intros Hlen Hmax Hoffs H1 H2 Hsum. unfold copy_out, PTRDIFF_MAX in *.
  rewrite (to_size_t_small (offs + (n1 + n2))) by lia.
  rewrite (to_size_t_small (offs + n1)) by lia.
  assert (0 <= (offs + n1) mod bsize < bsize) as Hm by (apply Z.mod_pos_bound; lia).
  rewrite (to_size_t_small ((offs + n1) mod bsize + n2)) by lia.
  rewrite !(to_size_t_small (bsize - offs)) by lia.
  destruct (Z_lt_dec (offs + n1) bsize) as [Hlt | Hge].
  - (* the first part ends before the end of the arena *)
    rewrite (Z.mod_small (offs + n1)) by lia.
    assert ((offs + n1 >? bsize) = false) as -> by (rewrite Z.gtb_ltb; apply Z.ltb_ge; lia).
    destruct (offs + (n1 + n2) >? bsize) eqn:E.
    + apply Z.gtb_lt in E.
      assert ((offs + n1 + n2 >? bsize) = true) as -> by (apply Z.gtb_lt; lia).
      rewrite (to_size_t_small (bsize - (offs + n1))) by lia.
      rewrite (to_size_t_small (n1 + n2 - (bsize - offs))) by lia.
      rewrite (to_size_t_small (n2 - (bsize - (offs + n1)))) by lia.
      replace (Z.to_nat (bsize - offs))
        with (Z.to_nat n1 + Z.to_nat (bsize - (offs + n1)))%nat by lia.
      rewrite load_app, <- app_assoc.
      replace (Z.to_nat offs + Z.to_nat n1)%nat with (Z.to_nat (offs + n1)) by lia.
      replace (n1 + n2 - (bsize - offs)) with (n2 - (bsize - (offs + n1))) by lia.
      reflexivity.
    + rewrite Z.gtb_ltb in E. apply Z.ltb_ge in E.
      assert ((offs + n1 + n2 >? bsize) = false) as ->
        by (rewrite Z.gtb_ltb; apply Z.ltb_ge; lia).
      replace (Z.to_nat (n1 + n2)) with (Z.to_nat n1 + Z.to_nat n2)%nat by lia.
      rewrite load_app.
      replace (Z.to_nat offs + Z.to_nat n1)%nat with (Z.to_nat (offs + n1)) by lia.
      reflexivity.
  - destruct (Z.eq_dec (offs + n1) bsize) as [Heq | Hne].
    + (* the first part ends at the end of the arena *)
      rewrite Heq, Z.mod_same by lia.
      assert ((bsize >? bsize) = false) as -> by (rewrite Z.gtb_ltb; apply Z.ltb_ge; lia).
      assert ((0 + n2 >? bsize) = false) as -> by (rewrite Z.gtb_ltb; apply Z.ltb_ge; lia).
      destruct (offs + (n1 + n2) >? bsize) eqn:E.
      * rewrite (to_size_t_small (n1 + n2 - (bsize - offs))) by lia.
        replace (bsize - offs) with n1 by lia.
        replace (n1 + n2 - n1) with n2 by lia. reflexivity.
      * rewrite Z.gtb_ltb in E. apply Z.ltb_ge in E.
        assert (n2 = 0) as -> by lia. rewrite Z.add_0_r.
        change (load a (Z.to_nat 0) (Z.to_nat 0)) with (@nil byte).
        rewrite app_nil_r. reflexivity.
    + (* the first part itself goes round *)
      assert ((offs + n1) mod bsize = offs + n1 - bsize) as Hmod.
      { replace (offs + n1) with (offs + n1 - bsize + 1 * bsize) at 1 by lia.
        rewrite Z.mod_add by lia. apply Z.mod_small. lia. }
      rewrite Hmod.
      assert ((offs + n1 >? bsize) = true) as -> by (apply Z.gtb_lt; lia).
      assert ((offs + (n1 + n2) >? bsize) = true) as -> by (apply Z.gtb_lt; lia).
      assert ((offs + n1 - bsize + n2 >? bsize) = false) as ->
        by (rewrite Z.gtb_ltb; apply Z.ltb_ge; lia).
      rewrite (to_size_t_small (n1 + n2 - (bsize - offs))) by lia.
      rewrite (to_size_t_small (n1 - (bsize - offs))) by lia.
      replace (Z.to_nat (n1 + n2 - (bsize - offs)))
        with (Z.to_nat (n1 - (bsize - offs)) + Z.to_nat n2)%nat by lia.
      rewrite load_app, <- app_assoc.
      replace (0 + Z.to_nat (n1 - (bsize - offs)))%nat
        with (Z.to_nat (offs + n1 - bsize)) by lia.
      reflexivity.
Qed.

(** X5: [ps_packet_read] compares the end of the span, computed in
    [size_t], with the size of the packet and returns [EINVAL], changing
    nothing, when it lies behind the size: so for every span that ends
    behind the size and before [2 ^ 64].  Whatever the call returns, it
    leaves the buffer as it is and changes the cursor of the handle at
    most.  On a packet whose header lies in the arena and whose size is at
    most the arena, reading [n1] bytes and then [n2] bytes yields, one
    after the other, the bytes that reading [n1 + n2] bytes at once
    yields, and leaves the same store, also when the payload goes round
    the end of the arena. *)
Theorem ps_packet_read_in_pieces w h n1 n2 :
  ps_packet_check w = 0 -> header (pkt w) = Some h ->
  (forall n, to_size_t (pk_pos (pkt w) + n) > header_size (warena w) h ->
             ps_packet_read w n = Returns (EINVAL, []) w) /\
  (forall n, 0 <= pk_pos (pkt w) + n < 2 ^ 64 ->
             pk_pos (pkt w) + n > header_size (warena w) h ->
             ps_packet_read w n = Returns (EINVAL, []) w) /\
  (forall n r w', ps_packet_read w n = Returns r w' ->
                  w' = w \/ w' = on_pkt (set_pk_pos (to_size_t (pk_pos (pkt w) + n))) w) /\
  (Z.of_nat (length (warena w)) = st_size (wstate w) ->
   st_size (wstate w) <= PTRDIFF_MAX ->
   0 <= buffer_pos (pkt w) -> buffer_pos (pkt w) + HDR <= st_size (wstate w) ->
   0 <= pk_pos (pkt w) -> 0 <= n1 -> 0 <= n2 ->
   header_size (warena w) h <= st_size (wstate w) ->
   pk_pos (pkt w) + n1 + n2 <= header_size (warena w) h ->
   exists out1 out2 w1,
     let w2 := on_pkt (set_pk_pos (pk_pos (pkt w) + n1 + n2)) w in
     ps_packet_read w n1 = Returns (0, out1) w1 /\
     ps_packet_read w1 n2 = Returns (0, out2) w2 /\
     ps_packet_read w (n1 + n2) = Returns (0, out1 ++ out2) w2).
Proof.
  intros Hc Hh.
  assert (forall n, to_size_t (pk_pos (pkt w) + n) > header_size (warena w) h ->
                    ps_packet_read w n = Returns (EINVAL, []) w) as Hrefuse.
  { intros n Hn. unfold ps_packet_read. rewrite Hc, Hh. cbn [Z.eqb negb].
    apply Z.gt_lt, Z.gtb_lt in Hn. rewrite Hn. reflexivity. }
  split; [exact Hrefuse |]. split; [| split].
  - intros n Hr Hn. apply Hrefuse. rewrite to_size_t_small by lia. exact Hn.
  - intros n r w'. unfold ps_packet_read. rewrite Hc, Hh. cbn [Z.eqb negb].
    destruct (_ >? _); intros H; injection H as _ <-; [left | right]; reflexivity.
  - intros Hlen Hmax Hb Hbfit Hpos H1 H2 Hsz Hfit. unfold HDR in Hbfit.
    assert (st_size (wstate w) <= 9223372036854775807) as Hmax' by exact Hmax.
    assert (0 <= payload_offs w < st_size (wstate w)) as Hoffs
      by (unfold payload_offs; apply Z.mod_pos_bound; lia).
    assert (forall (x : world) n,
              ps_packet_check x = 0 -> header (pkt x) = Some h ->
              warena x = warena w -> 0 <= n -> 0 <= pk_pos (pkt x) ->
              pk_pos (pkt x) + n <= header_size (warena w) h ->
              ps_packet_read x n
              = Returns (0, copy_out (warena w) (st_size (wstate x)) (payload_offs x) n)
                  (on_pkt (set_pk_pos (pk_pos (pkt x) + n)) x)) as Hread.
    { intros x n Hcx Hhx Hax Hn Hpx Hle. unfold ps_packet_read.
      rewrite Hcx, Hhx, Hax. cbn [Z.eqb negb].
      rewrite to_size_t_small by lia.
      assert ((pk_pos (pkt x) + n >? header_size (warena w) h) = false) as ->
        by (rewrite Z.gtb_ltb; apply Z.ltb_ge; lia).
      unfold on_pkt. cbv beta. rewrite to_size_t_small by lia. reflexivity. }
    set (w1 := on_pkt (set_pk_pos (pk_pos (pkt w) + n1)) w).
    exists (copy_out (warena w) (st_size (wstate w)) (payload_offs w) n1),
           (copy_out (warena w) (st_size (wstate w)) (payload_offs w1) n2), w1.
    cbv zeta. split; [| split].
    + exact (Hread w n1 Hc Hh eq_refl H1 Hpos ltac:(lia)).
    + assert (0 <= pk_pos (pkt w1)) as Hp1 by (cbn; lia).
      assert (pk_pos (pkt w1) + n2 <= header_size (warena w) h) as Hle1 by (cbn; lia).
      rewrite (Hread w1 n2 Hc Hh eq_refl H2 Hp1 Hle1). reflexivity.
    + rewrite (Hread w (n1 + n2) Hc Hh eq_refl ltac:(lia) Hpos ltac:(lia)).
      rewrite Z.add_assoc. f_equal. f_equal.
      rewrite (copy_out_app (warena w) (st_size (wstate w)) (payload_offs w) n1 n2);
        try assumption; try lia.
      f_equal. f_equal. unfold payload_offs, w1.
      cbn [on_pkt pkt buffer_pos pk_pos set_pk_pos].
      change (wstate (on_pkt (set_pk_pos (pk_pos (pkt w) + n1)) w)) with (wstate w).
      rewrite !to_size_t_small by (unfold HDR; lia).
      rewrite Zplus_mod_idemp_l. f_equal. lia.
Qed.

Lemma ps_packet_read_in_pieces_witness :
  let rd := on_pkt (fun p => set_pk_flags PS_PACKET_READ (set_pk_pos 0 p)) (returned
              (ps_packet_write 4 demo_wrap demo_bytes 20) demo_wrap) in
  exists w1 w2,
    ps_packet_read rd 18 = Returns (0, take 18 demo_bytes) w1 /\
    ps_packet_read w1 2 = Returns (0, drop 18 demo_bytes) w2 /\
    ps_packet_read rd 20 = Returns (0, demo_bytes) w2 /\
    ps_packet_read w2 1 = Returns (EINVAL, []) w2 /\
    buf w2 = buf rd.
Proof.
  intros rd.
  assert (header_size (warena rd) 32 <= st_size (wstate rd)) as Hs
    by (apply Z.leb_le; vm_compute; reflexivity).
  assert (pk_pos (pkt rd) + 18 + 2 <= header_size (warena rd) 32) as Hfit
    by (apply Z.leb_le; vm_compute; reflexivity).
  destruct (ps_packet_read_in_pieces rd 32 18 2 eq_refl eq_refl) as (_ & _ & _ & H).
  destruct (H eq_refl
              ltac:(apply Z.leb_le; reflexivity) ltac:(apply Z.leb_le; reflexivity)
              ltac:(apply Z.leb_le; reflexivity) ltac:(apply Z.leb_le; reflexivity)
              ltac:(lia) ltac:(lia) Hs Hfit) as (out1 & out2 & w1 & R1 & R2 & R3).
  set (w2 := on_pkt (set_pk_pos (pk_pos (pkt rd) + 18 + 2)) rd) in *.
  exists w1, w2.
  assert (out1 = take 18 demo_bytes /\ w1 = on_pkt (set_pk_pos 18) rd) as [-> ->].
  { vm_compute in R1. injection R1 as <- <-. split; reflexivity. }
  assert (out2 = drop 18 demo_bytes) as ->.
  { vm_compute in R2. injection R2 as <-. reflexivity. }
  split; [exact R1 |]. split; [exact R2 |]. split; [exact R3 |].
  split; [| reflexivity].
  destruct (ps_packet_read_in_pieces w2 32 0 0 eq_refl eq_refl) as (_ & Hrefuse & _).
  apply Hrefuse; [vm_compute; split; [discriminate | reflexivity] | vm_compute; reflexivity].
Defined.

(** ** Packets whose size is fixed *)

(** X6: on a packet whose size is set, and on a packet opened for reading
    only, [ps_packet_seek] refuses a position behind the size with
    [EINVAL] and otherwise moves the cursor and nothing else: it reserves
    nothing and leaves the header alone, whatever the fuel.
    [ps_packet_tell] then returns that position (as an [int]). *)
Theorem ps_packet_seek_fixed_size fuel w h pos :
  ps_packet_check w = 0 -> header (pkt w) = Some h ->
  tst (pk_flags (pkt w)) PS_PACKET_SIZE_SET = true \/
  (tst (pk_flags (pkt w)) PS_PACKET_READ = true /\
   tst (pk_flags (pkt w)) PS_PACKET_WRITE = false) ->
  (pos > header_size (warena w) h -> ps_packet_seek fuel w pos = Returns EINVAL w) /\
  (pos <= header_size (warena w) h ->
   let w' := on_pkt (set_pk_pos pos) w in
   ps_packet_seek fuel w pos = Returns 0 w' /\
   ps_packet_tell w' = Returns (to_int pos, None) w' /\
   (0 <= pos <= INT_MAX -> to_int pos = pos)).
Proof.
  intros Hc Hh Hfl.
  assert (tst (pk_flags (pkt w)) PS_PACKET_SIZE_SET || tst (pk_flags (pkt w)) PS_PACKET_READ
          = true /\
          negb (tst (pk_flags (pkt w)) PS_PACKET_SIZE_SET)
            && tst (pk_flags (pkt w)) PS_PACKET_WRITE = false) as [F1 F2].
  { destruct Hfl as [-> | [-> ->]]; split; try reflexivity.
    - apply orb_true_r.
    - apply andb_false_r. }
  unfold ps_packet_seek. rewrite Hc. cbn [Z.eqb negb]. cbv zeta.
  rewrite F1, Hh. split.
  - intros Hp. apply Z.gt_lt, Z.gtb_lt in Hp. rewrite Hp. reflexivity.
  - intros Hp. assert ((pos >? header_size (warena w) h) = false) as ->
      by (rewrite Z.gtb_ltb; apply Z.ltb_ge; lia).
    cbn [andthen Z.eqb]. rewrite F2. cbn [andthen Z.eqb].
    change (pk_flags (pkt (on_pkt (set_pk_pos pos) w))) with (pk_flags (pkt w)).
    rewrite F2. split; [reflexivity |]. split.
    + unfold ps_packet_tell.
      change (ps_packet_check (on_pkt (set_pk_pos pos) w)) with (ps_packet_check w).
      rewrite Hc. reflexivity.
    + intros Hr. apply to_int_small. unfold INT_MAX in Hr. lia.
Qed.

Lemma ps_packet_seek_fixed_size_witness :
  ps_packet_seek 0 demo_wrap 7 = Returns 0 (on_pkt (set_pk_pos 7) demo_wrap) /\
  ps_packet_tell (on_pkt (set_pk_pos 7) demo_wrap)
  = Returns (7, None) (on_pkt (set_pk_pos 7) demo_wrap) /\
  ps_packet_seek 0 demo_wrap 21 = Returns EINVAL demo_wrap.
Proof.
  destruct (ps_packet_seek_fixed_size 0 demo_wrap 32 7 eq_refl eq_refl (or_introl eq_refl))
    as [_ H].
  destruct H as (H1 & H2 & _); [apply Z.leb_le; vm_compute; reflexivity |].
  split; [exact H1 |]. split; [exact H2 |].
  destruct (ps_packet_seek_fixed_size 0 demo_wrap 32 21 eq_refl eq_refl (or_introl eq_refl))
    as [H _].
  apply H. vm_compute. reflexivity.
Defined.

(** X7: [ps_packet_write] on a packet whose size is set compares the end
    of the span, computed in [size_t], with the size and returns
    [EINVAL], changing nothing, when it lies behind the size: so for every
    span that ends behind the size and before [2 ^ 64].  When the size
    leaves room for a header in the arena, a span within the size is
    copied: the call returns 0, moves the cursor past the span, and leaves
    the state of the buffer, the statistics, the reservation and the
    header of the packet as they were; the arena keeps its length, and the
    bytes of the span, read back from the arena, are the bytes
    written. *)
Theorem ps_packet_write_fixed_size fuel w h src n :
  ps_packet_check w = 0 -> handle_ok w h ->
  tst (pk_flags (pkt w)) PS_PACKET_SIZE_SET = true ->
  0 <= pk_pos (pkt w) -> 0 <= n ->
  (to_size_t (pk_pos (pkt w) + n) > header_size (warena w) h ->
   ps_packet_write fuel w src n = Returns EINVAL w) /\
  (pk_pos (pkt w) + n < 2 ^ 64 -> pk_pos (pkt w) + n > header_size (warena w) h ->
   ps_packet_write fuel w src n = Returns EINVAL w) /\
  (header_size (warena w) h + HDR <= st_size (wstate w) ->
   pk_pos (pkt w) + n <= header_size (warena w) h -> Z.of_nat (length src) = n ->
   exists w',
     ps_packet_write fuel w src n = Returns 0 w' /\
     wstate w' = wstate w /\ stats (buf w') = stats (buf w) /\
     pkt w' = set_pk_pos (pk_pos (pkt w) + n) (pkt w) /\
     length (warena w') = length (warena w) /\
     header_size (warena w') h = header_size (warena w) h /\
     header_flags (warena w') h = header_flags (warena w) h /\
     copy_out (warena w') (st_size (wstate w)) (payload_offs w) n = src).
Proof.
  intros Hc (Hh & Hb & H0 & Hfit & Hlen & Hmax) Hs Hpos Hn.
  assert (to_size_t (pk_pos (pkt w) + n) > header_size (warena w) h ->
          ps_packet_write fuel w src n = Returns EINVAL w) as Hrefuse.
  { unfold ps_packet_write. rewrite Hc. cbn [Z.eqb negb]. cbv zeta. rewrite Hs, Hh.
    intros Hp. apply Z.gt_lt, Z.gtb_lt in Hp. rewrite Hp. reflexivity. }
  split; [exact Hrefuse |]. split.
  - intros Hr Hp. apply Hrefuse. rewrite to_size_t_small by lia. exact Hp.
  - intros Hroom Hp Hsrc.
    unfold ps_packet_write. rewrite Hc. cbn [Z.eqb negb]. cbv zeta. rewrite Hs, Hh.
    assert (pk_pos (pkt w) + n < 2 ^ 64) as Hsmall by (unfold PTRDIFF_MAX, HDR in *; lia).
    rewrite (to_size_t_small (pk_pos (pkt w) + n)) by lia.
    assert ((pk_pos (pkt w) + n >? header_size (warena w) h) = false) as ->
      by (rewrite Z.gtb_ltb; apply Z.ltb_ge; lia).
    cbn [andthen Z.eqb].
    destruct (header_off_payload (st_size (wstate w)) h (pk_pos (pkt w)) n
                H0 Hfit Hmax Hpos Hn ltac:(lia)) as [Hoffs Hring].
    assert (payload_offs w = to_size_t (h + HDR + pk_pos (pkt w)) mod st_size (wstate w))
      as Hpo by (unfold payload_offs; rewrite Hb; reflexivity).
    rewrite <- Hpo in Hoffs, Hring.
    remember (copy_in (warena w) (st_size (wstate w)) (payload_offs w) src n) as a2 eqn:Ea2.
    assert (forall x m, 0 <= x -> 0 <= m -> h <= x -> x + m <= h + HDR ->
              load a2 (Z.to_nat x) (Z.to_nat m) = load (warena w) (Z.to_nat x) (Z.to_nat m))
      as Hkeep.
    { intros x m Hx Hm Hx1 Hx2. subst a2. rewrite <- Hsrc.
      apply (load_copy_in_other _ _ _ Hlen Hmax Hoffs); try lia.
      rewrite Hsrc. eapply off_ring_sub; [| | exact Hring]; lia. }
    assert (header_size a2 h = header_size (warena w) h) as Hhs.
    { unfold header_size. f_equal.
      exact (Hkeep (h + 8) 8 ltac:(lia) ltac:(lia) ltac:(lia) ltac:(unfold HDR; lia)). }
    assert (header_flags a2 h = header_flags (warena w) h) as Hhf.
    { unfold header_flags. f_equal.
      exact (Hkeep h 4 ltac:(lia) ltac:(lia) ltac:(lia) ltac:(unfold HDR; lia)). }
    assert (copy_out a2 (st_size (wstate w)) (payload_offs w) n = src) as Hout.
    { subst a2. rewrite <- Hsrc. apply copy_out_copy_in; try assumption.
      unfold HDR in *. lia. }
    unfold grow_size.
    cbn [on_pkt on_arena pkt buf header pk_pos set_pk_pos set_header]. rewrite Hh.
    change (warena (on_pkt _ (on_arena _ w)))
      with (copy_in (warena w) (st_size (wstate w)) (payload_offs w) src n).
    rewrite <- Ea2.
    rewrite (to_size_t_small (pk_pos (pkt w) + n)) by lia. rewrite Hhs.
    assert ((pk_pos (pkt w) + n >? header_size (warena w) h) = false) as ->
      by (rewrite Z.gtb_ltb; apply Z.ltb_ge; lia).
    eexists. split; [reflexivity |].
    split; [reflexivity |]. split; [reflexivity |].
    split; [cbn [pkt on_pkt on_arena]; rewrite to_size_t_small by lia; reflexivity |].
    change (warena (on_pkt _ (on_arena _ w)))
      with (copy_in (warena w) (st_size (wstate w)) (payload_offs w) src n).
    rewrite <- Ea2.
    split; [subst a2; apply length_copy_in |]. split; [exact Hhs |].
    split; [exact Hhf | exact Hout].
Qed.

Lemma ps_packet_write_fixed_size_witness :
  exists w',
    ps_packet_write 0 demo_wrap demo_bytes 20 = Returns 0 w' /\
    wstate w' = wstate demo_wrap /\ header_size (warena w') 32 = 20 /\
    copy_out (warena w') 64 48 20 = demo_bytes /\
    ps_packet_write 0 w' demo_bytes 1 = Returns EINVAL w'.
Proof.
  assert (handle_ok demo_wrap 32) as Hok.
  { unfold handle_ok. repeat split; try reflexivity; apply Z.leb_le; reflexivity. }
  destruct (ps_packet_write_fixed_size 0 demo_wrap 32 demo_bytes 20 eq_refl Hok eq_refl
              (Z.le_refl 0) ltac:(lia)) as (_ & _ & H).
  destruct H as (w' & Hret & Hst & _ & _ & _ & Hhs & _ & Hout);
    [apply Z.leb_le; vm_compute; reflexivity | apply Z.leb_le; vm_compute; reflexivity
    | reflexivity |].
  exists w'. split; [exact Hret |]. split; [exact Hst |].
  split; [rewrite Hhs; reflexivity |]. split; [exact Hout |].
  vm_compute in Hret. injection Hret as <-. vm_compute. reflexivity.
Defined.

(** ** [ps_packet_reserve]: what a grant means *)

Lemma reserve_reclaim_pkt fuel : forall w r w',
  reserve_reclaim fuel w = Returns r w' -> pkt w' = pkt w.
Proof.
  induction fuel as [| fuel IH]; intros w r w' H; [discriminate |].
  cbn [reserve_reclaim] in H.
  destruct (tst _ PS_BUFFER_CANCELLED).
  - injection H as _ <-. reflexivity.
  - destruct (sem_trywait _) as [c |].
    + apply IH in H. exact H.
    + injection H as _ <-. reflexivity.
Qed.

Lemma reserve_acquire_pkt w len r w' :
  reserve_acquire w len = Returns r w' -> pkt w' = pkt w.
Proof.
  unfold reserve_acquire. intros H.
  destruct (tst (pk_flags (pkt w)) PS_PACKET_TRY).
  - destruct (sem_trywait _); injection H as _ <-; reflexivity.
  - destruct (sem_wait_retry _ _ _) as [[c | |] n]; try discriminate;
      injection H as _ <-; reflexivity.
Qed.

Lemma reserve_loop_pkt fuel : forall w len r w',
  reserve_loop fuel w len = Returns r w' -> pkt w' = pkt w.
Proof.
  induction fuel as [| fuel IH]; intros w len r w' H; [discriminate |].
  rewrite reserve_loop_S in H.
  destruct (free_bytes (wstate w) <? 0).
  - destruct (reserve_acquire w len) as [[c |] w1 | | | |] eqn:Ha; try discriminate.
    + injection H as _ <-. eapply reserve_acquire_pkt; eassumption.
    + apply reserve_acquire_pkt in Ha.
      destruct (reserve_reclaim fuel w1) as [[c |] w2 | | | |] eqn:Hr; try discriminate.
      * injection H as _ <-. apply reserve_reclaim_pkt in Hr. congruence.
      * apply reserve_reclaim_pkt in Hr. apply IH in H. congruence.
  - injection H as _ <-. reflexivity.
Qed.

(** The loop of [ps_packet_reserve] is left without a code only when
    [free_bytes] is not negative. *)
Lemma reserve_loop_free fuel : forall w len w',
  reserve_loop fuel w len = Returns None w' -> 0 <= free_bytes (wstate w').
Proof.
  induction fuel as [| fuel IH]; intros w len w' H; [discriminate |].
  rewrite reserve_loop_S in H.
  destruct (free_bytes (wstate w) <? 0) eqn:E.
  - destruct (reserve_acquire w len) as [[c |] w1 | | | |]; try discriminate.
    destruct (reserve_reclaim fuel w1) as [[c |] w2 | | | |]; try discriminate.
    eapply IH. exact H.
  - injection H as <-. apply Z.ltb_ge in E. exact E.
Qed.

(** The bytes asked for are free: they are taken from [free_bytes], and
    nothing else happens. *)
Lemma ps_packet_reserve_fast fuel w len :
  reserved (pkt w) < len -> len - reserved (pkt w) < 2 ^ 64 ->
  len - reserved (pkt w) <= free_bytes (wstate w) < 2 ^ 63 ->
  ps_packet_reserve (S fuel) w len
  = Returns 0 (on_pkt (set_reserved len)
                 (on_state (set_free_bytes (free_bytes (wstate w) - (len - reserved (pkt w))))
                    w)).
Proof.
  intros Hlt Hsmall Hfree. unfold ps_packet_reserve.
  assert ((len <=? reserved (pkt w)) = false) as -> by (apply Z.leb_gt; lia).
  rewrite reserve_loop_S. rewrite wstate_on_state.
  cbn [free_bytes set_free_bytes].
  rewrite (to_size_t_small (len - reserved (pkt w))) by lia.
  rewrite to_long_small by lia.
  assert ((free_bytes (wstate w) - (len - reserved (pkt w)) <? 0) = false) as ->
    by (apply Z.ltb_ge; lia).
  f_equal. f_equal. apply on_state_ext. rewrite to_long_small by lia. reflexivity.
Qed.

(** X8: what [ps_packet_reserve] grants.  A request that does not exceed
    the reservation returns 0 at once and changes nothing.  Whatever the
    call returns, it leaves the arena, the packet and byte counters of the
    statistics (of the statistics the source changes the wait time only,
    which is not kept here), [read_pos], [write_pos], [read_next],
    [write_next], the token count of [written_packets] and the handle's
    flags, header and cursor alone.
    When it returns 0 for a larger request the reservation is the length
    asked for and [free_bytes] is not negative; when it returns another
    code that code is [EBUSY], [EINVAL] or [EINTR] and the handle is as
    before.  When the bytes asked for are free the call just takes them
    from [free_bytes]: no token is taken and no packet reclaimed. *)
Theorem ps_packet_reserve_grants fuel w len :
  (len <= reserved (pkt w) -> ps_packet_reserve fuel w len = Returns 0 w) /\
  (forall c w', ps_packet_reserve fuel w len = Returns c w' ->
     reserve_frame w w' /\
     (c = 0 -> reserved (pkt w') = Z.max (reserved (pkt w)) len /\
               (reserved (pkt w) < len -> 0 <= free_bytes (wstate w'))) /\
     (c <> 0 -> (c = EBUSY \/ c = EINVAL \/ c = EINTR) /\ pkt w' = pkt w /\
                reserved (pkt w) < len)) /\
  (reserved (pkt w) < len -> len - reserved (pkt w) < 2 ^ 64 ->
   len - reserved (pkt w) <= free_bytes (wstate w) < 2 ^ 63 -> (0 < fuel)%nat ->
   ps_packet_reserve fuel w len
   = Returns 0 (on_pkt (set_reserved len)
                  (on_state (set_free_bytes
                     (free_bytes (wstate w) - (len - reserved (pkt w)))) w))).
Proof.
  split; [| split].
  - intros H. unfold ps_packet_reserve.
    assert ((len <=? reserved (pkt w)) = true) as -> by (apply Z.leb_le; lia). reflexivity.
  - intros c w' H. split; [exact (ps_packet_reserve_frame _ _ _ _ _ H) |].
    pose proof (ps_packet_reserve_codes _ _ _ _ _ H) as Hcodes.
    unfold ps_packet_reserve in H.
    destruct (len <=? reserved (pkt w)) eqn:E.
    + apply Z.leb_le in E. injection H as <- <-. split.
      * intros _. split; [lia | intros; lia].
      * intros Hne. contradiction.
    + apply Z.leb_gt in E.
      match type of H with context [reserve_loop fuel ?x len] => set (w0 := x) in * end.
      destruct (reserve_loop fuel w0 len) as [[r |] w1 | | | |] eqn:Hl; try discriminate.
      * injection H as <- <-. pose proof (reserve_loop_codes _ _ _ _ _ Hl) as Hcs.
        apply reserve_loop_pkt in Hl. split.
        -- intros ->. destruct Hcs as [Hcs | [Hcs | Hcs]]; discriminate Hcs.
        -- intros Hne. split; [exact Hcs | split; [exact Hl | exact E]].
      * injection H as <- <-. split; [| intros Hne; contradiction].
        intros _. split.
        -- cbn [pkt on_pkt reserved set_reserved]. lia.
        -- intros _. apply reserve_loop_free in Hl. exact Hl.
  - intros H1 H2 H3 Hfuel. destruct fuel as [| fuel]; [lia |].
    apply ps_packet_reserve_fast; assumption.
Qed.

Lemma ps_packet_reserve_grants_witness :
  reserved (pkt demo_open) = 0 /\ free_bytes (wstate demo_open) = 48 /\
  exists w',
    ps_packet_reserve 1 demo_open 40 = Returns 0 w' /\
    reserved (pkt w') = 40 /\ free_bytes (wstate w') = 8 /\
    read_packets (wstate w') = read_packets (wstate demo_open) /\
    ps_packet_reserve 0 w' 40 = Returns 0 w'.
Proof.
  split; [reflexivity |]. split; [reflexivity |].
  destruct (ps_packet_reserve_grants 1 demo_open 40) as (_ & Hany & Hfast).
  assert (reserved (pkt demo_open) < 40) as H1 by (apply Z.ltb_lt; reflexivity).
  assert (40 - reserved (pkt demo_open) < 2 ^ 64) as H2 by (apply Z.ltb_lt; reflexivity).
  assert (40 - reserved (pkt demo_open) <= free_bytes (wstate demo_open) < 2 ^ 63) as H3
    by (split; [apply Z.leb_le | apply Z.ltb_lt]; reflexivity).
  pose proof (Hfast H1 H2 H3 ltac:(lia)) as Hret.
  eexists. split; [exact Hret |].
  destruct (Hany _ _ Hret) as (_ & H0 & _).
  destruct (H0 eq_refl) as [Hres _].
  split; [reflexivity |]. split; [reflexivity |]. split; [reflexivity |].
  apply (proj1 (ps_packet_reserve_grants 0 _ 40)). cbn. lia.
Defined.

(** ** The indices stay in the arena *)

Lemma move_pos_ring p bsize n :
  HDR <= bsize <= 2 ^ 31 ->
  0 <= to_size_t (move_pos p bsize n) /\ to_size_t (move_pos p bsize n) + HDR <= bsize.
Proof.
  intros Hb. unfold move_pos, HDR in *. cbv zeta.
  set (q := to_size_t (16 + p + n) mod bsize).
  assert (0 <= q < bsize) as Hq by (apply Z.mod_pos_bound; lia).
  rewrite (to_size_t_small (q + 16)) by lia.
  destruct (q + 16 >? bsize) eqn:E.
  - rewrite to_int_small, to_size_t_small by lia. lia.
  - rewrite Z.gtb_ltb in E. apply Z.ltb_ge in E.
    rewrite to_int_small, to_size_t_small by lia. lia.
Qed.

Lemma setsize_advance_ring wn bsize n :
  HDR <= bsize <= 2 ^ 31 ->
  0 <= fst (setsize_advance wn bsize n) /\ fst (setsize_advance wn bsize n) + HDR <= bsize.
Proof.
  intros Hb. unfold setsize_advance, HDR in *. cbv zeta.
  set (q := to_size_t (16 + wn + n) mod bsize).
  assert (0 <= q < bsize) as Hq by (apply Z.mod_pos_bound; lia).
  rewrite (to_size_t_small (q + 16)) by lia.
  destruct (q + 16 >? bsize) eqn:E; cbn [fst].
  - lia.
  - rewrite Z.gtb_ltb in E. apply Z.ltb_ge in E. lia.
Qed.

Lemma reclaim_first_ring a s :
  HDR <= st_size s <= 2 ^ 31 ->
  0 <= read_first (reclaim_first a s) /\ read_first (reclaim_first a s) + HDR <= st_size s.
Proof.
  intros Hb. unfold reclaim_first, HDR in *. cbv zeta.
  cbn [read_first set_read_first set_free_bytes st_size free_bytes].
  set (q := to_size_t (read_first s + 16 + header_size a (read_first s)) mod st_size s).
  assert (0 <= q < st_size s) as Hq by (apply Z.mod_pos_bound; lia).
  rewrite (to_size_t_small (q + 16)) by lia.
  destruct (q + 16 >? st_size s) eqn:E; cbn [read_first set_read_first set_free_bytes].
  - lia.
  - rewrite Z.gtb_ltb in E. apply Z.ltb_ge in E. lia.
Qed.

(** [ring_ok] carries over to a buffer whose arena has the same length,
    whose size is the same and each of whose indices is either the old one
    or in the ring. *)
Lemma ring_ok_moved b b' :
  length (buffer b') = length (buffer b) -> st_size (state b') = st_size (state b) ->
  (read_pos (state b') = read_pos (state b) \/ in_ring b (read_pos (state b'))) ->
  (write_pos (state b') = write_pos (state b) \/ in_ring b (write_pos (state b'))) ->
  (read_next (state b') = read_next (state b) \/ in_ring b (read_next (state b'))) ->
  (write_next (state b') = write_next (state b) \/ in_ring b (write_next (state b'))) ->
  (read_first (state b') = read_first (state b) \/ in_ring b (read_first (state b'))) ->
  ring_ok b -> ring_ok b'.
Proof.
  unfold ring_ok, in_ring. intros Hl Hs H1 H2 H3 H4 H5 (Ra & Rs & R1 & R2 & R3 & R4 & R5).
  rewrite Hl, Hs.
  repeat split; try lia;
    match goal with
    | H : ?x = _ \/ _ |- context [?x] => destruct H as [-> | H]; lia
    end.
Qed.

Ltac ring_same :=
  match goal with
  | H : ring_ok ?b |- ring_ok _ =>
      apply (ring_ok_moved b); [| | left | left | left | left | left | exact H];
      reflexivity
  end.

Lemma ring_ok_eq b b' :
  buffer b' = buffer b -> state b' = state b -> ring_ok b -> ring_ok b'.
Proof. unfold ring_ok, in_ring. intros -> ->. trivial. Qed.

Lemma length_set_header_flags a p v : length (set_header_flags a p v) = length a.
Proof. apply length_store. Qed.

Lemma length_set_header_size a p v : length (set_header_size a p v) = length a.
Proof. apply length_store. Qed.

Lemma length_memset0 a off n : length (memset0 a off n) = length a.
Proof. apply length_store. Qed.

Lemma ring_ok_reclaim_first w :
  ring_ok (buf w) -> ring_ok (buf (on_state (reclaim_first (warena w)) w)).
Proof.
  intros H. pose proof H as (_ & Hs & _).
  destruct (reserve_frame_reclaim_first w)
    as (Ha & _ & _ & _ & Hsz & H1 & H2 & H3 & H4 & _).
  apply (ring_ok_moved (buf w)); [| | left | left | left | left | right | exact H];
    try assumption.
  - change (buffer (buf ?x)) with (warena x). rewrite Ha. reflexivity.
  - destruct (reclaim_first_ring (warena w) (wstate w) Hs) as [R1 R2].
    split; [exact R1 | exact R2].
Qed.

Lemma reserve_reclaim_ring fuel : forall w r w',
  reserve_reclaim fuel w = Returns r w' -> ring_ok (buf w) -> ring_ok (buf w').
Proof.
  induction fuel as [| fuel IH]; intros w r w' H Hr; [discriminate |].
  cbn [reserve_reclaim] in H.
  apply ring_ok_reclaim_first in Hr.
  set (w1 := on_state (reclaim_first (warena w)) w) in *.
  destruct (tst (st_flags (wstate w1)) PS_BUFFER_CANCELLED).
  - injection H as _ <-. ring_same.
  - destruct (sem_trywait (read_packets (wstate w1))) as [c |].
    + apply IH in H; [exact H |]. ring_same.
    + injection H as _ <-. exact Hr.
Qed.

Lemma reserve_acquire_ring w len r w' :
  reserve_acquire w len = Returns r w' -> ring_ok (buf w) -> ring_ok (buf w').
Proof.
  unfold reserve_acquire. intros H Hr.
  destruct (tst (pk_flags (pkt w)) PS_PACKET_TRY).
  - destruct (sem_trywait _); injection H as _ <-; ring_same.
  - destruct (sem_wait_retry _ _ _) as [[c | |] n]; try discriminate;
      injection H as _ <-; ring_same.
Qed.

Lemma reserve_loop_ring fuel : forall w len r w',
  reserve_loop fuel w len = Returns r w' -> ring_ok (buf w) -> ring_ok (buf w').
Proof.
  induction fuel as [| fuel IH]; intros w len r w' H Hr; [discriminate |].
  rewrite reserve_loop_S in H.
  destruct (free_bytes (wstate w) <? 0).
  - destruct (reserve_acquire w len) as [[c |] w1 | | | |] eqn:Ha; try discriminate.
    + injection H as _ <-. eapply reserve_acquire_ring; eassumption.
    + apply reserve_acquire_ring in Ha; [| exact Hr].
      destruct (reserve_reclaim fuel w1) as [[c |] w2 | | | |] eqn:Hc; try discriminate.
      * injection H as _ <-. eapply reserve_reclaim_ring; eassumption.
      * apply reserve_reclaim_ring in Hc; [| exact Ha]. eapply IH; eassumption.
  - injection H as _ <-. exact Hr.
Qed.

Lemma ps_packet_reserve_ring fuel w len c w' :
  ps_packet_reserve fuel w len = Returns c w' -> ring_ok (buf w) -> ring_ok (buf w').
Proof.
  unfold ps_packet_reserve. intros H Hr.
  destruct (len <=? reserved (pkt w)).
  - injection H as _ <-. exact Hr.
  - match type of H with context [reserve_loop fuel ?x len] => set (w0 := x) in * end.
    assert (ring_ok (buf w0)) as H0 by (subst w0; ring_same).
    destruct (reserve_loop fuel w0 len) as [[r |] w1 | | | |] eqn:Hl; try discriminate;
      injection H as _ <-; apply reserve_loop_ring in Hl; try exact H0.
    + exact Hl.
    + exact Hl.
Qed.

(** The step of [ps_packet_openread] that takes a token. *)
Lemma openread_acquire_ring flags w1 c1 s1 :
  (if tst flags PS_PACKET_TRY
   then match sem_trywait (written_packets (wstate w1)) with
        | Some c => Returns 0 (on_state (set_written_packets c) w1)
        | None => Returns EBUSY (on_state (set_read_mutex false) w1)
        end
   else let (w0, n) := sem_wait_retry MAX_SEM_WAIT_TRIES
                         (written_packets (wstate w1)) (intr w1) in
        match w0 with
        | Acquired c => Returns 0 (set_intr n (on_state (set_written_packets c) w1))
        | Interrupted => Returns EINVAL (set_intr n (on_state (set_read_mutex false) w1))
        | WouldBlock => Blocks (set_intr n w1)
        end) = (Returns c1 s1 : result Z) ->
  ring_ok (buf w1) -> ring_ok (buf s1).
Proof.
  intros Ha Hr. destruct (tst flags PS_PACKET_TRY).
  - destruct (sem_trywait _); injection Ha as _ <-; ring_same.
  - destruct (sem_wait_retry _ _ _) as [[c0 | |] n]; try discriminate;
      injection Ha as _ <-; ring_same.
Qed.

Lemma ps_packet_open_ring w flags c w' :
  ps_packet_open w flags = Returns c w' -> ring_ok (buf w) -> ring_ok (buf w').
Proof.
  unfold ps_packet_open. cbv zeta. intros H Hr.
  destruct (negb (ps_buffer_check (buf w) =? 0)); [injection H as _ <-; exact Hr |].
  destruct (negb (_ || _)); [injection H as _ <-; exact Hr |].
  destruct (tst flags PS_PACKET_READ).
  - unfold ps_packet_openread in H.
    destruct (read_mutex (wstate w)).
    { destruct (tst flags PS_PACKET_TRY); [injection H as _ <-; exact Hr | discriminate]. }
    cbv zeta in H.
    assert (ring_ok (buf (on_state (set_read_mutex true) w))) as Hr1 by ring_same.
    set (w1 := on_state (set_read_mutex true) w) in *.
    destruct (cancelled w1); [injection H as _ <-; ring_same |].
    apply andthen_returns in H.
    pose proof (fun c1 s1 Ha => openread_acquire_ring flags w1 c1 s1 Ha Hr1) as Hacq.
    destruct H as [(s1 & Ha & Hk) | [Ha _]]; [| exact (Hacq _ _ Ha)].
    apply Hacq in Ha.
    destruct (cancelled s1); [injection Hk as _ <-; ring_same |].
    injection Hk as _ <-. pose proof Ha as (_ & Hs & _).
    apply (ring_ok_moved (buf s1)); [| | left | left | right | left | left | exact Ha];
      try reflexivity.
    exact (move_pos_ring _ _ _ Hs).
  - unfold ps_packet_openwrite in H.
    destruct (write_mutex (wstate w)).
    { destruct (tst flags PS_PACKET_TRY); [injection H as _ <-; exact Hr | discriminate]. }
    cbv zeta in H.
    destruct (cancelled _); injection H as _ <-.
    + ring_same.
    + apply (ring_ok_moved (buf w)); [| | left | left | left | left | left | exact Hr];
        try reflexivity.
      cbn [buf on_arena on_pkt on_state buffer set_buffer set_state].
      rewrite length_set_header_size, length_set_header_flags. reflexivity.
Qed.

Lemma andthen_ring (o : result Z) (k : world -> result Z) c w' :
  andthen o k (fun c => c) = Returns c w' ->
  (forall c1 s1, o = Returns c1 s1 -> ring_ok (buf s1)) ->
  (forall s1, ring_ok (buf s1) -> k s1 = Returns c w' -> ring_ok (buf w')) ->
  ring_ok (buf w').
Proof.
  intros H Ho Hk. apply andthen_returns in H.
  destruct H as [(s1 & H1 & H2) | [H1 _]].
  - exact (Hk s1 (Ho _ _ H1) H2).
  - exact (Ho _ _ H1).
Qed.

Lemma ps_packet_setsize_ring fuel w n c w' :
  ps_packet_setsize fuel w n = Returns c w' -> ring_ok (buf w) -> ring_ok (buf w').
Proof.
  unfold ps_packet_setsize. cbv zeta. intros H Hr.
  destruct (negb (ps_packet_check w =? 0)); [injection H as _ <-; exact Hr |].
  destruct (_ || _); [injection H as _ <-; exact Hr |].
  destruct (_ >? _); [injection H as _ <-; exact Hr |].
  eapply andthen_ring; [exact H | |].
  - intros c1 s1 H1. exact (ps_packet_reserve_ring _ _ _ _ _ H1 Hr).
  - clear H. intros w1 Hr1 H. cbv beta in H.
    pose proof Hr1 as (_ & Hs1 & _).
    pose proof (setsize_advance_ring (write_next (wstate w1)) (st_size (wstate w1)) n Hs1)
      as Hwn.
    destruct (setsize_advance (write_next (wstate w1)) (st_size (wstate w1)) n)
      as [wn res]. cbn [fst] in Hwn.
    apply andthen_returns in H. destruct H as [(w3 & H3 & H) | [H3 _]].
    + pose proof (ps_packet_reserve_frame _ _ _ _ _ H3) as (_ & _ & _ & _ & Hsz & _).
      apply ps_packet_reserve_ring in H3; [| exact Hr1].
      cbn [pkt on_state] in H.
      destruct (header (pkt w3)) as [h |]; [| discriminate].
      injection H as _ <-.
      apply (ring_ok_moved (buf w3));
        [| | left | left | left | right | left | exact H3]; try reflexivity.
      * cbn [buf on_arena on_pkt on_state buffer set_buffer set_state
             ps_packet_fakedma_cut].
        rewrite length_memset0, length_set_header_size. reflexivity.
      * unfold in_ring. change (state (buf w3)) with (wstate w3). rewrite Hsz.
        exact Hwn.
    + exact (ps_packet_reserve_ring _ _ _ _ _ H3 Hr1).
Qed.

Lemma grow_size_ring w c w' :
  grow_size w = Returns c w' -> ring_ok (buf w) -> ring_ok (buf w').
Proof.
  unfold grow_size. intros H Hr.
  destruct (header (pkt w)) as [h |]; [| discriminate].
  destruct (_ >? _); injection H as _ <-; [| exact Hr].
  apply (ring_ok_moved (buf w)); [| | left | left | left | left | left | exact Hr];
    try reflexivity.
  cbn [buf on_arena buffer set_buffer]. apply length_set_header_size.
Qed.

Lemma ps_packet_write_ring fuel w src n c w' :
  ps_packet_write fuel w src n = Returns c w' -> ring_ok (buf w) -> ring_ok (buf w').
Proof.
  unfold ps_packet_write. cbv zeta. intros H Hr.
  destruct (negb (ps_packet_check w =? 0)); [injection H as _ <-; exact Hr |].
  eapply andthen_ring; [exact H | |].
  - intros c1 s1 H1.
    destruct (tst (pk_flags (pkt w)) PS_PACKET_SIZE_SET).
    + destruct (header (pkt w)); [| discriminate].
      destruct (_ >? _); injection H1 as _ <-; exact Hr.
    + destruct (_ >? _); [injection H1 as _ <-; exact Hr |].
      exact (ps_packet_reserve_ring _ _ _ _ _ H1 Hr).
  - clear H. intros w1 Hr1 H. cbv beta in H.
    apply grow_size_ring in H; [exact H |].
    apply (ring_ok_moved (buf w1)); [| | left | left | left | left | left | exact Hr1];
      try reflexivity.
    cbn [buf on_arena on_pkt buffer set_buffer]. apply length_copy_in.
Qed.

Lemma ps_packet_seek_ring fuel w pos c w' :
  ps_packet_seek fuel w pos = Returns c w' -> ring_ok (buf w) -> ring_ok (buf w').
Proof.
  unfold ps_packet_seek. cbv zeta. intros H Hr.
  destruct (negb (ps_packet_check w =? 0)); [injection H as _ <-; exact Hr |].
  eapply andthen_ring; [exact H | |].
  - intros c1 s1 H1.
    destruct (_ || _); [| injection H1 as _ <-; exact Hr].
    destruct (header (pkt w)); [| discriminate].
    destruct (_ >? _); injection H1 as _ <-; exact Hr.
  - clear H. intros w1 Hr1 H. cbv beta in H.
    eapply andthen_ring; [exact H | |].
    + intros c1 s1 H1.
      destruct (_ && _); [| injection H1 as _ <-; exact Hr1].
      destruct (_ >? _); [injection H1 as _ <-; exact Hr1 |].
      exact (ps_packet_reserve_ring _ _ _ _ _ H1 Hr1).
    + clear H. intros w2 Hr2 H. cbv beta in H.
      destruct (_ && _).
      * exact (grow_size_ring _ _ _ H Hr2).
      * injection H as _ <-. exact Hr2.
Qed.

Lemma ps_packet_cancel_ring w c w' :
  ps_packet_cancel w = Returns c w' -> ring_ok (buf w) -> ring_ok (buf w').
Proof.
  unfold ps_packet_cancel. cbv zeta. intros H Hr.
  destruct (negb (ps_packet_check w =? 0)); [injection H as _ <-; exact Hr |].
  destruct (negb _); [injection H as _ <-; exact Hr |].
  destruct (tst _ PS_PACKET_SIZE_SET); [injection H as _ <-; exact Hr |].
  cbn [pkt on_state] in H.
  destruct (header (pkt w)) as [h |]; [| discriminate]. injection H as _ <-.
  apply (ring_ok_moved (buf w)); [| | left | left | left | left | left | exact Hr];
    try reflexivity.
  cbn [buf on_arena on_pkt on_state buffer set_buffer set_state ps_packet_fakedma_freeall].
  apply length_memset0.
Qed.

Lemma fakedma_commit_from_ring fuel rest : forall w i c w',
  fakedma_commit_from fuel w i rest = Returns c w' -> ring_ok (buf w) -> ring_ok (buf w').
Proof.
  induction rest as [| del next IH]; intros w i c w' H Hr; cbn [fakedma_commit_from] in H.
  - injection H as _ <-. exact Hr.
  - destruct (free del =? 0).
    + eapply andthen_ring; [exact H | |].
      * intros c1 s1 H1. exact (ps_packet_seek_ring _ _ _ _ _ H1 Hr).
      * clear H. intros w1 Hr1 H. cbv beta in H.
        eapply andthen_ring; [exact H | |].
        -- intros c1 s1 H1. exact (ps_packet_write_ring _ _ _ _ _ _ H1 Hr1).
        -- clear H. intros w2 Hr2 H. cbv beta in H.
           eapply IH; [exact H |]. exact Hr2.
    + eapply IH; eassumption.
Qed.

Lemma closewrite_walk_ring fuel : forall w pos h p w',
  closewrite_walk fuel w pos h = Returns p w' -> ring_ok (buf w) ->
  ring_ok (buf w') /\ in_ring (buf w') p.
Proof.
  induction fuel as [| fuel IH]; intros w pos h p w' H Hr; [discriminate |].
  rewrite closewrite_walk_S in H. cbv zeta in H.
  destruct (sem_post _) as [c |]; [| discriminate].
  assert (ring_ok (buf (on_state (set_written_packets c) w))) as Hr1 by ring_same.
  destruct (tst _ PS_PACKET_HEADER_WRITTEN).
  - eapply IH; eassumption.
  - injection H as <- <-. split; [exact Hr1 |].
    pose proof Hr as (_ & Hs & _). exact (move_pos_ring _ _ _ Hs).
Qed.

Lemma closeread_walk_ring fuel : forall w pos h p w',
  closeread_walk fuel w pos h = Returns p w' -> ring_ok (buf w) ->
  ring_ok (buf w') /\ in_ring (buf w') p.
Proof.
  induction fuel as [| fuel IH]; intros w pos h p w' H Hr; [discriminate |].
  cbn [closeread_walk] in H. cbv zeta in H.
  destruct (sem_post _) as [c |]; [| discriminate].
  assert (ring_ok (buf (on_state (set_read_packets c) w))) as Hr1 by ring_same.
  destruct (tst _ PS_PACKET_HEADER_READ).
  - eapply IH; eassumption.
  - injection H as <- <-. split; [exact Hr1 |].
    pose proof Hr as (_ & Hs & _). exact (move_pos_ring _ _ _ Hs).
Qed.

Lemma ring_ok_marked h bit w t :
  ring_ok (buf w) ->
  ring_ok (buf (or_header_flags h bit (on_stats t w))).
Proof.
  intros Hr.
  apply (ring_ok_moved (buf w)); [| | left | left | left | left | left | exact Hr];
    try reflexivity.
  cbn [buf or_header_flags on_arena on_stats buffer set_buffer set_stats].
  apply length_set_header_flags.
Qed.

Lemma ring_ok_marked' h bit w :
  ring_ok (buf w) -> ring_ok (buf (or_header_flags h bit w)).
Proof.
  intros Hr.
  apply (ring_ok_moved (buf w)); [| | left | left | left | left | left | exact Hr];
    try reflexivity.
  cbn [buf or_header_flags on_arena buffer set_buffer]. apply length_set_header_flags.
Qed.

Lemma closewrite_commit_ring fuel w h c w' :
  closewrite_commit fuel w h = Returns c w' -> ring_ok (buf w) -> ring_ok (buf w').
Proof.
  unfold closewrite_commit. intros H Hr.
  destruct (write_close_mutex (wstate w)); [discriminate |]. cbv zeta in H.
  assert (ring_ok (buf (or_header_flags h PS_PACKET_HEADER_WRITTEN
                          (count_written (on_state (set_write_close_mutex true) w) h))))
    as Hr3.
  { unfold count_written. destruct (tst _ PS_BUFFER_STATS).
    - apply ring_ok_marked. ring_same.
    - apply ring_ok_marked'. ring_same. }
  set (w3 := or_header_flags h PS_PACKET_HEADER_WRITTEN
               (count_written (on_state (set_write_close_mutex true) w) h)) in *.
  eapply andthen_ring; [exact H | |].
  - intros c1 s1 H1.
    destruct (_ =? _); [| injection H1 as _ <-; exact Hr3].
    destruct (closewrite_walk fuel w3 (buffer_pos (pkt w3)) h) as [p w4 | | | |] eqn:Hw;
      try discriminate.
    injection H1 as _ <-. destruct (closewrite_walk_ring _ _ _ _ _ _ Hw Hr3) as [R4 Rp].
    apply (ring_ok_moved (buf w4)); [| | left | right | left | left | left | exact R4];
      try reflexivity. exact Rp.
  - clear H. intros w5 Hr5 H. cbv beta in H. injection H as _ <-. ring_same.
Qed.

Lemma ps_packet_closewrite_ring fuel w c w' :
  ps_packet_closewrite fuel w = Returns c w' -> ring_ok (buf w) -> ring_ok (buf w').
Proof.
  unfold ps_packet_closewrite. intros H Hr.
  eapply andthen_ring; [exact H | |].
  - intros c1 s1 H1. unfold closewrite_prelude in H1.
    eapply andthen_ring; [exact H1 | |].
    + intros c2 s2 H2.
      destruct (negb _); [| injection H2 as _ <-; exact Hr].
      destruct (header (pkt w)); [| discriminate].
      exact (ps_packet_setsize_ring _ _ _ _ _ H2 Hr).
    + intros s2 Hr2 H2. cbv beta in H2.
      exact (fakedma_commit_from_ring _ _ _ _ _ _ H2 Hr2).
  - clear H. intros w2 Hr2 H. cbv beta in H.
    destruct (header (pkt w)); [| discriminate].
    exact (closewrite_commit_ring _ _ _ _ _ H Hr2).
Qed.

Lemma ps_packet_closeread_ring fuel w c w' :
  ps_packet_closeread fuel w = Returns c w' -> ring_ok (buf w) -> ring_ok (buf w').
Proof.
  unfold ps_packet_closeread. intros H Hr.
  destruct (read_close_mutex (wstate w)); [discriminate |].
  destruct (header (pkt w)) as [h |]; [| discriminate]. cbv zeta in H.
  assert (ring_ok (buf (or_header_flags h PS_PACKET_HEADER_READ
                          (count_read (on_state (set_read_close_mutex true) w) h))))
    as Hr3.
  { unfold count_read. destruct (tst _ PS_BUFFER_STATS).
    - apply ring_ok_marked. ring_same.
    - apply ring_ok_marked'. ring_same. }
  set (w3 := or_header_flags h PS_PACKET_HEADER_READ
               (count_read (on_state (set_read_close_mutex true) w) h)) in *.
  eapply andthen_ring; [exact H | |].
  - intros c1 s1 H1.
    destruct (_ =? _); [| injection H1 as _ <-; exact Hr3].
    destruct (closeread_walk fuel w3 (buffer_pos (pkt w3)) h) as [p w4 | | | |] eqn:Hw;
      try discriminate.
    injection H1 as _ <-. destruct (closeread_walk_ring _ _ _ _ _ _ Hw Hr3) as [R4 Rp].
    apply (ring_ok_moved (buf w4)); [| | right | left | left | left | left | exact R4];
      try reflexivity. exact Rp.
  - clear H. intros w5 Hr5 H. cbv beta in H. injection H as _ <-. ring_same.
Qed.

Lemma ps_packet_close_ring fuel w c w' :
  ps_packet_close fuel w = Returns c w' -> ring_ok (buf w) -> ring_ok (buf w').
Proof.
  unfold ps_packet_close. cbv zeta. intros H Hr.
  destruct (negb (ps_packet_check w =? 0)); [injection H as _ <-; exact Hr |].
  destruct (tst _ PS_PACKET_READ).
  - exact (ps_packet_closeread_ring _ _ _ _ H Hr).
  - exact (ps_packet_closewrite_ring _ _ _ _ H Hr).
Qed.

Lemma drain_loop_ring fuel : forall b res r b',
  drain_loop fuel b res = Returns r b' -> ring_ok b -> ring_ok b'.
Proof.
  induction fuel as [| fuel IH]; intros b res r b' H Hr; [discriminate |].
  cbn [drain_loop] in H. cbv zeta in H.
  destruct (sem_trywait _) as [c |]; [| injection H as _ <-; exact Hr].
  pose proof Hr as (_ & Hs & _).
  match type of H with context [set_read_next ?x _] =>
    assert (in_ring b x) as Hx by exact (move_pos_ring _ _ _ Hs) end.
  match type of H with
  | (if ?t then _ else drain_loop fuel ?b3 res) = _ =>
      assert (ring_ok b3) as Hr3;
      [ apply (ring_ok_moved b); [| | left | left | right | left | left | exact Hr];
        try reflexivity;
        [ cbn [buffer set_state set_buffer]; apply length_set_header_flags | exact Hx ]
      | destruct t ]
  end.
  - destruct (sem_post _) as [c' |]; [| discriminate].
    eapply IH; [exact H |].
    apply (ring_ok_moved b); [| | right | left | right | left | left | exact Hr];
      try reflexivity; try exact Hx.
    cbn [buffer set_state set_buffer]. apply length_set_header_flags.
  - eapply IH; eassumption.
Qed.

Lemma ps_buffer_drain_ring fuel b r b' :
  ps_buffer_drain fuel b = Returns r b' -> ring_ok b -> ring_ok b'.
Proof.
  unfold ps_buffer_drain. intros H Hr.
  destruct (read_mutex (state b)); [discriminate |]. cbv zeta in H.
  destruct (read_close_mutex _); [discriminate |].
  match type of H with context [drain_loop fuel ?x 0] =>
    assert (ring_ok x) as Hr2
      by (apply (ring_ok_moved b); [| | left | left | left | left | left | exact Hr];
          reflexivity);
    destruct (drain_loop fuel x 0) as [res b3 | | | |] eqn:Hd; try discriminate
  end.
  injection H as _ <-. apply drain_loop_ring in Hd; [| exact Hr2].
  apply (ring_ok_moved b3); [| | left | left | left | left | left | exact Hd]; reflexivity.
Qed.

Lemma ps_buffer_cancel_ring b : ring_ok b -> ring_ok (snd (ps_buffer_cancel b)).
Proof.
  intros Hr. unfold ps_buffer_cancel. cbv zeta.
  destruct (negb _); [exact Hr |]. cbn [snd].
  apply (ring_ok_moved b); [| | left | left | left | left | left | exact Hr]; reflexivity.
Qed.

(** What [ps_buffer_init] leaves on the heap when it initialises. *)
Lemma ps_buffer_init_heap ps_shm al attr b :
  ps_shm && tst (attr_flags attr) PS_BUFFER_PSHARED = false ->
  tst (attr_flags attr) PS_BUFFER_READY = false ->
  ps_buffer_init ps_shm al attr = (0, Some b) ->
  0 <= attr_size attr <= PTRDIFF_MAX /\
  buffer b = replicate (Z.to_nat (attr_size attr)) Byte.x00 /\
  state b = set_st_flags (Z.lor (attr_flags attr) PS_BUFFER_READY)
              (set_free_bytes (to_long (to_size_t (attr_size attr - HDR)))
                 (set_st_size (attr_size attr) zero_state)) /\
  stats b = (if tst (attr_flags attr) PS_BUFFER_STATS then Some zero_stats else None) /\
  shmid b = attr_shmid attr.
Proof.
  intros Hshared Hready. unfold ps_buffer_init. rewrite Hshared, Hready.
  destruct (heap_state al) as [st |]; [| discriminate].
  destruct (malloc al (attr_size attr)) as [a |] eqn:Ha; [| discriminate].
  apply malloc_some in Ha. destruct Ha as [Hn Hlen].
  destruct (tst (attr_flags attr) PS_BUFFER_STATS) eqn:Es.
  - destruct (heap_stats al) as [t |]; cbn; [| discriminate].
    intros H. injection H as <-. cbn.
    repeat split; try assumption; try lia. apply memset0_all. exact Hlen.
  - cbn. intros H. injection H as <-. cbn.
    repeat split; try assumption; try lia. apply memset0_all. exact Hlen.
Qed.

(** X9: the indices never leave the arena.  [ring_ok] says that the arena
    has the size recorded in the state, at most 2 GiB, and that
    [read_pos], [write_pos], [read_next], [write_next] and [read_first]
    each leave room for a header before its end.  A buffer initialised on
    the heap with a size of at least one header and at most 2 GiB
    satisfies it, and every function of the library keeps it, whatever it
    returns. *)
Theorem ring_ok_invariant :
  (forall ps_shm al attr b,
     ps_shm && tst (attr_flags attr) PS_BUFFER_PSHARED = false ->
     tst (attr_flags attr) PS_BUFFER_READY = false ->
     HDR <= attr_size attr <= 2 ^ 31 ->
     ps_buffer_init ps_shm al attr = (0, Some b) -> ring_ok b) /\
  (forall w, ring_ok (buf w) ->
     (forall flags c w', ps_packet_open w flags = Returns c w' -> ring_ok (buf w')) /\
     (forall fuel n c w', ps_packet_setsize fuel w n = Returns c w' -> ring_ok (buf w')) /\
     (forall fuel src n c w',
        ps_packet_write fuel w src n = Returns c w' -> ring_ok (buf w')) /\
     (forall fuel pos c w', ps_packet_seek fuel w pos = Returns c w' -> ring_ok (buf w')) /\
     (forall n r w', ps_packet_read w n = Returns r w' -> ring_ok (buf w')) /\
     (forall c w', ps_packet_cancel w = Returns c w' -> ring_ok (buf w')) /\
     (forall fuel c w', ps_packet_close fuel w = Returns c w' -> ring_ok (buf w'))) /\
  (forall b, ring_ok b ->
     (forall fuel r b', ps_buffer_drain fuel b = Returns r b' -> ring_ok b') /\
     ring_ok (snd (ps_buffer_cancel b))).
Proof.
  split; [| split].
  - intros ps_shm al attr b Hsh Hrd Hsz H.
    destruct (ps_buffer_init_heap _ _ _ _ Hsh Hrd H) as (_ & Ha & Hs & _).
    unfold ring_ok, in_ring. rewrite Ha, Hs. cbn. rewrite length_replicate.
    unfold HDR in *. repeat split; lia.
  - intros w Hr. refine (conj _ (conj _ (conj _ (conj _ (conj _ (conj _ _)))))).
    + intros flags c w' H. exact (ps_packet_open_ring _ _ _ _ H Hr).
    + intros fuel n c w' H. exact (ps_packet_setsize_ring _ _ _ _ _ H Hr).
    + intros fuel src n c w' H. exact (ps_packet_write_ring _ _ _ _ _ _ H Hr).
    + intros fuel pos c w' H. exact (ps_packet_seek_ring _ _ _ _ _ H Hr).
    + intros n r w' H. unfold ps_packet_read in H.
      destruct (negb _); [injection H as _ <-; exact Hr |].
      destruct (header (pkt w)); [| discriminate].
      destruct (_ >? _); injection H as _ <-; exact Hr.
    + intros c w' H. exact (ps_packet_cancel_ring _ _ _ H Hr).
    + intros fuel c w' H. exact (ps_packet_close_ring _ _ _ _ H Hr).
  - intros b Hr. split.
    + intros fuel r b' H. exact (ps_buffer_drain_ring _ _ _ _ H Hr).
    + exact (ps_buffer_cancel_ring b Hr).
Qed.

Lemma ring_ok_invariant_witness :
  ring_ok demo_buffer /\ ring_ok (buf demo_open) /\ ring_ok (buf demo_seek40) /\
  ring_ok (buf demo_written).
Proof.
  destruct ring_ok_invariant as (Hinit & Hpkt & _).
  assert (ring_ok demo_buffer) as H0.
  { apply (Hinit false demo_alloc demo_attr); try reflexivity.
    split; apply Z.leb_le; reflexivity. }
  split; [exact H0 |].
  assert (ring_ok (buf demo_open)) as H1.
  { destruct (Hpkt demo_world H0) as (Hopen & _).
    apply (Hopen PS_PACKET_WRITE 0). vm_compute. reflexivity. }
  split; [exact H1 |].
  destruct (Hpkt demo_open H1) as (_ & Hset & _ & Hseek & _).
  split; [apply (Hseek 4%nat 40 0); vm_compute; reflexivity |].
  set (w1 := returned (ps_packet_setsize 4 demo_open 16) demo_open).
  assert (ring_ok (buf w1)) as H2 by (apply (Hset 4%nat 16 0); vm_compute; reflexivity).
  destruct (Hpkt w1 H2) as (_ & _ & Hwr & _).
  set (w2 := returned (ps_packet_write 4 w1 (take 16 demo_bytes) 16) w1).
  assert (ring_ok (buf w2)) as H3
    by (apply (Hwr 4%nat (take 16 demo_bytes) 16 0); vm_compute; reflexivity).
  destruct (Hpkt w2 H3) as (_ & _ & _ & _ & _ & _ & Hcl).
  apply (Hcl 4%nat 0). vm_compute. reflexivity.
Defined.

(** ** [ps_packet_closeread] *)

Lemma closeread_walk_S fuel w pos h :
  closeread_walk (S fuel) w pos h
  = let pos' := to_size_t (move_pos pos (st_size (wstate w)) (header_size (warena w) h)) in
    match sem_post (read_packets (wstate w)) with
    | None => Aborts
    | Some c =>
        let w1 := on_state (set_read_packets c) w in
        if tst (header_flags (warena w1) pos') PS_PACKET_HEADER_READ
        then closeread_walk fuel w1 pos' pos'
        else Returns pos' w1
    end.
Proof. reflexivity. Qed.

(** The walk of [ps_packet_closeread] over [k] released packets. *)
Lemma closeread_walk_run k : forall fuel w pos,
  (k < fuel)%nat ->
  (forall i, (1 <= i <= k)%nat ->
     tst (header_flags (warena w) (walk_pos i (warena w) (st_size (wstate w)) pos))
         PS_PACKET_HEADER_READ = true) ->
  tst (header_flags (warena w) (walk_pos (S k) (warena w) (st_size (wstate w)) pos))
      PS_PACKET_HEADER_READ = false ->
  read_packets (wstate w) + Z.of_nat (S k) <= SEM_VALUE_MAX ->
  closeread_walk fuel w pos pos
  = Returns (walk_pos (S k) (warena w) (st_size (wstate w)) pos)
      (on_state (set_read_packets (read_packets (wstate w) + Z.of_nat (S k))) w).
Proof.
  induction k as [| k IH]; intros fuel w pos Hfuel Hrun Hstop Hsem;
    (destruct fuel as [| fuel]; [lia |]); rewrite closeread_walk_S; cbv zeta;
    unfold sem_post;
    (assert ((read_packets (wstate w) <? SEM_VALUE_MAX) = true) as ->
       by (apply Z.ltb_lt; lia));
    rewrite warena_on_state.
  - rewrite walk_pos_S in Hstop. cbn [walk_pos] in Hstop. rewrite Hstop.
    rewrite walk_pos_S. cbn [walk_pos]. reflexivity.
  - pose proof (Hrun 1%nat ltac:(lia)) as H1. rewrite walk_pos_S in H1.
    cbn [walk_pos] in H1. rewrite H1.
    set (pos' := to_size_t (move_pos pos (st_size (wstate w)) (header_size (warena w) pos)))
      in *.
    rewrite IH.
    + rewrite warena_on_state, !wstate_on_state.
      cbn [st_size read_packets set_read_packets].
      rewrite (walk_pos_S (S k)). fold pos'. f_equal.
      rewrite on_state_on_state. apply on_state_ext.
      rewrite set_read_packets_twice. f_equal. lia.
    + lia.
    + intros i Hi. rewrite warena_on_state, wstate_on_state.
      cbn [st_size set_read_packets].
      specialize (Hrun (S i) ltac:(lia)). rewrite walk_pos_S in Hrun. exact Hrun.
    + rewrite warena_on_state, wstate_on_state. cbn [st_size set_read_packets].
      rewrite walk_pos_S in Hstop. exact Hstop.
    + rewrite wstate_on_state. cbn [read_packets set_read_packets]. lia.
Qed.

Lemma count_read_keeps w h :
  warena (count_read w h) = warena w /\ wstate (count_read w h) = wstate w /\
  pkt (count_read w h) = pkt w.
Proof. unfold count_read. destruct (tst _ _); repeat split. Qed.

(** The store at which [ps_packet_closeread] starts its walk. *)
Lemma closeread_marked w h :
  let w3 := or_header_flags h PS_PACKET_HEADER_READ
              (count_read (on_state (set_read_close_mutex true) w) h) in
  warena w3
  = set_header_flags (warena w) h (Z.lor (header_flags (warena w) h) PS_PACKET_HEADER_READ) /\
  wstate w3 = set_read_close_mutex true (wstate w) /\
  pkt w3 = pkt w.
Proof.
  intros w3. subst w3.
  destruct (or_header_flags_keeps h PS_PACKET_HEADER_READ
              (count_read (on_state (set_read_close_mutex true) w) h)) as (Ha & Hs & Hp).
  destruct (count_read_keeps (on_state (set_read_close_mutex true) w) h)
    as (Ha' & Hs' & Hp').
  rewrite Ha, Hs, Hp, Ha', Hs', Hp'. repeat split.
Qed.

(** X10: [ps_packet_closeread] releases packets in the order in which they
    were opened.  The header of the packet gets the [READ] bit.  When
    [read_pos] is at the packet, and the [m] headers that follow by
    [move_pos] carry [READ] while the one after them does not, the call
    posts [read_packets] once for the packet and once for each of the [m]
    and leaves [read_pos] at that header; when [read_pos] is elsewhere it
    posts nothing and leaves [read_pos] where it is.  Either way it
    returns 0, changes no other index nor [free_bytes], releases
    [read_close_mutex], marks every staging entry free and closes the
    handle. *)
Theorem ps_packet_closeread_in_order fuel w h m :
  let a' := set_header_flags (warena w) h
              (Z.lor (header_flags (warena w) h) PS_PACKET_HEADER_READ) in
  let bsize := st_size (wstate w) in
  let posts := if read_pos (wstate w) =? h then Z.of_nat (S m) else 0 in
  let rp := if read_pos (wstate w) =? h then walk_pos (S m) a' bsize h
            else read_pos (wstate w) in
  header (pkt w) = Some h -> buffer_pos (pkt w) = h ->
  0 <= h -> (Z.to_nat h + 4 <= length (warena w))%nat ->
  read_close_mutex (wstate w) = false ->
  (read_pos (wstate w) = h ->
   (m < fuel)%nat /\
   (forall i, (1 <= i <= m)%nat ->
      tst (header_flags a' (walk_pos i a' bsize h)) PS_PACKET_HEADER_READ = true) /\
   tst (header_flags a' (walk_pos (S m) a' bsize h)) PS_PACKET_HEADER_READ = false /\
   read_packets (wstate w) + Z.of_nat (S m) <= SEM_VALUE_MAX) ->
  exists w',
    ps_packet_closeread fuel w = Returns 0 w' /\
    warena w' = a' /\
    tst (header_flags (warena w') h) PS_PACKET_HEADER_READ = true /\
    wstate w' = set_read_pos rp
                  (set_read_packets (read_packets (wstate w) + posts) (wstate w)) /\
    Forall (fun d => free d <> 0) (fake_dma (pkt w')) /\
    header (pkt w') = None /\ pk_flags (pkt w') = 0.
Proof.
  intros a' bsize posts rp Hh Hb H0 Hlen Hmx Hrun.
  destruct (or_header_flags_sets (warena w) h 1 H0 Hlen ltac:(lia)) as (_ & Hset & _).
  change (2 ^ 1) with PS_PACKET_HEADER_READ in Hset. cbv zeta in Hset. fold a' in Hset.
  unfold ps_packet_closeread. rewrite Hmx, Hh. cbv zeta.
  destruct (closeread_marked w h) as (Ha & Hs & Hp). cbv zeta in Ha, Hs, Hp.
  set (w3 := or_header_flags h PS_PACKET_HEADER_READ
               (count_read (on_state (set_read_close_mutex true) w) h)) in *.
  fold a' in Ha.
  assert (read_pos (wstate w3) = read_pos (wstate w)) as Hrp by (rewrite Hs; reflexivity).
  assert (st_size (wstate w3) = bsize) as Hsz by (rewrite Hs; reflexivity).
  assert (read_packets (wstate w3) = read_packets (wstate w)) as Hrd
    by (rewrite Hs; reflexivity).
  rewrite Hrp, Hp, Hb. subst posts rp.
  destruct (read_pos (wstate w) =? h) eqn:E.
  - apply Z.eqb_eq in E. destruct (Hrun E) as (Hfuel & Hr & Hstop & Hsem).
    rewrite (closeread_walk_run m fuel w3 h Hfuel);
      [| rewrite Ha, Hsz; exact Hr | rewrite Ha, Hsz; exact Hstop | rewrite Hrd; exact Hsem].
    rewrite Ha, Hsz, Hrd. cbn [andthen Z.eqb].
    eexists. split; [reflexivity |].
    match goal with |- warena ?x = _ /\ _ =>
      assert (warena x = a') as Hax by exact Ha;
      assert (wstate x = set_read_pos (walk_pos (S m) a' bsize h)
                           (set_read_packets (read_packets (wstate w) + Z.of_nat (S m))
                              (wstate w))) as Hsx
    end.
    { rewrite pkt_on_state || idtac.
      change (wstate (on_pkt ?f ?y)) with (wstate y).
      unfold ps_packet_fakedma_freeall. change (wstate (on_pkt ?f ?y)) with (wstate y).
      rewrite !wstate_on_state, Hs.
      destruct (wstate w). cbn in Hmx. subst. reflexivity. }
    rewrite Hax, Hsx. split; [reflexivity |]. split; [exact Hset |].
    split; [reflexivity |]. split; [| split; reflexivity].
    match goal with |- Forall _ (fake_dma (pkt (on_pkt _ (ps_packet_fakedma_freeall ?y)))) =>
      exact (proj1 (ps_packet_fakedma_freeall_all_free y)) end.
  - cbn [andthen Z.eqb].
    eexists. split; [reflexivity |].
    match goal with |- warena ?x = _ /\ _ =>
      assert (warena x = a') as Hax by exact Ha;
      assert (wstate x = set_read_pos (read_pos (wstate w))
                           (set_read_packets (read_packets (wstate w) + 0) (wstate w)))
        as Hsx
    end.
    { change (wstate (on_pkt ?f ?y)) with (wstate y).
      unfold ps_packet_fakedma_freeall. change (wstate (on_pkt ?f ?y)) with (wstate y).
      rewrite !wstate_on_state, Hs, Z.add_0_r.
      destruct (wstate w). cbn in Hmx. subst. reflexivity. }
    rewrite Hax, Hsx. split; [reflexivity |]. split; [exact Hset |].
    split; [reflexivity |]. split; [| split; reflexivity].
    match goal with |- Forall _ (fake_dma (pkt (on_pkt _ (ps_packet_fakedma_freeall ?y)))) =>
      exact (proj1 (ps_packet_fakedma_freeall_all_free y)) end.
Qed.

Lemma ps_packet_closeread_in_order_witness :
  (read_pos (wstate demo_second_reading) = 0 /\ buffer_pos (pkt demo_second_reading) = 24 /\
   exists w', ps_packet_closeread 3 demo_second_reading = Returns 0 w' /\
              read_packets (wstate w') = 0 /\ read_pos (wstate w') = 0) /\
  (read_pos (wstate demo_first_reading) = 0 /\ buffer_pos (pkt demo_first_reading) = 0 /\
   exists w', ps_packet_closeread 3 demo_first_reading = Returns 0 w' /\
              read_packets (wstate w') = 2 /\ read_pos (wstate w') = 48).
Proof.
  assert (Z.to_nat 24 + 4 <= length (warena demo_second_reading))%nat as Hlen2
    by (vm_compute; repeat constructor).
  assert (Z.to_nat 0 + 4 <= length (warena demo_first_reading))%nat as Hlen1
    by (vm_compute; repeat constructor).
  assert (0 <= 24) as H24 by (apply Z.leb_le; reflexivity).
  split; (split; [reflexivity |]); (split; [reflexivity |]).
  - destruct (ps_packet_closeread_in_order 3 demo_second_reading 24 0
                eq_refl eq_refl H24 Hlen2 eq_refl) as (w' & Hret & _ & _ & Hs & _).
    + intros H. discriminate H.
    + exists w'. split; [exact Hret |]. rewrite Hs. split; reflexivity.
  - destruct (ps_packet_closeread_in_order 3 demo_first_reading 0 1
                eq_refl eq_refl (Z.le_refl 0) Hlen1 eq_refl) as (w' & Hret & _ & _ & Hs & _).
    + intros _. split; [repeat constructor |]. split; [| split].
      * intros i Hi. assert (i = 1%nat) as -> by lia. vm_compute. reflexivity.
      * vm_compute. reflexivity.
      * apply Z.leb_le. reflexivity.
    + exists w'. split; [exact Hret |]. rewrite Hs. split; vm_compute; reflexivity.
Defined.

(** ** A packet written in one go *)

(** Nested updates of a state whose fields are known, evaluated innermost
    first. *)
Ltac state_norm :=
  cbv [set_st_flags set_st_size set_read_pos set_write_pos set_read_next set_write_next
       set_read_first set_free_bytes set_read_mutex set_write_mutex set_read_close_mutex
       set_write_close_mutex set_read_packets set_written_packets
       st_flags st_size read_pos write_pos read_next write_next read_first free_bytes
       read_mutex write_mutex read_close_mutex write_close_mutex read_packets
       written_packets].

(** Two stores with the same components are equal. *)
Lemma world_eq w1 w2 :
  wstate w1 = wstate w2 -> warena w1 = warena w2 -> stats (buf w1) = stats (buf w2) ->
  shmid (buf w1) = shmid (buf w2) -> pkt w1 = pkt w2 -> intr w1 = intr w2 -> w1 = w2.
Proof.
  destruct w1 as [[s1 a1 t1 h1] p1 i1], w2 as [[s2 a2 t2 h2] p2 i2].
  unfold wstate, warena. cbn. intros -> -> -> -> -> ->. reflexivity.
Qed.

(** [ps_packet_reserve] when the bytes asked for are free. *)
Lemma ps_packet_reserve_free fuel w len :
  0 <= reserved (pkt w) -> len < 2 ^ 64 ->
  len - reserved (pkt w) <= free_bytes (wstate w) < 2 ^ 63 ->
  0 <= free_bytes (wstate w) ->
  let d := Z.max 0 (len - reserved (pkt w)) in
  ps_packet_reserve (S fuel) w len
  = Returns 0 (on_pkt (set_reserved (reserved (pkt w) + d))
                 (on_state (set_free_bytes (free_bytes (wstate w) - d)) w)).
Proof.
  intros Hr Hlen Hfree Hfb d.
  destruct (Z_le_dec len (reserved (pkt w))) as [Hle | Hgt].
  - unfold ps_packet_reserve.
    assert ((len <=? reserved (pkt w)) = true) as -> by (apply Z.leb_le; lia).
    f_equal. assert (d = 0) as -> by (subst d; lia).
    apply world_eq; try reflexivity.
    + rewrite Z.sub_0_r. unfold wstate. cbn. destruct (state (buf w)). reflexivity.
    + rewrite Z.add_0_r. cbn. destruct (pkt w). reflexivity.
  - rewrite ps_packet_reserve_fast by lia.
    assert (d = len - reserved (pkt w)) as -> by (subst d; lia).
    replace (reserved (pkt w) + (len - reserved (pkt w))) with len by lia. reflexivity.
Qed.

Lemma ps_packet_fakedma_cut_free w size :
  Forall (fun d => free d <> 0) (fake_dma (pkt w)) ->
  Forall (fun d => free d <> 0) (fake_dma (pkt (ps_packet_fakedma_cut w size))).
Proof.
  intros H. unfold ps_packet_fakedma_cut. cbn [pkt on_pkt fake_dma set_fake_dma].
  apply Forall_forall. intros d Hd. apply list_elem_of_In, in_map_iff in Hd.
  destruct Hd as [d0 [<- Hin]].
  rewrite Forall_forall in H. specialize (H d0 (proj2 (list_elem_of_In _ _) Hin)).
  destruct (fd_pos d0 >? size); [cbn; lia |].
  destruct (_ >? size); [cbn; exact H | exact H].
Qed.

(** [ps_packet_open] for writing, with [write_mutex] free. *)
Lemma ps_packet_open_write_ok w :
  ps_buffer_check (buf w) = 0 -> write_mutex (wstate w) = false ->
  exists w1,
    ps_packet_open w PS_PACKET_WRITE = Returns 0 w1 /\
    wstate w1 = set_write_mutex true (wstate w) /\
    warena w1 = set_header_size (set_header_flags (warena w) (write_next (wstate w)) 0)
                  (write_next (wstate w)) 0 /\
    stats (buf w1) = stats (buf w) /\ shmid (buf w1) = shmid (buf w) /\
    intr w1 = intr w /\
    pkt w1 = {| pk_flags := PS_PACKET_WRITE; header := Some (write_next (wstate w));
                buffer_pos := write_next (wstate w); pk_pos := 0; reserved := 0;
                fake_dma := fake_dma (pkt w) |}.
Proof.
  intros Hc Hm. destruct (ps_buffer_check_0 _ Hc) as [_ Hcan].
  unfold ps_packet_open. cbv zeta. rewrite Hc.
  change (tst PS_PACKET_WRITE PS_PACKET_READ) with false.
  change (tst PS_PACKET_WRITE PS_PACKET_WRITE) with true.
  cbn [Z.eqb negb orb].
  unfold ps_packet_openwrite. rewrite Hm. cbv zeta.
  change (tst PS_PACKET_WRITE PS_PACKET_TRY) with false.
  assert (cancelled (on_state (set_write_mutex true) w) = false) as -> by exact Hcan.
  eexists. split; [reflexivity |]. repeat split.
Qed.

(** The padding [ps_packet_setsize] charges at the end of the arena is
    less than a header. *)
Lemma setsize_advance_res wn bsize n :
  HDR <= bsize <= 2 ^ 31 -> 0 <= snd (setsize_advance wn bsize n) < HDR.
Proof.
  intros Hb. unfold setsize_advance, HDR in *. cbv zeta.
  set (q := to_size_t (16 + wn + n) mod bsize).
  assert (0 <= q < bsize) as Hq by (apply Z.mod_pos_bound; lia).
  rewrite (to_size_t_small (q + 16)) by lia.
  destruct (q + 16 >? bsize) eqn:E; cbn [snd]; [| lia].
  apply Z.gtb_lt in E. rewrite to_size_t_small by lia. lia.
Qed.

(** [ps_packet_setsize] on a packet opened for writing that has reserved
    no more than the size, when the bytes that are missing, the header
    behind the packet and the padding at the end of the arena are free:
    nothing is waited for. *)
Lemma ps_packet_setsize_fast fuel w h n :
  let wn := fst (setsize_advance (write_next (wstate w)) (st_size (wstate w)) n) in
  let res := snd (setsize_advance (write_next (wstate w)) (st_size (wstate w)) n) in
  ps_packet_check w = 0 -> pk_flags (pkt w) = PS_PACKET_WRITE ->
  header (pkt w) = Some h -> 0 <= reserved (pkt w) <= n ->
  n + 2 * HDR <= st_size (wstate w) -> st_size (wstate w) <= 2 ^ 31 ->
  n - reserved (pkt w) + HDR + res <= free_bytes (wstate w) < 2 ^ 63 ->
  0 <= free_bytes (wstate w) ->
  exists w',
    ps_packet_setsize (S fuel) w n = Returns 0 w' /\
    wstate w' = set_write_mutex false
                  (set_write_next wn
                     (set_free_bytes
                        (free_bytes (wstate w) - (n - reserved (pkt w) + HDR + res))
                        (wstate w))) /\
    warena w' = memset0 (set_header_size (warena w) h n) (Z.to_nat wn) (Z.to_nat HDR) /\
    stats (buf w') = stats (buf w) /\ shmid (buf w') = shmid (buf w) /\
    intr w' = intr w /\
    pk_flags (pkt w') = Z.lor PS_PACKET_WRITE PS_PACKET_SIZE_SET /\
    header (pkt w') = Some h /\ buffer_pos (pkt w') = buffer_pos (pkt w) /\
    pk_pos (pkt w') = pk_pos (pkt w) /\
    (Forall (fun d => free d <> 0) (fake_dma (pkt w)) ->
     Forall (fun d => free d <> 0) (fake_dma (pkt w'))).
Proof.
  intros wn res Hc Hfl Hh Hres Hfit Hmax Hfree Hfb.
  pose proof (setsize_advance_res (write_next (wstate w)) (st_size (wstate w)) n) as Hr.
  fold res in Hr.
  assert (setsize_advance (write_next (wstate w)) (st_size (wstate w)) n = (wn, res))
    as Hadv0 by (subst wn res; apply surjective_pairing).
  clearbody wn res. unfold HDR in *. specialize (Hr ltac:(lia)).
  set (p := write_next (wstate w)) in *. set (bsize := st_size (wstate w)) in *.
  set (fb := free_bytes (wstate w)) in *. set (r0 := reserved (pkt w)) in *.
  assert (0 <= n) as Hn by lia.
  unfold ps_packet_setsize. cbv zeta. rewrite Hc, Hfl.
  change (tst PS_PACKET_WRITE PS_PACKET_WRITE) with true.
  change (tst PS_PACKET_WRITE PS_PACKET_SIZE_SET) with false.
  cbn [Z.eqb negb orb]. unfold HDR.
  change (to_size_t (16 * 2)) with 32. rewrite (to_size_t_small (n + 32)) by lia.
  fold bsize.
  assert ((n + 32 >? bsize) = false) as -> by (rewrite Z.gtb_ltb; apply Z.ltb_ge; lia).
  (* the first reservation *)
  rewrite (ps_packet_reserve_free fuel w n) by (fold fb r0; lia).
  fold fb r0. cbn [andthen Z.eqb].
  replace (Z.max 0 (n - r0)) with (n - r0) by lia.
  replace (r0 + (n - r0)) with n by lia.
  remember (on_pkt (set_reserved n) (on_state (set_free_bytes (fb - (n - r0))) w))
    as w1 eqn:Ew1.
  assert (wstate w1 = set_free_bytes (fb - (n - r0)) (wstate w)) as Hs1
    by (rewrite Ew1; reflexivity).
  assert (pkt w1 = set_reserved n (pkt w)) as Hp1
    by (rewrite Ew1; reflexivity).
  assert (warena w1 = warena w /\ stats (buf w1) = stats (buf w) /\
          shmid (buf w1) = shmid (buf w) /\ intr w1 = intr w) as (Ha1 & Ht1 & Hi1 & Hn1)
    by (rewrite Ew1; repeat split).
  clear Ew1.
  (* the next header *)
  assert (setsize_advance (write_next (wstate w1)) (st_size (wstate w1)) n = (wn, res))
    as Hadv by (rewrite Hs1; exact Hadv0).
  rewrite Hadv.
  (* the second reservation *)
  remember (on_pkt (fun p0 => set_pk_flags (Z.land (pk_flags p0) (Z.lnot PS_PACKET_TRY)) p0)
              w1) as w2 eqn:Ew2.
  assert (pkt w2 = set_pk_flags PS_PACKET_WRITE (set_reserved n (pkt w))) as Hp2.
  { rewrite Ew2. cbn [pkt on_pkt]. rewrite Hp1. cbn [pk_flags set_reserved].
    rewrite Hfl. reflexivity. }
  assert (wstate w2 = set_free_bytes (fb - (n - r0)) (wstate w)) as Hs2
    by (rewrite Ew2; exact Hs1).
  assert (warena w2 = warena w /\ stats (buf w2) = stats (buf w) /\
          shmid (buf w2) = shmid (buf w) /\ intr w2 = intr w) as (Ha2 & Ht2 & Hi2 & Hn2)
    by (rewrite Ew2; repeat split; assumption).
  clear Ew2.
  assert (reserved (pkt w2) = n) as Hr2 by (rewrite Hp2; reflexivity).
  assert (free_bytes (wstate w2) = fb - (n - r0)) as Hf2 by (rewrite Hs2; reflexivity).
  rewrite (to_size_t_small (16 + n + res)) by lia.
  rewrite (ps_packet_reserve_free fuel w2 (16 + n + res)) by (rewrite ?Hr2, ?Hf2; lia).
  rewrite Hr2, Hf2. cbn [andthen Z.eqb].
  replace (Z.max 0 (16 + n + res - n)) with (16 + res) by lia.
  remember (on_pkt (set_reserved (n + (16 + res)))
              (on_state (set_free_bytes (fb - (n - r0) - (16 + res))) w2))
    as w3 eqn:Ew3.
  assert (pkt w3 = set_reserved (n + (16 + res)) (set_pk_flags PS_PACKET_WRITE (pkt w)))
    as Hp3.
  { rewrite Ew3. cbn [pkt on_pkt on_state]. rewrite Hp2. reflexivity. }
  assert (wstate w3 = set_free_bytes (fb - (n - r0) - (16 + res)) (wstate w)) as Hs3.
  { rewrite Ew3.
    change (set_free_bytes (fb - (n - r0) - (16 + res)) (wstate w2)
            = set_free_bytes (fb - (n - r0) - (16 + res)) (wstate w)).
    rewrite Hs2. reflexivity. }
  assert (warena w3 = warena w /\ stats (buf w3) = stats (buf w) /\
          shmid (buf w3) = shmid (buf w) /\ intr w3 = intr w) as (Ha3 & Ht3 & Hi3 & Hn3)
    by (rewrite Ew3; repeat split; assumption).
  clear Ew3.
  change (pkt (on_state ?f w3)) with (pkt w3). rewrite Hp3.
  cbn [header set_reserved set_pk_flags]. rewrite Hh.
  eexists. split; [reflexivity |].
  unfold ps_packet_fakedma_cut.
  split.
  { unfold wstate. cbn [buf on_pkt on_state on_arena set_state set_buffer state].
    change (state (buf w3)) with (wstate w3).
    rewrite Hs3, ?Hp3. cbn [free_bytes set_free_bytes reserved set_reserved].
    rewrite (to_size_t_small (n + 16 + res)) by lia.
    replace (n + (16 + res) - (n + 16 + res)) with 0 by lia.
    change (to_size_t 0) with 0. rewrite Z.add_0_r.
    rewrite to_long_small by lia.
    subst fb p r0. unfold wstate. destruct (state (buf w)).
    unfold set_write_mutex, set_write_next, set_free_bytes. cbn. f_equal. lia. }
  split.
  { unfold warena. cbn [buf on_pkt on_state on_arena set_state set_buffer buffer].
    change (buffer (buf w3)) with (warena w3). rewrite Ha3. reflexivity. }
  split; [exact Ht3 |]. split; [exact Hi3 |]. split; [exact Hn3 |].
  cbn [pkt on_pkt on_state on_arena pk_flags header buffer_pos pk_pos fake_dma set_fake_dma
       set_pk_flags]. rewrite Hp3.
  cbn [pk_flags header buffer_pos pk_pos fake_dma set_reserved set_pk_flags].
  split; [reflexivity |]. split; [exact Hh |]. split; [reflexivity |].
  split; [reflexivity |].
  intros Hall.
  apply Forall_forall. intros d Hd. apply list_elem_of_In, in_map_iff in Hd.
  destruct Hd as [d0 [<- Hin]].
  rewrite Forall_forall in Hall. specialize (Hall d0 (proj2 (list_elem_of_In _ _) Hin)).
  destruct (fd_pos d0 >? n); [cbn; lia |].
  destruct (_ >? n); [cbn; exact Hall | exact Hall].
Qed.

(** The next header when it lies before the end of the arena. *)
Lemma setsize_advance_next p bsize n :
  0 <= p -> 0 <= n -> p + HDR + n + HDR <= bsize -> bsize <= 2 ^ 31 ->
  setsize_advance p bsize n = (p + HDR + n, 0).
Proof.
  intros Hp Hn Hfit Hmax. unfold setsize_advance, HDR in *. cbv zeta.
  rewrite (to_size_t_small (16 + p + n)) by lia.
  rewrite (Z.mod_small (16 + p + n)) by lia.
  rewrite (to_size_t_small (16 + p + n + 16)) by lia.
  assert ((16 + p + n + 16 >? bsize) = false) as ->
    by (rewrite Z.gtb_ltb; apply Z.ltb_ge; lia).
  f_equal. lia.
Qed.

(** The same when the packet and the header behind it lie before the end
    of the arena. *)
Lemma ps_packet_setsize_room fuel w h n :
  ps_packet_check w = 0 -> pk_flags (pkt w) = PS_PACKET_WRITE ->
  header (pkt w) = Some h -> 0 <= reserved (pkt w) <= n ->
  0 <= write_next (wstate w) ->
  write_next (wstate w) + HDR + n + HDR <= st_size (wstate w) ->
  st_size (wstate w) <= 2 ^ 31 ->
  n - reserved (pkt w) + HDR <= free_bytes (wstate w) < 2 ^ 63 ->
  0 <= free_bytes (wstate w) ->
  exists w',
    ps_packet_setsize (S fuel) w n = Returns 0 w' /\
    wstate w' = set_write_mutex false
                  (set_write_next (write_next (wstate w) + HDR + n)
                     (set_free_bytes
                        (free_bytes (wstate w) - (n - reserved (pkt w) + HDR)) (wstate w))) /\
    warena w' = memset0 (set_header_size (warena w) h n)
                  (Z.to_nat (write_next (wstate w) + HDR + n)) (Z.to_nat HDR) /\
    stats (buf w') = stats (buf w) /\ shmid (buf w') = shmid (buf w) /\
    intr w' = intr w /\
    pk_flags (pkt w') = Z.lor PS_PACKET_WRITE PS_PACKET_SIZE_SET /\
    header (pkt w') = Some h /\ buffer_pos (pkt w') = buffer_pos (pkt w) /\
    pk_pos (pkt w') = pk_pos (pkt w) /\
    (Forall (fun d => free d <> 0) (fake_dma (pkt w)) ->
     Forall (fun d => free d <> 0) (fake_dma (pkt w'))).
Proof.
  intros Hc Hfl Hh Hres Hp Hfit Hmax Hfree Hfb.
  pose proof (ps_packet_setsize_fast fuel w h n) as K. cbv zeta in K.
  rewrite setsize_advance_next in K by (assumption || lia).
  cbn [fst snd] in K. rewrite Z.add_0_r in K.
  apply K; try assumption; unfold HDR in *; lia.
Qed.

(** [ps_packet_setsize] on a packet just opened for writing whose bytes,
    and the header behind them, are free and lie before the end of the
    arena. *)
Lemma ps_packet_setsize_fresh fuel w h n :
  ps_packet_check w = 0 -> pk_flags (pkt w) = PS_PACKET_WRITE ->
  header (pkt w) = Some h -> reserved (pkt w) = 0 ->
  0 <= n -> 0 <= write_next (wstate w) ->
  write_next (wstate w) + HDR + n + HDR <= st_size (wstate w) ->
  st_size (wstate w) <= 2 ^ 31 ->
  n + HDR <= free_bytes (wstate w) < 2 ^ 63 ->
  exists w',
    ps_packet_setsize (S fuel) w n = Returns 0 w' /\
    wstate w' = set_write_mutex false
                  (set_write_next (write_next (wstate w) + HDR + n)
                     (set_free_bytes (free_bytes (wstate w) - (n + HDR)) (wstate w))) /\
    warena w' = memset0 (set_header_size (warena w) h n)
                  (Z.to_nat (write_next (wstate w) + HDR + n)) (Z.to_nat HDR) /\
    stats (buf w') = stats (buf w) /\ shmid (buf w') = shmid (buf w) /\
    intr w' = intr w /\
    pk_flags (pkt w') = Z.lor PS_PACKET_WRITE PS_PACKET_SIZE_SET /\
    header (pkt w') = Some h /\ buffer_pos (pkt w') = buffer_pos (pkt w) /\
    pk_pos (pkt w') = pk_pos (pkt w) /\
    (Forall (fun d => free d <> 0) (fake_dma (pkt w)) ->
     Forall (fun d => free d <> 0) (fake_dma (pkt w'))).
Proof.
  intros Hc Hfl Hh Hres Hn Hp Hfit Hmax Hfree.
  destruct (ps_packet_setsize_room fuel w h n Hc Hfl Hh) as (w' & H);
    try (rewrite ?Hres; unfold HDR in *; lia).
  rewrite Hres, Z.sub_0_r in H. exists w'. exact H.
Qed.

Lemma header_size_store_other a off src q :
  0 <= q -> (Z.to_nat q + 16 <= off \/ off + length src <= Z.to_nat q + 8)%nat ->
  header_size (store a off src) q = header_size a q.
Proof.
  intros Hq H. unfold header_size. f_equal. apply load_store_other. lia.
Qed.

Lemma header_flags_store_other a off src q :
  0 <= q -> (Z.to_nat q + 4 <= off \/ off + length src <= Z.to_nat q)%nat ->
  header_flags (store a off src) q = header_flags a q.
Proof.
  intros Hq H. unfold header_flags. f_equal. apply load_store_other. lia.
Qed.

(** [ps_packet_write] into a packet whose size is set, the span lying
    before the end of the arena. *)
Lemma ps_packet_write_nowrap fuel w h src n :
  Z.of_nat (length src) = n ->
  ps_packet_check w = 0 -> tst (pk_flags (pkt w)) PS_PACKET_SIZE_SET = true ->
  header (pkt w) = Some h -> buffer_pos (pkt w) = h -> 0 <= h -> 0 <= pk_pos (pkt w) ->
  pk_pos (pkt w) + n <= header_size (warena w) h ->
  h + HDR + pk_pos (pkt w) < st_size (wstate w) ->
  h + HDR + pk_pos (pkt w) + n <= st_size (wstate w) ->
  Z.of_nat (length (warena w)) = st_size (wstate w) -> st_size (wstate w) <= PTRDIFF_MAX ->
  ps_packet_write fuel w src n
  = Returns 0 (on_pkt (set_pk_pos (pk_pos (pkt w) + n))
                (on_arena (fun a => store a (Z.to_nat (h + HDR + pk_pos (pkt w))) src) w)).
Proof.
  intros Hsrc Hc Hs Hh Hb H0 Hpos Hle Hlt Hfit Hlen Hmax. unfold HDR, PTRDIFF_MAX in *.
  assert (0 <= n) as Hn by lia.
  unfold ps_packet_write. rewrite Hc. cbn [Z.eqb negb]. cbv zeta. rewrite Hs, Hh.
  rewrite (to_size_t_small (pk_pos (pkt w) + n)) by lia.
  assert ((pk_pos (pkt w) + n >? header_size (warena w) h) = false) as ->
    by (rewrite Z.gtb_ltb; apply Z.ltb_ge; lia).
  cbn [andthen Z.eqb].
  assert (payload_offs w = h + 16 + pk_pos (pkt w)) as Hoffs.
  { unfold payload_offs, HDR. rewrite Hb. rewrite to_size_t_small by lia.
    apply Z.mod_small. lia. }
  assert (copy_in (warena w) (st_size (wstate w)) (payload_offs w) src n
          = store (warena w) (Z.to_nat (h + 16 + pk_pos (pkt w))) src) as Hcopy.
  { unfold copy_in. rewrite Hoffs. rewrite to_size_t_small by lia.
    assert ((h + 16 + pk_pos (pkt w) + n >? st_size (wstate w)) = false) as ->
      by (rewrite Z.gtb_ltb; apply Z.ltb_ge; lia).
    f_equal. apply take_ge. lia. }
  unfold grow_size. cbn [pkt on_pkt on_arena header set_pk_pos pk_pos].
  rewrite Hh. rewrite to_size_t_small by lia.
  change (warena (on_pkt ?f ?x)) with (warena x).
  unfold warena at 1. cbn [buf on_arena buffer set_buffer]. fold (warena w).
  rewrite Hcopy. rewrite header_size_store_other by lia.
  assert ((pk_pos (pkt w) + n >? header_size (warena w) h) = false) as ->
    by (rewrite Z.gtb_ltb; apply Z.ltb_ge; lia).
  f_equal. apply world_eq; try reflexivity.
  - unfold warena. cbn [buf on_pkt on_arena buffer set_buffer]. fold (warena w).
    exact Hcopy.
  - cbn [pkt on_pkt on_arena]. rewrite to_size_t_small by lia. reflexivity.
Qed.

Lemma committed_clear_try w h wp posts (F : ps_packet_t -> Z) :
  committed (on_pkt (fun p => set_pk_flags (F p) p) w) h wp posts = committed w h wp posts.
Proof.
  unfold committed, count_written, or_header_flags.
  change (wstate (on_pkt (fun p => set_pk_flags (F p) p) w)) with (wstate w).
  change (warena (on_pkt (fun p => set_pk_flags (F p) p) w)) with (warena w).
  destruct (tst _ PS_BUFFER_STATS); reflexivity.
Qed.

(** [ps_packet_close] of a written packet at the tail, the header behind
    it being clear. *)
Lemma ps_packet_close_tail fuel w h n :
  ps_packet_check w = 0 -> pk_flags (pkt w) = Z.lor PS_PACKET_WRITE PS_PACKET_SIZE_SET ->
  header (pkt w) = Some h -> buffer_pos (pkt w) = h -> write_pos (wstate w) = h ->
  Forall (fun d => free d <> 0) (fake_dma (pkt w)) ->
  write_close_mutex (wstate w) = false ->
  0 <= h -> 0 <= n -> h + HDR + n + HDR <= st_size (wstate w) ->
  st_size (wstate w) <= 2 ^ 31 ->
  header_size (warena w) h = n ->
  tst (header_flags (warena w) (h + HDR + n)) PS_PACKET_HEADER_WRITTEN = false ->
  written_packets (wstate w) < SEM_VALUE_MAX ->
  ps_packet_close (S fuel) w = Returns 0 (committed w h (h + HDR + n) 1).
Proof.
  intros Hc Hfl Hh Hb Hwp Hfree Hmx H0 Hn Hfit Hmax Hsz Hclear Hsem. unfold HDR in *.
  unfold ps_packet_close. rewrite Hc. cbn [Z.eqb negb]. cbv zeta.
  cbn [pkt on_pkt pk_flags set_pk_flags]. rewrite Hfl.
  change (tst (Z.land (Z.lor PS_PACKET_WRITE PS_PACKET_SIZE_SET) (Z.lnot PS_PACKET_TRY))
              PS_PACKET_READ) with false.
  cbv iota.
  change (on_pkt (fun p => set_pk_flags (Z.land (pk_flags p) (Z.lnot PS_PACKET_TRY)) p) w)
    with (on_pkt (fun p => set_pk_flags (Z.land (pk_flags p) (Z.lnot PS_PACKET_TRY)) p) w).
  set (w1 := on_pkt (fun p => set_pk_flags (Z.land (pk_flags p) (Z.lnot PS_PACKET_TRY)) p) w).
  assert (pk_flags (pkt w1) = Z.lor PS_PACKET_WRITE PS_PACKET_SIZE_SET) as Hfl1.
  { subst w1. cbn [pkt on_pkt pk_flags set_pk_flags]. rewrite Hfl. reflexivity. }
  unfold ps_packet_closewrite.
  rewrite closewrite_prelude_frozen; [| rewrite Hfl1; reflexivity | exact Hfree].
  cbn [andthen Z.eqb].
  change (header (pkt w1)) with (header (pkt w)). rewrite Hh.
  set (a' := set_header_flags (warena w1) h
               (Z.lor (header_flags (warena w1) h) PS_PACKET_HEADER_WRITTEN)).
  assert (walk_pos 1 a' (st_size (wstate w1)) h = h + 16 + n) as Hwalk.
  { cbn [walk_pos]. subst a'.
    change (warena w1) with (warena w). change (wstate w1) with (wstate w).
    rewrite header_size_set_flags by lia. rewrite Hsz.
    rewrite move_pos_advance by (unfold HDR; lia).
    unfold advance, HDR. rewrite (Z.mod_small (h + 16 + n)) by lia.
    assert ((h + 16 + n + 16 >? st_size (wstate w)) = false) as ->
      by (rewrite Z.gtb_ltb; apply Z.ltb_ge; lia).
    apply to_size_t_small. lia. }
  assert (forall i, (1 <= i <= 0)%nat ->
            tst (header_flags a' (walk_pos i a' (st_size (wstate w1)) h))
                PS_PACKET_HEADER_WRITTEN = true) as Hrun by (intros i Hi; lia).
  assert (tst (header_flags a' (walk_pos 1 a' (st_size (wstate w1)) h))
              PS_PACKET_HEADER_WRITTEN = false) as Hstop.
  { rewrite Hwalk. subst a'. change (warena w1) with (warena w).
    rewrite header_flags_set_flags_other by lia. exact Hclear. }
  assert (written_packets (wstate w1) + Z.of_nat 1 <= SEM_VALUE_MAX) as Hsem1
    by (change (wstate w1) with (wstate w); change (Z.of_nat 1) with 1; lia).
  rewrite (closewrite_commit_tail (S fuel) w1 h 0 Hmx (eq_trans Hwp (eq_sym Hb)) Hb
             ltac:(lia) Hrun Hstop Hsem1).
  fold a'. rewrite Hwalk. change (Z.of_nat 1) with 1.
  unfold w1. rewrite committed_clear_try. reflexivity.
Qed.

(** Closing a packet that was sized and filled at [write_next] while
    there was room: what the close leaves behind, in terms of the store
    [w] the packet was opened in. *)
Lemma put_close_parts fuel w w3 B :
  let n := Z.of_nat (length B) in
  let p := write_next (wstate w) in
  let q := p + HDR + n in
  room_to_put w n ->
  pk_flags (pkt w3) = Z.lor PS_PACKET_WRITE PS_PACKET_SIZE_SET ->
  header (pkt w3) = Some p -> buffer_pos (pkt w3) = p ->
  Forall (fun d => free d <> 0) (fake_dma (pkt w3)) ->
  wstate w3 = set_write_next q
                (set_free_bytes (free_bytes (wstate w) - (n + HDR)) (wstate w)) ->
  length (warena w3) = length (warena w) ->
  header_size (warena w3) p = n -> header_flags (warena w3) p = 0 ->
  load (warena w3) (Z.to_nat (p + HDR)) (length B) = B ->
  header_flags (warena w3) q = 0 ->
  (forall x m, (x + m <= Z.to_nat p \/ Z.to_nat (q + HDR) <= x)%nat ->
               load (warena w3) x m = load (warena w) x m) ->
  stats (buf w3) = stats (buf w) -> shmid (buf w3) = shmid (buf w) -> intr w3 = intr w ->
  exists w',
    ps_packet_close (S fuel) w3 = Returns 0 w' /\
    wstate w' = set_written_packets (written_packets (wstate w) + 1)
                  (set_write_pos q (set_write_next q
                     (set_free_bytes (free_bytes (wstate w) - (n + HDR)) (wstate w)))) /\
    length (warena w') = length (warena w) /\
    header_size (warena w') p = n /\
    header_flags (warena w') p = PS_PACKET_HEADER_WRITTEN /\
    load (warena w') (Z.to_nat (p + HDR)) (length B) = B /\
    header_flags (warena w') q = 0 /\
    (forall x m, (x + m <= Z.to_nat p \/ Z.to_nat (q + HDR) <= x)%nat ->
                 load (warena w') x m = load (warena w) x m) /\
    stats (buf w') = (if tst (st_flags (wstate w)) PS_BUFFER_STATS
                      then option_map (stats_written n) (stats (buf w))
                      else stats (buf w)) /\
    shmid (buf w') = shmid (buf w) /\ intr w' = intr w /\
    pk_flags (pkt w') = 0 /\ header (pkt w') = None /\
    Forall (fun d => free d <> 0) (fake_dma (pkt w')).
Proof.
  intros n p q (Hc & Hm & Hcm & Hwp & Hp & Hfit & Hlen & Hmax & Hfree & Hsem & Hdma)
         Hf3' Hh3' Hb3' Hd3' Hs3 Hl3 Hhs3 Hf3 Hld3 Hq3 Hfr3 Ht3 Hi3 Hn3.
  assert (Z.of_nat (length B) = n) as En by reflexivity.
  assert (write_next (wstate w) = p) as Ep by reflexivity.
  assert (q = p + 16 + n) as Eq by reflexivity.
  clearbody q p n. rewrite Ep in *. subst q.
  assert (0 <= n) as Hn by lia.
  unfold HDR in *.
  assert (st_flags (wstate w3) = st_flags (wstate w)) as Hfl3 by (rewrite Hs3; reflexivity).
  assert (ps_packet_check w3 = 0) as Hpc3.
  { unfold ps_packet_check. rewrite Hf3'.
    change (tst (Z.lor PS_PACKET_WRITE PS_PACKET_SIZE_SET) PS_PACKET_READ
            || tst (Z.lor PS_PACKET_WRITE PS_PACKET_SIZE_SET) PS_PACKET_WRITE) with true.
    cbn [negb]. rewrite (ps_buffer_check_flags (buf w) (buf w3) Hfl3). exact Hc. }
  assert (write_pos (wstate w3) = p) as Hwp3 by (rewrite Hs3; exact Hwp).
  assert (write_close_mutex (wstate w3) = false) as Hcm3 by (rewrite Hs3; exact Hcm).
  assert (st_size (wstate w3) = st_size (wstate w)) as Hz3 by (rewrite Hs3; reflexivity).
  assert (p + HDR + n + HDR <= st_size (wstate w3)) as Hfit3
    by (rewrite Hz3; unfold HDR; lia).
  assert (st_size (wstate w3) <= 2 ^ 31) as Hmax3 by (rewrite Hz3; lia).
  assert (tst (header_flags (warena w3) (p + HDR + n)) PS_PACKET_HEADER_WRITTEN = false)
    as Hclr3 by (unfold HDR; rewrite Hq3; reflexivity).
  assert (written_packets (wstate w3) < SEM_VALUE_MAX) as Hsem3
    by (rewrite Hs3; exact Hsem).
  rewrite (ps_packet_close_tail fuel w3 p n Hpc3 Hf3' Hh3' Hb3' Hwp3 Hd3' Hcm3 Hp Hn
             Hfit3 Hmax3 Hhs3 Hclr3 Hsem3).
  unfold HDR.
  eexists. split; [reflexivity |].
  destruct (committed_parts w3 p (p + 16 + n) 1)
    as (Pa & Pwp & Pwr & Pcm & Prp & Prn & Pwn & Prf & Pfb & Prd & Ph & Pf).
  rewrite Hf3 in Pa. change (Z.lor 0 PS_PACKET_HEADER_WRITTEN) with 1 in Pa.
  split.
  { unfold committed. change (wstate (on_pkt ?f ?x)) with (wstate x).
    rewrite wstate_on_state.
    destruct (or_header_flags_keeps p PS_PACKET_HEADER_WRITTEN (count_written w3 p))
      as (_ & -> & _).
    destruct (count_written_keeps w3 p) as (_ & -> & _).
    rewrite Hs3. unfold wstate in *.
    destruct (state (buf w)). cbn in Hcm.
    state_norm. rewrite Hcm. reflexivity. }
  rewrite Pa. unfold set_header_flags.
  split; [rewrite length_store; exact Hl3 |].
  split; [rewrite header_size_store_other by (rewrite ?length_le_split; lia); exact Hhs3 |].
  split.
  { change (store (warena w3) (Z.to_nat p) (le_split 4 1))
      with (set_header_flags (warena w3) p 1).
    rewrite header_flags_set_flags by lia. reflexivity. }
  split; [rewrite load_store_other by (rewrite length_le_split; lia); exact Hld3 |].
  split; [rewrite header_flags_store_other by (rewrite ?length_le_split; lia); exact Hq3 |].
  split.
  { intros x m Hx.
    rewrite load_store_other by (rewrite length_le_split; lia).
    apply Hfr3. exact Hx. }
  split.
  { unfold committed, count_written. rewrite Hfl3.
    destruct (tst (st_flags (wstate w)) PS_BUFFER_STATS).
    - cbn [buf on_pkt on_state on_arena on_stats or_header_flags stats set_stats set_state
           set_buffer].
      rewrite Ht3, Hhs3. reflexivity.
    - cbn [buf on_pkt on_state on_arena or_header_flags stats set_stats set_state
           set_buffer].
      exact Ht3. }
  split.
  { unfold committed, count_written. destruct (tst _ PS_BUFFER_STATS);
      cbn [buf on_pkt on_state on_arena on_stats or_header_flags shmid set_stats set_state
           set_buffer]; exact Hi3. }
  split.
  { unfold committed, count_written. destruct (tst _ PS_BUFFER_STATS);
      cbn [intr on_pkt on_state on_arena on_stats or_header_flags]; exact Hn3. }
  split; [exact Pf |]. split; [exact Ph |].
  unfold committed, count_written. destruct (tst _ PS_BUFFER_STATS);
    cbn [pkt on_pkt on_state on_arena on_stats or_header_flags fake_dma set_pk_flags
         set_header]; exact Hd3'.
Qed.

(** What [put] leaves behind. *)
Lemma put_parts fuel w B :
  let n := Z.of_nat (length B) in
  let p := write_next (wstate w) in
  let q := p + HDR + n in
  room_to_put w n ->
  exists w',
    put (S fuel) w B = Returns 0 w' /\
    wstate w' = set_written_packets (written_packets (wstate w) + 1)
                  (set_write_pos q (set_write_next q
                     (set_free_bytes (free_bytes (wstate w) - (n + HDR)) (wstate w)))) /\
    length (warena w') = length (warena w) /\
    header_size (warena w') p = n /\
    header_flags (warena w') p = PS_PACKET_HEADER_WRITTEN /\
    load (warena w') (Z.to_nat (p + HDR)) (length B) = B /\
    header_flags (warena w') q = 0 /\
    (forall x m, (x + m <= Z.to_nat p \/ Z.to_nat (q + HDR) <= x)%nat ->
                 load (warena w') x m = load (warena w) x m) /\
    stats (buf w') = (if tst (st_flags (wstate w)) PS_BUFFER_STATS
                      then option_map (stats_written n) (stats (buf w))
                      else stats (buf w)) /\
    shmid (buf w') = shmid (buf w) /\ intr w' = intr w /\
    pk_flags (pkt w') = 0 /\ header (pkt w') = None /\
    Forall (fun d => free d <> 0) (fake_dma (pkt w')).
Proof.
  intros n p q (Hc & Hm & Hcm & Hwp & Hp & Hfit & Hlen & Hmax & Hfree & Hsem & Hdma).
  assert (Z.of_nat (length B) = n) as En by reflexivity.
  assert (write_next (wstate w) = p) as Ep by reflexivity.
  assert (q = p + 16 + n) as Eq by reflexivity.
  clearbody q p n. rewrite Ep in *. subst q.
  assert (0 <= n) as Hn by lia.
  unfold HDR in *.
  destruct (ps_buffer_check_0 _ Hc) as [Hrdy Hcan].
  (* open *)
  unfold put. rewrite En.
  destruct (ps_packet_open_write_ok w Hc Hm)
    as (w1 & -> & Hs1 & Ha1 & Ht1 & Hi1 & Hn1 & Hp1).
  rewrite Ep in Ha1, Hp1. cbn [andthen Z.eqb].
  assert (ps_buffer_check (buf w1) = 0) as Hc1.
  { unfold ps_buffer_check. change (state (buf w1)) with (wstate w1). rewrite Hs1.
    cbn [st_flags set_write_mutex]. exact Hc. }
  assert (ps_packet_check w1 = 0) as Hpc1.
  { unfold ps_packet_check. rewrite Hp1. cbn [pk_flags]. exact Hc1. }
  assert (length (warena w1) = length (warena w)) as Hl1
    by (rewrite Ha1, length_set_header_size, length_set_header_flags; reflexivity).
  (* setsize *)
  destruct (ps_packet_setsize_fresh fuel w1 p n Hpc1)
    as (w2 & -> & Hs2 & Ha2 & Ht2 & Hi2 & Hn2 & Hf2 & Hh2 & Hb2 & Hpp2 & Hd2);
    try (rewrite ?Hp1, ?Hs1; cbn [pk_flags header reserved write_next st_size free_bytes
                                  set_write_mutex]; rewrite ?Ep; unfold HDR;
         (reflexivity || lia)).
  rewrite Hs1 in Hs2, Ha2. cbn [write_next free_bytes set_write_mutex] in Hs2, Ha2.
  rewrite Ep in Hs2, Ha2. unfold HDR in Hs2, Ha2.
  rewrite Hp1 in Hb2, Hpp2, Hd2. cbn [buffer_pos pk_pos fake_dma] in Hb2, Hpp2, Hd2.
  specialize (Hd2 Hdma). cbn [andthen Z.eqb].
  assert (st_flags (wstate w2) = st_flags (wstate w)) as Hfl2 by (rewrite Hs2; reflexivity).
  assert (ps_packet_check w2 = 0) as Hpc2.
  { unfold ps_packet_check. rewrite Hf2. cbn [negb orb].
    change (tst (Z.lor PS_PACKET_WRITE PS_PACKET_SIZE_SET) PS_PACKET_READ
            || tst (Z.lor PS_PACKET_WRITE PS_PACKET_SIZE_SET) PS_PACKET_WRITE) with true.
    cbn [negb]. unfold ps_buffer_check. change (state (buf w2)) with (wstate w2).
    rewrite Hfl2. exact Hc. }
  assert (length (warena w2) = length (warena w)) as Hl2
    by (rewrite Ha2, length_memset0, length_set_header_size; exact Hl1).
  assert (st_size (wstate w2) = st_size (wstate w)) as Hz2 by (rewrite Hs2; reflexivity).
  assert (header_size (warena w2) p = n) as Hhs2.
  { rewrite Ha2. unfold memset0. rewrite header_size_store_other by lia.
    rewrite header_size_set_size by lia. apply Z.mod_small. lia. }
  (* write *)
  rewrite (ps_packet_write_nowrap (S fuel) w2 p B n En Hpc2);
    try (rewrite ?Hf2, ?Hh2, ?Hb2, ?Hpp2, ?Hhs2, ?Hz2, ?Hl2; unfold HDR, PTRDIFF_MAX;
         (reflexivity || lia)).
  rewrite Hpp2. unfold HDR. rewrite Z.add_0_r, Z.add_0_l. cbn [andthen Z.eqb].
  set (w3 := on_pkt (set_pk_pos n) (on_arena (fun a => store a (Z.to_nat (p + 16)) B) w2)).
  assert (warena w3 = store (warena w2) (Z.to_nat (p + 16)) B) as Ha3 by reflexivity.
  assert (wstate w3 = wstate w2) as Hs3 by reflexivity.
  assert (length (warena w3) = length (warena w)) as Hl3
    by (rewrite Ha3, length_store; exact Hl2).
  assert (header_size (warena w3) p = n) as Hhs3
    by (rewrite Ha3, header_size_store_other by lia; exact Hhs2).
  assert (header_flags (warena w2) (p + 16 + n) = 0 /\ header_size (warena w2) (p + 16 + n) = 0) as [Hq2 _].
  { rewrite Ha2. apply header_memset0; [lia |].
    rewrite length_set_header_size, Hl1. lia. }
  assert (header_flags (warena w3) (p + 16 + n) = 0) as Hq3
    by (rewrite Ha3, header_flags_store_other by lia; exact Hq2).
  (* close *)
  assert (header_flags (warena w3) p = 0) as Hf3.
  { rewrite Ha3, header_flags_store_other by lia. rewrite Ha2. unfold memset0.
    rewrite header_flags_store_other by lia. rewrite header_flags_set_size by lia.
    rewrite Ha1. rewrite header_flags_set_size by lia.
    rewrite header_flags_set_flags by lia. reflexivity. }
  pose proof (put_close_parts fuel w w3 B) as K. cbv zeta in K.
  rewrite En, Ep in K. unfold HDR in K.
  destruct K as (w' & -> & K); try assumption.
  - unfold room_to_put, HDR. rewrite Ep. repeat split; try assumption; lia.
  - rewrite Hs3, Hs2. unfold wstate in *. destruct (state (buf w)). cbn in Hm.
    state_norm. rewrite Hm. reflexivity.
  - rewrite Ha3. apply load_store_same. lia.
  - intros x m Hx. rewrite Ha3, load_store_other by lia.
    rewrite Ha2. unfold memset0, set_header_size.
    rewrite load_store_other by (rewrite length_replicate; lia).
    rewrite load_store_other by (rewrite length_le_split; lia).
    rewrite Ha1. unfold set_header_size, set_header_flags.
    rewrite !load_store_other by (rewrite length_le_split; lia). reflexivity.
  - change (stats (buf w3)) with (stats (buf w2)). rewrite Ht2. exact Ht1.
  - change (shmid (buf w3)) with (shmid (buf w2)). rewrite Hi2. exact Hi1.
  - change (intr w3) with (intr w2). rewrite Hn2. exact Hn1.
  - cbn [andthen Z.eqb]. exists w'. split; [reflexivity |]. exact K.
Qed.

(** X11: a packet put in one go.  When there is room ([room_to_put]),
    opening a packet for writing, setting its size to the length of [B],
    writing [B] and closing it all return 0, for any fuel but none.
    Afterwards [write_pos] and [write_next] are one header and the packet
    further, [free_bytes] is that much less, [written_packets] has one
    more token, and nothing else in the state has changed.  The header at
    the old [write_next] holds the size and the [WRITTEN] flag, the payload
    behind it is [B], the header behind the payload is clear, and no byte
    before the packet or behind that header has changed.  The statistics,
    when kept, count one packet more and its bytes; the handle is
    closed. *)
Theorem put_commits fuel w B :
  let n := Z.of_nat (length B) in
  let p := write_next (wstate w) in
  let q := p + HDR + n in
  room_to_put w n -> (0 < fuel)%nat ->
  exists w',
    put fuel w B = Returns 0 w' /\
    wstate w' = set_written_packets (written_packets (wstate w) + 1)
                  (set_write_pos q (set_write_next q
                     (set_free_bytes (free_bytes (wstate w) - (n + HDR)) (wstate w)))) /\
    length (warena w') = length (warena w) /\
    header_size (warena w') p = n /\
    header_flags (warena w') p = PS_PACKET_HEADER_WRITTEN /\
    load (warena w') (Z.to_nat (p + HDR)) (length B) = B /\
    header_flags (warena w') q = 0 /\
    (forall x m, (x + m <= Z.to_nat p \/ Z.to_nat (q + HDR) <= x)%nat ->
                 load (warena w') x m = load (warena w) x m) /\
    stats (buf w') = (if tst (st_flags (wstate w)) PS_BUFFER_STATS
                      then option_map (stats_written n) (stats (buf w))
                      else stats (buf w)) /\
    pk_flags (pkt w') = 0 /\ header (pkt w') = None.
Proof.
  intros n p q Hroom Hfuel. destruct fuel as [| fuel]; [lia |].
  destruct (put_parts fuel w B Hroom)
    as (w' & H1 & H2 & H3 & H4 & H5 & H6 & H7 & H8 & H9 & _ & _ & H12 & H13 & _).
  exists w'. repeat (split; [assumption |]). assumption.
Qed.

Lemma demo_room : room_to_put demo_world 20.
Proof.
  unfold room_to_put.
  repeat split; try reflexivity; try (apply Z.leb_le; reflexivity);
    try (apply Z.ltb_lt; reflexivity).
  constructor.
Qed.

Lemma put_commits_witness :
  exists w',
    put 1 demo_world demo_bytes = Returns 0 w' /\
    write_next (wstate w') = 36 /\ write_pos (wstate w') = 36 /\
    free_bytes (wstate w') = 12 /\ written_packets (wstate w') = 1 /\
    header_size (warena w') 0 = 20 /\ load (warena w') 16 20 = demo_bytes.
Proof.
  destruct (put_commits 1 demo_world demo_bytes demo_room ltac:(lia))
    as (w' & Hret & Hs & _ & Hsz & _ & Hload & _).
  exists w'. split; [exact Hret |]. rewrite Hs.
  split; [reflexivity |]. split; [reflexivity |]. split; [reflexivity |].
  split; [reflexivity |]. split; [exact Hsz | exact Hload].
Defined.

(** ** A packet written, then read *)

(** [ps_packet_open] for reading, with [read_mutex] free and a token at
    hand. *)
Lemma ps_packet_open_read_ok w :
  ps_buffer_check (buf w) = 0 -> read_mutex (wstate w) = false ->
  0 < written_packets (wstate w) ->
  exists w1,
    ps_packet_open w PS_PACKET_READ = Returns 0 w1 /\
    wstate w1
    = set_read_next
        (to_size_t (move_pos (read_next (wstate w)) (st_size (wstate w))
                      (header_size (warena w) (read_next (wstate w)))))
        (set_written_packets (written_packets (wstate w) - 1) (wstate w)) /\
    warena w1 = warena w /\ stats (buf w1) = stats (buf w) /\
    shmid (buf w1) = shmid (buf w) /\ intr w1 = intr w /\
    pkt w1 = {| pk_flags := PS_PACKET_READ; header := Some (read_next (wstate w));
                buffer_pos := read_next (wstate w); pk_pos := 0;
                reserved := reserved (pkt w); fake_dma := fake_dma (pkt w) |}.
Proof.
  intros Hc Hm Htok. destruct (ps_buffer_check_0 _ Hc) as [_ Hcan].
  change (state (buf w)) with (wstate w) in Hcan.
  unfold ps_packet_open. cbv zeta. rewrite Hc.
  change (tst PS_PACKET_READ PS_PACKET_READ) with true.
  cbn [Z.eqb negb orb].
  unfold ps_packet_openread. rewrite Hm. cbv zeta.
  change (tst PS_PACKET_READ PS_PACKET_TRY) with false. cbv iota.
  assert (cancelled (on_state (set_read_mutex true) w) = false) as -> by exact Hcan.
  change (written_packets (wstate (on_state (set_read_mutex true) w)))
    with (written_packets (wstate w)).
  unfold MAX_SEM_WAIT_TRIES. rewrite sem_wait_retry_token by exact Htok.
  cbn [andthen Z.eqb].
  match goal with |- context [if cancelled ?x then _ else _] =>
    assert (cancelled x = false) as -> by exact Hcan end.
  eexists. split; [reflexivity |].
  split; [| repeat split].
  unfold wstate, warena, on_state, on_pkt, set_intr.
  cbn [buf pkt state set_state buffer intr].
  unfold wstate in Hm. destruct (state (buf w)). cbn in Hm.
  state_norm. rewrite Hm. reflexivity.
Qed.

(** X12: what was put is what is read.  On a buffer with room for a
    packet of the length of [B], whose readers have caught up
    ([read_next] is [write_next] and no token of [written_packets] is
    left), putting [B] and then opening a packet for reading gives that
    packet: [ps_packet_getsize] returns the length of [B] and
    [ps_packet_read] of that many bytes returns [B]; the open takes the one
    token and moves [read_next] past the packet. *)
Theorem put_then_get fuel w B :
  let n := Z.of_nat (length B) in
  room_to_put w n -> (0 < fuel)%nat ->
  read_mutex (wstate w) = false ->
  read_next (wstate w) = write_next (wstate w) -> written_packets (wstate w) = 0 ->
  exists w1 w2 w3,
    put fuel w B = Returns 0 w1 /\
    ps_packet_open w1 PS_PACKET_READ = Returns 0 w2 /\
    ps_packet_getsize w2 = Returns (0, Some n) w2 /\
    ps_packet_read w2 n = Returns (0, B) w3 /\
    written_packets (wstate w2) = 0 /\
    read_next (wstate w2) = write_next (wstate w) + HDR + n /\
    read_next (wstate w2) = write_next (wstate w2) /\
    pk_pos (pkt w3) = n /\ buf w3 = buf w2.
Proof.
  intros n Hroom Hfuel Hrm Hrn Hwr. destruct fuel as [| fuel]; [lia |].
  pose proof Hroom as (Hc & Hm & Hcm & Hwp & Hp & Hfit & Hlen & Hmax & Hfree & Hsem & Hdma).
  destruct (put_parts fuel w B Hroom)
    as (w1 & H1 & Hs1 & Hl1 & Hsz1 & Hf1 & Hld1 & Hq1 & _ & _ & _ & _ & _ & _ & _).
  assert (Z.of_nat (length B) = n) as En by reflexivity.
  assert (0 <= n) as Hn by lia.
  clearbody n. rewrite ?En in *. unfold HDR in *.
  set (p := write_next (wstate w)) in *.
  assert (ps_buffer_check (buf w1) = 0) as Hc1.
  { unfold ps_buffer_check. change (state (buf w1)) with (wstate w1). rewrite Hs1.
    exact Hc. }
  assert (read_mutex (wstate w1) = false) as Hrm1 by (rewrite Hs1; exact Hrm).
  assert (written_packets (wstate w1) = 1) as Hwr1
    by (rewrite Hs1; cbn [written_packets set_written_packets]; lia).
  assert (read_next (wstate w1) = p) as Hrn1 by (rewrite Hs1; exact Hrn).
  assert (st_size (wstate w1) = st_size (wstate w)) as Hz1 by (rewrite Hs1; reflexivity).
  destruct (ps_packet_open_read_ok w1 Hc1 Hrm1 ltac:(lia))
    as (w2 & H2 & Hs2 & Ha2 & _ & _ & _ & Hp2).
  rewrite Hrn1, Hz1, Hsz1, Hwr1 in Hs2. rewrite Hrn1 in Hp2.
  assert (to_size_t (move_pos p (st_size (wstate w)) n) = p + 16 + n) as Hmove.
  { rewrite move_pos_advance by (unfold HDR; lia).
    unfold advance, HDR. rewrite (Z.mod_small (p + 16 + n)) by lia.
    assert ((p + 16 + n + 16 >? st_size (wstate w)) = false) as ->
      by (rewrite Z.gtb_ltb; apply Z.ltb_ge; lia).
    apply to_size_t_small. lia. }
  rewrite Hmove in Hs2.
  assert (ps_packet_check w2 = 0) as Hpc2.
  { unfold ps_packet_check. rewrite Hp2. cbn [pk_flags].
    change (tst PS_PACKET_READ PS_PACKET_READ || tst PS_PACKET_READ PS_PACKET_WRITE)
      with true. cbn [negb].
    unfold ps_buffer_check. change (state (buf w2)) with (wstate w2). rewrite Hs2.
    cbn [st_flags set_read_next set_written_packets].
    change (ps_buffer_check (buf w1) = 0). exact Hc1. }
  exists w1, w2, (on_pkt (set_pk_pos n) w2).
  split; [exact H1 |]. split; [exact H2 |].
  split.
  { unfold ps_packet_getsize. rewrite Hpc2, Hp2. cbn [Z.eqb negb header].
    rewrite Ha2, Hsz1. reflexivity. }
  split.
  { unfold ps_packet_read. rewrite Hpc2, Hp2. cbn [Z.eqb negb header pk_pos].
    rewrite Ha2, Hsz1. rewrite Z.add_0_l, (to_size_t_small n) by lia.
    assert ((n >? n) = false) as -> by (rewrite Z.gtb_ltb; apply Z.ltb_ge; lia).
    assert (payload_offs w2 = p + 16) as Hoffs.
    { unfold payload_offs, HDR. rewrite Hp2. cbn [buffer_pos pk_pos].
      rewrite Hs2. cbn [st_size set_read_next set_written_packets]. rewrite Hz1.
      rewrite Z.add_0_r, to_size_t_small by lia. apply Z.mod_small. lia. }
    assert (st_size (wstate w2) = st_size (wstate w)) as Hz2
      by (rewrite Hs2; cbn [st_size set_read_next set_written_packets]; exact Hz1).
    unfold copy_out. rewrite Hoffs, Hz2. rewrite to_size_t_small by lia.
    assert ((p + 16 + n >? st_size (wstate w)) = false) as ->
      by (rewrite Z.gtb_ltb; apply Z.ltb_ge; lia).
    rewrite <- En at 1. rewrite Nat2Z.id. rewrite Hld1.
    f_equal. apply world_eq; try reflexivity.
    cbn [pkt on_pkt]. rewrite Hp2. cbn [pk_pos]. rewrite Z.add_0_l.
    rewrite to_size_t_small by lia. reflexivity. }
  rewrite Hs2, Hs1. cbn. repeat split; lia.
Qed.

Lemma put_then_get_witness :
  exists w1 w2 w3,
    put 1 demo_world demo_bytes = Returns 0 w1 /\
    ps_packet_open w1 PS_PACKET_READ = Returns 0 w2 /\
    ps_packet_getsize w2 = Returns (0, Some 20) w2 /\
    ps_packet_read w2 20 = Returns (0, demo_bytes) w3.
Proof.
  destruct (put_then_get 1 demo_world demo_bytes demo_room ltac:(lia) eq_refl eq_refl eq_refl)
    as (w1 & w2 & w3 & H1 & H2 & H3 & H4 & _).
  exists w1, w2, w3. repeat split; assumption.
Defined.

(** ** The example program *)

(** A turn of the loop whose four calls return 0 is a [put]. *)
Lemma put_turn fuel w B w' :
  put fuel w B = Returns 0 w' ->
  writer_turn fuel w B (Z.of_nat (length B)) = Returns true w'.
Proof.
  unfold put. intros H.
  apply andthen_returns_0 in H. destruct H as (w1 & H1 & H).
  apply andthen_returns_0 in H. destruct H as (w2 & H2 & H).
  apply andthen_returns_0 in H. destruct H as (w3 & H3 & H4).
  unfold writer_turn. rewrite H1. cbn [bind Z.eqb negb].
  rewrite H2. cbn [bind Z.eqb negb].
  rewrite H3. cbn [bind Z.eqb negb].
  rewrite H4. reflexivity.
Qed.

Lemma to_size_t_add_l a b : to_size_t (to_size_t a + b) = to_size_t (a + b).
Proof. unfold to_size_t. apply Zplus_mod_idemp_l. Qed.

Lemma stats_written_step k n t :
  stats_written_n k n (stats_written n t) = stats_written_n (S k) n t.
Proof.
  unfold stats_written_n, stats_written. cbn [stat_written_packets stat_written_bytes
    stat_read_packets stat_read_bytes].
  rewrite !to_size_t_add_l. f_equal; f_equal; lia.
Qed.

Lemma stats_written_0 n t :
  0 <= stat_written_packets t < 2 ^ 64 -> 0 <= stat_written_bytes t < 2 ^ 64 ->
  stats_written_n 0 n t = t.
Proof.
  intros H1 H2. unfold stats_written_n. change (Z.of_nat 0) with 0.
  rewrite Z.mul_0_l, !Z.add_0_r, !to_size_t_small by lia. destruct t. reflexivity.
Qed.

(** What [k] turns of the loop leave behind when there is room for [k]
    packets. *)
Lemma writer_loop_parts fuel temp n k : forall w,
  Z.of_nat (length temp) = n -> room_for k w n ->
  exists w',
    writer_loop k (S fuel) w temp n = Returns tt w' /\
    wstate w'
    = set_written_packets (written_packets (wstate w) + Z.of_nat k)
        (set_write_pos (write_next (wstate w) + Z.of_nat k * (n + HDR))
           (set_write_next (write_next (wstate w) + Z.of_nat k * (n + HDR))
              (set_free_bytes (free_bytes (wstate w) - Z.of_nat k * (n + HDR))
                 (wstate w)))) /\
    length (warena w') = length (warena w) /\
    (tst (st_flags (wstate w)) PS_BUFFER_STATS = true ->
     forall t, stats (buf w) = Some t ->
     0 <= stat_written_packets t < 2 ^ 64 -> 0 <= stat_written_bytes t < 2 ^ 64 ->
     stats (buf w') = Some (stats_written_n k n t)) /\
    intr w' = intr w.
Proof.
  induction k as [| k IH]; intros w Hlen Hroom.
  - destruct Hroom as (_ & _ & _ & Hwp & _).
    exists w. cbn [writer_loop]. split; [reflexivity |].
    change (Z.of_nat 0) with 0. rewrite Z.mul_0_l, !Z.add_0_r, Z.sub_0_r.
    split.
    { unfold wstate in *. destruct (state (buf w)). cbn in Hwp. state_norm.
      rewrite Hwp. reflexivity. }
    split; [reflexivity |]. split; [| reflexivity].
    intros _ t Ht R1 R2. rewrite Ht. f_equal. symmetry. apply stats_written_0; assumption.
  - destruct Hroom as (Hc & Hm & Hcm & Hwp & Hp & Hfit & Hla & Hmax & Hfree & Hsem & Hdma).
    assert (0 <= n) as Hn by lia.
    assert (room_to_put w (Z.of_nat (length temp))) as Hput.
    { rewrite Hlen. unfold room_to_put, HDR in *. repeat split; try assumption; nia. }
    destruct (put_parts fuel w temp Hput)
      as (w1 & H1 & Hs1 & Hl1 & _ & _ & _ & _ & _ & Ht1 & _ & Hi1 & _ & _ & Hd1).
    rewrite Hlen in Hs1, Ht1.
    apply put_turn in H1. rewrite Hlen in H1.
    assert (room_for k w1 n) as Hroom1.
    { unfold room_for. rewrite Hs1, Hl1.
      cbn [st_flags st_size write_mutex write_close_mutex write_pos write_next free_bytes
           written_packets set_written_packets set_write_pos set_write_next set_free_bytes].
      unfold HDR in *.
      split; [unfold ps_buffer_check; change (state (buf w1)) with (wstate w1);
              rewrite Hs1; exact Hc |].
      repeat split; try assumption; nia. }
    destruct (IH w1 Hlen Hroom1) as (w' & Hloop & Hs' & Hl' & Ht' & Hi').
    exists w'. cbn [writer_loop]. rewrite H1. cbn [bind]. split; [exact Hloop |].
    split.
    { rewrite Hs', Hs1. unfold wstate. destruct (state (buf w)). state_norm.
      unfold HDR. f_equal; lia. }
    split; [congruence |]. split; [| congruence].
    intros Hst t Ht R1 R2. rewrite Hst, Ht in Ht1. cbn [option_map] in Ht1.
    rewrite (Ht' ltac:(rewrite Hs1; exact Hst) _ Ht1).
    + rewrite stats_written_step. reflexivity.
    + apply to_size_t_range.
    + apply to_size_t_range.
Qed.

Lemma drain_frame_refl b : drain_frame b b.
Proof. unfold drain_frame. repeat split. Qed.

Lemma drain_frame_trans b1 b2 b3 :
  drain_frame b1 b2 -> drain_frame b2 b3 -> drain_frame b1 b3.
Proof. unfold drain_frame. intuition congruence. Qed.

Lemma drain_step_frame b : drain_frame b (fst (drain_step b)).
Proof.
  unfold drain_frame, drain_step. cbv zeta. cbn [fst state buffer stats shmid].
  destruct (read_pos (state b) =? read_next (state b));
    cbn [write_pos write_next read_first free_bytes st_size st_flags write_mutex
         write_close_mutex set_read_pos set_read_packets set_read_next set_written_packets];
    repeat split; apply length_set_header_flags.
Qed.

Lemma drain_spec_frame n : forall b, drain_frame b (fst (drain_spec n b)).
Proof.
  induction n as [| n IH]; intros b.
  - apply drain_frame_refl.
  - rewrite drain_spec_S. cbn [fst].
    eapply drain_frame_trans; [apply drain_step_frame | apply IH].
Qed.

(** [ps_buffer_drain] when no packet is open for reading. *)
Lemma ps_buffer_drain_all fuel b :
  read_mutex (state b) = false -> read_close_mutex (state b) = false ->
  0 <= written_packets (state b) ->
  read_packets (state b) + written_packets (state b) <= SEM_VALUE_MAX ->
  (Z.to_nat (written_packets (state b)) < fuel)%nat ->
  read_pos (state b) = read_next (state b) ->
  exists b',
    ps_buffer_drain fuel b = Returns (written_packets (state b)) b' /\
    written_packets (state b') = 0 /\
    read_packets (state b') = read_packets (state b) + written_packets (state b) /\
    read_pos (state b') = read_next (state b') /\
    read_mutex (state b') = false /\ read_close_mutex (state b') = false /\
    drain_frame b b'.
Proof.
  intros Hm Hc Hw Hr Hfuel Heq. unfold ps_buffer_drain. rewrite Hm.
  cbn [state set_state read_close_mutex set_read_mutex]. rewrite Hc.
  set (n := Z.to_nat (written_packets (state b))) in *.
  match goal with |- context [drain_loop fuel ?x 0] =>
    change x with (lock_read_side b) end.
  destruct (drain_spec_counts n (lock_read_side b)) as (Hw' & Hr' & Hb & _ & _ & Hq).
  pose proof (drain_spec_frame n (lock_read_side b)) as Hfr.
  change (written_packets (state (lock_read_side b))) with (written_packets (state b))
    in Hw'.
  change (read_packets (state (lock_read_side b))) with (read_packets (state b)) in Hr'.
  change (read_pos (state (lock_read_side b))) with (read_pos (state b)) in Hq.
  change (read_next (state (lock_read_side b))) with (read_next (state b)) in Hq.
  destruct (Hq Heq) as [Hcount Hq'].
  rewrite (drain_loop_spec n fuel (lock_read_side b) 0); [| | | exact Hfuel].
  - eexists. split; [rewrite Z.add_0_l, Hcount; f_equal; subst n; lia |].
    cbn [state set_state written_packets read_packets read_pos read_next read_mutex
         read_close_mutex set_read_mutex set_read_close_mutex].
    rewrite Hw', Hr', Hcount. subst n.
    split; [lia |]. split; [lia |]. split; [exact Hq' |].
    split; [reflexivity |]. split; [reflexivity |].
    eapply drain_frame_trans; [| eapply drain_frame_trans; [exact Hfr |]];
      unfold drain_frame; repeat split.
  - change (written_packets (state (lock_read_side b))) with (written_packets (state b)).
    subst n. lia.
  - change (read_packets (state (lock_read_side b))) with (read_packets (state b)).
    subst n. lia.
Qed.

(** X13: packets put in a row, then drained.  When there is room for [k]
    packets of [n] bytes, the loop of the example writes them all and a
    drain then returns their number plus the number of packets that were
    unread before, provided no packet is open for reading; it leaves no
    token of [written_packets], posts [read_packets] once per packet and
    gives no byte back to [free_bytes]. *)
Theorem writer_loop_then_drain k fuel w temp n :
  Z.of_nat (length temp) = n -> room_for k w n ->
  read_mutex (wstate w) = false -> read_close_mutex (wstate w) = false ->
  read_pos (wstate w) = read_next (wstate w) -> 0 <= written_packets (wstate w) ->
  read_packets (wstate w) + written_packets (wstate w) + Z.of_nat k <= SEM_VALUE_MAX ->
  (Z.to_nat (written_packets (wstate w)) + k < fuel)%nat ->
  exists w' b',
    writer_loop k fuel w temp n = Returns tt w' /\
    ps_buffer_drain fuel (buf w') = Returns (written_packets (wstate w) + Z.of_nat k) b' /\
    written_packets (state b') = 0 /\
    read_packets (state b')
    = read_packets (wstate w) + written_packets (wstate w) + Z.of_nat k /\
    write_next (state b') = write_next (wstate w) + Z.of_nat k * (n + HDR) /\
    free_bytes (state b') = free_bytes (wstate w) - Z.of_nat k * (n + HDR).
Proof.
  intros Hlen Hroom Hrm Hrc Heq Hw Hsem Hfuel.
  destruct fuel as [| fuel]; [lia |].
  destruct (writer_loop_parts fuel temp n k w Hlen Hroom) as (w' & Hloop & Hs & _).
  assert (written_packets (wstate w') = written_packets (wstate w) + Z.of_nat k) as Hwp
    by (rewrite Hs; reflexivity).
  destruct (ps_buffer_drain_all (S fuel) (buf w'))
    as (b' & Hd & H0 & Hr & _ & _ & _ & Hfr).
  - change (state (buf w')) with (wstate w'). rewrite Hs. exact Hrm.
  - change (state (buf w')) with (wstate w'). rewrite Hs. exact Hrc.
  - change (state (buf w')) with (wstate w'). lia.
  - change (state (buf w')) with (wstate w'). rewrite Hwp, Hs. cbn. lia.
  - change (state (buf w')) with (wstate w'). rewrite Hwp. lia.
  - change (state (buf w')) with (wstate w'). rewrite Hs. exact Heq.
  - exists w', b'. split; [exact Hloop |].
    change (state (buf w')) with (wstate w') in Hd, Hr. rewrite Hwp in Hd.
    split; [exact Hd |]. split; [exact H0 |].
    destruct Hfr as (_ & Fwn & _ & Ffb & _).
    change (state (buf w')) with (wstate w') in Fwn, Ffb.
    rewrite Hr, Fwn, Ffb, Hwp, Hs. cbn. repeat split; lia.
Qed.

Lemma demo_room_for : room_for 2 demo_world 8.
Proof.
  unfold room_for.
  repeat split; try reflexivity; try (apply Z.leb_le; reflexivity);
    try (apply Z.ltb_lt; reflexivity).
  constructor.
Qed.

Lemma writer_loop_then_drain_witness :
  exists w' b',
    writer_loop 2 3 demo_world (take 8 demo_bytes) 8 = Returns tt w' /\
    ps_buffer_drain 3 (buf w') = Returns 2 b' /\
    written_packets (state b') = 0 /\ read_packets (state b') = 2 /\
    write_next (state b') = 48 /\ free_bytes (state b') = 0.
Proof.
  destruct (writer_loop_then_drain 2 3 demo_world (take 8 demo_bytes) 8 eq_refl
              demo_room_for eq_refl eq_refl eq_refl)
    as (w' & b' & H1 & H2 & H3 & H4 & H5 & H6).
  - apply Z.leb_le. reflexivity.
  - apply Z.leb_le. reflexivity.
  - vm_compute. repeat constructor.
  - exists w', b'. repeat split; assumption.
Defined.

(** [ps_buffer_init] returns 0 on the heap when the allocations succeed. *)
Lemma ps_buffer_init_heap_ok ps_shm al attr st junk :
  ps_shm && tst (attr_flags attr) PS_BUFFER_PSHARED = false ->
  tst (attr_flags attr) PS_BUFFER_READY = false ->
  heap_state al = Some st -> heap_junk al = Some junk ->
  (tst (attr_flags attr) PS_BUFFER_STATS = true -> is_Some (heap_stats al)) ->
  0 <= attr_size attr <= PTRDIFF_MAX ->
  exists b, ps_buffer_init ps_shm al attr = (0, Some b).
Proof.
  intros Hsh Hrd Hst Hjunk Hstats Hsize. unfold ps_buffer_init, malloc.
  rewrite Hsh, Hrd, Hst, Hjunk.
  assert ((0 <=? attr_size attr) && (attr_size attr <=? PTRDIFF_MAX) = true) as ->
    by (apply andb_true_iff; split; apply Z.leb_le; lia).
  cbn [option_map].
  destruct (tst (attr_flags attr) PS_BUFFER_STATS).
  - destruct (Hstats eq_refl) as [t ->]. eexists. reflexivity.
  - eexists. reflexivity.
Qed.

(** X14: the example program.  When its allocations succeed (and [temp]
    is a block of 1000 bytes) [main] writes fifty packets of 1000 bytes
    into a buffer of 50 MiB without ever waiting and the drain that
    follows returns 50, the number the program prints: no token of
    [written_packets] is left, [read_packets] holds fifty, and the
    statistics count fifty packets and 50000 bytes written.  When an
    allocation of [ps_buffer_init] fails, [main] returns 1 before it
    writes anything. *)
Theorem drain_test_main_drains_50 ps_shm default_size al handle temp signals fuel :
  (heap_state al = None \/ heap_junk al = None \/ heap_stats al = None ->
   drain_test_main ps_shm default_size al handle temp signals fuel = None) /\
  (is_Some (heap_state al) -> is_Some (heap_junk al) -> is_Some (heap_stats al) ->
   length temp = 1000%nat -> (50 < fuel)%nat ->
   exists w',
     drain_test_main ps_shm default_size al handle temp signals fuel
     = Some (Returns 50 w') /\
     written_packets (wstate w') = 0 /\ read_packets (wstate w') = 50 /\
     write_next (wstate w') = 50800 /\
     stats (buf w')
     = Some {| stat_written_packets := 50; stat_written_bytes := 50000;
               stat_read_packets := 0; stat_read_bytes := 0 |}).
Proof.
  set (attr := {| attr_size := BUFFER_SIZE; attr_flags := PS_BUFFER_STATS;
                  attr_shmid := PS_SHM_CREATE; attr_shmmode := 384 |}).
  assert (drain_test_main ps_shm default_size al handle temp signals fuel
          = match ps_buffer_init ps_shm al attr with
            | (c, ob) =>
                if negb (c =? 0) then None
                else
                  Some match ob with
                       | None => Faults
                       | Some buffer =>
                           let w := {| buf := buffer; pkt := handle; intr := signals |} in
                           bind (ps_packet_init w) (fun _ w0 =>
                           bind (writer_loop 50 fuel w0 temp 1000) (fun _ w1 =>
                           match ps_buffer_drain fuel (buf w1) with
                           | Returns ret b =>
                               Returns ret {| buf := b; pkt := pkt w1; intr := intr w1 |}
                           | Blocks b => Blocks {| buf := b; pkt := pkt w1; intr := intr w1 |}
                           | Aborts => Aborts
                           | Faults => Faults
                           | OutOfFuel => OutOfFuel
                           end))
                       end
            end) as ->.
  { unfold drain_test_main. cbv zeta.
    assert (snd (ps_bufferattr_setsize
                   (snd (ps_bufferattr_setflags ps_shm (snd (ps_bufferattr_init default_size))
                           PS_BUFFER_STATS)) BUFFER_SIZE) = attr) as ->
      by (destruct ps_shm; reflexivity).
    reflexivity. }
  assert (ps_shm && tst (attr_flags attr) PS_BUFFER_PSHARED = false) as Hsh
    by (destruct ps_shm; reflexivity).
  assert (tst (attr_flags attr) PS_BUFFER_READY = false) as Hrd by reflexivity.
  split.
  - intros Hfail. unfold ps_buffer_init. rewrite Hsh, Hrd.
    change (tst (attr_flags attr) PS_BUFFER_STATS) with true. cbv iota.
    destruct Hfail as [-> | [Hj | ->]].
    + reflexivity.
    + unfold malloc. rewrite Hj. cbn [option_map].
      destruct (heap_state al); destruct (_ && _); reflexivity.
    + destruct (heap_state al); [| reflexivity].
      destruct (malloc al (attr_size attr)); reflexivity.
  - intros [st Hst] [junk Hjunk] Hstats Htemp Hfuel.
    destruct (ps_buffer_init_heap_ok ps_shm al attr st junk Hsh Hrd Hst Hjunk
                (fun _ => Hstats) ltac:(split; apply Z.leb_le; reflexivity)) as [b Hb].
    rewrite Hb. cbn [Z.eqb negb].
    destruct (ps_buffer_init_heap _ _ _ _ Hsh Hrd Hb) as (_ & Ha & Hs & Ht & _).
    change (attr_size attr) with BUFFER_SIZE in Ha, Hs.
    change (attr_flags attr) with PS_BUFFER_STATS in Hs, Ht.
    change (tst PS_BUFFER_STATS PS_BUFFER_STATS) with true in Ht. cbv iota in Ht.
    assert (to_long (to_size_t (BUFFER_SIZE - HDR)) = BUFFER_SIZE - 16) as Hfb by reflexivity.
    rewrite Hfb in Hs.
    assert (Z.of_nat (length (buffer b)) = BUFFER_SIZE) as Hlen.
    { rewrite Ha, length_replicate. apply Z2Nat.id. apply Z.leb_le. reflexivity. }
    clear Ha Hb.
    assert (ps_buffer_check b = 0) as Hc.
    { unfold ps_buffer_check. rewrite Hs. reflexivity. }
    cbv zeta. unfold ps_packet_init. cbn [buf]. rewrite Hc. cbn [Z.eqb negb bind].
    set (w0 := on_pkt (set_fake_dma []) {| buf := b; pkt := handle; intr := signals |}).
    assert (wstate w0 = state b) as Hw0 by reflexivity.
    assert (room_for 50 w0 1000) as Hroom.
    { unfold room_for. rewrite Hw0. change (buf w0) with b. change (warena w0) with (buffer b).
      rewrite Hlen, Hs.
      repeat split; try reflexivity; try (apply Z.leb_le; reflexivity);
        try (apply Z.ltb_lt; reflexivity); try exact Hc.
      constructor. }
    destruct fuel as [| fuel]; [lia |].
    destruct (writer_loop_parts fuel temp 1000 50 w0 ltac:(rewrite Htemp; reflexivity) Hroom)
      as (w1 & Hloop & Hs1 & _ & Ht1 & _).
    rewrite Hloop. cbn [bind].
    rewrite Hw0, Hs in Hs1.
    assert (stats (buf w1) = Some (stats_written_n 50 1000 zero_stats)) as Hst1.
    { apply Ht1.
      - rewrite Hw0, Hs. reflexivity.
      - exact Ht.
      - split; [apply Z.leb_le | apply Z.ltb_lt]; reflexivity.
      - split; [apply Z.leb_le | apply Z.ltb_lt]; reflexivity. }
    destruct (ps_buffer_drain_all (S fuel) (buf w1))
      as (b' & Hd & H0 & Hr & _ & _ & _ & Hfr);
      change (state (buf w1)) with (wstate w1); try (rewrite Hs1; reflexivity).
    + rewrite Hs1. apply Z.leb_le. reflexivity.
    + rewrite Hs1. apply Z.leb_le. reflexivity.
    + rewrite Hs1. change (Z.to_nat _) with 50%nat. lia.
    + change (state (buf w1)) with (wstate w1) in Hd, Hr. rewrite Hs1 in Hd, Hr.
      change (written_packets _) with 50 in Hd.
      rewrite Hd. eexists. split; [reflexivity |].
      destruct Hfr as (_ & Fwn & _ & _ & _ & _ & _ & _ & Fst & _).
      change (state (buf w1)) with (wstate w1) in Fwn. rewrite Hs1 in Fwn.
      unfold wstate. cbn [buf]. rewrite H0, Hr, Fwn, Fst, Hst1.
      repeat split.
Qed.

Lemma drain_test_main_drains_50_witness :
  exists w',
    drain_test_main false 0 demo_alloc_stats closed_handle (replicate 1000 Byte.x00) 0 51
    = Some (Returns 50 w') /\
    read_packets (wstate w') = 50.
Proof.
  destruct (drain_test_main_drains_50 false 0 demo_alloc_stats closed_handle
              (replicate 1000 Byte.x00) 0 51) as [_ H].
  destruct H as (w' & Hret & _ & Hrp & _).
  - eexists. reflexivity.
  - eexists. reflexivity.
  - eexists. reflexivity.
  - apply length_replicate.
  - lia.
  - exists w'. split; assumption.
Defined.

Lemma lock_read_side_parts b :
  written_packets (state (lock_read_side b)) = written_packets (state b) /\
  read_packets (state (lock_read_side b)) = read_packets (state b) /\
  drain_frame b (lock_read_side b).
Proof. unfold drain_frame. repeat split. Qed.

Lemma unlock_read_side_parts b :
  written_packets (state (unlock_read_side b)) = written_packets (state b) /\
  read_packets (state (unlock_read_side b)) = read_packets (state b) /\
  read_mutex (state (unlock_read_side b)) = false /\
  read_close_mutex (state (unlock_read_side b)) = false /\
  drain_frame b (unlock_read_side b).
Proof. unfold drain_frame. repeat split. Qed.

Lemma unlock_lock_read_side b :
  read_mutex (state b) = false -> read_close_mutex (state b) = false ->
  unlock_read_side (lock_read_side b) = b.
Proof.
  destruct b as [s a t i]. destruct s. cbn. intros -> ->. reflexivity.
Qed.

(** X15: a drain settles the read side and nothing else.  On a buffer
    whose read-side mutexes are free, [ps_buffer_drain] returns, whatever
    packets are open for reading; it leaves no token of
    [written_packets], releases both mutexes, and leaves the write side
    ([write_pos], [write_next], the write mutexes), [read_first],
    [free_bytes], the size, the flags, the statistics and the length of
    the arena as they were: the bytes of the packets drained are given
    back by the next writer, not by the drain.  A second drain returns 0
    and changes nothing. *)
Theorem ps_buffer_drain_settles fuel b :
  read_mutex (state b) = false -> read_close_mutex (state b) = false ->
  0 <= written_packets (state b) ->
  read_packets (state b) + written_packets (state b) <= SEM_VALUE_MAX ->
  (Z.to_nat (written_packets (state b)) < fuel)%nat ->
  exists r b',
    ps_buffer_drain fuel b = Returns r b' /\
    0 <= r <= written_packets (state b) /\
    written_packets (state b') = 0 /\
    read_packets (state b') = read_packets (state b) + r /\
    read_mutex (state b') = false /\ read_close_mutex (state b') = false /\
    drain_frame b b' /\
    forall fuel', (0 < fuel')%nat -> ps_buffer_drain fuel' b' = Returns 0 b'.
Proof.
  intros Hm Hc Hw Hr Hfuel.
  destruct (lock_read_side_parts b) as (Lw & Lr & Lf).
  remember (Z.to_nat (written_packets (state b))) as n eqn:En.
  destruct (drain_spec_counts n (lock_read_side b)) as (Hw' & Hr' & Hb & _ & _ & _).
  pose proof (drain_spec_frame n (lock_read_side b)) as Hfr.
  rewrite Lw in Hw'. rewrite Lr in Hr'.
  pose proof (drain_loop_spec n fuel (lock_read_side b) 0) as Hd.
  rewrite Lw, Lr, Z.add_0_l in Hd.
  specialize (Hd ltac:(lia) ltac:(lia) Hfuel).
  remember (fst (drain_spec n (lock_read_side b))) as b1 eqn:Eb1.
  remember (snd (drain_spec n (lock_read_side b))) as r eqn:Er.
  clear Eb1 Er.
  destruct (unlock_read_side_parts b1) as (Uw & Ur & Um & Uc & Uf).
  exists r, (unlock_read_side b1).
  split; [rewrite (ps_buffer_drain_unlocked fuel b Hm Hc), Hd; reflexivity |].
  split; [lia |]. split; [lia |]. split; [lia |].
  split; [exact Um |]. split; [exact Uc |].
  split; [exact (drain_frame_trans _ _ _ Lf (drain_frame_trans _ _ _ Hfr Uf)) |].
  intros fuel' Hf. destruct fuel' as [| fuel']; [lia |].
  remember (unlock_read_side b1) as b2 eqn:Eb2. clear Eb2.
  destruct (lock_read_side_parts b2) as (Lw2 & _ & _).
  rewrite (ps_buffer_drain_unlocked _ b2 Um Uc).
  rewrite drain_loop_0 by lia.
  f_equal. apply unlock_lock_read_side; assumption.
Qed.

Lemma ps_buffer_drain_settles_witness :
  exists r b',
    ps_buffer_drain 3 demo_unread = Returns r b' /\
    0 <= r <= written_packets (state demo_unread) /\
    written_packets (state b') = 0 /\
    read_packets (state b') = read_packets (state demo_unread) + r /\
    read_mutex (state b') = false /\ read_close_mutex (state b') = false /\
    drain_frame demo_unread b' /\
    forall fuel', (0 < fuel')%nat -> ps_buffer_drain fuel' b' = Returns 0 b'.
Proof.
  apply (ps_buffer_drain_settles 3 demo_unread);
    try reflexivity; vm_compute; (discriminate || lia).
Defined.

(** A write that grows a packet whose size is not set, when the bytes it
    asks for are free. *)
Lemma ps_packet_write_growing fuel w h src n :
  ps_packet_check w = 0 -> tst (pk_flags (pkt w)) PS_PACKET_SIZE_SET = false ->
  header (pkt w) = Some h ->
  0 <= pk_pos (pkt w) -> 0 <= n -> 0 <= reserved (pkt w) ->
  pk_pos (pkt w) + n + 2 * HDR <= st_size (wstate w) -> st_size (wstate w) < 2 ^ 64 ->
  pk_pos (pkt w) + n - reserved (pkt w) <= free_bytes (wstate w) < 2 ^ 63 ->
  0 <= free_bytes (wstate w) ->
  let d := Z.max 0 (pk_pos (pkt w) + n - reserved (pkt w)) in
  exists w',
    ps_packet_write (S fuel) w src n = Returns 0 w' /\
    wstate w' = set_free_bytes (free_bytes (wstate w) - d) (wstate w) /\
    length (warena w') = length (warena w) /\
    stats (buf w') = stats (buf w) /\ shmid (buf w') = shmid (buf w) /\
    intr w' = intr w /\
    pkt w' = set_pk_pos (pk_pos (pkt w) + n) (set_reserved (reserved (pkt w) + d) (pkt w)).
Proof.
  intros Hc Hss Hh Hpos Hn Hres Hfit Hsz Hfree Hfb d.
  unfold ps_packet_write. rewrite Hc, Hss. cbn [Z.eqb negb].
  change (to_size_t (HDR * 2)) with 32. unfold HDR in Hfit.
  rewrite (to_size_t_small (pk_pos (pkt w) + n + 32)) by lia.
  assert ((pk_pos (pkt w) + n + 32 >? st_size (wstate w)) = false) as ->
    by (rewrite Z.gtb_ltb; apply Z.ltb_ge; lia).
  rewrite (to_size_t_small (pk_pos (pkt w) + n)) by lia.
  rewrite ps_packet_reserve_free by lia. fold d.
  cbn [andthen Z.eqb]. cbv zeta.
  remember (on_pkt (set_reserved (reserved (pkt w) + d))
              (on_state (set_free_bytes (free_bytes (wstate w) - d)) w)) as w1 eqn:E1.
  assert (wstate w1 = set_free_bytes (free_bytes (wstate w) - d) (wstate w)) as Hs1
    by (subst w1; reflexivity).
  assert (warena w1 = warena w) as Ha1 by (subst w1; reflexivity).
  assert (stats (buf w1) = stats (buf w)) as Ht1 by (subst w1; reflexivity).
  assert (shmid (buf w1) = shmid (buf w)) as Hi1 by (subst w1; reflexivity).
  assert (intr w1 = intr w) as Hn1 by (subst w1; reflexivity).
  assert (pkt w1 = set_reserved (reserved (pkt w) + d) (pkt w)) as Hp1
    by (subst w1; reflexivity).
  clear E1.
  unfold grow_size. cbn [pkt on_pkt on_arena header set_pk_pos pk_pos].
  rewrite Hp1. cbn [header set_reserved pk_pos]. rewrite Hh.
  rewrite (to_size_t_small (pk_pos (pkt w) + n)) by lia.
  match goal with |- context [if ?t then _ else _] => destruct t end;
    (eexists; split; [reflexivity |]);
    unfold wstate, warena;
    cbn [buf pkt intr on_pkt on_arena state buffer stats shmid set_buffer];
    rewrite ?length_set_header_size, ?length_copy_in;
    fold (wstate w1); fold (warena w1); rewrite ?Ha1, ?Hp1;
    repeat split; try assumption;
    unfold set_pk_pos, set_reserved; cbn [pk_flags header buffer_pos pk_pos reserved fake_dma];
    rewrite ?to_size_t_small by lia; reflexivity.
Qed.

(** X16: cancelling undoes an open for writing.  On a ready buffer whose
    [write_mutex] is free, a packet is opened for writing, [n] bytes that
    are free are written to it without setting its size, and the packet
    is cancelled.  The three calls return 0.  The write takes the [n] bytes
    from [free_bytes] and reserves them for the handle; the cancel gives
    them back, so that the state of the buffer and the statistics are
    what they were before the open: no token was posted and [write_next]
    did not move.  The header at [write_next] is clear and the handle is
    closed. *)
Theorem open_write_cancel_restores fuel w src n :
  let p := write_next (wstate w) in
  ps_buffer_check (buf w) = 0 -> write_mutex (wstate w) = false ->
  0 <= p -> p + HDR <= Z.of_nat (length (warena w)) ->
  0 <= n -> n + 2 * HDR <= st_size (wstate w) -> st_size (wstate w) < 2 ^ 64 ->
  n <= free_bytes (wstate w) < 2 ^ 63 -> (0 < fuel)%nat ->
  exists w1 w2 w3,
    ps_packet_open w PS_PACKET_WRITE = Returns 0 w1 /\
    ps_packet_write fuel w1 src n = Returns 0 w2 /\
    free_bytes (wstate w2) = free_bytes (wstate w) - n /\
    reserved (pkt w2) = n /\ pk_pos (pkt w2) = n /\
    ps_packet_cancel w2 = Returns 0 w3 /\
    wstate w3 = wstate w /\ stats (buf w3) = stats (buf w) /\
    length (warena w3) = length (warena w) /\
    header_flags (warena w3) p = 0 /\ header_size (warena w3) p = 0 /\
    pk_flags (pkt w3) = 0 /\ header (pkt w3) = None.
Proof.
  intros p Hc Hm Hp Hlen Hn Hfit Hsz Hfree Hfuel.
  destruct fuel as [| fuel]; [lia |].
  assert (write_next (wstate w) = p) as Ep by reflexivity. clearbody p.
  destruct (ps_packet_open_write_ok w Hc Hm)
    as (w1 & Ho & Hs1 & Ha1 & Ht1 & Hi1 & Hn1 & Hp1).
  rewrite Ep in Ha1, Hp1.
  assert (st_flags (wstate w1) = st_flags (wstate w)) as Hfl1 by (rewrite Hs1; reflexivity).
  assert (ps_buffer_check (buf w1) = 0) as Hc1
    by (rewrite (ps_buffer_check_flags (buf w) (buf w1) Hfl1); exact Hc).
  assert (ps_packet_check w1 = 0) as Hpc1.
  { unfold ps_packet_check. rewrite Hp1. cbn [pk_flags]. exact Hc1. }
  assert (length (warena w1) = length (warena w)) as Hl1
    by (rewrite Ha1, length_set_header_size, length_set_header_flags; reflexivity).
  destruct (ps_packet_write_growing fuel w1 p src n Hpc1)
    as (w2 & Hw & Hs2 & Hl2 & Ht2 & Hi2 & Hn2 & Hp2);
    try (rewrite ?Hp1, ?Hs1;
         cbn [pk_flags header reserved pk_pos st_size free_bytes set_write_mutex];
         (reflexivity || lia)).
  rewrite Hp1 in Hp2, Hs2. cbn [pk_pos reserved] in Hp2, Hs2.
  rewrite Hs1 in Hs2. cbn [free_bytes set_write_mutex] in Hs2.
  rewrite ?Z.add_0_l, ?Z.sub_0_r in Hp2, Hs2.
  rewrite (Z.max_r 0 n) in Hp2, Hs2 by lia.
  rewrite ?Z.add_0_l in Hp2.
  assert (st_flags (wstate w2) = st_flags (wstate w)) as Hfl2 by (rewrite Hs2; reflexivity).
  assert (ps_packet_check w2 = 0) as Hpc2.
  { unfold ps_packet_check. rewrite Hp2. cbn [pk_flags set_pk_pos set_reserved].
    rewrite (ps_buffer_check_flags (buf w) (buf w2) Hfl2). exact Hc. }
  exists w1, w2.
  assert (free_bytes (wstate w2) = free_bytes (wstate w) - n) as Hfb2
    by (rewrite Hs2; reflexivity).
  assert (reserved (pkt w2) = n) as Hr2 by (rewrite Hp2; reflexivity).
  assert (header (pkt w2) = Some p) as Hh2 by (rewrite Hp2; reflexivity).
  assert (pk_flags (pkt w2) = PS_PACKET_WRITE) as Hf2 by (rewrite Hp2; reflexivity).
  unfold ps_packet_cancel. rewrite Hpc2, Hf2. cbn [Z.eqb negb]. cbv zeta.
  change (tst PS_PACKET_WRITE PS_PACKET_WRITE) with true.
  change (tst PS_PACKET_WRITE PS_PACKET_SIZE_SET) with false. cbn [negb].
  cbn [pkt on_state]. rewrite Hh2.
  eexists. split; [exact Ho |]. split; [exact Hw |]. split; [exact Hfb2 |].
  split; [exact Hr2 |]. split; [rewrite Hp2; reflexivity |].
  split; [reflexivity |].
  unfold wstate, warena, ps_packet_fakedma_freeall.
  cbn [buf pkt on_pkt on_arena on_state state buffer stats set_state set_buffer].
  fold (wstate w2). fold (warena w2). fold (wstate w).
  split.
  { rewrite Hr2, Hs2. clear - Hm Hfree Hn. destruct (wstate w). cbn in Hm, Hfree |- *.
    rewrite Hm. state_norm. f_equal. rewrite to_long_small by lia. lia. }
  split; [rewrite Ht2; exact Ht1 |].
  split; [rewrite length_memset0, Hl2; exact Hl1 |].
  split; [| split; [| split; reflexivity]];
    apply header_memset0; try exact Hp; rewrite Hl2, Hl1; unfold HDR in Hlen; lia.
Qed.

Lemma open_write_cancel_restores_witness :
  exists w1 w2 w3,
    ps_packet_open demo_world PS_PACKET_WRITE = Returns 0 w1 /\
    ps_packet_write 1 w1 demo_bytes 8 = Returns 0 w2 /\
    free_bytes (wstate w2) = free_bytes (wstate demo_world) - 8 /\
    reserved (pkt w2) = 8 /\ pk_pos (pkt w2) = 8 /\
    ps_packet_cancel w2 = Returns 0 w3 /\
    wstate w3 = wstate demo_world /\ stats (buf w3) = stats (buf demo_world) /\
    length (warena w3) = length (warena demo_world) /\
    header_flags (warena w3) (write_next (wstate demo_world)) = 0 /\
    header_size (warena w3) (write_next (wstate demo_world)) = 0 /\
    pk_flags (pkt w3) = 0 /\ header (pkt w3) = None.
Proof.
  apply (open_write_cancel_restores 1 demo_world demo_bytes 8);
    try reflexivity; vm_compute; try lia; repeat split; discriminate.
Defined.

(** The wait on [read_packets] at the head of the loop of
    [ps_packet_reserve] when a token is there, with and without
    [PS_PACKET_TRY]. *)
Lemma reserve_acquire_takes w len :
  0 < read_packets (wstate w) ->
  reserve_acquire w len
  = Returns None (on_state (set_read_packets (read_packets (wstate w) - 1)) w).
Proof.
  intros Hc. destruct (tst (pk_flags (pkt w)) PS_PACKET_TRY) eqn:Ht.
  - apply reserve_acquire_try_takes; assumption.
  - unfold reserve_acquire. rewrite Ht. unfold MAX_SEM_WAIT_TRIES.
    rewrite sem_wait_retry_token by exact Hc. destruct w. reflexivity.
Qed.

(** X17: a writer short of room takes back what readers have released.
    A request needs more bytes than [free_bytes] holds; [k] > 0 packets
    have been released by readers and not yet reclaimed, and reclaiming
    them all makes room.  Then [ps_packet_reserve] returns 0 without
    waiting, with and without [PS_PACKET_TRY]: it takes all [k] tokens of
    [read_packets] and reclaims all [k] packets, oldest first, also when
    fewer would do; [read_first] is past them, [free_bytes] is what they
    held less the bytes asked for, and the handle has [len] bytes
    reserved. *)
Theorem ps_packet_reserve_reclaims fuel w len :
  let d := to_size_t (len - reserved (pkt w)) in
  let k := Z.to_nat (read_packets (wstate w)) in
  let R := reclaim_n k (warena w) (wstate w) in
  reserved (pkt w) < len ->
  - 2 ^ 63 <= free_bytes (wstate w) < 2 ^ 63 ->
  0 < read_packets (wstate w) -> cancelled w = false ->
  to_long (free_bytes (wstate w) - d) < 0 ->
  0 <= to_long (free_bytes R - d) ->
  (k + 2 <= fuel)%nat ->
  ps_packet_reserve fuel w len
  = Returns 0
      (on_pkt (set_reserved len)
         (on_state (fun _ => set_read_packets 0
                               (set_free_bytes (to_long (free_bytes R - d)) R)) w)).
Proof.
  intros d k R Hlen Hfb Hc Hnc Hd Hk Hfuel.
  unfold ps_packet_reserve.
  assert ((len <=? reserved (pkt w)) = false) as -> by (apply Z.leb_gt; exact Hlen).
  fold d.
  set (w0 := on_state (fun s => set_free_bytes (to_long (free_bytes s - d)) s) w).
  assert (free_bytes (wstate w0) = to_long (free_bytes (wstate w) - d)) as Hfb0
    by reflexivity.
  assert (reserve_loop fuel w0 len
          = Returns None
              (on_state (fun _ => set_read_packets 0
                                    (set_free_bytes (to_long (free_bytes R - d)) R)) w)) as ->;
    [| reflexivity].
  destruct fuel as [| fuel]; [lia |].
  rewrite reserve_loop_S, Hfb0.
  assert ((to_long (free_bytes (wstate w) - d) <? 0) = true) as -> by (apply Z.ltb_lt; exact Hd).
  rewrite reserve_acquire_takes
    by (subst w0; rewrite wstate_on_state; cbn [read_packets set_free_bytes]; lia).
  assert (read_packets (wstate w0) = read_packets (wstate w)) as Hrp0 by reflexivity.
  rewrite Hrp0.
  set (w1 := on_state (set_read_packets (read_packets (wstate w) - 1)) w0).
  assert (read_packets (wstate w1) = read_packets (wstate w) - 1) as Hrp1 by reflexivity.
  rewrite reserve_reclaim_drains;
    [| exact Hnc | rewrite Hrp1; lia | rewrite Hrp1; lia ].
  assert (on_state (fun s => set_read_packets 0
                     (reclaim_n (S (Z.to_nat (read_packets s))) (warena w1) s)) w1
          = on_state (fun _ => set_read_packets 0
                                 (set_free_bytes (to_long (free_bytes R + - d)) R)) w) as ->.
  { transitivity (on_state (fun s => set_read_packets 0 (reclaim_n k (warena w1) s)) w1).
    { apply on_state_ext. cbv beta. rewrite Hrp1.
      replace (S (Z.to_nat (read_packets (wstate w) - 1))) with k by lia. reflexivity. }
    subst w1 w0. rewrite !on_state_on_state. apply on_state_ext.
    rewrite !warena_on_state.
    rewrite reclaim_n_set_read_packets, set_read_packets_twice.
    replace (free_bytes (wstate w) - d) with (free_bytes (wstate w) + - d) by lia.
    rewrite reclaim_n_shift. reflexivity. }
  destruct fuel as [| fuel]; [lia |].
  rewrite reserve_loop_S, wstate_on_state.
  cbn [free_bytes set_read_packets set_free_bytes].
  replace (free_bytes R + - d) with (free_bytes R - d) by lia.
  assert ((to_long (free_bytes R - d) <? 0) = false) as -> by (apply Z.ltb_ge; exact Hk).
  reflexivity.
Qed.

Lemma ps_packet_reserve_reclaims_witness :
  free_bytes (wstate demo_try) = 0 /\ read_packets (wstate demo_try) = 1 /\
  read_first (wstate demo_try) = 0 /\
  exists w',
    ps_packet_reserve 3 demo_try 8 = Returns 0 w' /\
    free_bytes (wstate w') = 16 /\ read_packets (wstate w') = 0 /\
    read_first (wstate w') = 24 /\ reserved (pkt w') = 8.
Proof.
  split; [reflexivity |]. split; [reflexivity |]. split; [reflexivity |].
  eexists. split.
  - apply (ps_packet_reserve_reclaims 3 demo_try 8);
      try reflexivity; vm_compute; try lia; repeat split; discriminate.
  - vm_compute. repeat split; reflexivity.
Defined.

(** What the setters keep true of the attributes. *)
Lemma attr_set_keeps ps_shm default_size attr c :
  (tst (attr_flags attr) PS_BUFFER_READY = false /\
   tst (attr_flags attr) PS_BUFFER_CANCELLED = false /\
   (ps_shm = false ->
    tst (attr_flags attr) PS_BUFFER_PSHARED = false /\
    attr_shmid attr = PS_SHM_CREATE /\ attr_shmmode attr = 384) /\
   (attr_size attr = default_size \/ 2 * HDR <= attr_size attr)) ->
  let attr' := attr_set ps_shm attr c in
  tst (attr_flags attr') PS_BUFFER_READY = false /\
  tst (attr_flags attr') PS_BUFFER_CANCELLED = false /\
  (ps_shm = false ->
   tst (attr_flags attr') PS_BUFFER_PSHARED = false /\
   attr_shmid attr' = PS_SHM_CREATE /\ attr_shmmode attr' = 384) /\
  (attr_size attr' = default_size \/ 2 * HDR <= attr_size attr').
Proof.
  intros (Hr & Hc & Hs & Hz). cbv zeta.
  destruct c as [size | flags | id | mode]; unfold attr_set.
  - unfold ps_bufferattr_setsize. change (to_size_t (HDR * 2)) with 32.
    destruct (size <? 32) eqn:E; cbn [snd attr_flags attr_size attr_shmid attr_shmmode];
      [tauto |].
    apply Z.ltb_ge in E. unfold HDR.
    repeat split; try assumption; try (apply Hs; assumption). right. lia.
  - unfold ps_bufferattr_setflags.
    destruct (tst flags PS_BUFFER_READY) eqn:E1; cbn [orb snd]; [tauto |].
    destruct (tst flags PS_BUFFER_CANCELLED) eqn:E2; cbn [snd]; [tauto |].
    destruct ps_shm; cbn [negb andb snd attr_flags attr_size attr_shmid attr_shmmode].
    + repeat split; try assumption; discriminate.
    + destruct (tst flags PS_BUFFER_PSHARED) eqn:E3;
        cbn [snd attr_flags attr_size attr_shmid attr_shmmode]; [tauto |].
      repeat split; try assumption; apply Hs; reflexivity.
  - unfold ps_bufferattr_setshmid.
    destruct ps_shm; cbn [snd attr_flags attr_size attr_shmid attr_shmmode]; [| tauto].
    repeat split; try assumption; discriminate.
  - unfold ps_bufferattr_setshmmode.
    destruct ps_shm; cbn [snd attr_flags attr_size attr_shmid attr_shmmode]; [| tauto].
    repeat split; try assumption; discriminate.
Qed.

Lemma attr_after_keeps ps_shm default_size calls :
  let attr := attr_after ps_shm default_size calls in
  tst (attr_flags attr) PS_BUFFER_READY = false /\
  tst (attr_flags attr) PS_BUFFER_CANCELLED = false /\
  (ps_shm = false ->
   tst (attr_flags attr) PS_BUFFER_PSHARED = false /\
   attr_shmid attr = PS_SHM_CREATE /\ attr_shmmode attr = 384) /\
  (attr_size attr = default_size \/ 2 * HDR <= attr_size attr).
Proof.
  unfold attr_after. cbv zeta.
  assert (forall attr,
            (tst (attr_flags attr) PS_BUFFER_READY = false /\
             tst (attr_flags attr) PS_BUFFER_CANCELLED = false /\
             (ps_shm = false ->
              tst (attr_flags attr) PS_BUFFER_PSHARED = false /\
              attr_shmid attr = PS_SHM_CREATE /\ attr_shmmode attr = 384) /\
             (attr_size attr = default_size \/ 2 * HDR <= attr_size attr)) ->
            let attr' := fold_left (attr_set ps_shm) calls attr in
            tst (attr_flags attr') PS_BUFFER_READY = false /\
            tst (attr_flags attr') PS_BUFFER_CANCELLED = false /\
            (ps_shm = false ->
             tst (attr_flags attr') PS_BUFFER_PSHARED = false /\
             attr_shmid attr' = PS_SHM_CREATE /\ attr_shmmode attr' = 384) /\
            (attr_size attr' = default_size \/ 2 * HDR <= attr_size attr')) as H.
  { induction calls as [| c calls IH]; intros attr Hinv; [exact Hinv |].
    cbn [fold_left]. apply IH. apply attr_set_keeps. exact Hinv. }
  apply H. unfold ps_bufferattr_init. cbn. repeat split. left. reflexivity.
Qed.

(** The flags of a buffer that was initialised. *)
Lemma tst_lor_ready f :
  tst (Z.lor f PS_BUFFER_READY) PS_BUFFER_READY = true /\
  tst (Z.lor f PS_BUFFER_READY) PS_BUFFER_CANCELLED = tst f PS_BUFFER_CANCELLED /\
  tst (Z.lor f PS_BUFFER_READY) PS_BUFFER_STATS = tst f PS_BUFFER_STATS.
Proof.
  change PS_BUFFER_CANCELLED with (2 ^ 3). change PS_BUFFER_READY with (2 ^ 2).
  change PS_BUFFER_STATS with (2 ^ 1).
  rewrite !tst_lor by lia.
  change (tst (2 ^ 2) (2 ^ 2)) with true. change (tst (2 ^ 2) (2 ^ 3)) with false.
  change (tst (2 ^ 2) (2 ^ 1)) with false.
  rewrite orb_true_r, !orb_false_r. repeat split; reflexivity.
Qed.

(** What [ps_buffer_init] leaves when it initialises a buffer, on the heap
    or in a segment it creates. *)
Lemma ps_buffer_init_initialises ps_shm al attr b :
  tst (attr_flags attr) PS_BUFFER_READY = false ->
  ps_shm && tst (attr_flags attr) PS_BUFFER_PSHARED
  && negb (attr_shmid attr =? PS_SHM_CREATE) = false ->
  ps_buffer_init ps_shm al attr = (0, Some b) ->
  state b = set_st_flags (Z.lor (attr_flags attr) PS_BUFFER_READY)
              (set_free_bytes (to_long (to_size_t (attr_size attr - HDR)))
                 (set_st_size (attr_size attr) zero_state)) /\
  stats b = (if tst (attr_flags attr) PS_BUFFER_STATS then Some zero_stats else None) /\
  shmid b = (if ps_shm && tst (attr_flags attr) PS_BUFFER_PSHARED then shm_id al
             else attr_shmid attr).
Proof.
  intros Hready Hnew.
  destruct (ps_shm && tst (attr_flags attr) PS_BUFFER_PSHARED) eqn:Hsh.
  - cbn [andb] in Hnew. apply negb_false_iff in Hnew.
    unfold ps_buffer_init. rewrite Hsh, Hnew, Hready.
    destruct (shm_id al =? -1); [intros H; injection H as _ H; discriminate |].
    destruct (shm_segment al) as [[[st t] a] |];
      [| intros H; injection H as _ H; discriminate].
    destruct (tst (attr_flags attr) PS_BUFFER_STATS); cbn;
      intros H; injection H as <-; cbn; repeat split.
  - intros H. destruct (ps_buffer_init_heap ps_shm al attr b Hsh Hready H)
      as (_ & _ & Hs & Ht & Hi). repeat split; assumption.
Qed.

(** X18: attributes that went through the setters give a buffer that is
    ready.  After [ps_bufferattr_init] and any calls of the setters,
    whatever they returned, the flags hold neither [READY] nor
    [CANCELLED], the size is the default or at least two headers, and in
    a library built without shared memory the flags do not hold [PSHARED]
    and the segment id and mode are the initial ones.  When
    [ps_buffer_init] returns 0 for such attributes, and does not attach to
    an existing segment, the buffer passes [ps_buffer_check], has the
    size and the flags asked for, every index at 0, no token and no mutex
    held, and [ps_buffer_stats] returns zeroed counters when [STATS] was
    asked for and [ENOTSUP] otherwise. *)
Theorem attributes_make_ready ps_shm default_size calls al b :
  let attr := attr_after ps_shm default_size calls in
  (tst (attr_flags attr) PS_BUFFER_READY = false /\
   tst (attr_flags attr) PS_BUFFER_CANCELLED = false /\
   (ps_shm = false ->
    tst (attr_flags attr) PS_BUFFER_PSHARED = false /\
    attr_shmid attr = PS_SHM_CREATE /\ attr_shmmode attr = 384) /\
   (attr_size attr = default_size \/ 2 * HDR <= attr_size attr)) /\
  (ps_shm && tst (attr_flags attr) PS_BUFFER_PSHARED
   && negb (attr_shmid attr =? PS_SHM_CREATE) = false ->
   ps_buffer_init ps_shm al attr = (0, Some b) ->
   ps_buffer_check b = 0 /\
   state b = set_st_flags (Z.lor (attr_flags attr) PS_BUFFER_READY)
               (set_free_bytes (to_long (to_size_t (attr_size attr - HDR)))
                  (set_st_size (attr_size attr) zero_state)) /\
   ps_buffer_stats b
   = (if tst (attr_flags attr) PS_BUFFER_STATS then Returns (0, Some zero_stats) b
      else Returns (ENOTSUP, None) b) /\
   fst (ps_buffer_getshmid b) = 0).
Proof.
  intros attr. pose proof (attr_after_keeps ps_shm default_size calls) as Hinv.
  cbv zeta in Hinv. fold attr in Hinv. split; [exact Hinv |].
  destruct Hinv as (Hr & Hc & _ & _). intros Hnew Hinit.
  destruct (ps_buffer_init_initialises ps_shm al attr b Hr Hnew Hinit) as (Hs & Ht & _).
  destruct (tst_lor_ready (attr_flags attr)) as (L1 & L2 & L3).
  assert (st_flags (state b) = Z.lor (attr_flags attr) PS_BUFFER_READY) as Hfl
    by (rewrite Hs; reflexivity).
  assert (ps_buffer_check b = 0) as Hchk.
  { unfold ps_buffer_check. rewrite Hfl, L1, L2, Hc. reflexivity. }
  split; [exact Hchk |]. split; [exact Hs |]. split.
  - unfold ps_buffer_stats. rewrite Hfl, L3, Ht.
    destruct (tst (attr_flags attr) PS_BUFFER_STATS); reflexivity.
  - unfold ps_buffer_getshmid. rewrite Hchk. reflexivity.
Qed.

Lemma attributes_make_ready_witness :
  let attr := attr_after false 4096 [SetFlags PS_BUFFER_READY; SetFlags PS_BUFFER_STATS;
                                     SetSize 8; SetSize 64; SetShmid 7] in
  attr = {| attr_size := 64; attr_flags := PS_BUFFER_STATS;
            attr_shmid := PS_SHM_CREATE; attr_shmmode := 384 |} /\
  exists b,
    ps_buffer_init false demo_alloc_stats attr = (0, Some b) /\
    ps_buffer_check b = 0 /\ st_size (state b) = 64 /\ free_bytes (state b) = 48 /\
    ps_buffer_stats b = Returns (0, Some zero_stats) b.
Proof.
  split; [reflexivity |]. eexists. split; [reflexivity |].
  match goal with |- ps_buffer_check ?b = 0 /\ _ =>
    destruct (attributes_make_ready false 4096
                [SetFlags PS_BUFFER_READY; SetFlags PS_BUFFER_STATS;
                 SetSize 8; SetSize 64; SetShmid 7] demo_alloc_stats b)
      as (_ & H)
  end.
  destruct (H eq_refl eq_refl) as (Hc & Hs & Ht & _).
  split; [exact Hc |]. split; [reflexivity |]. split; [reflexivity |]. exact Ht.
Defined.

(** ** Staged writes *)

(** [ps_packet_write] reads the first [n] bytes at the source only. *)
Lemma copy_in_take a bsize offs src n :
  0 <= offs < bsize -> bsize < 2 ^ 63 -> 0 <= n <= bsize ->
  copy_in a bsize offs (take (Z.to_nat n) src) n = copy_in a bsize offs src n.
Proof.
  intros Ho Hb Hn. unfold copy_in.
  rewrite (to_size_t_small (offs + n)) by lia.
  destruct (offs + n >? bsize) eqn:E.
  - apply Z.gtb_lt in E. cbv zeta.
    rewrite (to_size_t_small (bsize - offs)) by lia.
    rewrite (to_size_t_small (n - (bsize - offs))) by lia.
    replace (n - (n - (bsize - offs))) with (bsize - offs) by lia.
    rewrite (to_size_t_small (bsize - offs)) by lia.
    rewrite take_take.
    replace (Z.to_nat (bsize - offs) `min` Z.to_nat n)%nat with (Z.to_nat (bsize - offs))
      by lia.
    f_equal.
    rewrite (take_drop_commute src).
    replace (Z.to_nat (bsize - offs) + Z.to_nat (n - (bsize - offs)))%nat with (Z.to_nat n)
      by lia.
    apply take_ge. rewrite length_drop, length_take. lia.
  - rewrite take_take. f_equal. f_equal. lia.
Qed.

(** [ps_packet_seek] on a packet whose size is set. *)
Lemma ps_packet_seek_set fuel w h pos :
  ps_packet_check w = 0 -> header (pkt w) = Some h ->
  tst (pk_flags (pkt w)) PS_PACKET_SIZE_SET = true ->
  pos <= header_size (warena w) h ->
  ps_packet_seek fuel w pos = Returns 0 (on_pkt (set_pk_pos pos) w).
Proof.
  intros Hc Hh Hs Hp. unfold ps_packet_seek. rewrite Hc. cbn [Z.eqb negb]. cbv zeta.
  rewrite Hs, Hh. cbn [orb negb andb].
  assert ((pos >? header_size (warena w) h) = false) as ->
    by (rewrite Z.gtb_ltb; apply Z.ltb_ge; lia).
  cbn [andthen Z.eqb].
  change (pk_flags (pkt (on_pkt (set_pk_pos pos) w))) with (pk_flags (pkt w)).
  rewrite Hs. reflexivity.
Qed.

(** [ps_packet_write] on a packet whose size is set, from a block that
    holds at least the bytes asked for. *)
Lemma ps_packet_write_set fuel w h src n :
  ps_packet_check w = 0 -> handle_ok w h ->
  tst (pk_flags (pkt w)) PS_PACKET_SIZE_SET = true ->
  0 <= pk_pos (pkt w) -> 0 <= n ->
  header_size (warena w) h + HDR <= st_size (wstate w) ->
  pk_pos (pkt w) + n <= header_size (warena w) h -> n <= Z.of_nat (length src) ->
  exists w',
    ps_packet_write fuel w src n = Returns 0 w' /\
    wstate w' = wstate w /\ stats (buf w') = stats (buf w) /\
    pkt w' = set_pk_pos (pk_pos (pkt w) + n) (pkt w) /\
    length (warena w') = length (warena w) /\
    header_size (warena w') h = header_size (warena w) h /\
    header_flags (warena w') h = header_flags (warena w) h /\
    warena w' = copy_in (warena w) (st_size (wstate w)) (payload_offs w) src n.
Proof.
  intros Hc (Hh & Hb & H0 & Hfit & Hlen & Hmax) Hs Hpos Hn Hroom Hp Hsrc.
  unfold ps_packet_write. rewrite Hc. cbn [Z.eqb negb]. cbv zeta. rewrite Hs, Hh.
  assert (pk_pos (pkt w) + n < 2 ^ 64) as Hsmall by (unfold PTRDIFF_MAX, HDR in *; lia).
  rewrite (to_size_t_small (pk_pos (pkt w) + n)) by lia.
  assert ((pk_pos (pkt w) + n >? header_size (warena w) h) = false) as ->
    by (rewrite Z.gtb_ltb; apply Z.ltb_ge; lia).
  cbn [andthen Z.eqb].
  destruct (header_off_payload (st_size (wstate w)) h (pk_pos (pkt w)) n
              H0 Hfit Hmax Hpos Hn ltac:(lia)) as [Hoffs Hring].
  assert (payload_offs w = to_size_t (h + HDR + pk_pos (pkt w)) mod st_size (wstate w))
    as Hpo by (unfold payload_offs; rewrite Hb; reflexivity).
  rewrite <- Hpo in Hoffs, Hring.
  remember (copy_in (warena w) (st_size (wstate w)) (payload_offs w) src n) as a2 eqn:Ea2.
  assert (forall x m, 0 <= x -> 0 <= m -> h <= x -> x + m <= h + HDR ->
            load a2 (Z.to_nat x) (Z.to_nat m) = load (warena w) (Z.to_nat x) (Z.to_nat m))
    as Hkeep.
  { intros x m Hx Hm Hx1 Hx2. subst a2.
    rewrite <- copy_in_take by (unfold PTRDIFF_MAX, HDR in *; lia).
    remember (take (Z.to_nat n) src) as src' eqn:Es'.
    assert (Z.of_nat (length src') = n) as Hl' by (subst src'; rewrite length_take; lia).
    clear Es'.
    pose proof (load_copy_in_other (warena w) (st_size (wstate w)) (payload_offs w)
                  Hlen Hmax Hoffs src' x m Hx Hm) as K.
    rewrite Hl' in K. apply K; [unfold HDR in *; lia |].
    eapply off_ring_sub; [| | exact Hring]; lia. }
  assert (header_size a2 h = header_size (warena w) h) as Hhs.
  { unfold header_size. f_equal.
    exact (Hkeep (h + 8) 8 ltac:(lia) ltac:(lia) ltac:(lia) ltac:(unfold HDR; lia)). }
  assert (header_flags a2 h = header_flags (warena w) h) as Hhf.
  { unfold header_flags. f_equal.
    exact (Hkeep h 4 ltac:(lia) ltac:(lia) ltac:(lia) ltac:(unfold HDR; lia)). }
  unfold grow_size.
  cbn [on_pkt on_arena pkt buf header pk_pos set_pk_pos set_header]. rewrite Hh.
  change (warena (on_pkt _ (on_arena _ w)))
    with (copy_in (warena w) (st_size (wstate w)) (payload_offs w) src n).
  rewrite <- Ea2.
  rewrite (to_size_t_small (pk_pos (pkt w) + n)) by lia. rewrite Hhs.
  assert ((pk_pos (pkt w) + n >? header_size (warena w) h) = false) as ->
    by (rewrite Z.gtb_ltb; apply Z.ltb_ge; lia).
  eexists. split; [reflexivity |].
  split; [reflexivity |]. split; [reflexivity |].
  split; [cbn [pkt on_pkt on_arena]; rewrite to_size_t_small by lia; reflexivity |].
  change (warena (on_pkt _ (on_arena _ w)))
    with (copy_in (warena w) (st_size (wstate w)) (payload_offs w) src n).
  rewrite <- Ea2.
  split; [subst a2; apply length_copy_in |]. split; [exact Hhs |]. split; [exact Hhf |].
  reflexivity.
Qed.

(** The check of a handle depends on the flags of the handle and of the
    buffer only. *)
Lemma ps_packet_check_flags w w' :
  pk_flags (pkt w') = pk_flags (pkt w) -> st_flags (wstate w') = st_flags (wstate w) ->
  ps_packet_check w' = ps_packet_check w.
Proof.
  intros Hp Hs. unfold ps_packet_check.
  rewrite Hp, (ps_buffer_check_flags (buf w) (buf w') Hs). reflexivity.
Qed.

(** The loop of [ps_packet_fakedma_commitall] on a packet whose size is
    set, when the entries in use lie within the size. *)
Lemma fakedma_commit_from_set fuel h n : forall rest w i pre,
  ps_packet_check w = 0 -> handle_ok w h ->
  tst (pk_flags (pkt w)) PS_PACKET_SIZE_SET = true ->
  header_size (warena w) h = n -> n + HDR <= st_size (wstate w) ->
  fake_dma (pkt w) = pre ++ rest -> length pre = i ->
  Forall (staged_within n) rest ->
  exists w',
    fakedma_commit_from fuel w i rest = Returns 0 w' /\
    wstate w' = wstate w /\ stats (buf w') = stats (buf w) /\
    length (warena w') = length (warena w) /\
    header_size (warena w') h = n /\
    header_flags (warena w') h = header_flags (warena w) h /\
    pk_flags (pkt w') = pk_flags (pkt w) /\ header (pkt w') = header (pkt w) /\
    buffer_pos (pkt w') = buffer_pos (pkt w) /\
    fake_dma (pkt w')
    = pre ++ map (fun d => if free d =? 0 then ps_packet_fakedma_free d else d) rest /\
    warena w' = staged_written (warena w) (st_size (wstate w)) h rest.
Proof.
  induction rest as [| del next IH]; intros w i pre Hc Hok Hss Hn Hfit Hfd Hi Hall.
  - exists w. cbn [fakedma_commit_from map staged_written].
    repeat split; try reflexivity; assumption.
  - cbn [fakedma_commit_from map staged_written]. apply Forall_cons in Hall.
    destruct Hall as [Hdel Hnext].
    subst i.
    destruct (free del =? 0) eqn:Efree.
    + apply Z.eqb_eq in Efree. destruct (Hdel Efree) as (Hp0 & Hs0 & Hin & Hmem).
      pose proof Hok as (Hh & Hb & H0 & Hhfit & Hlen & Hmax).
      rewrite (ps_packet_seek_set fuel w h (fd_pos del) Hc Hh Hss) by lia.
      cbn [andthen Z.eqb].
      remember (on_pkt (set_pk_pos (fd_pos del)) w) as w1 eqn:E1.
      assert (ps_packet_check w1 = 0) as Hc1 by (subst w1; exact Hc).
      assert (handle_ok w1 h) as Hok1 by (subst w1; exact Hok).
      assert (tst (pk_flags (pkt w1)) PS_PACKET_SIZE_SET = true) as Hss1
        by (subst w1; exact Hss).
      assert (pk_pos (pkt w1) = fd_pos del) as Hpos1 by (subst w1; reflexivity).
      assert (warena w1 = warena w) as Ha1 by (subst w1; reflexivity).
      assert (wstate w1 = wstate w) as Hs1 by (subst w1; reflexivity).
      assert (stats (buf w1) = stats (buf w)) as Ht1 by (subst w1; reflexivity).
      assert (pkt w1 = set_pk_pos (fd_pos del) (pkt w)) as Hp1 by (subst w1; reflexivity).
      assert (payload_offs w1 = (h + HDR + fd_pos del) mod st_size (wstate w)) as Hpo1.
      { unfold payload_offs. rewrite Hs1, Hpos1, Hp1. cbn [buffer_pos set_pk_pos].
        rewrite Hb. rewrite to_size_t_small; [reflexivity |].
        unfold PTRDIFF_MAX, HDR in *. lia. }
      clear E1.
      destruct (ps_packet_write_set fuel w1 h (mem del) (fd_size del) Hc1 Hok1 Hss1)
        as (w2 & -> & Hs2 & Ht2 & Hp2 & Hl2 & Hhs2 & Hhf2 & Ha2);
        try (rewrite ?Hpos1, ?Ha1, ?Hs1; lia).
      rewrite Ha1, Hs1, Hpo1 in Ha2.
      cbn [andthen Z.eqb].
      remember (on_pkt (fun p => set_fake_dma
                                   (alter ps_packet_fakedma_free (length pre) (fake_dma p)) p)
                       w2) as w3 eqn:E3.
      assert (wstate w3 = wstate w) as Hs3 by (subst w3; rewrite <- Hs1, <- Hs2; reflexivity).
      assert (warena w3 = warena w2) as Ha3 by (subst w3; reflexivity).
      assert (stats (buf w3) = stats (buf w)) as Ht3
        by (subst w3; rewrite <- Ht1, <- Ht2; reflexivity).
      assert (pk_flags (pkt w3) = pk_flags (pkt w)) as Hf3
        by (subst w3; cbn [pkt on_pkt pk_flags set_fake_dma]; rewrite Hp2, Hp1; reflexivity).
      assert (header (pkt w3) = header (pkt w)) as Hh3
        by (subst w3; cbn [pkt on_pkt header set_fake_dma]; rewrite Hp2, Hp1; reflexivity).
      assert (buffer_pos (pkt w3) = buffer_pos (pkt w)) as Hb3
        by (subst w3; cbn [pkt on_pkt buffer_pos set_fake_dma]; rewrite Hp2, Hp1;
            reflexivity).
      assert (fake_dma (pkt w3) = (pre ++ [ps_packet_fakedma_free del]) ++ next) as Hd3.
      { subst w3. cbn [pkt on_pkt fake_dma set_fake_dma]. rewrite Hp2, Hp1.
        unfold set_pk_pos. cbn [fake_dma]. rewrite Hfd.
        replace (length pre) with (length pre + 0)%nat by lia.
        rewrite alter_app_r. cbn [alter list_alter]. rewrite <- app_assoc. reflexivity. }
      clear E3.
      assert (ps_packet_check w3 = 0) as Hc3.
      { rewrite (ps_packet_check_flags w w3 Hf3); [exact Hc |]. rewrite Hs3. reflexivity. }
      assert (handle_ok w3 h) as Hok3.
      { unfold handle_ok. rewrite Hh3, Hb3, Hs3, Ha3, Hl2, Ha1. exact Hok. }
      assert (tst (pk_flags (pkt w3)) PS_PACKET_SIZE_SET = true) as Hss3
        by (rewrite Hf3; exact Hss).
      assert (header_size (warena w3) h = n) as Hn3 by (rewrite Ha3, Hhs2, Ha1; exact Hn).
      assert (n + HDR <= st_size (wstate w3)) as Hfit3 by (rewrite Hs3; exact Hfit).
      assert (length (pre ++ [ps_packet_fakedma_free del]) = S (length pre)) as Hi3
        by (rewrite length_app; cbn [length]; lia).
      destruct (IH w3 (S (length pre)) (pre ++ [ps_packet_fakedma_free del])
                  Hc3 Hok3 Hss3 Hn3 Hfit3 Hd3 Hi3 Hnext)
        as (w' & Hret & Ws & Wt & Wl & Whs & Whf & Wf & Wh & Wb & Wd & Wa).
      exists w'. split; [exact Hret |].
      rewrite Ws, Wt, Wl, Whf, Wf, Wh, Wb, Wd, Hs3, Ht3, Ha3, Hl2, Hhf2, Ha1, Hf3, Hh3, Hb3.
      repeat split; try reflexivity; try assumption.
      * rewrite <- app_assoc. reflexivity.
      * rewrite Wa, Hs3, Ha3, Ha2. reflexivity.
    + assert (fake_dma (pkt w) = (pre ++ [del]) ++ next) as Hfd'
        by (rewrite Hfd, <- app_assoc; reflexivity).
      assert (length (pre ++ [del]) = S (length pre)) as Hi'
        by (rewrite length_app; cbn [length]; lia).
      destruct (IH w (S (length pre)) (pre ++ [del]) Hc Hok Hss Hn Hfit Hfd' Hi' Hnext)
        as (w' & Hret & Ws & Wt & Wl & Whs & Whf & Wf & Wh & Wb & Wd & Wa).
      exists w'. split; [exact Hret |].
      repeat split; try assumption. rewrite Wd, <- app_assoc. reflexivity.
Qed.

(** What [ps_packet_fakedma_cut] does to one entry. *)
Lemma fakedma_cut_within n d :
  0 <= n < 2 ^ 64 ->
  (free d = 0 ->
   0 <= fd_pos d /\ 0 <= fd_size d /\ fd_pos d + fd_size d < 2 ^ 64 /\
   fd_size d <= Z.of_nat (length (mem d))) ->
  staged_within n
    (if fd_pos d >? n then ps_packet_fakedma_free d
     else if to_size_t (fd_pos d + fd_size d) >? n
          then set_fd_size (to_size_t (n - fd_pos d)) d
          else d).
Proof.
  intros Hn Hd. unfold staged_within.
  destruct (fd_pos d >? n) eqn:E1; [cbn; discriminate |].
  rewrite Z.gtb_ltb in E1. apply Z.ltb_ge in E1.
  destruct (to_size_t (fd_pos d + fd_size d) >? n) eqn:E2.
  - cbn [free fd_pos fd_size mem set_fd_size]. intros Hf.
    destruct (Hd Hf) as (H1 & H2 & H3 & H4).
    rewrite to_size_t_small in E2 by lia. apply Z.gtb_lt in E2.
    rewrite to_size_t_small by lia. lia.
  - intros Hf. destruct (Hd Hf) as (H1 & H2 & H3 & H4).
    rewrite to_size_t_small in E2 by lia.
    rewrite Z.gtb_ltb in E2. apply Z.ltb_ge in E2. lia.
Qed.

Lemma fakedma_cut_trimmed n d :
  0 <= n < 2 ^ 64 ->
  (free d = 0 ->
   0 <= fd_pos d /\ 0 <= fd_size d /\ fd_pos d + fd_size d < 2 ^ 64 /\
   fd_size d <= Z.of_nat (length (mem d))) ->
  trimmed n d
    (if fd_pos d >? n then ps_packet_fakedma_free d
     else if to_size_t (fd_pos d + fd_size d) >? n
          then set_fd_size (to_size_t (n - fd_pos d)) d
          else d).
Proof.
  intros Hn Hd. unfold trimmed.
  destruct (fd_pos d >? n) eqn:E1.
  - apply Z.gtb_lt in E1. cbn. repeat split; try reflexivity; intros; lia.
  - rewrite Z.gtb_ltb in E1. apply Z.ltb_ge in E1.
    destruct (to_size_t (fd_pos d + fd_size d) >? n) eqn:E2.
    + cbn [free fd_pos fd_size mem mem_size set_fd_size].
      split; [reflexivity |]. split; [reflexivity |]. split; [reflexivity |].
      split; [| split; [intros; lia | intros H; exact H]].
      intros Hf _. destruct (Hd Hf) as (H1 & H2 & H3 & H4).
      rewrite to_size_t_small in E2 by lia. apply Z.gtb_lt in E2.
      rewrite to_size_t_small by lia. split; [exact Hf | lia].
    + split; [reflexivity |]. split; [reflexivity |]. split; [reflexivity |].
      split; [| split; [intros; lia | intros H; exact H]].
      intros Hf _. destruct (Hd Hf) as (H1 & H2 & H3 & H4).
      rewrite to_size_t_small in E2 by lia.
      rewrite Z.gtb_ltb in E2. apply Z.ltb_ge in E2. split; [exact Hf | lia].
Qed.

Lemma staged_written_app bsize h ds : forall a es,
  staged_written a bsize h (ds ++ es)
  = staged_written (staged_written a bsize h ds) bsize h es.
Proof.
  induction ds as [| d ds IH]; intros a es; cbn [staged_written app]; [reflexivity |].
  apply IH.
Qed.

Lemma staged_written_free bsize h ds : forall a,
  Forall (fun d => free d <> 0) ds -> staged_written a bsize h ds = a.
Proof.
  induction ds as [| d ds IH]; intros a Hall; cbn [staged_written]; [reflexivity |].
  apply Forall_cons in Hall. destruct Hall as [Hd Hall].
  apply Z.eqb_neq in Hd. rewrite Hd. apply IH. exact Hall.
Qed.

Lemma length_staged_written bsize h ds : forall a,
  length (staged_written a bsize h ds) = length a.
Proof.
  induction ds as [| d ds IH]; intros a; cbn [staged_written]; [reflexivity |].
  rewrite IH. destruct (free d =? 0); [apply length_copy_in | reflexivity].
Qed.

(** X19: setting the size trims what is staged, so that committing it
    cannot fail.  On a packet whose size [n] is set and leaves room for a
    header in the arena, [ps_packet_fakedma_cut], which
    [ps_packet_setsize] calls with that size, leaves of each entry what
    lies within the size ([trimmed]): an entry in use that starts within
    the size stays in use with the bytes that lie within it, one that
    starts behind the size is released.  [ps_packet_fakedma_commitall],
    which [ps_packet_closewrite] calls, then returns 0: the entries in
    use are written at their positions, first to last
    ([staged_written]), and released, so that the bytes of an entry that
    no later entry in use follows are read back from its position; the
    header of the packet, the state of the buffer, the statistics and
    the length of the arena are as before. *)
Theorem fakedma_cut_then_commit fuel w h n :
  ps_packet_check w = 0 -> handle_ok w h ->
  tst (pk_flags (pkt w)) PS_PACKET_SIZE_SET = true ->
  header_size (warena w) h = n -> n + HDR <= st_size (wstate w) ->
  Forall (fun d => free d = 0 ->
                   0 <= fd_pos d /\ 0 <= fd_size d /\ fd_pos d + fd_size d < 2 ^ 64 /\
                   fd_size d <= Z.of_nat (length (mem d)))
         (fake_dma (pkt w)) ->
  let w1 := ps_packet_fakedma_cut w n in
  let bsize := st_size (wstate w) in
  Forall2 (trimmed n) (fake_dma (pkt w)) (fake_dma (pkt w1)) /\
  Forall (fun d => free d = 0 -> fd_pos d + fd_size d <= n) (fake_dma (pkt w1)) /\
  exists w',
    ps_packet_fakedma_commitall fuel w1 = Returns 0 w' /\
    Forall (fun d => free d <> 0) (fake_dma (pkt w')) /\
    warena w' = staged_written (warena w) bsize h (fake_dma (pkt w1)) /\
    (forall pre d post,
       fake_dma (pkt w1) = pre ++ d :: post -> free d = 0 ->
       Forall (fun e => free e <> 0) post ->
       copy_out (warena w') bsize ((h + HDR + fd_pos d) mod bsize) (fd_size d)
       = take (Z.to_nat (fd_size d)) (mem d)) /\
    wstate w' = wstate w /\ stats (buf w') = stats (buf w) /\
    length (warena w') = length (warena w) /\
    header_size (warena w') h = n /\
    header_flags (warena w') h = header_flags (warena w) h.
Proof.
  intros Hc Hok Hss Hn Hfit Hall w1 bsize.
  assert (0 <= n < 2 ^ 64) as Hrange.
  { destruct Hok as (_ & _ & _ & _ & _ & Hmax). unfold PTRDIFF_MAX, HDR in *.
    pose proof (header_size_range (warena w) h). lia. }
  assert (Forall (staged_within n) (fake_dma (pkt w1))) as Hcut.
  { subst w1. unfold ps_packet_fakedma_cut. cbn [pkt on_pkt fake_dma set_fake_dma].
    apply Forall_fmap. eapply Forall_impl; [exact Hall |].
    intros d Hd. cbn. apply fakedma_cut_within; assumption. }
  split.
  { subst w1. unfold ps_packet_fakedma_cut. cbn [pkt on_pkt fake_dma set_fake_dma].
    apply Forall2_fmap_r, Forall_Forall2_diag.
    eapply Forall_impl; [exact Hall |].
    intros d Hd. apply fakedma_cut_trimmed; assumption. }
  split.
  { eapply Forall_impl; [exact Hcut |]. intros d Hd Hf. apply (Hd Hf). }
  unfold ps_packet_fakedma_commitall.
  destruct (fakedma_commit_from_set fuel h n (fake_dma (pkt w1)) w1 0%nat [])
    as (w' & Hret & Ws & Wt & Wl & Whs & Whf & _ & _ & _ & Wd & Wa);
    try assumption; try reflexivity.
  change (warena w1) with (warena w) in Wa, Wl.
  change (st_size (wstate w1)) with bsize in Wa.
  exists w'. split; [exact Hret |]. split.
  { rewrite Wd, app_nil_l. apply Forall_fmap, Forall_forall. intros d _. cbn.
    destruct (free d =? 0) eqn:E; cbn; [discriminate |]. apply Z.eqb_neq. exact E. }
  split; [exact Wa |]. split; [| repeat split; assumption].
  intros pre d post Hsplit Hf Hpost.
  destruct Hok as (Hh & Hb & H0 & Hhfit & Hlen & Hmax).
  rewrite Wa, Hsplit, staged_written_app.
  cbn [staged_written]. apply Z.eqb_eq in Hf. rewrite Hf. apply Z.eqb_eq in Hf.
  rewrite staged_written_free by exact Hpost.
  assert (staged_within n d) as Hd.
  { rewrite Forall_forall in Hcut. apply Hcut. rewrite Hsplit.
    apply elem_of_app. right. apply elem_of_cons. left. reflexivity. }
  destruct (Hd Hf) as (P0 & S0 & Pin & Pmem).
  assert (0 <= (h + HDR + fd_pos d) mod bsize < bsize) as Hoffs
    by (apply Z.mod_pos_bound; unfold HDR in *; subst bsize; lia).
  assert (0 <= fd_size d <= bsize) as Hsz by (unfold HDR in *; subst bsize; lia).
  rewrite <- copy_in_take by (unfold PTRDIFF_MAX in *; subst bsize; lia).
  remember (take (Z.to_nat (fd_size d)) (mem d)) as src eqn:Es.
  assert (Z.of_nat (length src) = fd_size d) as Hl
    by (subst src; rewrite length_take; lia).
  rewrite <- Hl at 1 2. apply copy_out_copy_in.
  - rewrite length_staged_written. exact Hlen.
  - exact Hmax.
  - exact Hoffs.
  - lia.
Qed.

Lemma fakedma_cut_then_commit_witness :
  let w1 := ps_packet_fakedma_cut demo_staged 20 in
  map (fun d => (fd_pos d, fd_size d, free d)) (fake_dma (pkt w1))
  = [(10, 10, 0); (30, 4, 1); (0, 0, 1)] /\
  exists w',
    ps_packet_fakedma_commitall 1 w1 = Returns 0 w' /\
    Forall (fun d => free d <> 0) (fake_dma (pkt w')) /\
    copy_out (warena w') 64 58 10 = take 10 demo_bytes /\
    load (warena w') 58 6 ++ load (warena w') 0 4 = take 10 demo_bytes /\
    wstate w' = wstate demo_staged /\ header_size (warena w') 32 = 20.
Proof.
  split; [reflexivity |].
  assert (handle_ok demo_staged 32) as Hok.
  { unfold handle_ok. repeat split; try reflexivity; apply Z.leb_le; reflexivity. }
  destruct (fakedma_cut_then_commit 1 demo_staged 32 20 eq_refl Hok eq_refl eq_refl)
    as (_ & _ & w' & H1 & H2 & H3 & H4 & H5 & _ & _ & H8 & _).
  - apply Z.leb_le. reflexivity.
  - repeat constructor; cbn; try lia; discriminate.
  - exists w'. split; [exact H1 |]. split; [exact H2 |].
    split; [| split; [rewrite H3; vm_compute; reflexivity | split; assumption]].
    exact (H4 [] _ _ eq_refl eq_refl ltac:(repeat constructor; discriminate)).
Defined.

(** ** Packets in a row *)

Lemma chain_end_ge Bs : forall p, p <= chain_end p Bs.
Proof.
  induction Bs as [| B Bs IH]; intros p; cbn [chain_end]; [lia |].
  specialize (IH (p + HDR + Z.of_nat (length B))). unfold HDR in *. lia.
Qed.

Lemma chain_end_app Bs Cs : forall p,
  chain_end p (Bs ++ Cs) = chain_end (chain_end p Bs) Cs.
Proof.
  induction Bs as [| B Bs IH]; intros p; cbn [chain_end app]; [reflexivity |]. apply IH.
Qed.

Lemma chain_app a Bs Cs : forall p,
  chain a p (Bs ++ Cs) <-> chain a p Bs /\ chain a (chain_end p Bs) Cs.
Proof.
  induction Bs as [| B Bs IH]; intros p; cbn [chain chain_end app]; [tauto |].
  rewrite IH. tauto.
Qed.

(** A chain depends on the bytes it occupies only. *)
Lemma chain_frame a a' Bs : forall p,
  0 <= p ->
  (forall x m, (Z.to_nat p <= x)%nat -> (x + m <= Z.to_nat (chain_end p Bs))%nat ->
               load a' x m = load a x m) ->
  chain a p Bs -> chain a' p Bs.
Proof.
  induction Bs as [| B Bs IH]; intros p Hp Hsame; cbn [chain chain_end]; [tauto |].
  intros (Hs & Hf & Hl & Hrest).
  cbn [chain_end] in Hsame.
  pose proof (chain_end_ge Bs (p + HDR + Z.of_nat (length B))) as Hge.
  unfold HDR in *.
  split; [| split; [| split]].
  - unfold header_size in *. rewrite Hsame by lia. exact Hs.
  - unfold header_flags in *. rewrite Hsame by lia. exact Hf.
  - rewrite Hsame by lia. exact Hl.
  - apply IH; [lia | | exact Hrest].
    intros x m Hx Hm. apply Hsame; lia.
Qed.

(** [ps_packet_closeread] on the packet at [read_pos], when the header
    behind it does not carry [READ]. *)
Lemma ps_packet_closeread_head fuel w h :
  let a' := set_header_flags (warena w) h
              (Z.lor (header_flags (warena w) h) PS_PACKET_HEADER_READ) in
  let nxt := to_size_t (move_pos h (st_size (wstate w)) (header_size a' h)) in
  header (pkt w) = Some h -> buffer_pos (pkt w) = h -> read_pos (wstate w) = h ->
  read_close_mutex (wstate w) = false ->
  tst (header_flags a' nxt) PS_PACKET_HEADER_READ = false ->
  read_packets (wstate w) < SEM_VALUE_MAX ->
  exists w',
    ps_packet_closeread (S fuel) w = Returns 0 w' /\
    warena w' = a' /\
    wstate w' = set_read_pos nxt (set_read_packets (read_packets (wstate w) + 1) (wstate w)) /\
    Forall (fun d => free d <> 0) (fake_dma (pkt w')) /\ intr w' = intr w.
Proof.
  intros a' nxt Hh Hb Hrp Hmx Hstop Hsem.
  unfold ps_packet_closeread. rewrite Hmx, Hh. cbv zeta.
  destruct (closeread_marked w h) as (Ha & Hs & Hp). cbv zeta in Ha, Hs, Hp.
  remember (or_header_flags h PS_PACKET_HEADER_READ
              (count_read (on_state (set_read_close_mutex true) w) h)) as w3 eqn:E3.
  assert (intr w3 = intr w) as Hi3.
  { subst w3. unfold or_header_flags, count_read.
    destruct (tst _ PS_BUFFER_STATS); reflexivity. }
  clear E3. fold a' in Ha.
  assert (read_pos (wstate w3) = h) as Hrp3 by (rewrite Hs; exact Hrp).
  assert (st_size (wstate w3) = st_size (wstate w)) as Hsz by (rewrite Hs; reflexivity).
  assert (read_packets (wstate w3) = read_packets (wstate w)) as Hrd
    by (rewrite Hs; reflexivity).
  rewrite Hrp3, Hp, Hb, Z.eqb_refl.
  rewrite (closeread_walk_run 0 (S fuel) w3 h ltac:(lia));
    [| intros i Hi; lia
     | cbn [walk_pos]; rewrite Ha, Hsz; exact Hstop
     | rewrite Hrd; cbn; lia].
  cbn [walk_pos]. rewrite Ha, Hsz, Hrd. fold nxt. cbn [andthen Z.eqb].
  eexists. split; [reflexivity |].
  unfold ps_packet_fakedma_freeall.
  split; [exact Ha |]. split.
  - change (wstate (on_pkt ?f ?y)) with (wstate y).
    change (wstate (on_pkt ?f ?y)) with (wstate y).
    rewrite !wstate_on_state, Hs. change (Z.of_nat 1) with 1.
    clear - Hmx. destruct (wstate w). cbn in Hmx. subst. reflexivity.
  - split; [| exact Hi3].
    match goal with |- Forall _ (fake_dma (pkt (on_pkt _ (on_pkt _ ?y)))) =>
      exact (proj1 (ps_packet_fakedma_freeall_all_free y)) end.
Qed.

(** What [get] leaves behind when the packet at [read_next] holds [B] and
    no reader is at work. *)
Lemma get_parts fuel w B :
  let n := Z.of_nat (length B) in
  let r := read_next (wstate w) in
  ps_buffer_check (buf w) = 0 ->
  read_mutex (wstate w) = false -> read_close_mutex (wstate w) = false ->
  0 < written_packets (wstate w) -> read_pos (wstate w) = r ->
  0 <= r -> r + HDR + n + HDR <= st_size (wstate w) ->
  Z.of_nat (length (warena w)) = st_size (wstate w) -> st_size (wstate w) <= 2 ^ 31 ->
  header_size (warena w) r = n ->
  load (warena w) (Z.to_nat (r + HDR)) (length B) = B ->
  tst (header_flags (warena w) (r + HDR + n)) PS_PACKET_HEADER_READ = false ->
  read_packets (wstate w) < SEM_VALUE_MAX ->
  exists w',
    get (S fuel) w = Returns (0, B) w' /\
    wstate w'
    = set_read_pos (r + HDR + n)
        (set_read_packets (read_packets (wstate w) + 1)
           (set_read_next (r + HDR + n)
              (set_written_packets (written_packets (wstate w) - 1) (wstate w)))) /\
    warena w' = set_header_flags (warena w) r
                  (Z.lor (header_flags (warena w) r) PS_PACKET_HEADER_READ) /\
    Forall (fun d => free d <> 0) (fake_dma (pkt w')) /\ intr w' = intr w.
Proof.
  intros n r Hc Hrm Hrcm Hwp Hrp Hr Hfit Hlen Hmax Hsz Hld Hstop Hsem.
  assert (Z.of_nat (length B) = n) as En by reflexivity.
  assert (read_next (wstate w) = r) as Er by reflexivity.
  assert (0 <= n) as Hn by lia.
  clearbody n r. unfold HDR in *.
  unfold get.
  destruct (ps_packet_open_read_ok w Hc Hrm Hwp)
    as (w1 & -> & Hs1 & Ha1 & _ & _ & Hi1 & Hp1).
  rewrite Er, Hsz in Hs1. rewrite Er in Hp1.
  assert (to_size_t (move_pos r (st_size (wstate w)) n) = r + 16 + n) as Hmove.
  { rewrite move_pos_advance by (unfold HDR; lia).
    unfold advance, HDR. rewrite (Z.mod_small (r + 16 + n)) by lia.
    assert ((r + 16 + n + 16 >? st_size (wstate w)) = false) as ->
      by (rewrite Z.gtb_ltb; apply Z.ltb_ge; lia).
    apply to_size_t_small. lia. }
  rewrite Hmove in Hs1.
  assert (st_flags (wstate w1) = st_flags (wstate w)) as Hfl1 by (rewrite Hs1; reflexivity).
  assert (st_size (wstate w1) = st_size (wstate w)) as Hz1 by (rewrite Hs1; reflexivity).
  assert (ps_packet_check w1 = 0) as Hpc1.
  { unfold ps_packet_check. rewrite Hp1. cbn [pk_flags].
    change (tst PS_PACKET_READ PS_PACKET_READ || tst PS_PACKET_READ PS_PACKET_WRITE)
      with true. cbn [negb].
    rewrite (ps_buffer_check_flags (buf w) (buf w1) Hfl1). exact Hc. }
  cbn [bind Z.eqb negb].
  (* the size *)
  assert (ps_packet_getsize w1 = Returns (0, Some n) w1) as ->.
  { unfold ps_packet_getsize. rewrite Hpc1, Hp1. cbn [Z.eqb negb header].
    rewrite Ha1, Hsz. reflexivity. }
  cbn [bind].
  (* the bytes *)
  assert (ps_packet_read w1 n = Returns (0, B) (on_pkt (set_pk_pos n) w1)) as ->.
  { unfold ps_packet_read. rewrite Hpc1, Hp1. cbn [Z.eqb negb header pk_pos].
    rewrite Ha1, Hsz. rewrite Z.add_0_l, (to_size_t_small n) by lia.
    assert ((n >? n) = false) as -> by (rewrite Z.gtb_ltb; apply Z.ltb_ge; lia).
    assert (payload_offs w1 = r + 16) as Hoffs.
    { unfold payload_offs, HDR. rewrite Hp1. cbn [buffer_pos pk_pos].
      rewrite Hz1. rewrite Z.add_0_r, to_size_t_small by lia. apply Z.mod_small. lia. }
    unfold copy_out. rewrite Hoffs, Hz1. rewrite to_size_t_small by lia.
    assert ((r + 16 + n >? st_size (wstate w)) = false) as ->
      by (rewrite Z.gtb_ltb; apply Z.ltb_ge; lia).
    rewrite <- En at 1. rewrite Nat2Z.id. rewrite Hld.
    f_equal. apply world_eq; try reflexivity.
    cbn [pkt on_pkt]. rewrite Hp1. cbn [pk_pos]. rewrite Z.add_0_l.
    rewrite to_size_t_small by lia. reflexivity. }
  cbn [bind fst snd Z.eqb negb].
  (* the close *)
  unfold ps_packet_close.
  change (ps_packet_check (on_pkt (set_pk_pos n) w1)) with (ps_packet_check w1).
  rewrite Hpc1. cbn [Z.eqb negb]. cbv zeta.
  remember (on_pkt (fun p => set_pk_flags (Z.land (pk_flags p) (Z.lnot PS_PACKET_TRY)) p)
              (on_pkt (set_pk_pos n) w1)) as w3 eqn:E3.
  assert (pkt w3 = {| pk_flags := PS_PACKET_READ; header := Some r; buffer_pos := r;
                      pk_pos := n; reserved := reserved (pkt w);
                      fake_dma := fake_dma (pkt w) |}) as Hp3
    by (subst w3; cbn [pkt on_pkt]; rewrite Hp1; reflexivity).
  assert (wstate w3 = wstate w1) as Hs3 by (subst w3; reflexivity).
  assert (warena w3 = warena w) as Ha3 by (subst w3; exact Ha1).
  assert (intr w3 = intr w) as Hi3 by (subst w3; exact Hi1).
  clear E3.
  rewrite Hp3. cbn [pk_flags].
  change (tst PS_PACKET_READ PS_PACKET_READ) with true. cbv iota.
  assert (header_flags (warena w) r mod 2 ^ 32 = header_flags (warena w) r) as Hfr
    by (apply Z.mod_small, header_flags_range).
  assert (header_size (set_header_flags (warena w) r
                         (Z.lor (header_flags (warena w) r) PS_PACKET_HEADER_READ)) r = n)
    as Hsz' by (rewrite header_size_set_flags by lia; exact Hsz).
  destruct (ps_packet_closeread_head fuel w3 r)
    as (w' & -> & Wa & Ws & Wd & Wi).
  - rewrite Hp3. reflexivity.
  - rewrite Hp3. reflexivity.
  - rewrite Hs3, Hs1. exact Hrp.
  - rewrite Hs3, Hs1. exact Hrcm.
  - rewrite Ha3, Hs3, Hz1, Hsz', Hmove.
    rewrite header_flags_set_flags_other by lia. exact Hstop.
  - rewrite Hs3, Hs1. exact Hsem.
  - cbn [bind]. exists w'. split; [reflexivity |].
    rewrite Ha3, Hs3, Hz1, Hsz', Hmove in Ws. rewrite Ha3 in Wa.
    split; [| split; [exact Wa | split; [exact Wd | rewrite Wi; exact Hi3]]].
    rewrite Ws, Hs1. reflexivity.
Qed.

(** X20: packets come out in the order they went in.  [queued w Bs] says
    that the buffer holds the packets [Bs], oldest first, between
    [read_next] and [write_next], and that nobody is at work on it.  A
    buffer initialised on the heap holds no packet.  When the arena has
    room before its end and the bytes are free, putting a packet [B]
    returns 0 and appends [B] to the packets held.  When the buffer holds
    packets, getting one (open for reading, [ps_packet_getsize],
    [ps_packet_read], close) returns 0 and the bytes of the oldest, and
    leaves the others. *)
Theorem packets_are_read_in_order :
  (forall ps_shm al attr b p signals w,
     ps_shm && tst (attr_flags attr) PS_BUFFER_PSHARED = false ->
     tst (attr_flags attr) PS_BUFFER_READY = false ->
     tst (attr_flags attr) PS_BUFFER_CANCELLED = false ->
     HDR <= attr_size attr <= 2 ^ 31 ->
     ps_buffer_init ps_shm al attr = (0, Some b) ->
     ps_packet_init {| buf := b; pkt := p; intr := signals |} = Returns 0 w ->
     queued w []) /\
  (forall fuel w Bs B,
     queued w Bs -> (0 < fuel)%nat ->
     write_next (wstate w) + HDR + Z.of_nat (length B) + HDR <= st_size (wstate w) ->
     Z.of_nat (length B) + HDR <= free_bytes (wstate w) < 2 ^ 63 ->
     read_packets (wstate w) + Z.of_nat (length Bs) < SEM_VALUE_MAX ->
     exists w', put fuel w B = Returns 0 w' /\ queued w' (Bs ++ [B])) /\
  (forall fuel w B Bs,
     queued w (B :: Bs) -> (0 < fuel)%nat ->
     exists w', get fuel w = Returns (0, B) w' /\ queued w' Bs).
Proof.
  split; [| split].
  - (* a fresh buffer *)
    intros ps_shm al attr b p signals w Hsh Hrd Hcan Hsize Hinit Hpi.
    destruct (ps_buffer_init_heap ps_shm al attr b Hsh Hrd Hinit)
      as (Hrange & Ha & Hs & _ & _).
    destruct (tst_lor_ready (attr_flags attr)) as (L1 & L2 & _).
    assert (ps_buffer_check b = 0) as Hc.
    { unfold ps_buffer_check. rewrite Hs. cbn [st_flags set_st_flags].
      rewrite L1, L2, Hcan. reflexivity. }
    unfold ps_packet_init in Hpi. cbn [buf] in Hpi. rewrite Hc in Hpi.
    cbn [Z.eqb negb] in Hpi. injection Hpi as <-.
    unfold queued, wstate, warena. cbn [buf pkt on_pkt fake_dma set_fake_dma].
    rewrite Hs, Ha. unfold HDR in *.
    cbn [chain chain_end length Z.of_nat].
    repeat split; try reflexivity; try lia; try exact Hc; try constructor;
      try (cbn; rewrite ?length_replicate; unfold SEM_VALUE_MAX; lia).
    change (header_flags (replicate (Z.to_nat (attr_size attr)) Byte.x00) 0 = 0).
    unfold header_flags, load. change (Z.to_nat 0) with 0%nat.
    rewrite load_replicate by lia. reflexivity.
  - (* put *)
    intros fuel w Bs B
      (Hc & Hrm & Hrcm & Hwm & Hwcm & Hrp & Hwp & Hcnt & Hrp0 & Hsem & Hr & Hch & Hend &
       Hfit & Hlen & Hmax & Hclr & Hdma) Hfuel Hroom Hfree Hsem'.
    destruct fuel as [| fuel]; [lia |].
    pose proof (chain_end_ge Bs (read_next (wstate w))) as Hge. rewrite Hend in Hge.
    destruct (put_parts fuel w B) as
      (w' & Hput & Hs' & Hl' & Hsz' & Hf' & Hld' & Hq' & Hframe & _ & _ & _ & _ & _ & Hd').
    { unfold room_to_put. repeat split; try assumption; lia. }
    exists w'. split; [exact Hput |].
    unfold queued. rewrite Hs'.
    cbn [read_mutex read_close_mutex write_mutex write_close_mutex read_pos read_next
         write_pos write_next written_packets read_packets st_size
         set_written_packets set_write_pos set_write_next set_free_bytes].
    rewrite length_app, chain_end_app, Hend. cbn [length chain_end].
    repeat split; try assumption; try lia.
    + unfold ps_buffer_check. change (state (buf w')) with (wstate w'). rewrite Hs'. exact Hc.
    + apply chain_app. split.
      * apply (chain_frame (warena w)); [exact Hr | | exact Hch].
        intros x m Hx Hm. apply Hframe. rewrite Hend in Hm. lia.
      * rewrite Hend. cbn [chain]. repeat split; assumption.
  - (* get *)
    intros fuel w B Bs
      (Hc & Hrm & Hrcm & Hwm & Hwcm & Hrp & Hwp & Hcnt & Hrp0 & Hsem & Hr & Hch & Hend &
       Hfit & Hlen & Hmax & Hclr & Hdma) Hfuel.
    destruct fuel as [| fuel]; [lia |].
    cbn [chain chain_end length] in Hch, Hend, Hcnt, Hsem.
    destruct Hch as (Hsz & Hfl & Hld & Hrest).
    set (r := read_next (wstate w)) in *.
    set (n := Z.of_nat (length B)) in *.
    pose proof (chain_end_ge Bs (r + HDR + n)) as Hge. rewrite Hend in Hge.
    assert (tst (header_flags (warena w) (r + HDR + n)) PS_PACKET_HEADER_READ = false)
      as Hstop.
    { destruct Bs as [| B2 Bs].
      - cbn [chain_end] in Hend. rewrite Hend, Hclr. reflexivity.
      - cbn [chain] in Hrest. destruct Hrest as (_ & -> & _). reflexivity. }
    destruct (get_parts fuel w B Hc Hrm Hrcm) as (w' & Hget & Hs' & Ha' & Hd' & _);
      try assumption; try (fold r; fold n; unfold HDR in *; lia).
    exists w'. split; [exact Hget |].
    fold r n in Hs', Ha'. unfold HDR in *.
    unfold queued. rewrite Hs', Ha'.
    cbn [read_mutex read_close_mutex write_mutex write_close_mutex read_pos read_next
         write_pos write_next written_packets read_packets st_size
         set_read_pos set_read_packets set_read_next set_written_packets].
    rewrite length_set_header_flags.
    repeat split; try assumption; try lia.
    + unfold ps_buffer_check. change (state (buf w')) with (wstate w'). rewrite Hs'. exact Hc.
    + apply (chain_frame (warena w)); [lia | | exact Hrest].
      intros x m Hx Hm. unfold set_header_flags. apply load_store_other.
      rewrite length_le_split. lia.
    + rewrite header_flags_set_flags_other by lia. exact Hclr.
Qed.

Lemma packets_are_read_in_order_witness :
  let B1 := take 8 demo_bytes in
  let B2 := drop 12 demo_bytes in
  exists w1 w2 w3 w4,
    put 1 demo_world B1 = Returns 0 w1 /\ put 1 w1 B2 = Returns 0 w2 /\
    get 1 w2 = Returns (0, B1) w3 /\ get 1 w3 = Returns (0, B2) w4 /\
    queued w4 [].
Proof.
  intros B1 B2.
  destruct packets_are_read_in_order as (Hinit & Hput & Hget).
  assert (queued demo_world []) as Q0.
  { apply (Hinit false demo_alloc demo_attr demo_buffer closed_handle 0%nat);
      try reflexivity. vm_compute. split; discriminate. }
  destruct (Hput 1%nat demo_world [] B1 Q0) as (w1 & P1 & Q1);
    [lia | vm_compute; discriminate | vm_compute; split; [discriminate | reflexivity]
     | vm_compute; reflexivity |].
  pose proof P1 as E1. vm_compute in E1. injection E1 as E1. subst w1.
  match type of P1 with _ = Returns 0 ?x => set (w1 := x) in * end.
  destruct (Hput 1%nat w1 [B1] B2 Q1) as (w2 & P2 & Q2);
    [lia | vm_compute; discriminate | vm_compute; split; [discriminate | reflexivity]
     | vm_compute; reflexivity |].
  destruct (Hget 1%nat w2 B1 [B2] Q2) as (w3 & G3 & Q3); [lia |].
  destruct (Hget 1%nat w3 B2 [] Q3) as (w4 & G4 & Q4); [lia |].
  exists w1, w2, w3, w4. exact (conj P1 (conj P2 (conj G3 (conj G4 Q4)))).
Defined.

(** ** The text of the state *)

Lemma sized_end_ge ns : forall p, Forall (fun n => 0 <= n) ns -> p <= sized_end p ns.
Proof.
  induction ns as [| n ns IH]; intros p Hall; cbn [sized_end]; [lia |].
  apply Forall_cons in Hall. destruct Hall as [Hn Hall].
  specialize (IH (p + HDR + n) Hall). unfold HDR in *. lia.
Qed.

Lemma sized_nonneg a ns : forall p, sized a p ns -> Forall (fun n => 0 <= n) ns.
Proof.
  induction ns as [| n ns IH]; intros p H; [constructor |].
  cbn [sized] in H. destruct H as (Hn & _ & Hrest).
  constructor; [exact Hn | exact (IH _ Hrest)].
Qed.

Lemma sized_end_app ns1 ns2 : forall p,
  sized_end p (ns1 ++ ns2) = sized_end (sized_end p ns1) ns2.
Proof.
  induction ns1 as [| n ns1 IH]; intros p; cbn [sized_end app]; [reflexivity |]. apply IH.
Qed.

Lemma sized_app a ns1 ns2 : forall p,
  sized a p (ns1 ++ ns2) <-> sized a p ns1 /\ sized a (sized_end p ns1) ns2.
Proof.
  induction ns1 as [| n ns1 IH]; intros p; cbn [sized sized_end app]; [tauto |].
  rewrite IH. tauto.
Qed.

(** The packets of a chain have the sizes of their payloads. *)
Lemma chain_sized a Bs : forall p,
  chain a p Bs ->
  sized a p (map (fun B => Z.of_nat (length B)) Bs) /\
  sized_end p (map (fun B => Z.of_nat (length B)) Bs) = chain_end p Bs.
Proof.
  induction Bs as [| B Bs IH]; intros p H; cbn [chain sized sized_end chain_end map] in *.
  - split; reflexivity.
  - destruct H as (Hs & _ & _ & Hrest). destruct (IH _ Hrest) as [H1 H2].
    repeat split; try assumption. lia.
Qed.

Lemma sum_lengths Bs :
  foldr Z.add 0 (map (fun B : list byte => Z.of_nat (length B)) Bs)
  = Z.of_nat (length (concat Bs)).
Proof.
  induction Bs as [| B Bs IH]; cbn [foldr map concat]; [reflexivity |].
  rewrite IH, length_app. lia.
Qed.

Lemma sum_nonneg ns : Forall (fun n => 0 <= n) ns -> 0 <= foldr Z.add 0 ns.
Proof.
  induction 1 as [| n ns Hn _ IH]; cbn [foldr]; lia.
Qed.

Lemma sized_end_sum ns : forall p,
  sized_end p ns = p + foldr Z.add 0 ns + HDR * Z.of_nat (length ns).
Proof.
  induction ns as [| n ns IH]; intros p; cbn [sized_end foldr length].
  - unfold HDR. lia.
  - rewrite IH. unfold HDR. lia.
Qed.

(** The step from a header to the next when the next lies before the end
    of the arena. *)
Lemma move_pos_next p bsize n :
  0 <= p -> 0 <= n -> p + HDR + n + HDR <= bsize -> bsize <= 2 ^ 31 ->
  to_size_t (move_pos p bsize n) = p + HDR + n.
Proof.
  intros Hp Hn Hfit Hmax. unfold HDR in *.
  rewrite move_pos_advance by (unfold HDR; lia).
  unfold advance, HDR. rewrite (Z.mod_small (p + 16 + n)) by lia.
  assert ((p + 16 + n + 16 >? bsize) = false) as ->
    by (rewrite Z.gtb_ltb; apply Z.ltb_ge; lia).
  apply to_size_t_small. lia.
Qed.

(** The loop of [ps_buffer_state_text] along packets that lie one behind
    the other before the end of the arena. *)
Lemma text_walk_sized a bsize ns : forall p acc,
  0 <= p -> sized a p ns -> sized_end p ns + HDR <= bsize -> bsize <= 2 ^ 31 ->
  0 <= acc -> acc + foldr Z.add 0 ns <= INT_MAX ->
  text_walk (length ns) a bsize p acc = acc + foldr Z.add 0 ns.
Proof.
  induction ns as [| n ns IH]; intros p acc Hp Hsz Hend Hmax Hacc Hsum.
  - cbn. lia.
  - cbn [sized sized_end length foldr text_walk] in *.
    destruct Hsz as (Hn & Hs & Hrest).
    pose proof (sized_end_ge ns (p + HDR + n) (sized_nonneg _ _ _ Hrest)) as Hge.
    pose proof (sum_nonneg ns (sized_nonneg _ _ _ Hrest)) as Hpos.
    rewrite Hs, move_pos_next by (unfold HDR in *; lia).
    unfold INT_MAX in *. rewrite to_int_small by lia.
    rewrite IH; try assumption; unfold HDR in *; lia.
Qed.

(** Setting the flags of a header of the row, or of one behind it, leaves
    the sizes of the row alone. *)
Lemma sized_set_flags_le a r v ns : forall p,
  0 <= r -> r <= p -> sized a p ns -> sized (set_header_flags a r v) p ns.
Proof.
  induction ns as [| n ns IH]; intros p Hr Hp H; cbn [sized] in *; [exact I |].
  destruct H as (Hn & Hs & Hrest).
  split; [exact Hn |]. split.
  - rewrite header_size_set_flags by lia. exact Hs.
  - apply IH; [exact Hr | unfold HDR; lia | exact Hrest].
Qed.

Lemma sized_set_flags_end a v ns2 : forall ns1 p,
  0 <= p -> sized a p (ns1 ++ ns2) ->
  sized (set_header_flags a (sized_end p ns1) v) p (ns1 ++ ns2).
Proof.
  induction ns1 as [| n ns1 IH]; intros p Hp H; cbn [sized sized_end app] in *.
  - apply sized_set_flags_le; [exact Hp | lia | exact H].
  - destruct H as (Hn & Hs & Hrest).
    pose proof (sized_nonneg _ _ _ Hrest) as Hall.
    apply Forall_app in Hall. destruct Hall as [Hall1 _].
    pose proof (sized_end_ge ns1 (p + HDR + n) Hall1) as Hge.
    split; [exact Hn |]. split.
    + rewrite header_size_set_flags by (unfold HDR in *; lia). exact Hs.
    + apply IH; [unfold HDR; lia | exact Hrest].
Qed.

(** Draining the packets of a row leaves their sizes alone and moves
    [read_next] behind them. *)
Lemma drain_spec_sized ns2 : forall ns1 b p,
  0 <= p -> sized (buffer b) p (ns1 ++ ns2) ->
  read_next (state b) = sized_end p ns1 ->
  sized_end p (ns1 ++ ns2) + HDR <= st_size (state b) -> st_size (state b) <= 2 ^ 31 ->
  sized (buffer (fst (drain_spec (length ns2) b))) p (ns1 ++ ns2) /\
  read_next (state (fst (drain_spec (length ns2) b))) = sized_end p (ns1 ++ ns2).
Proof.
  induction ns2 as [| n ns2 IH]; intros ns1 b p Hp Hsz Hrn Hend Hmax.
  - cbn [length drain_spec fst]. rewrite app_nil_r in *. split; assumption.
  - cbn [length]. rewrite drain_spec_S. cbn [fst].
    set (b1 := fst (drain_step b)).
    assert (buffer b1 = set_header_flags (buffer b) (sized_end p ns1)
                          (Z.lor (header_flags (buffer b) (sized_end p ns1))
                                 PS_PACKET_HEADER_READ)) as Ha1
      by (subst b1; unfold drain_step; cbn [fst buffer]; rewrite Hrn; reflexivity).
    assert (sized (buffer b1) p (ns1 ++ n :: ns2)) as Hsz1
      by (rewrite Ha1; apply sized_set_flags_end; assumption).
    pose proof Hsz1 as Hsplit. apply sized_app in Hsplit.
    destruct Hsplit as [Hpre Hpost]. cbn [sized] in Hpost.
    destruct Hpost as (Hn & Hs & Hrest).
    pose proof (sized_end_ge ns1 p (sized_nonneg _ _ _ Hpre)) as Hge1.
    pose proof (sized_end_ge ns2 (sized_end p ns1 + HDR + n)
                  (sized_nonneg _ _ _ Hrest)) as Hge2.
    rewrite sized_end_app in Hend. cbn [sized_end] in Hend.
    assert (st_size (state b1) = st_size (state b)) as Hz1.
    { subst b1. unfold drain_step. cbn [fst state].
      destruct (read_pos (state b) =? read_next (state b)); reflexivity. }
    assert (read_next (state b1) = sized_end p (ns1 ++ [n])) as Hrn1.
    { rewrite sized_end_app. cbn [sized_end].
      subst b1. unfold drain_step. cbn [fst state].
      assert (forall x s, read_next (if read_pos (state b) =? read_next (state b)
                                     then set_read_pos x (set_read_packets
                                            (read_packets (state b) + 1) s)
                                     else s) = read_next s) as Hif
        by (intros; destruct (_ =? _); reflexivity).
      rewrite Hif. cbn [read_next set_read_next]. rewrite Hrn.
      rewrite <- Ha1, Hs. apply move_pos_next; unfold HDR in *; lia. }
    replace (ns1 ++ n :: ns2) with ((ns1 ++ [n]) ++ ns2) in * by (rewrite <- app_assoc; reflexivity).
    apply IH; try assumption.
    + rewrite !sized_end_app. cbn [sized_end]. rewrite Hz1. exact Hend.
    + rewrite Hz1. exact Hmax.
Qed.

(** [ps_buffer_drain] with both mutexes free, in terms of [drain_spec]. *)
Lemma ps_buffer_drain_by_spec fuel b :
  read_mutex (state b) = false -> read_close_mutex (state b) = false ->
  0 <= written_packets (state b) ->
  read_packets (state b) + written_packets (state b) <= SEM_VALUE_MAX ->
  (Z.to_nat (written_packets (state b)) < fuel)%nat ->
  ps_buffer_drain fuel b
  = Returns (snd (drain_spec (Z.to_nat (written_packets (state b))) (lock_read_side b)))
      (unlock_read_side
         (fst (drain_spec (Z.to_nat (written_packets (state b))) (lock_read_side b)))).
Proof.
  intros Hm Hc Hw Hr Hfuel.
  destruct (lock_read_side_parts b) as (Lw & Lr & _).
  pose proof (drain_loop_spec (Z.to_nat (written_packets (state b))) fuel
                (lock_read_side b) 0) as Hd.
  rewrite Lw, Lr, Z.add_0_l in Hd.
  rewrite (ps_buffer_drain_unlocked fuel b Hm Hc), Hd by lia. reflexivity.
Qed.

(** X21: the text of the state tells what the buffer holds.  For a buffer
    that holds the packets [Bs], [ps_buffer_state_text] prints their
    number as "unread packets" and the sum of their lengths as the bytes
    of these.  When no released packet awaits the writer, a drain returns
    the number of packets, and the text then shows no unread packet and
    the same number and bytes as "pending free packets"; [free_bytes] and
    [write_next] are printed as before. *)
Theorem ps_buffer_state_text_counts fuel w Bs :
  queued w Bs ->
  let total := Z.of_nat (length (concat Bs)) in
  let t := snd (ps_buffer_state_text (buf w)) in
  txt_unread_packets t = Z.of_nat (length Bs) /\ txt_unread_bytes t = total /\
  (read_packets (wstate w) = 0 -> read_first (wstate w) = read_next (wstate w) ->
   (length Bs < fuel)%nat ->
   exists b',
     ps_buffer_drain fuel (buf w) = Returns (Z.of_nat (length Bs)) b' /\
     let t' := snd (ps_buffer_state_text b') in
     txt_unread_packets t' = 0 /\ txt_unread_bytes t' = 0 /\
     txt_pending_packets t' = Z.of_nat (length Bs) /\ txt_pending_bytes t' = total /\
     txt_free_bytes t' = txt_free_bytes t /\ txt_write_next t' = txt_write_next t).
Proof.
  intros (Hc & Hrm & Hrcm & Hwm & Hwcm & Hrp & Hwp & Hcnt & Hrp0 & Hsem & Hr & Hch & Hend &
          Hfit & Hlen & Hmax & Hclr & Hdma) total t.
  unfold wstate, warena in *.
  set (ns := map (fun B : list byte => Z.of_nat (length B)) Bs).
  destruct (chain_sized _ _ _ Hch) as [Hsz Hse]. fold ns in Hsz, Hse.
  assert (length ns = length Bs) as Hlns by (subst ns; apply length_map).
  assert (foldr Z.add 0 ns = total) as Hsum by (subst ns total; apply sum_lengths).
  assert (total <= INT_MAX) as Htot.
  { pose proof (sized_end_sum ns (read_next (state (buf w)))) as H.
    rewrite Hse, Hend, Hsum in H. unfold INT_MAX, HDR in *. lia. }
  assert (text_walk (length Bs) (buffer (buf w)) (st_size (state (buf w)))
                    (read_next (state (buf w))) 0 = total) as Hwalk.
  { rewrite <- Hlns, <- Hsum, <- (Z.add_0_l (foldr Z.add 0 ns)).
    apply text_walk_sized; try assumption; try lia;
      try (rewrite Hse, Hend; exact Hfit); rewrite Hsum; lia. }
  split; [exact Hcnt |]. split.
  { subst t. unfold ps_buffer_state_text. cbn [snd txt_unread_bytes].
    rewrite Hcnt, Nat2Z.id. exact Hwalk. }
  intros Hrp00 Hrf Hfuel.
  set (b := buf w) in *.
  assert (Z.to_nat (written_packets (state b)) = length Bs) as Hn
    by (rewrite Hcnt; apply Nat2Z.id).
  pose proof (ps_buffer_drain_by_spec fuel b Hrm Hrcm ltac:(lia) ltac:(lia) ltac:(lia))
    as Hd.
  rewrite Hn in Hd.
  destruct (lock_read_side_parts b) as (Lw & Lr & Lf).
  destruct (drain_spec_counts (length Bs) (lock_read_side b))
    as (Hw' & Hr' & _ & _ & _ & Hq).
  destruct (Hq Hrp) as [Hcount _].
  pose proof (drain_spec_frame (length Bs) (lock_read_side b)) as Hfr.
  destruct (drain_spec_sized ns [] (lock_read_side b) (read_next (state b)) Hr Hsz eq_refl)
    as [Hsz' _];
    [ change (sized_end (read_next (state b)) ns + HDR <= st_size (state b));
      rewrite Hse, Hend; exact Hfit
    | exact Hmax |].
  rewrite Hlns in Hsz'. cbn [app] in Hsz'.
  rewrite Lw in Hw'. rewrite Lr in Hr'. rewrite Hcount in Hd, Hr'.
  remember (fst (drain_spec (length Bs) (lock_read_side b))) as b1 eqn:E1. clear E1.
  destruct (unlock_read_side_parts b1) as (Uw & Ur & _ & _ & Uf).
  pose proof (drain_frame_trans _ _ _ Lf (drain_frame_trans _ _ _ Hfr Uf)) as Hframe.
  destruct Hframe as (_ & Fwn & Frf & Ffb & Fsz & _).
  exists (unlock_read_side b1). split; [exact Hd |].
  unfold ps_buffer_state_text.
  cbn [snd txt_unread_packets txt_unread_bytes txt_pending_packets txt_pending_bytes
       txt_free_bytes txt_write_next].
  rewrite Uw, Ur, Hw', Hr', Hcnt, Hrp00, Fsz, Frf, Hrf, Ffb, Fwn.
  rewrite Z.sub_diag, Z.add_0_l, Nat2Z.id.
  change (buffer (unlock_read_side b1)) with (buffer b1).
  repeat split.
  rewrite <- Hlns, <- Hsum, <- (Z.add_0_l (foldr Z.add 0 ns)).
  apply text_walk_sized; try assumption; try lia;
    try (rewrite Hse, Hend; exact Hfit); rewrite Hsum; lia.
Qed.

Lemma ps_buffer_state_text_counts_witness :
  let t := snd (ps_buffer_state_text demo_unread) in
  txt_unread_packets t = 2 /\ txt_unread_bytes t = 16 /\
  exists b',
    ps_buffer_drain 3 demo_unread = Returns 2 b' /\
    txt_pending_packets (snd (ps_buffer_state_text b')) = 2 /\
    txt_pending_bytes (snd (ps_buffer_state_text b')) = 16.
Proof.
  intros t.
  assert (queued {| buf := demo_unread; pkt := closed_handle; intr := 0 |}
                 [replicate 8 Byte.x00; replicate 8 Byte.x00]) as Q.
  { unfold queued. cbn [chain chain_end].
    repeat split; try reflexivity; try (vm_compute; discriminate); constructor. }
  destruct (ps_buffer_state_text_counts 3 _ _ Q) as (H1 & H2 & H3).
  destruct (H3 eq_refl eq_refl ltac:(cbn; lia)) as (b' & Hd & _ & _ & H4 & H5 & _).
  split; [exact H1 |]. split; [exact H2 |].
  exists b'. split; [exact Hd |]. split; [exact H4 | exact H5].
Defined.

(** ** Packets closed without a size *)

(** The first write to a packet just opened for writing, when the bytes
    are free and lie before the end of the arena. *)
Lemma ps_packet_write_first fuel w h src n :
  ps_packet_check w = 0 -> pk_flags (pkt w) = PS_PACKET_WRITE ->
  header (pkt w) = Some h -> buffer_pos (pkt w) = h ->
  pk_pos (pkt w) = 0 -> reserved (pkt w) = 0 ->
  header_size (warena w) h = 0 ->
  0 <= h -> h + HDR + n + HDR <= st_size (wstate w) ->
  Z.of_nat (length (warena w)) = st_size (wstate w) -> st_size (wstate w) <= 2 ^ 31 ->
  Z.of_nat (length src) = n -> n <= free_bytes (wstate w) < 2 ^ 63 ->
  exists w',
    ps_packet_write (S fuel) w src n = Returns 0 w' /\
    wstate w' = set_free_bytes (free_bytes (wstate w) - n) (wstate w) /\
    stats (buf w') = stats (buf w) /\ shmid (buf w') = shmid (buf w) /\
    intr w' = intr w /\
    pkt w' = set_pk_pos n (set_reserved n (pkt w)) /\
    length (warena w') = length (warena w) /\
    header_size (warena w') h = n /\
    load (warena w') (Z.to_nat (h + HDR)) (length src) = src /\
    (forall x m, (x + m <= Z.to_nat h + 8 \/ Z.to_nat (h + HDR + n) <= x)%nat ->
                 load (warena w') x m = load (warena w) x m).
Proof.
  intros Hc Hfl Hh Hb Hpos Hres Hsz H0 Hfit Hlen Hmax Hsrc Hfree.
  assert (0 <= n) as Hn by lia. unfold HDR in *.
  unfold ps_packet_write. rewrite Hc, Hfl, Hpos. cbn [Z.eqb negb].
  change (tst PS_PACKET_WRITE PS_PACKET_SIZE_SET) with false. cbv iota.
  change (to_size_t (HDR * 2)) with 32.
  rewrite Z.add_0_l, (to_size_t_small (n + 32)), (to_size_t_small n) by lia.
  assert ((n + 32 >? st_size (wstate w)) = false) as ->
    by (rewrite Z.gtb_ltb; apply Z.ltb_ge; lia).
  rewrite ps_packet_reserve_free by (rewrite ?Hres; lia).
  rewrite Hres, Z.sub_0_r, Z.add_0_l, (Z.max_r 0 n) by lia.
  cbn [andthen Z.eqb]. cbv zeta.
  remember (on_pkt (set_reserved n) (on_state (set_free_bytes (free_bytes (wstate w) - n)) w))
    as w1 eqn:E1.
  assert (payload_offs w1 = h + 16) as Hoffs.
  { subst w1. unfold payload_offs, HDR. cbn [pkt on_pkt on_state buffer_pos pk_pos set_reserved].
    rewrite Hb, Hpos. change (st_size (wstate (on_pkt _ (on_state _ w)))) with (st_size (wstate w)).
    rewrite Z.add_0_r, to_size_t_small by lia. apply Z.mod_small. lia. }
  assert (copy_in (warena w1) (st_size (wstate w1)) (payload_offs w1) src n
          = store (warena w) (Z.to_nat (h + 16)) src) as Hcopy.
  { rewrite Hoffs. subst w1.
    change (st_size (wstate (on_pkt _ (on_state _ w)))) with (st_size (wstate w)).
    change (warena (on_pkt _ (on_state _ w))) with (warena w).
    unfold copy_in. rewrite to_size_t_small by lia.
    assert ((h + 16 + n >? st_size (wstate w)) = false) as ->
      by (rewrite Z.gtb_ltb; apply Z.ltb_ge; lia).
    rewrite take_ge by lia. reflexivity. }
  set (a2 := store (warena w) (Z.to_nat (h + 16)) src).
  assert (header_size a2 h = 0) as Hs2
    by (subst a2; rewrite header_size_store_other by lia; exact Hsz).
  unfold grow_size.
  cbn [pkt on_pkt on_arena header set_pk_pos pk_pos].
  assert (header (pkt w1) = Some h) as -> by (subst w1; exact Hh).
  assert (pk_pos (pkt w1) = 0) as -> by (subst w1; exact Hpos).
  change (warena (on_pkt _ (on_arena _ w1)))
    with (copy_in (warena w1) (st_size (wstate w1)) (payload_offs w1) src n).
  rewrite Hcopy. fold a2. rewrite Hs2, Z.add_0_l, (to_size_t_small n) by lia.
  assert (forall a3, length a3 = length (warena w) ->
            header_size a3 h = n ->
            (forall x m, (x + m <= Z.to_nat h + 8 \/ Z.to_nat h + 16 <= x)%nat ->
                         load a3 x m = load a2 x m) ->
            length a3 = length (warena w) /\ header_size a3 h = n /\
            load a3 (Z.to_nat (h + 16)) (length src) = src /\
            (forall x m, (x + m <= Z.to_nat h + 8 \/ Z.to_nat (h + 16 + n) <= x)%nat ->
                         load a3 x m = load (warena w) x m)) as Hfacts.
  { intros a3 Hl3 Hz3 Hsame. split; [exact Hl3 |]. split; [exact Hz3 |]. split.
    - rewrite Hsame by lia. subst a2. apply load_store_same. lia.
    - intros x m Hx. rewrite Hsame by lia. subst a2. apply load_store_other. lia. }
  destruct (n >? 0) eqn:E.
  - apply Z.gtb_lt in E. eexists. split; [reflexivity |].
    subst w1. split; [reflexivity |]. split; [reflexivity |]. split; [reflexivity |].
    split; [reflexivity |]. split.
    { unfold on_pkt, on_arena, on_state. cbn [pkt]. unfold set_pk_pos, set_reserved.
      cbn [pk_flags header buffer_pos pk_pos reserved fake_dma].
      rewrite Hpos, Z.add_0_l, to_size_t_small by lia. reflexivity. }
    change (warena (on_arena ?f ?x)) with (f (warena x)). cbv beta.
    change (warena (on_pkt ?f ?x)) with (warena x).
    change (warena (on_arena ?f ?x)) with (f (warena x)). cbv beta.
    rewrite Hcopy. fold a2.
    apply Hfacts.
    + rewrite length_set_header_size. subst a2. apply length_store.
    + rewrite header_size_set_size by (subst a2; rewrite ?length_store; lia).
      apply Z.mod_small. lia.
    + intros x m Hx. unfold set_header_size. apply load_store_other.
      rewrite length_le_split. lia.
  - rewrite Z.gtb_ltb in E. apply Z.ltb_ge in E. assert (n = 0) as Hn0 by lia.
    eexists. split; [reflexivity |].
    subst w1. split; [reflexivity |]. split; [reflexivity |]. split; [reflexivity |].
    split; [reflexivity |]. split.
    { unfold on_pkt, on_arena, on_state. cbn [pkt]. unfold set_pk_pos, set_reserved.
      cbn [pk_flags header buffer_pos pk_pos reserved fake_dma].
      rewrite Hpos, Z.add_0_l, to_size_t_small by lia. reflexivity. }
    change (warena (on_pkt ?f ?x)) with (warena x).
    change (warena (on_arena ?f ?x)) with (f (warena x)). cbv beta.
    rewrite Hcopy. fold a2.
    apply Hfacts.
    + subst a2. apply length_store.
    + rewrite Hs2. lia.
    + intros x m Hx. reflexivity.
Qed.

(** Closing a packet whose size is not set is setting its size to the
    bytes written and closing it then. *)
Lemma ps_packet_close_sets_size fuel w h w4 :
  ps_packet_check w = 0 -> pk_flags (pkt w) = PS_PACKET_WRITE ->
  header (pkt w) = Some h ->
  ps_packet_setsize fuel w (header_size (warena w) h) = Returns 0 w4 ->
  ps_packet_check w4 = 0 ->
  pk_flags (pkt w4) = Z.lor PS_PACKET_WRITE PS_PACKET_SIZE_SET ->
  header (pkt w4) = Some h ->
  ps_packet_close fuel w = ps_packet_close fuel w4.
Proof.
  intros Hc Hfl Hh Hset Hc4 Hfl4 Hh4.
  assert (forall x f, pk_flags (pkt x) = f -> Z.land f (Z.lnot PS_PACKET_TRY) = f ->
            on_pkt (fun p => set_pk_flags (Z.land (pk_flags p) (Z.lnot PS_PACKET_TRY)) p) x
            = x) as Hsame.
  { intros x f Hf Hland. destruct x as [b p i]. unfold on_pkt. cbn [pkt buf intr] in *.
    rewrite Hf, Hland. destruct p. cbn in Hf. subst. reflexivity. }
  unfold ps_packet_close. rewrite Hc, Hc4. cbn [Z.eqb negb]. cbv zeta.
  rewrite (Hsame w _ Hfl eq_refl), (Hsame w4 _ Hfl4 eq_refl).
  rewrite Hfl, Hfl4.
  change (tst PS_PACKET_WRITE PS_PACKET_READ) with false.
  change (tst (Z.lor PS_PACKET_WRITE PS_PACKET_SIZE_SET) PS_PACKET_READ) with false.
  cbv iota.
  unfold ps_packet_closewrite, closewrite_prelude. rewrite Hfl, Hfl4, Hh, Hh4.
  change (tst PS_PACKET_WRITE PS_PACKET_SIZE_SET) with false.
  change (tst (Z.lor PS_PACKET_WRITE PS_PACKET_SIZE_SET) PS_PACKET_SIZE_SET) with true.
  cbn [negb]. rewrite Hset. reflexivity.
Qed.

(** X22: a packet that is closed without a size gets the size written.
    When there is room ([room_to_put]), opening a packet for writing,
    writing [B] to it and closing it return 0, for any fuel but none, and
    leave what setting the size to the length of [B] before the write
    leaves: [write_pos] and [write_next] are one header and the packet
    further, [free_bytes] is that much less, [written_packets] has one
    more token, the header at the old [write_next] holds the length of
    [B] and the [WRITTEN] flag, the payload behind it is [B], the header
    behind the payload is clear, no other byte of the arena has changed,
    the statistics count the packet, and the handle is closed. *)
Theorem put_unsized_commits fuel w B :
  let n := Z.of_nat (length B) in
  let p := write_next (wstate w) in
  let q := p + HDR + n in
  room_to_put w n -> (0 < fuel)%nat ->
  exists w',
    put_unsized fuel w B = Returns 0 w' /\
    wstate w' = set_written_packets (written_packets (wstate w) + 1)
                  (set_write_pos q (set_write_next q
                     (set_free_bytes (free_bytes (wstate w) - (n + HDR)) (wstate w)))) /\
    length (warena w') = length (warena w) /\
    header_size (warena w') p = n /\
    header_flags (warena w') p = PS_PACKET_HEADER_WRITTEN /\
    load (warena w') (Z.to_nat (p + HDR)) (length B) = B /\
    header_flags (warena w') q = 0 /\
    (forall x m, (x + m <= Z.to_nat p \/ Z.to_nat (q + HDR) <= x)%nat ->
                 load (warena w') x m = load (warena w) x m) /\
    stats (buf w') = (if tst (st_flags (wstate w)) PS_BUFFER_STATS
                      then option_map (stats_written n) (stats (buf w))
                      else stats (buf w)) /\
    pk_flags (pkt w') = 0 /\ header (pkt w') = None.
Proof.
  intros n p q Hroom Hfuel. destruct fuel as [| fuel]; [lia |].
  pose proof Hroom as
    (Hc & Hm & Hcm & Hwp & Hp & Hfit & Hlen & Hmax & Hfree & Hsem & Hdma).
  pose proof (put_close_parts fuel w) as K. cbv zeta in K.
  assert (Z.of_nat (length B) = n) as En by reflexivity.
  assert (write_next (wstate w) = p) as Ep by reflexivity.
  assert (q = p + 16 + n) as Eq by reflexivity.
  clearbody q p n. rewrite Ep in *. subst q.
  assert (0 <= n) as Hn by lia.
  unfold HDR in *.
  (* open *)
  unfold put_unsized. rewrite En.
  destruct (ps_packet_open_write_ok w Hc Hm)
    as (w1 & -> & Hs1 & Ha1 & Ht1 & Hi1 & Hn1 & Hp1).
  rewrite Ep in Ha1, Hp1. cbn [andthen Z.eqb].
  assert (st_flags (wstate w1) = st_flags (wstate w)) as Hfl1 by (rewrite Hs1; reflexivity).
  assert (ps_packet_check w1 = 0) as Hpc1.
  { unfold ps_packet_check. rewrite Hp1. cbn [pk_flags].
    rewrite (ps_buffer_check_flags (buf w) (buf w1) Hfl1). exact Hc. }
  assert (length (warena w1) = length (warena w)) as Hl1
    by (rewrite Ha1, length_set_header_size, length_set_header_flags; reflexivity).
  assert (header_size (warena w1) p = 0 /\ header_flags (warena w1) p = 0) as [Hz1 Hf1].
  { rewrite Ha1. split.
    - rewrite header_size_set_size by (rewrite ?length_set_header_flags; lia). reflexivity.
    - rewrite header_flags_set_size by lia.
      rewrite header_flags_set_flags by lia. reflexivity. }
  (* write *)
  destruct (ps_packet_write_first fuel w1 p B n Hpc1)
    as (w2 & -> & Hs2 & Ht2 & Hi2 & Hn2 & Hp2 & Hl2 & Hz2 & Hld2 & Hfr2);
    try (rewrite ?Hp1, ?Hs1, ?Hl1;
         cbn [pk_flags header buffer_pos pk_pos reserved st_size free_bytes set_write_mutex];
         unfold HDR; (reflexivity || assumption || lia)).
  unfold HDR in *. cbn [andthen Z.eqb].
  rewrite Hs1 in Hs2. cbn [free_bytes set_write_mutex] in Hs2.
  rewrite Hp1 in Hp2.
  assert (st_flags (wstate w2) = st_flags (wstate w)) as Hfl2 by (rewrite Hs2; reflexivity).
  assert (ps_packet_check w2 = 0) as Hpc2.
  { unfold ps_packet_check. rewrite Hp2. cbn [pk_flags set_pk_pos set_reserved].
    rewrite (ps_buffer_check_flags (buf w) (buf w2) Hfl2). exact Hc. }
  assert (pk_flags (pkt w2) = PS_PACKET_WRITE) as Hf2 by (rewrite Hp2; reflexivity).
  assert (header (pkt w2) = Some p) as Hh2 by (rewrite Hp2; reflexivity).
  (* the size set by the close *)
  destruct (ps_packet_setsize_room fuel w2 p n Hpc2 Hf2 Hh2)
    as (w4 & Hset & Hs4 & Ha4 & Ht4 & Hi4 & Hn4 & Hf4 & Hh4 & Hb4 & _ & Hd4);
    try (rewrite ?Hp2, ?Hs2;
         cbn [reserved set_pk_pos set_reserved write_next st_size free_bytes set_free_bytes
              set_write_mutex];
         rewrite ?Ep; unfold HDR; lia).
  rewrite Hs2, Hp2 in Hs4.
  cbn [reserved set_pk_pos set_reserved write_next free_bytes set_free_bytes set_write_mutex]
    in Hs4.
  rewrite Hs2 in Ha4. cbn [write_next set_free_bytes set_write_mutex] in Ha4.
  rewrite Ep in Hs4, Ha4. unfold HDR in Hs4, Ha4.
  rewrite Hp2 in Hb4, Hd4. cbn [buffer_pos fake_dma set_pk_pos set_reserved] in Hb4, Hd4.
  specialize (Hd4 Hdma).
  assert (st_flags (wstate w4) = st_flags (wstate w)) as Hfl4 by (rewrite Hs4; reflexivity).
  assert (ps_packet_check w4 = 0) as Hpc4.
  { unfold ps_packet_check. rewrite Hf4.
    change (tst (Z.lor PS_PACKET_WRITE PS_PACKET_SIZE_SET) PS_PACKET_READ
            || tst (Z.lor PS_PACKET_WRITE PS_PACKET_SIZE_SET) PS_PACKET_WRITE) with true.
    cbn [negb]. rewrite (ps_buffer_check_flags (buf w) (buf w4) Hfl4). exact Hc. }
  rewrite <- Hz2 in Hset at 1.
  rewrite (ps_packet_close_sets_size (S fuel) w2 p w4 Hpc2 Hf2 Hh2 Hset Hpc4 Hf4 Hh4).
  (* the close *)
  specialize (K w4 B). rewrite En in K. unfold HDR in K.
  assert (wstate w4 = set_write_next (p + 16 + n)
                        (set_free_bytes (free_bytes (wstate w) - (n + 16)) (wstate w)))
    as F1.
  { rewrite Hs4. unfold wstate in *. destruct (state (buf w)). cbn in Hm.
    state_norm. rewrite Hm. f_equal. lia. }
  assert (length (warena w4) = length (warena w)) as F2
    by (rewrite Ha4, length_memset0, length_set_header_size, Hl2; exact Hl1).
  assert (header_size (warena w4) p = n) as F3.
  { rewrite Ha4. unfold memset0. rewrite header_size_store_other by lia.
    rewrite header_size_set_size by (rewrite ?Hl2, ?Hl1; lia). apply Z.mod_small. lia. }
  assert (header_flags (warena w4) p = 0) as F4.
  { rewrite Ha4. unfold memset0. rewrite header_flags_store_other by lia.
    rewrite header_flags_set_size by lia.
    unfold header_flags. rewrite Hfr2 by lia. exact Hf1. }
  assert (load (warena w4) (Z.to_nat (p + 16)) (length B) = B) as F5.
  { rewrite Ha4. unfold memset0, set_header_size.
    rewrite load_store_other by (rewrite length_replicate; lia).
    rewrite load_store_other by (rewrite length_le_split; lia). exact Hld2. }
  assert (header_flags (warena w4) (p + 16 + n) = 0) as F6.
  { rewrite Ha4. apply header_memset0; [lia |].
    rewrite length_set_header_size, Hl2, Hl1. lia. }
  assert (forall x m, (x + m <= Z.to_nat p \/ Z.to_nat (p + 16 + n + 16) <= x)%nat ->
            load (warena w4) x m = load (warena w) x m) as F7.
  { intros x m Hx. rewrite Ha4. unfold memset0, set_header_size.
    rewrite load_store_other by (rewrite length_replicate; lia).
    rewrite load_store_other by (rewrite length_le_split; lia).
    rewrite Hfr2 by lia. rewrite Ha1. unfold set_header_size, set_header_flags.
    rewrite !load_store_other by (rewrite length_le_split; lia). reflexivity. }
  assert (stats (buf w4) = stats (buf w)) as F8 by (rewrite Ht4, Ht2; exact Ht1).
  assert (shmid (buf w4) = shmid (buf w)) as F9 by (rewrite Hi4, Hi2; exact Hi1).
  assert (intr w4 = intr w) as F10 by (rewrite Hn4, Hn2; exact Hn1).
  destruct (K Hroom Hf4 Hh4 Hb4 Hd4 F1 F2 F3 F4 F5 F6 F7 F8 F9 F10)
    as (w' & -> & K1 & K2 & K3 & K4 & K5 & K6 & K7 & K8 & _ & _ & K9 & K10 & _).
  exists w'. split; [reflexivity |].
  exact (conj K1 (conj K2 (conj K3 (conj K4 (conj K5 (conj K6 (conj K7 (conj K8
           (conj K9 K10))))))))).
Qed.

Lemma put_unsized_commits_witness :
  exists w',
    put_unsized 1 demo_world demo_bytes = Returns 0 w' /\
    write_next (wstate w') = 36 /\ free_bytes (wstate w') = 12 /\
    written_packets (wstate w') = 1 /\
    header_size (warena w') 0 = 20 /\ load (warena w') 16 20 = demo_bytes /\
    put 1 demo_world demo_bytes = Returns 0 w'.
Proof.
  destruct (put_unsized_commits 1 demo_world demo_bytes demo_room ltac:(lia))
    as (w' & H & Hs & _ & Hz & _ & Hl & _).
  exists w'. split; [exact H |]. rewrite Hs.
  split; [reflexivity |]. split; [reflexivity |]. split; [reflexivity |].
  split; [exact Hz |]. split; [exact Hl |].
  vm_compute in H. injection H as <-. vm_compute. reflexivity.
Defined.

(** X23: a writer short of room waits for a reader.  A request needs more
    bytes than [free_bytes] holds and no released packet is there to take
    back.  Without [PS_PACKET_TRY], [ps_packet_reserve] waits on
    [read_packets], the bytes asked for being deducted while it waits.
    When [MAX_SEM_WAIT_TRIES] waits in a row are interrupted by signals it
    gives up with [EINVAL] and gives the bytes back: the buffer and the
    handle are what they were, only the signals are consumed. *)
Theorem ps_packet_reserve_waits fuel w len :
  let d := to_size_t (len - reserved (pkt w)) in
  tst (pk_flags (pkt w)) PS_PACKET_TRY = false ->
  reserved (pkt w) < len ->
  - 2 ^ 63 <= free_bytes (wstate w) < 2 ^ 63 ->
  to_long (free_bytes (wstate w) - d) < 0 ->
  read_packets (wstate w) <= 0 -> (0 < fuel)%nat ->
  ps_packet_reserve fuel w len
  = if (MAX_SEM_WAIT_TRIES <=? intr w)%nat
    then Returns EINVAL (set_intr (intr w - MAX_SEM_WAIT_TRIES) w)
    else Blocks (set_intr 0
                   (on_state (fun s => set_free_bytes (to_long (free_bytes s - d)) s) w)).
Proof.
  intros d Ht Hlen Hfb Hd Hrp Hfuel. destruct fuel as [| fuel]; [lia |].
  unfold ps_packet_reserve.
  assert ((len <=? reserved (pkt w)) = false) as -> by (apply Z.leb_gt; exact Hlen).
  fold d.
  set (w0 := on_state (fun s => set_free_bytes (to_long (free_bytes s - d)) s) w).
  rewrite reserve_loop_S.
  assert (free_bytes (wstate w0) = to_long (free_bytes (wstate w) - d)) as -> by reflexivity.
  assert ((to_long (free_bytes (wstate w) - d) <? 0) = true) as ->
    by (apply Z.ltb_lt; exact Hd).
  unfold reserve_acquire.
  assert (tst (pk_flags (pkt w0)) PS_PACKET_TRY = false) as -> by exact Ht.
  assert (read_packets (wstate w0) = read_packets (wstate w)) as -> by reflexivity.
  assert (intr w0 = intr w) as -> by reflexivity.
  rewrite sem_wait_retry_empty by exact Hrp.
  destruct (MAX_SEM_WAIT_TRIES <=? intr w)%nat; [| reflexivity].
  f_equal. unfold refund, set_intr.
  assert (on_state (fun s => set_free_bytes
                      (to_long (free_bytes s + to_size_t (len - reserved (pkt w0)))) s) w0
          = w) as ->; [| reflexivity].
  change (reserved (pkt w0)) with (reserved (pkt w)). fold d. subst w0.
  rewrite on_state_on_state.
  destruct w as [[s a t i] p sig]. unfold on_state, wstate in *. cbn [buf state] in *.
  unfold set_state. cbn [buffer stats shmid state]. f_equal. f_equal.
  destruct s. unfold set_free_bytes. cbn in *. f_equal. wrap_lia.
Qed.

Lemma ps_packet_reserve_waits_witness :
  free_bytes (wstate demo_open) = 48 /\ read_packets (wstate demo_open) = 0 /\
  ps_packet_reserve 1 demo_open 49
  = Blocks (set_intr 0 (on_state (set_free_bytes (- 1)) demo_open)) /\
  ps_packet_reserve 1 (set_intr 6 demo_open) 49 = Returns EINVAL demo_open.
Proof.
  split; [reflexivity |]. split; [reflexivity |]. split.
  - rewrite (ps_packet_reserve_waits 1 demo_open 49);
      [reflexivity | reflexivity | vm_compute; reflexivity
      | vm_compute; split; [discriminate | reflexivity]
      | vm_compute; reflexivity | vm_compute; discriminate | lia].
  - rewrite (ps_packet_reserve_waits 1 (set_intr 6 demo_open) 49);
      [reflexivity | reflexivity | vm_compute; reflexivity
      | vm_compute; split; [discriminate | reflexivity]
      | vm_compute; reflexivity | vm_compute; discriminate | lia].
Defined.

(** ** The end of the arena *)

Lemma mod_once x b :
  0 <= x < 2 * b -> x mod b = if x <? b then x else x - b.
Proof.
  intros H. destruct (x <? b) eqn:E.
  - apply Z.ltb_lt in E. apply Z.mod_small. lia.
  - apply Z.ltb_ge in E. symmetry. apply (Z.mod_unique x b 1); lia.
Qed.

(** The advance written out in [ps_packet_setsize] is the rule of the
    specification, and its padding is what [ps_packet_reserve] gives back
    for the packet. *)
Lemma setsize_advance_parts p bsize n :
  0 <= p -> 0 <= n -> p + HDR + n < 2 ^ 64 -> 0 < bsize <= 2 ^ 31 ->
  setsize_advance p bsize n
  = (advance p bsize n,
     if (p + HDR + n) mod bsize + HDR >? bsize then bsize - (p + HDR + n) mod bsize else 0).
Proof.
  intros Hp Hn Hsum Hb. unfold setsize_advance, advance, HDR in *. cbv zeta.
  rewrite (to_size_t_small (16 + p + n)) by lia.
  replace (16 + p + n) with (p + 16 + n) by lia.
  pose proof (Z.mod_pos_bound (p + 16 + n) bsize ltac:(lia)) as Hq.
  rewrite (to_size_t_small ((p + 16 + n) mod bsize + 16)) by lia.
  destruct (_ >? _); [| reflexivity].
  rewrite to_size_t_small by lia. reflexivity.
Qed.

(** X24: setting the size of a packet at the end of the arena.  On a
    packet just opened for writing at [h], in a buffer whose [free_bytes]
    is at most the arena less one header, [ps_packet_setsize] of [n] bytes
    returns 0 without waiting when the packet, the header behind it and the
    padding are free, where the padding is what is left of the arena when
    less than a header is left behind the packet.  It charges exactly these
    bytes, puts [write_next] where [move_pos] puts the reader, within the
    arena, clears the header there and leaves the header of the packet
    itself intact with size [n] and its flags.  The reclaiming step of
    [ps_packet_reserve] on that packet moves [read_first] to the same
    place and gives back exactly the bytes charged. *)
Theorem ps_packet_setsize_at_end fuel w h n :
  let bsize := st_size (wstate w) in
  let q := (h + HDR + n) mod bsize in
  let pad := if q + HDR >? bsize then bsize - q else 0 in
  (0 < fuel)%nat ->
  ps_packet_check w = 0 -> pk_flags (pkt w) = PS_PACKET_WRITE ->
  header (pkt w) = Some h -> write_next (wstate w) = h -> reserved (pkt w) = 0 ->
  0 <= h -> h + HDR <= bsize -> 0 <= n -> n + 2 * HDR <= bsize ->
  Z.of_nat (length (warena w)) = bsize -> bsize <= 2 ^ 31 ->
  free_bytes (wstate w) <= bsize - HDR ->
  n + HDR + pad <= free_bytes (wstate w) ->
  exists w',
    ps_packet_setsize fuel w n = Returns 0 w' /\
    write_next (wstate w') = move_pos h bsize n /\
    0 <= write_next (wstate w') /\ write_next (wstate w') + HDR <= bsize /\
    free_bytes (wstate w') = free_bytes (wstate w) - (n + HDR + pad) /\
    header_size (warena w') h = n /\
    header_flags (warena w') h = header_flags (warena w) h /\
    header_flags (warena w') (write_next (wstate w')) = 0 /\
    header_size (warena w') (write_next (wstate w')) = 0 /\
    (forall a s,
       header_size a h = n -> st_size s = bsize -> read_first s = h ->
       0 <= free_bytes s -> free_bytes s + (n + HDR + pad) < 2 ^ 63 ->
       read_first (reclaim_first a s) = write_next (wstate w') /\
       free_bytes (reclaim_first a s) = free_bytes s + (n + HDR + pad)).
Proof.
  intros bsize q pad Hfuel Hc Hfl Hh Hwn Hres Hh0 Hh1 Hn Hfit Hlen Hmax Hinv Hfree.
  destruct fuel as [| fuel]; [lia |].
  assert (q = if h + HDR + n <? bsize then h + HDR + n else h + HDR + n - bsize) as Eq
    by (apply mod_once; unfold HDR in *; lia).
  pose proof (ps_packet_setsize_fast fuel w h n) as K. cbv zeta in K.
  rewrite Hwn, Hres in K. fold bsize in K.
  rewrite setsize_advance_parts in K by (unfold HDR in *; lia).
  cbn [fst snd] in K. fold q in K. fold pad in K.
  assert (advance h bsize n = if q + HDR >? bsize then 0 else q) as Eadv by reflexivity.
  assert (move_pos h bsize n = advance h bsize n) as Emv
    by (apply move_pos_advance; unfold HDR in *; lia).
  remember (advance h bsize n) as wn eqn:Ewn.
  (* where the next header lies *)
  assert (0 <= pad < HDR /\ 0 <= wn /\ wn + HDR <= bsize /\
          (wn + HDR <= h \/ h + HDR <= wn)) as (Hpad & Hw0 & Hw1 & Hoff).
  { subst pad. rewrite Eadv. unfold HDR in *.
    destruct (h + 16 + n <? bsize) eqn:E1;
      [apply Z.ltb_lt in E1 | apply Z.ltb_ge in E1];
      (destruct (q + 16 >? bsize) eqn:E2;
       [apply Z.gtb_lt in E2 | rewrite Z.gtb_ltb in E2; apply Z.ltb_ge in E2]);
      rewrite ?E2 in Hfree; lia. }
  destruct K as (w' & Hret & Hs & Ha & _); try assumption; try (unfold HDR in *; lia).
  exists w'. split; [exact Hret |].
  assert (write_next (wstate w') = wn) as Hwn' by (rewrite Hs; reflexivity).
  rewrite Hwn', Emv.
  split; [reflexivity |]. split; [exact Hw0 |]. split; [exact Hw1 |].
  split; [rewrite Hs; cbn; lia |].
  assert (Z.of_nat (length (set_header_size (warena w) h n)) = bsize) as Hlen2
    by (rewrite length_set_header_size; exact Hlen).
  unfold HDR in *. change (Z.to_nat 16) with 16%nat in Ha.
  split.
  { rewrite Ha. unfold memset0. rewrite header_size_store_other
      by (try rewrite length_replicate; lia).
    rewrite header_size_set_size by lia. apply Z.mod_small. lia. }
  split.
  { rewrite Ha. unfold memset0. rewrite header_flags_store_other
      by (try rewrite length_replicate; lia).
    apply header_flags_set_size; lia. }
  assert (header_flags (warena w') wn = 0 /\ header_size (warena w') wn = 0) as [G1 G2].
  { rewrite Ha. apply (header_memset0 _ wn); lia. }
  split; [exact G1 |]. split; [exact G2 |].
  intros a s Hhs Hsz Hrf Hfs Hsum.
  destruct (reclaim_first_advance a s) as [R1 R2]; rewrite ?Hrf, ?Hhs, ?Hsz; try (unfold HDR; lia).
  rewrite Hrf, Hhs, Hsz in R1, R2. fold bsize in R1, R2.
  split; [rewrite R1; symmetry; exact Ewn |].
  rewrite R2. unfold HDR. fold q. fold pad.
  rewrite to_long_small by lia. lia.
Qed.

Lemma ps_packet_setsize_at_end_witness :
  free_bytes (wstate demo_lap) = 112 /\ write_next (wstate demo_lap) = 24 /\
  exists w',
    ps_packet_setsize 1 demo_lap 80 = Returns 0 w' /\
    write_next (wstate w') = 0 /\ free_bytes (wstate w') = 8 /\
    header_size (warena w') 24 = 80.
Proof.
  split; [reflexivity |]. split; [reflexivity |].
  destruct (ps_packet_setsize_at_end 1 demo_lap 24 80) as (w' & H1 & H2 & _ & _ & H5 & H6 & _);
    try reflexivity; try lia; try (apply Z.leb_le; reflexivity).
  exists w'. split; [exact H1 |]. split; [rewrite H2; reflexivity |].
  split; [rewrite H5; reflexivity | exact H6].
Defined.
